(** * Op-plan reconciliation: a shallow embedding of the FTE / MS pipeline

    The Python program reconciles two monthly roster snapshots against an
    operational plan held in a pandas DataFrame.  This development embeds
    the pure core of that program:

    - a DataFrame is the list of its rows, in order; a row label is the
      position of the row (labels are unique and [reset_index] keeps the
      order, so positions and labels are interchangeable);
    - a row ([pd.Series]) is a total map from column labels to cells; a
      column that a row does not carry reads as the missing value, which is
      what [pd.concat] produces for it;
    - a cell is a dynamically typed Python value;
    - columns are object-typed: a value stored in a cell is read back as
      it was stored.

    A row of a merged frame ([pd.merge ... suffixes=('_current','_next')])
    is kept as the pair of the two roster rows it was built from:
    [row['X_current']] is the column [X] of the first component and
    [row['X_next']] that of the second.

    The rosters carry the columns that [load_data] leaves them with: the
    columns of [CONFIG['sheets'][...]['usecols']], renamed by the mapping
    of the sheet.  The detectors of the FTE sheet read columns of these
    frames only.  Those of the MS sheet also name columns that the
    rosters do not have: there a read goes through [getitem], which raises
    as [row[col]] does for a label that the row lacks. *)

From Stdlib Require Import ZArith QArith Lia String Ascii Bool DecimalString.
From stdpp Require Import base list.

Local Open Scope string_scope.
Local Open Scope list_scope.
Local Open Scope Z_scope.

(** ** Dates *)

Record date := mk_date { year : Z; month : Z; day : Z }.

Definition date_eqb (a b : date) : bool :=
  (year a =? year b) && (month a =? month b) && (day a =? day b).

(** [a < b] on [datetime.date]. *)
Definition date_ltb (a b : date) : bool :=
  (year a <? year b)
  || ((year a =? year b)
      && ((month a <? month b)
          || ((month a =? month b) && (day a <? day b)))).

(** ** Cells *)

Inductive cell : Type :=
| NaN                              (* float('nan'), None, pd.NaT *)
| Str (s : string)
| Num (q : Q)                      (* int and float *)
| Boolean (b : bool)
| Date (d : date)                  (* datetime.date *)
| Datetime (d : date) (t : Z).     (* datetime.datetime, pd.Timestamp; [t] is the time of day *)

Definition isna (c : cell) : bool :=
  match c with NaN => true | _ => false end.

Definition notna (c : cell) : bool := negb (isna c).

(** Python's [==] between two scalars, as pandas applies it elementwise:
    a missing value is equal to nothing, [True == 1], a [date] is never
    equal to a [datetime]. *)
Definition cell_eqb (a b : cell) : bool :=
  match a, b with
  | Str s, Str s' => String.eqb s s'
  | Num q, Num q' => Qeq_bool q q'
  | Num q, Boolean b' => Qeq_bool q (inject_Z (Z.b2z b'))
  | Boolean b, Num q' => Qeq_bool (inject_Z (Z.b2z b)) q'
  | Boolean b, Boolean b' => Bool.eqb b b'
  | Date d, Date d' => date_eqb d d'
  | Datetime d t, Datetime d' t' => date_eqb d d' && (t =? t')
  | _, _ => false
  end.

(** pandas' [!=] is the elementwise negation: [NaN != x] holds. *)
Definition cell_neb (a b : cell) : bool := negb (cell_eqb a b).

(** Equality of join keys ([pd.merge], [Series.isin]): as [==], except that
    missing keys match each other. *)
Definition key_eqb (a b : cell) : bool :=
  cell_eqb a b || (isna a && isna b).

Definition isin (c : cell) (l : list cell) : bool :=
  existsb (key_eqb c) l.

(** ** Strings *)

(** [sub in s], which is also [Series.str.contains(sub)] for a pattern
    without regular-expression metacharacters. *)
Fixpoint str_contains (sub s : string) : bool :=
  String.prefix sub s
  || match s with
     | EmptyString => false
     | String _ s' => str_contains sub s'
     end.

(** [df[col].str.contains(sub, na=False)]: not a string gives [False]. *)
Definition cell_contains (sub : string) (c : cell) : bool :=
  match c with
  | Str s => str_contains sub s
  | _ => false
  end.

(** ** Rows and frames *)

Abbreviation Series := (string -> cell).

Abbreviation DataFrame := (list Series).

(** [row[col] = v] *)
Definition set (col : string) (v : cell) (r : Series) : Series :=
  fun c => if String.eqb col c then v else r c.

(** [df.at[i, col] = v], for a label [i] of the frame. *)
Definition at_set (i : nat) (col : string) (v : cell) (df : DataFrame) : DataFrame :=
  alter (set col v) i df.

(** [df[col] = v]: the whole column. *)
Definition set_column (col : string) (v : cell) (df : DataFrame) : DataFrame :=
  set col v <$> df.

(** [df[mask].index]: the labels of the rows that satisfy [p], in order. *)
Fixpoint index_from (p : Series -> bool) (i : nat) (df : DataFrame) : list nat :=
  match df with
  | [] => []
  | r :: df' =>
      if p r then i :: index_from p (S i) df' else index_from p (S i) df'
  end.

Definition index_where (p : Series -> bool) (df : DataFrame) : list nat :=
  index_from p 0 df.

(** ** modules/employee_filtering_conditions.py *)

Definition employee_filtering_condition_fte_mask (employee_id : cell) (r : Series) : bool :=
  cell_neb (r "Resource Type") (Str "Stretch")
  && negb (cell_contains "Vacant" (r "FTE Name"))
  && cell_eqb (r "Employee ID") employee_id
  && notna (r "Employee ID")
  && notna (r "LANID")
  && cell_neb (r "Role Status") (Str "Missing from Op FTE")
  && cell_neb (r "Fulfilled") (Str "Yes")
  && cell_neb (r "Skip") (Str "Past").

Definition employee_filtering_condition_fte (df : DataFrame) (employee_id : cell) : list nat :=
  index_where (employee_filtering_condition_fte_mask employee_id) df.

Definition shorten_filtering_condition_fte_mask (employee_id : cell) (r : Series) : bool :=
  cell_neb (r "Resource Type") (Str "Stretch")
  && negb (cell_contains "Vacant" (r "FTE Name"))
  && cell_eqb (r "Employee ID") employee_id
  && notna (r "Employee ID")
  && notna (r "LANID")
  && cell_neb (r "Role Status") (Str "Missing from Op FTE").

Definition shorten_filtering_condition_fte (df : DataFrame) (employee_id : cell) : list nat :=
  index_where (shorten_filtering_condition_fte_mask employee_id) df.

Definition employee_filtering_condition_ms_mask (employee_id : cell) (r : Series) : bool :=
  cell_eqb (r "Employee ID") employee_id
  && notna (r "Employee ID")
  && notna (r "LANID")
  && cell_neb (r "Fulfilled") (Str "Yes")
  && cell_neb (r "Role Status") (Str "Missing from Op MS")
  && cell_neb (r "Skip") (Str "Past").

Definition employee_filtering_condition_ms (df : DataFrame) (employee_id : cell) : list nat :=
  index_where (employee_filtering_condition_ms_mask employee_id) df.

Definition shorten_filtering_condition_ms_mask (employee_id : cell) (r : Series) : bool :=
  cell_neb (r "Resource Type") (Str "Stretch")
  && negb (cell_contains "Vacant" (r "Resource Name"))
  && cell_eqb (r "Employee ID") employee_id
  && notna (r "Employee ID")
  && notna (r "LANID")
  && cell_neb (r "Role Status") (Str "Missing from Op MS").

Definition shorten_filtering_condition_ms (df : DataFrame) (employee_id : cell) : list nat :=
  index_where (shorten_filtering_condition_ms_mask employee_id) df.

Definition employee_security_mask (domain fte_category : string) (r : Series) : bool :=
  cell_eqb (r "Domain") (Str domain) && cell_eqb (r "FTE Category") (Str fte_category).

Definition employee_security_fte (df : DataFrame) : DataFrame :=
  List.filter (employee_security_mask "Security" "FTE") df.

Definition employee_security_ms (df : DataFrame) : DataFrame :=
  List.filter (employee_security_mask "Security" "Non-FTE") df.

(** ** modules/eofy.py *)

(** [get_eofy()], with [datetime.now().date()] made a parameter. *)
Definition get_eofy (today : date) : date :=
  let current_year := year today in
  if 9 <? month today
  then mk_date (current_year + 1) 9 1
  else mk_date current_year 9 1.

(** ** Python's [datetime.strptime] and [strftime] for the two formats used *)

Definition ascii_lower (c : ascii) : ascii :=
  let n := nat_of_ascii c in
  if ((65 <=? n) && (n <=? 90))%nat then ascii_of_nat (n + 32) else c.

Fixpoint str_lower (s : string) : string :=
  match s with
  | EmptyString => EmptyString
  | String c s' => String (ascii_lower c) (str_lower s')
  end.

Definition digit_of_ascii (c : ascii) : option Z :=
  let n := nat_of_ascii c in
  if ((48 <=? n) && (n <=? 57))%nat then Some (Z.of_nat (n - 48)) else None.

Definition a_month : list string :=
  ["jan"; "feb"; "mar"; "apr"; "may"; "jun";
   "jul"; "aug"; "sep"; "oct"; "nov"; "dec"].

Definition A_month : list string :=
  ["Jan"; "Feb"; "Mar"; "Apr"; "May"; "Jun";
   "Jul"; "Aug"; "Sep"; "Oct"; "Nov"; "Dec"].

Fixpoint month_index (abbr : string) (l : list string) (m : Z) : option Z :=
  match l with
  | [] => None
  | x :: l' => if String.eqb abbr x then Some m else month_index abbr l' (m + 1)
  end.

(** [%y]: two digits; 69..99 are 1969..1999 and 00..68 are 2000..2068. *)
Definition two_digit_year (d1 d2 : Z) : Z :=
  let y := 10 * d1 + d2 in
  if y <=? 68 then y + 2000 else y + 1900.

(** [datetime.strptime(s, '%b-%y').date()]; [None] is [ValueError].  The
    month abbreviation is matched without regard to case and the whole
    string has to be consumed; the day defaults to 1. *)
Definition strptime_b_y (s : string) : option date :=
  match s with
  | String a (String b (String c (String sep (String y1 (String y2 EmptyString))))) =>
      if Ascii.eqb sep "-"%char then
        match month_index (str_lower (String a (String b (String c EmptyString)))) a_month 1,
              digit_of_ascii y1, digit_of_ascii y2 with
        | Some m, Some d1, Some d2 => Some (mk_date (two_digit_year d1 d2) m 1)
        | _, _, _ => None
        end
      else None
  | _ => None
  end.

Definition ascii_of_digit (d : Z) : ascii := ascii_of_nat (48 + Z.to_nat d).

(** [d.strftime('%b-%y')] *)
Definition strftime_b_y (d : date) : string :=
  (nth (Z.to_nat (month d - 1)) A_month ""
   ++ "-"
   ++ String (ascii_of_digit ((year d mod 100) / 10))
        (String (ascii_of_digit (year d mod 10)) EmptyString))%string.

Definition is_leap (y : Z) : bool :=
  ((y mod 4 =? 0) && negb (y mod 100 =? 0)) || (y mod 400 =? 0).

Definition days_in_month (y m : Z) : Z :=
  if m =? 2 then (if is_leap y then 29 else 28)
  else if (m =? 4) || (m =? 6) || (m =? 9) || (m =? 11) then 30
  else 31.

(** [datetime.strptime(s, '%y%m%d')] on a string of six digits: the month
    and the day take two digits each, or the string is not consumed. *)
Definition strptime_ymd (s : string) : option date :=
  match s with
  | String y1 (String y2 (String m1 (String m2 (String d1 (String d2 EmptyString))))) =>
      match digit_of_ascii y1, digit_of_ascii y2, digit_of_ascii m1,
            digit_of_ascii m2, digit_of_ascii d1, digit_of_ascii d2 with
      | Some a, Some b, Some c, Some d, Some e, Some f =>
          let y := two_digit_year a b in
          let m := 10 * c + d in
          let dd := 10 * e + f in
          if (1 <=? m) && (m <=? 12) && (1 <=? dd) && (dd <=? days_in_month y m)
          then Some (mk_date y m dd) else None
      | _, _, _, _, _, _ => None
      end
  | _ => None
  end.

Definition is_digit (c : ascii) : bool :=
  match digit_of_ascii c with Some _ => true | None => false end.

Fixpoint all_digits (s : string) : bool :=
  match s with
  | EmptyString => true
  | String c s' => is_digit c && all_digits s'
  end.

(** [re.search(r'\d{6}', filename)]: the leftmost run of six digits. *)
Fixpoint search_six_digits (filename : string) : option string :=
  let head := String.substring 0 6 filename in
  if ((String.length head =? 6)%nat && all_digits head) then Some head
  else match filename with
       | EmptyString => None
       | String _ rest => search_six_digits rest
       end.

(** ** Results of calls that may raise *)

Inductive result (A : Type) : Type :=
| Ok (a : A)
| Raise.

Arguments Ok {A} a.
Arguments Raise {A}.

(** ** modules/date_extraction.py *)

(** The day before the first of the month of [d]. *)
Definition last_day_of_previous_month (d : date) : date :=
  if month d =? 1
  then mk_date (year d - 1) 12 31
  else mk_date (year d) (month d - 1) (days_in_month (year d) (month d - 1)).

(** Returns [None] when the name holds no date and raises when the six
    digits are not a date. *)
Definition extract_date_from_filename (filename : string) : result (option (string * string)) :=
  match search_six_digits filename with
  | None => Ok None
  | Some date_str =>
      match strptime_ymd date_str with
      | None => Raise
      | Some date_obj =>
          let first_day_of_static_month := mk_date (year date_obj) (month date_obj) 1 in
          let last_day_of_op_month := last_day_of_previous_month first_day_of_static_month in
          Ok (Some (strftime_b_y last_day_of_op_month, strftime_b_y first_day_of_static_month))
      end
  end.

(** ** modules/skip_column.py *)

(** [int(x)] for a number: truncation towards zero. *)
Definition py_int (q : Q) : Z := Z.quot (Qnum q) (Zpos (Qden q)).

(** [str(n)] for an [int]. *)
Definition str_of_int (n : Z) : string :=
  DecimalString.NilZero.string_of_int (Z.to_int n).

(** [isinstance(c, (float, int))]: [bool] is a subclass of [int] and the
    missing value is a [float]. *)
Definition is_float_or_int (c : cell) : bool :=
  match c with
  | NaN | Num _ | Boolean _ => true
  | _ => false
  end.

Definition int_of_cell (c : cell) : Z :=
  match c with
  | Num q => py_int q
  | Boolean b => Z.b2z b
  | _ => 0
  end.

(** The body of the loop up to the comparison: [None] stands for the
    two [continue] statements (a [ValueError] of [strptime], and an end
    date that is [None] or missing). *)
Definition parse_end_date (end_date_str : cell) : option date :=
  let end_date_str :=
    if notna end_date_str && is_float_or_int end_date_str
    then Str (str_of_int (int_of_cell end_date_str))
    else end_date_str in
  match end_date_str with
  | Datetime d _ => Some d
  | Str s => strptime_b_y s
  | _ => None
  end.

(** [df.iterrows()]: the labels with the rows as they are when the
    iteration starts. *)
Definition iterrows (df : DataFrame) : list (nat * Series) :=
  combine (seq 0 (length df)) df.

(** The test that decides the tag of a row. *)
Definition end_date_is_past (static_report_date : date) (end_date : cell) : bool :=
  match parse_end_date end_date with
  | Some d => date_ltb d static_report_date
  | None => false
  end.

Definition initiate_skip_column (static_file : string) (op_df : DataFrame) : result DataFrame :=
  match extract_date_from_filename static_file with
  | Raise => Raise
  | Ok None => Raise                      (* unpacking [None] *)
  | Ok (Some (_, static_report_date_str)) =>
      match strptime_b_y static_report_date_str with
      | None => Raise
      | Some static_report_date =>
          let op_df := set_column "Skip" (Str "") op_df in
          Ok (fold_left
                (fun op_df '(index, row) =>
                   match parse_end_date (row "End Date") with
                   | None => op_df
                   | Some end_date =>
                       if date_ltb end_date static_report_date
                       then at_set index "Skip" (Str "Past") op_df
                       else op_df
                   end)
                (iterrows op_df) op_df)
      end
  end.

(** The FTE and the MS function have the same body; [CONFIG['STATIC_FILE']]
    is the first argument. *)
Definition initiate_skip_column_fte := initiate_skip_column.
Definition initiate_skip_column_ms := initiate_skip_column.

(** ** modules/check_mark_fulfilled.py *)

Definition skip_statuses_fte : list cell :=
  [Str "New Hire"; Str "Transfer In"; Str "Conversion"; Str "Internal Mobility";
   Str "Location Change"; Str "Missing from Op FTE"].

Definition skip_statuses_ms : list cell :=
  [Str "New Hire"; Str "Transfer In"; Str "Conversion"; Str "Internal Mobility";
   Str "Location Change"; Str "Missing from Op MS"].

Definition columns_to_check_fte : list string :=
  ["Employee ID"; "Tech Area"; "Domain"; "Resource Type"; "Job Grade"].

Definition columns_to_check_ms : list string :=
  ["Tech Area"; "Domain"; "FTE Category"; "Resource Type"].

(** [a >= b] on two timestamps. *)
Definition datetime_geb (a b : date * Z) : bool :=
  negb (date_ltb (fst a) (fst b))
  && (date_ltb (fst b) (fst a) || (snd b <=? snd a)).

Definition timestamp_of (c : cell) : option (date * Z) :=
  match c with
  | Datetime d t => Some (d, t)
  | _ => None
  end.

(** [a] sorts before [b] under [sort_values]: missing values go last. *)
Definition start_leb (a b : cell) : bool :=
  match timestamp_of a, timestamp_of b with
  | Some x, Some y => datetime_geb y x
  | Some _, None => true
  | None, Some _ => false
  | None, None => true
  end.

Fixpoint insert_sorted (r : Series) (l : list Series) : list Series :=
  match l with
  | [] => [r]
  | x :: l' =>
      if start_leb (x "Start Date") (r "Start Date")
      then x :: insert_sorted r l'
      else r :: x :: l'
  end.

(** [group.sort_values(by='Start Date')], as a stable sort. *)
Definition sort_values_start_date (l : list Series) : list Series :=
  fold_left (fun acc r => insert_sorted r acc) l [].

(** The [for i in range(len(sorted_group) - 1)] loop: [true] when no pair
    of neighbours clears the flag. *)
Fixpoint non_overlapping (sorted_group : list Series) : bool :=
  match sorted_group with
  | r :: ((r' :: _) as rest) =>
      match timestamp_of (r "End Date"), timestamp_of (r' "Start Date") with
      | Some e, Some s => if datetime_geb e s then false else non_overlapping rest
      | _, _ => false
      end
  | _ => true
  end.

(** [df.loc[index, col] = v] *)
Definition loc_set (index : list nat) (col : string) (v : cell) (df : DataFrame) : DataFrame :=
  fold_left (fun df i => at_set i col v df) index df.

(** The keys of [df.groupby('Employee ID')]: the distinct values of the
    column, without the missing ones.  The groups are disjoint, so the
    order in which they are visited changes nothing. *)
Fixpoint group_keys (ids : list cell) (seen : list cell) : list cell :=
  match ids with
  | [] => []
  | k :: ids' =>
      if isna k || isin k seen then group_keys ids' seen
      else k :: group_keys ids' (k :: seen)
  end.

Definition values_equal (columns : list string) (a b : Series) : bool :=
  forallb (fun c => cell_eqb (a c) (b c)) columns.

Section Fulfilled.

(** [pd.to_datetime(_, errors='coerce')] on one value: a timestamp, or
    nothing for [NaT]. *)
Variable to_datetime : cell -> option (date * Z).

Definition coerce_datetime (c : cell) : cell :=
  match to_datetime c with
  | Some (d, t) => Datetime d t
  | None => NaN
  end.

Definition check_and_mark_fulfilled
    (skip_statuses : list cell) (columns_to_check : list string)
    (current_df next_df op_df : DataFrame) : DataFrame :=
  let op_df := (fun r => set "Start Date" (coerce_datetime (r "Start Date")) r) <$> op_df in
  let op_df := (fun r => set "End Date" (coerce_datetime (r "End Date")) r) <$> op_df in
  let op_df := set_column "Fulfilled" (Str "") op_df in
  let grouped := op_df in
  fold_left
    (fun op_df employee_id =>
       let index := index_where (fun r => key_eqb (r "Employee ID") employee_id) grouped in
       let employee := List.filter (fun r => key_eqb (r "Employee ID") employee_id) grouped in
       if existsb (fun r => isin (r "Role Status") skip_statuses) employee
       then op_df
       else
         let op_df :=
           if (1 <? length employee)%nat
           then if non_overlapping (sort_values_start_date employee)
                then loc_set index "Fulfilled" (Str "Yes") op_df
                else op_df
           else op_df in
         let current_info := List.filter (fun r => cell_eqb (r "Employee ID") employee_id) current_df in
         let next_info := List.filter (fun r => cell_eqb (r "Employee ID") employee_id) next_df in
         match current_info, next_info with
         | current_values :: _, next_values :: _ =>
             if values_equal columns_to_check current_values next_values
             then loc_set index "Fulfilled" (Str "Yes") op_df
             else op_df
         | _, _ => op_df
         end)
    (group_keys ((fun r => r "Employee ID") <$> grouped) [])
    op_df.

Definition check_and_mark_fulfilled_fte :=
  check_and_mark_fulfilled skip_statuses_fte columns_to_check_fte.

Definition check_and_mark_fulfilled_ms :=
  check_and_mark_fulfilled skip_statuses_ms columns_to_check_ms.

End Fulfilled.

(** ** modules/formatting.py *)

(** [\s] on ASCII text. *)
Definition is_space (c : ascii) : bool :=
  let n := nat_of_ascii c in
  ((9 <=? n) && (n <=? 13) || (28 <=? n) && (n <=? 32))%nat.

Definition is_one_of (chars : string) (c : ascii) : bool :=
  existsb (Ascii.eqb c) (list_ascii_of_string chars).

(** [re.sub(r'[...]+', '_', s)]: every maximal run of characters of the
    class becomes one underscore. *)
Fixpoint sub_runs (cls : ascii -> bool) (in_run : bool) (s : string) : string :=
  match s with
  | EmptyString => EmptyString
  | String c s' =>
      if cls c
      then if in_run then sub_runs cls true s'
           else String "_"%char (sub_runs cls true s')
      else String c (sub_runs cls false s')
  end.

Fixpoint lstrip_underscore (s : string) : string :=
  match s with
  | String c s' => if Ascii.eqb c "_"%char then lstrip_underscore s' else s
  | EmptyString => EmptyString
  end.

Fixpoint rstrip_underscore (s : string) : string :=
  match s with
  | EmptyString => EmptyString
  | String c s' =>
      let t := rstrip_underscore s' in
      if Ascii.eqb c "_"%char && String.eqb t EmptyString then EmptyString else String c t
  end.

(** [s.strip('_')] *)
Definition strip_underscore (s : string) : string :=
  rstrip_underscore (lstrip_underscore s).

Definition endswith (suffix s : string) : bool :=
  let n := String.length s in
  let k := String.length suffix in
  (k <=? n)%nat && String.eqb (String.substring (n - k) k s) suffix.

Definition tech_area_class (c : ascii) : bool := is_space c || is_one_of ",+-()" c.

Definition domain_class (c : ascii) : bool := is_space c || is_one_of ",-" c.

Definition format_tech_area (name : cell) : cell :=
  match name with
  | Str name =>
      let name := strip_underscore (sub_runs tech_area_class false name) in
      let name := if String.prefix "Security_" name then name else ("Security_" ++ name)%string in
      Str (strip_underscore (sub_runs tech_area_class false name))
  | _ => name
  end.

Definition format_domain (name : cell) : cell :=
  match name with
  | Str name =>
      let name := if endswith "Domain" name then name else (name ++ "_Domain")%string in
      Str (strip_underscore (sub_runs domain_class false name))
  | _ => name
  end.

(** [hub_mapping.get(country, country)] *)
Definition map_to_hub_FTE (country : cell) : cell :=
  match country with
  | Str "India" => Str "India Hub"
  | Str "Philippines" => Str "Manila Hub"
  | Str "Australia" => Str "Australia"
  | _ => country
  end.

(** ** config/config_GUI.py *)

Definition newline : string := String (ascii_of_nat 10) EmptyString.

Definition Input_Annualised_Stretch : string :=
  ("Input Annualised Stretch $ " ++ newline ++ "(if applicable)")%string.

Definition FTE_based_Country : string :=
  ("FTE based Country" ++ newline ++ "(drives FTE rates calc)")%string.

Definition OP_FTE_COLUMNS : list string :=
  [ "Resource Type"; Input_Annualised_Stretch; "Employee ID"; "FTE Name"; "LANID";
    "Role Type"; "Job Grade"; FTE_based_Country; "Domain"; "Tech Area";
    "Planning Unit Country"; "Squad"; "Service"; "Asset"; "Product";
    "Tech Financial Reform"; "FTET approval Ref"; "FTE #"; "Headcount";
    "Start Date"; "End Date"; "Comments"; "Free Input"; "Run %";
    "Divisional Change %"; "Tech Projects %"; "Total %"; "Role Status"; "Modified" ].

Definition COLUMN_MAPPING_FTE : list (string * string) :=
  [ ("Employee ID", "Employee ID");
    ("Employee Group (Name)", "Resource Type");
    ("Username", "LANID");
    ("Position Title", "Role Type");
    ("(Pay Grade) Pay Group Level2", "Job Grade");
    ("ORG_HIER2_NAME", "Domain");
    ("ORG_HIER3_NAME", "Tech Area");
    ("FTE", "FTE #");
    ("Country (Label)", "Planning Unit Country") ].

Definition COLUMN_VALUES_FTE : list (string * cell) :=
  [ ("Squad", Str "-"); ("Service", Str "-"); ("Asset", Str "-"); ("Product", Str "-");
    ("Tech Financial Reform", Str "Select Dropdown");
    ("FTET approval Ref", Str "-");
    ("Headcount", Num (inject_Z 1));
    ("Comments", Str "-"); ("Free Input", Str "-"); ("Run %", Str "-");
    ("Divisional Change %", Str "-"); ("Tech Projects %", Str "-"); ("Total %", Str "-") ].

(** [CONFIG['sheets'][...]['usecols']], the columns read from a roster
    sheet. *)
Definition usecols : list string :=
  [ "Employee ID"; "Legal First Name"; "Legal Surname"; "Employee Group (Name)";
    "Supervisor Employee ID"; "Supervisor Legal First Name"; "Supervisor Legal Surname";
    "Position Title"; "(Pay Grade) Pay Group Level2"; "FTE"; "FTE Category";
    "Username"; "Country (Label)"; "ORG_HIER2_NAME"; "ORG_HIER3_NAME" ].

Fixpoint assoc {A : Type} (k : string) (l : list (string * A)) : option A :=
  match l with
  | [] => None
  | (k', v) :: l' => if String.eqb k k' then Some v else assoc k l'
  end.

(** [df.rename(columns=mapping)] on the column labels. *)
Definition rename_columns (mapping : list (string * string)) (columns : list string) : list string :=
  (fun c => match assoc c mapping with Some c' => c' | None => c end) <$> columns.

(** The columns of [current_df] and [next_df] once [load_data] has renamed
    them. *)
Definition static_columns : list string := rename_columns COLUMN_MAPPING_FTE usecols.

Definition mem_string (c : string) (l : list string) : bool := existsb (String.eqb c) l.

(** [pd.Series(values, index=columns)]: a column without a value holds the
    missing value. *)
Definition series_of_dict (values : list (string * cell)) (columns : list string) : Series :=
  fun c =>
    if mem_string c columns
    then match assoc c values with Some v => v | None => NaN end
    else NaN.

(** ** Merged frames *)

(** A row of [pd.merge(left, right, on='Employee ID',
    suffixes=('_current', '_next'))]: the two rows that were joined, one of
    which is absent in an outer or left join. *)
Record merged := mk_merged { left_row : option Series; right_row : option Series }.

Definition other_columns : list string :=
  List.filter (fun c => negb (String.eqb c "Employee ID")) static_columns.

Definition opt_get (o : option Series) (col : string) : cell :=
  match o with Some r => r col | None => NaN end.

(** [row[col]] for a row of a merged frame; the column [_merge] is the
    indicator. *)
Definition mget (m : merged) : Series :=
  fun col =>
    if String.eqb col "Employee ID"
    then match left_row m with
         | Some r => r "Employee ID"
         | None => opt_get (right_row m) "Employee ID"
         end
    else if String.eqb col "_merge"
    then match left_row m, right_row m with
         | Some _, Some _ => Str "both"
         | Some _, None => Str "left_only"
         | None, _ => Str "right_only"
         end
    else
      match List.find (fun c => String.eqb col (c ++ "_current")%string) other_columns with
      | Some c => opt_get (left_row m) c
      | None =>
          match List.find (fun c => String.eqb col (c ++ "_next")%string) other_columns with
          | Some c => opt_get (right_row m) c
          | None => NaN
          end
      end.

(** [col in row] for a row of a merged frame. *)
Definition in_merged (col : string) : bool :=
  String.eqb col "Employee ID"
  || mem_string col ((fun c => (c ++ "_current")%string) <$> other_columns)
  || mem_string col ((fun c => (c ++ "_next")%string) <$> other_columns).

Definition employee_ids (df : DataFrame) : list cell := (fun r => r "Employee ID") <$> df.

Definition matching (key : cell) (df : DataFrame) : DataFrame :=
  List.filter (fun r => key_eqb (r "Employee ID") key) df.

(** [how='inner'] (the default): the order of the left keys is kept. *)
Definition merge_inner (left right : DataFrame) : list merged :=
  flat_map (fun l => (fun r => mk_merged (Some l) (Some r)) <$> matching (l "Employee ID") right) left.

(** [how='left'] *)
Definition merge_left (left right : DataFrame) : list merged :=
  flat_map (fun l =>
              match matching (l "Employee ID") right with
              | [] => [mk_merged (Some l) None]
              | rs => (fun r => mk_merged (Some l) (Some r)) <$> rs
              end) left.

(** [how='outer']: the rows of the left join, then the rows of the right
    frame without a partner.  pandas orders the result by key; nothing
    below depends on the order of the rows of a merged frame. *)
Definition merge_outer (left right : DataFrame) : list merged :=
  merge_left left right
  ++ ((fun r => mk_merged None (Some r))
        <$> List.filter (fun r => negb (isin (r "Employee ID") (employee_ids left))) right).

(** ** modules/new_entries.py *)

Definition add_new_entries_fte (op_fte_df : DataFrame) (new_entries : list Series) : DataFrame :=
  match new_entries with
  | [] => op_fte_df
  | _ => op_fte_df ++ new_entries
  end.

Definition add_new_entries_ms (op_ms_df : DataFrame) (new_entries : list Series) : DataFrame :=
  match new_entries with
  | [] => op_ms_df
  | _ => op_ms_df ++ new_entries
  end.

(** The state of a detector while it walks over the employees it has
    selected: the plan, mutated in place, and the list [new_entries]. *)
Definition loop_state : Type := DataFrame * list Series.

(** [for index, row in selected.iterrows(): ...] *)
Definition for_rows {R : Type} (selected : list R)
    (body : R -> loop_state -> loop_state) (st : loop_state) : loop_state :=
  fold_left (fun st row => body row st) selected st.

(** [for emp_index in emp_indices: ...] *)
Definition for_indices (emp_indices : list nat)
    (body : nat -> loop_state -> loop_state) (st : loop_state) : loop_state :=
  fold_left (fun st emp_index => body emp_index st) emp_indices st.

Definition is_empty {A : Type} (l : list A) : bool :=
  match l with [] => true | _ => false end.

(** [df.loc[i].copy()]; a label of the frame is expected. *)
Definition loc (i : nat) (df : DataFrame) : Series :=
  match df !! i with Some r => r | None => fun _ => NaN end.

Section Detectors.

(** [datetime.now().date()] *)
Variable today : date.

(** [str(x)] for a number, a date or a timestamp. *)
Variable py_repr : cell -> string.

(** [int(s)] does not raise for the string [s]. *)
Variable int_parses : string -> bool.

Definition py_str (c : cell) : string :=
  match c with
  | NaN => "nan"
  | Str s => s
  | Boolean true => "True"
  | Boolean false => "False"
  | _ => py_repr c
  end.

(** [int(x)] does not raise. *)
Definition int_ok (c : cell) : bool :=
  match c with
  | Num _ | Boolean _ => true
  | Str s => int_parses s
  | _ => false
  end.

(** [str(v) if pd.notna(v) else ''] *)
Definition name_part (v : cell) : string :=
  if notna v then py_str v else "".

(** The construction of a new plan row that the detectors repeat:
    [row] is the roster row (merged or not) the mapping loop reads,
    [in_row] its [col in row], and [src] the roster row whose columns
    ([X], [X_next] or [X_current]) fill the required fields. *)
Definition build_entry_fte (in_row : string -> bool) (row src : Series)
    (start_date end_date role_status : cell) : Series :=
  let new_entry := series_of_dict COLUMN_VALUES_FTE OP_FTE_COLUMNS in
  let new_entry :=
    fold_left (fun new_entry '(static_col, op_col) =>
                 if in_row static_col
                 then set op_col (row static_col) new_entry
                 else new_entry)
              COLUMN_MAPPING_FTE new_entry in
  let first_name := name_part (src "Legal First Name") in
  let last_name := name_part (src "Legal Surname") in
  let new_entry := set "Resource Type" (src "Resource Type") new_entry in
  let new_entry := set "FTE Name" (Str (first_name ++ " " ++ last_name)%string) new_entry in
  let new_entry := set "Employee ID" (row "Employee ID") new_entry in
  let new_entry := set "LANID" (src "LANID") new_entry in
  let new_entry := set "Role Type" (src "Role Type") new_entry in
  let new_entry := set "Job Grade" (src "Job Grade") new_entry in
  let new_entry := set FTE_based_Country (map_to_hub_FTE (src "Planning Unit Country")) new_entry in
  let new_entry := set "Domain" (format_domain (src "Domain")) new_entry in
  let new_entry := set "Tech Area" (format_tech_area (src "Tech Area")) new_entry in
  let new_entry := set "Planning Unit Country" (src "Planning Unit Country") new_entry in
  let new_entry := set "FTE #" (src "FTE #") new_entry in
  let new_entry := set "Start Date" start_date new_entry in
  let new_entry := set "End Date" end_date new_entry in
  let new_entry := set "Role Status" role_status new_entry in
  set "Modified" (Boolean true) new_entry.

(** [get_eofy().strftime('%b-%y')] *)
Definition eofy_label : string := strftime_b_y (get_eofy today).

(** [datetime.strptime(s, '%b-%y').date().strftime('%b-%y')] *)
Definition relabel (s : string) : option string :=
  strftime_b_y <$> strptime_b_y s.

(** *** identifier_functions_FTE/identifier_FTE_GUI.py *)

Definition identify_exits_fte (current_df next_df op_fte_df : DataFrame)
    (file_date : string * string) : DataFrame :=
  let '(end_date_str, _) := file_date in
  if String.eqb end_date_str "" then op_fte_df
  else
    match strptime_b_y end_date_str with
    | None => op_fte_df
    | Some file_date =>
        let current_security_fte := employee_security_fte current_df in
        let exits :=
          List.filter (fun r => negb (isin (r "Employee ID") (employee_ids next_df)))
                      current_security_fte in
        fst (for_rows exits
               (fun row '(op_fte_df, new_entries) =>
                  let emp_indices := shorten_filtering_condition_fte op_fte_df (row "Employee ID") in
                  for_indices emp_indices
                    (fun emp_index '(op_fte_df, new_entries) =>
                       let op_fte_df := at_set emp_index "End Date" (Date file_date) op_fte_df in
                       let op_fte_df := at_set emp_index "Role Status" (Str "Exit") op_fte_df in
                       let op_fte_df := at_set emp_index "Modified" (Boolean true) op_fte_df in
                       (op_fte_df, new_entries))
                    (op_fte_df, new_entries))
               (op_fte_df, []))
    end.

Definition identify_new_joiners_fte (current_df next_df op_fte_df : DataFrame)
    (file_date : string * string) : DataFrame :=
  let '(_, start_date_str) := file_date in
  match relabel start_date_str with
  | None => op_fte_df
  | Some first_day_of_static_month =>
      let eofy := eofy_label in
      let next_security_fte := employee_security_fte next_df in
      let new_joiners_condition1 :=
        List.filter (fun r => negb (isin (r "Employee ID") (employee_ids current_df)))
                    next_security_fte in
      let current_cwr_not_security :=
        List.filter (fun r => cell_neb (r "Domain") (Str "Security")
                              && cell_eqb (r "FTE Category") (Str "Non-FTE"))
                    current_df in
      let new_joiners_condition2 :=
        List.filter (fun r => isin (r "Employee ID") (employee_ids current_cwr_not_security))
                    next_security_fte in
      let new_joiners := new_joiners_condition1 ++ new_joiners_condition2 in
      let '(op_fte_df, new_entries) :=
        for_rows new_joiners
          (fun row '(op_fte_df, new_entries) =>
             let emp_indices := employee_filtering_condition_fte op_fte_df (row "Employee ID") in
             if negb (is_empty emp_indices)
             then for_indices emp_indices
                    (fun emp_index '(op_fte_df, new_entries) =>
                       let op_fte_df := at_set emp_index "Role Status" (Str "New Hire") op_fte_df in
                       let op_fte_df := at_set emp_index "Modified" (Boolean true) op_fte_df in
                       (op_fte_df, new_entries))
                    (op_fte_df, new_entries)
             else
               let new_entry :=
                 build_entry_fte (fun c => mem_string c static_columns) row row
                   (Str first_day_of_static_month) (Str eofy) (Str "New Hire") in
               (op_fte_df, new_entries ++ [new_entry]))
          (op_fte_df, []) in
      add_new_entries_fte op_fte_df new_entries
  end.

(** [df[(df['Employee ID'] == id) & (df[col] == v) & (df['End Date'] == eofy)]] *)
Definition existing_entries (op_df : DataFrame) (employee_id : cell)
    (col : string) (v : cell) (eofy : string) : DataFrame :=
  List.filter (fun r => cell_eqb (r "Employee ID") employee_id
                        && cell_eqb (r col) v
                        && cell_eqb (r "End Date") (Str eofy))
              op_df.

Definition identify_transfers_in_fte (current_df next_df op_fte_df : DataFrame)
    (file_date : string * string) : DataFrame :=
  let '(_, start_date_str) := file_date in
  match relabel start_date_str with
  | None => op_fte_df
  | Some first_day_of_static_month =>
      let eofy := eofy_label in
      let next_security_fte := employee_security_fte next_df in
      let merged_df := merge_inner current_df next_security_fte in
      let transfers_in :=
        List.filter (fun m => let row := mget m in
                              cell_neb (row "Domain_current") (Str "Security")
                              && cell_eqb (row "FTE Category_current") (Str "FTE")
                              && cell_eqb (row "Resource Type_current") (row "Resource Type_next"))
                    merged_df in
      let '(op_fte_df, new_entries) :=
        for_rows transfers_in
          (fun m '(op_fte_df, new_entries) =>
             let row := mget m in
             let emp_indices := employee_filtering_condition_fte op_fte_df (row "Employee ID") in
             if negb (is_empty emp_indices)
             then for_indices emp_indices
                    (fun emp_index '(op_fte_df, new_entries) =>
                       if negb (is_empty (existing_entries op_fte_df (row "Employee ID")
                                            "Domain" (row "Domain_next") eofy))
                       then (op_fte_df, new_entries)
                       else
                         let op_fte_df := at_set emp_index "Role Status" (Str "Transfer In") op_fte_df in
                         let op_fte_df := at_set emp_index "Modified" (Boolean true) op_fte_df in
                         (op_fte_df, new_entries))
                    (op_fte_df, new_entries)
             else
               let new_entry :=
                 build_entry_fte in_merged row (opt_get (right_row m))
                   (Str first_day_of_static_month) (Str eofy) (Str "Transfer In") in
               (op_fte_df, new_entries ++ [new_entry]))
          (op_fte_df, []) in
      add_new_entries_fte op_fte_df new_entries
  end.

Definition identify_transfers_out_fte (current_df next_df op_fte_df : DataFrame)
    (file_date : string * string) : DataFrame :=
  let '(end_date_str, _) := file_date in
  match relabel end_date_str with
  | None => op_fte_df
  | Some last_day_of_op_month =>
      let current_security_fte := employee_security_fte current_df in
      let merged_df := merge_left current_security_fte next_df in
      let transfers_out :=
        List.filter (fun m => let row := mget m in
                              cell_neb (row "Domain_next") (Str "Security")
                              && cell_eqb (row "FTE Category_next") (Str "FTE")
                              && cell_eqb (row "_merge") (Str "both"))
                    merged_df in
      fst (for_rows transfers_out
             (fun m '(op_fte_df, new_entries) =>
                let row := mget m in
                let emp_indices := shorten_filtering_condition_fte op_fte_df (row "Employee ID") in
                for_indices emp_indices
                  (fun emp_index '(op_fte_df, new_entries) =>
                     let op_fte_df := at_set emp_index "End Date" (Str last_day_of_op_month) op_fte_df in
                     let op_fte_df := at_set emp_index "Role Status" (Str "Transfer Out") op_fte_df in
                     let op_fte_df := at_set emp_index "Modified" (Boolean true) op_fte_df in
                     (op_fte_df, new_entries))
                  (op_fte_df, new_entries))
             (op_fte_df, []))
  end.

Definition identify_grade_changes_fte (current_df next_df op_fte_df : DataFrame)
    (file_date : string * string) : DataFrame :=
  let '(end_date_str, start_date_str) := file_date in
  match relabel end_date_str, relabel start_date_str with
  | Some last_day_of_op_month, Some first_day_of_static_month =>
      let eofy := eofy_label in
      let current_security_fte := employee_security_fte current_df in
      let next_security_fte := employee_security_fte next_df in
      let merged_df := merge_inner current_security_fte next_security_fte in
      let grade_changes :=
        List.filter (fun m => let row := mget m in
                              cell_eqb (row "Resource Type_current") (row "Resource Type_next")
                              && cell_eqb (row "Tech Area_current") (row "Tech Area_next")
                              && cell_neb (row "Job Grade_current") (row "Job Grade_next"))
                    merged_df in
      let '(op_fte_df, new_entries) :=
        for_rows grade_changes
          (fun m '(op_fte_df, new_entries) =>
             let row := mget m in
             let emp_indices := employee_filtering_condition_fte op_fte_df (row "Employee ID") in
             for_indices emp_indices
               (fun emp_index '(op_fte_df, new_entries) =>
                  if negb (is_empty (existing_entries op_fte_df (row "Employee ID")
                                       "Job Grade" (row "Job Grade_next") eofy))
                  then (op_fte_df, new_entries)
                  else
                    let op_fte_df := at_set emp_index "Job Grade" (row "Job Grade_current") op_fte_df in
                    let op_fte_df := at_set emp_index "End Date" (Str last_day_of_op_month) op_fte_df in
                    let op_fte_df := at_set emp_index "Role Status" (Str "Not Current") op_fte_df in
                    let op_fte_df := at_set emp_index "Modified" (Boolean true) op_fte_df in
                    let new_entry := loc emp_index op_fte_df in
                    let new_entry := set "Resource Type" (row "Resource Type_next") new_entry in
                    let new_entry := set "Job Grade" (row "Job Grade_next") new_entry in
                    let new_entry := set FTE_based_Country
                                       (map_to_hub_FTE (row "Planning Unit Country_next")) new_entry in
                    let new_entry := set "Domain" (format_domain (row "Domain_next")) new_entry in
                    let new_entry := set "Tech Area" (format_tech_area (row "Tech Area_next")) new_entry in
                    let new_entry := set "Start Date" (Str first_day_of_static_month) new_entry in
                    let new_entry := set "End Date" (Str eofy) new_entry in
                    let new_entry := set "Role Status" (Str "Grade Change") new_entry in
                    let new_entry := set "Modified" (Boolean true) new_entry in
                    (op_fte_df, new_entries ++ [new_entry]))
               (op_fte_df, new_entries))
          (op_fte_df, []) in
      add_new_entries_fte op_fte_df new_entries
  | _, _ => op_fte_df
  end.

Definition identify_internal_mobility_fte (current_df next_df op_fte_df : DataFrame)
    (file_date : string * string) : DataFrame :=
  let '(end_date_str, start_date_str) := file_date in
  match relabel end_date_str, relabel start_date_str with
  | Some last_day_of_op_month, Some first_day_of_static_month =>
      let eofy := eofy_label in
      let current_security_fte := employee_security_fte current_df in
      let next_security_fte := employee_security_fte next_df in
      let merged_df := merge_inner current_security_fte next_security_fte in
      let internal_mobility :=
        List.filter (fun m => let row := mget m in
                              cell_eqb (row "Resource Type_current") (row "Resource Type_next")
                              && cell_neb (row "Tech Area_current") (row "Tech Area_next"))
                    merged_df in
      let '(op_fte_df, new_entries) :=
        for_rows internal_mobility
          (fun m '(op_fte_df, new_entries) =>
             let row := mget m in
             let emp_indices := employee_filtering_condition_fte op_fte_df (row "Employee ID") in
             if negb (is_empty emp_indices)
             then
               (* the [for] loop with its [break]; [emp_index] keeps its
                  last value when the loop is left *)
               let '(processed_internal_mobility, emp_index) :=
                 fold_left
                   (fun '((processed, last_index) : bool * nat) emp_index =>
                      if processed then (processed, last_index)
                      else if negb (is_empty (existing_entries op_fte_df (row "Employee ID")
                                                "Tech Area" (row "Tech Area_next") eofy))
                           then (true, emp_index)
                           else (false, emp_index))
                   emp_indices (false, 0%nat) in
               if negb processed_internal_mobility
               then
                 let op_fte_df := at_set emp_index "Tech Area"
                                    (format_tech_area (row "Tech Area_current")) op_fte_df in
                 let op_fte_df := at_set emp_index "End Date" (Str last_day_of_op_month) op_fte_df in
                 let op_fte_df := at_set emp_index "Role Status" (Str "Not Current") op_fte_df in
                 let op_fte_df := at_set emp_index "Modified" (Boolean true) op_fte_df in
                 let new_entry := loc emp_index op_fte_df in
                 let new_entry := set "Role Type" (row "Role Type_next") new_entry in
                 let new_entry := set "Job Grade" (row "Job Grade_next") new_entry in
                 let new_entry := set "Tech Area" (format_tech_area (row "Tech Area_next")) new_entry in
                 let new_entry := set "Start Date" (Str first_day_of_static_month) new_entry in
                 let new_entry := set "End Date" (Str eofy) new_entry in
                 let new_entry := set "FTE #" (row "FTE #_next") new_entry in
                 let new_entry := set "Role Status" (Str "Internal Mobility") new_entry in
                 let new_entry := set "Modified" (Boolean true) new_entry in
                 (op_fte_df, new_entries ++ [new_entry])
               else (op_fte_df, new_entries)
             else (op_fte_df, new_entries))
          (op_fte_df, []) in
      add_new_entries_fte op_fte_df new_entries
  | _, _ => op_fte_df
  end.

(** [f"Conversion from {a} to {b}"] *)
Definition conversion_label (a b : cell) : cell :=
  Str ("Conversion from " ++ py_str a ++ " to " ++ py_str b)%string.

Definition indetify_conversions_within_fte (current_df next_df op_fte_df : DataFrame)
    (file_date : string * string) : DataFrame :=
  let '(end_date_str, start_date_str) := file_date in
  match relabel end_date_str, relabel start_date_str with
  | Some last_day_of_op_month, Some first_day_of_static_month =>
      let eofy := eofy_label in
      let current_security_fte := employee_security_fte current_df in
      let next_security_fte := employee_security_fte next_df in
      let merged_df := merge_inner current_security_fte next_security_fte in
      let conversions_fixed_perm :=
        List.filter (fun m => let row := mget m in
                              cell_neb (row "Resource Type_current") (row "Resource Type_next"))
                    merged_df in
      let '(op_fte_df, new_entries) :=
        for_rows conversions_fixed_perm
          (fun m '(op_fte_df, new_entries) =>
             let row := mget m in
             let emp_indices := employee_filtering_condition_fte op_fte_df (row "Employee ID") in
             let label := conversion_label (row "Resource Type_current") (row "Resource Type_next") in
             if negb (is_empty emp_indices)
             then for_indices emp_indices
                    (fun emp_index '(op_fte_df, new_entries) =>
                       let op_fte_df := at_set emp_index "Resource Type"
                                          (row "Resource Type_current") op_fte_df in
                       let op_fte_df := at_set emp_index "End Date" (Str last_day_of_op_month) op_fte_df in
                       let op_fte_df := at_set emp_index "Role Status" label op_fte_df in
                       let op_fte_df := at_set emp_index "Modified" (Boolean true) op_fte_df in
                       let new_entry := loc emp_index op_fte_df in
                       let new_entry := set "Resource Type" (row "Resource Type_next") new_entry in
                       let new_entry := set "Role Type" (row "Role Type_next") new_entry in
                       let new_entry := set "Job Grade" (row "Job Grade_next") new_entry in
                       let new_entry := set "Tech Area" (row "Tech Area_next") new_entry in
                       let new_entry := set "Start Date" (Str first_day_of_static_month) new_entry in
                       let new_entry := set "End Date" (Str eofy) new_entry in
                       let new_entry := set "Role Status" label new_entry in
                       let new_entry := set "Modified" (Boolean true) new_entry in
                       (op_fte_df, new_entries ++ [new_entry]))
                    (op_fte_df, new_entries)
             else
               let new_entry :=
                 build_entry_fte in_merged row (opt_get (right_row m))
                   (Str first_day_of_static_month) (Str eofy) label in
               (op_fte_df, new_entries ++ [new_entry]))
          (op_fte_df, []) in
      add_new_entries_fte op_fte_df new_entries
  | _, _ => op_fte_df
  end.

Definition identify_conversions_cwr_to_fte (current_df next_df op_fte_df : DataFrame)
    (file_date : string * string) : DataFrame :=
  let '(_, start_date_str) := file_date in
  match relabel start_date_str with
  | None => op_fte_df
  | Some first_day_of_static_month =>
      let eofy := eofy_label in
      let next_security_fte := employee_security_fte next_df in
      let merged_df := merge_inner current_df next_security_fte in
      let conversions_cwr_fte :=
        List.filter (fun m => let row := mget m in
                              cell_eqb (row "Domain_current") (Str "Security")
                              && cell_eqb (row "FTE Category_current") (Str "Non-FTE"))
                    merged_df in
      let '(op_fte_df, new_entries) :=
        for_rows conversions_cwr_fte
          (fun m '(op_fte_df, new_entries) =>
             let row := mget m in
             let emp_indices := employee_filtering_condition_fte op_fte_df (row "Employee ID") in
             if negb (is_empty emp_indices)
             then for_indices emp_indices
                    (fun emp_index '(op_fte_df, new_entries) =>
                       if negb (is_empty (existing_entries op_fte_df (row "Employee ID")
                                            "Resource Type" (row "Resource Type_next") eofy))
                       then (op_fte_df, new_entries)
                       else (op_fte_df, new_entries))
                    (op_fte_df, new_entries)
             else
               let new_entry :=
                 build_entry_fte in_merged row (opt_get (right_row m))
                   (Str first_day_of_static_month) (Str eofy) (Str "Conversion to FTE") in
               (op_fte_df, new_entries ++ [new_entry]))
          (op_fte_df, []) in
      add_new_entries_fte op_fte_df new_entries
  end.

Definition identify_conversions_fte_to_cwr (current_df next_df op_fte_df : DataFrame)
    (file_date : string * string) : DataFrame :=
  let '(end_date_str, _) := file_date in
  match relabel end_date_str with
  | None => op_fte_df
  | Some last_day_of_op_month =>
      let current_security_fte := employee_security_fte current_df in
      let merged_df := merge_inner current_security_fte next_df in
      let conversions_from_fte :=
        List.filter (fun m => let row := mget m in
                              cell_eqb (row "Domain_next") (Str "Security")
                              && cell_eqb (row "FTE Category_next") (Str "Non-FTE"))
                    merged_df in
      fst (for_rows conversions_from_fte
             (fun m '(op_fte_df, new_entries) =>
                let row := mget m in
                let emp_indices := employee_filtering_condition_fte op_fte_df (row "Employee ID") in
                for_indices emp_indices
                  (fun emp_index '(op_fte_df, new_entries) =>
                     let op_fte_df := at_set emp_index "Resource Type"
                                        (row "Resource Type_current") op_fte_df in
                     let op_fte_df := at_set emp_index "Employee ID" (row "Employee ID") op_fte_df in
                     let op_fte_df := at_set emp_index "Job Grade" (row "Job Grade_current") op_fte_df in
                     let op_fte_df := at_set emp_index "End Date" (Str last_day_of_op_month) op_fte_df in
                     let op_fte_df := at_set emp_index "Role Status" (Str "Conversion from FTE") op_fte_df in
                     let op_fte_df := at_set emp_index "Modified" (Boolean true) op_fte_df in
                     (op_fte_df, new_entries))
                  (op_fte_df, new_entries))
             (op_fte_df, []))
  end.

(** The message logged for each matched row formats
    [int(row['Supervisor Employee ID_current'])] and the same for
    [_next]: the detector raises when one of the two is not a number. *)
Definition identify_line_manager_changes_fte (current_df next_df op_fte_df : DataFrame)
    (file_date : string * string) : result DataFrame :=
  let current_security_fte := employee_security_fte current_df in
  let next_security_fte := employee_security_fte next_df in
  let merged_df := merge_inner current_security_fte next_security_fte in
  let line_manager_changes :=
    List.filter (fun m => let row := mget m in
                          cell_neb (row "Supervisor Employee ID_current")
                                   (row "Supervisor Employee ID_next"))
                merged_df in
  fold_left
    (fun st m =>
       match st with
       | Raise => Raise
       | Ok op_fte_df =>
           let row := mget m in
           let emp_indices := shorten_filtering_condition_fte op_fte_df (row "Employee ID") in
           fold_left
             (fun st emp_index =>
                match st with
                | Raise => Raise
                | Ok op_fte_df =>
                    let op_fte_df := at_set emp_index "Modified" (Boolean true) op_fte_df in
                    let op_fte_df :=
                      at_set emp_index "Line Manager"
                        (Str (py_str (row "Supervisor Legal First Name_next") ++ " "
                              ++ py_str (row "Supervisor Legal Surname_next"))%string)
                        op_fte_df in
                    if int_ok (row "Supervisor Employee ID_current")
                       && int_ok (row "Supervisor Employee ID_next")
                    then Ok op_fte_df
                    else Raise
                end)
             emp_indices (Ok op_fte_df)
       end)
    line_manager_changes (Ok op_fte_df).

Definition identify_location_changes_fte (current_df next_df op_fte_df : DataFrame)
    (file_date : string * string) : DataFrame :=
  let '(end_date_str, start_date_str) := file_date in
  match relabel end_date_str, relabel start_date_str with
  | Some last_day_of_op_month, Some first_day_of_static_month =>
      let eofy := eofy_label in
      let current_security_fte := employee_security_fte current_df in
      let next_security_fte := employee_security_fte next_df in
      let merged_df := merge_inner current_security_fte next_security_fte in
      let location_changes :=
        List.filter (fun m => let row := mget m in
                              cell_eqb (row "Resource Type_current") (row "Resource Type_next")
                              && cell_neb (row "Planning Unit Country_current")
                                          (row "Planning Unit Country_next"))
                    merged_df in
      let '(op_fte_df, new_entries) :=
        for_rows location_changes
          (fun m '(op_fte_df, new_entries) =>
             let row := mget m in
             let emp_indices := shorten_filtering_condition_fte op_fte_df (row "Employee ID") in
             for_indices emp_indices
               (fun emp_index '(op_fte_df, new_entries) =>
                  let op_fte_df := at_set emp_index FTE_based_Country
                                     (map_to_hub_FTE (row "Planning Unit Country_current")) op_fte_df in
                  let op_fte_df := at_set emp_index "Planning Unit Country"
                                     (row "Planning Unit Country_current") op_fte_df in
                  let op_fte_df := at_set emp_index "End Date" (Str last_day_of_op_month) op_fte_df in
                  let op_fte_df := at_set emp_index "Role Status" (Str "Not Current") op_fte_df in
                  let op_fte_df := at_set emp_index "Modified" (Boolean true) op_fte_df in
                  let new_entry := loc emp_index op_fte_df in
                  let new_entry := set FTE_based_Country
                                     (map_to_hub_FTE (row "Planning Unit Country_next")) new_entry in
                  let new_entry := set "Planning Unit Country"
                                     (row "Planning Unit Country_next") new_entry in
                  let new_entry := set "Start Date" (Str first_day_of_static_month) new_entry in
                  let new_entry := set "FTE #" (row "FTE #_next") new_entry in
                  let new_entry := set "End Date" (Str eofy) new_entry in
                  let new_entry := set "Role Status" (Str "Location Change") new_entry in
                  let new_entry := set "Modified" (Boolean true) new_entry in
                  (op_fte_df, new_entries ++ [new_entry]))
               (op_fte_df, new_entries))
          (op_fte_df, []) in
      add_new_entries_fte op_fte_df new_entries
  | _, _ => op_fte_df
  end.

(** *** modules/missing_employees.py *)

Definition identify_missing_employees_fte (current_df next_df op_fte_df : DataFrame) : DataFrame :=
  let current_security_fte := employee_security_fte current_df in
  let next_security_fte := employee_security_fte next_df in
  let merged_df := merge_outer current_security_fte next_security_fte in
  (* [astype(str)] on the two resource-type columns *)
  let merged_df :=
    (fun m => mk_merged
                ((fun r => set "Resource Type" (Str (py_str (r "Resource Type"))) r) <$> left_row m)
                ((fun r => set "Resource Type" (Str (py_str (r "Resource Type"))) r) <$> right_row m))
      <$> merged_df in
  let as_str (m : merged) (side : option Series) : cell :=
    (* the missing value of an absent side becomes the string 'nan' *)
    match side with Some r => r "Resource Type" | None => Str "nan" end in
  let missing_entries :=
    List.filter
      (fun m =>
         let row := mget m in
         let in_op := isin (row "Employee ID") (employee_ids op_fte_df) in
         (negb (cell_contains "CWR" (as_str m (left_row m)))
          && negb (cell_contains "CWR" (as_str m (right_row m)))
          && negb in_op
          && cell_neb (row "_merge") (Str "right_only"))
         || (negb (cell_contains "CWR" (as_str m (left_row m)))
             && negb in_op
             && cell_eqb (row "_merge") (Str "left_only")))
      merged_df in
  let new_entries :=
    (fun m =>
       build_entry_fte in_merged (mget m) (opt_get (left_row m))
         (Str "-") (Str "-") (Str "Missing from Op FTE"))
      <$> missing_entries in
  add_new_entries_fte op_fte_df new_entries.

(** *** modules/sanity_checks.py *)

(** [op_columns] is [op_fte_df.columns], the labels of the plan frame. *)
Definition sanity_checks_fte (op_columns : list string)
    (current_df next_df op_fte_df : DataFrame) : DataFrame :=
  fold_left
    (fun op_fte_df '(index, row) =>
       let employee_id := row "Employee ID" in
       let skip_status := row "Skip" in
       if cell_eqb skip_status (Str "Past")
       then
         let op_fte_df := at_set index "Tech Area" (format_tech_area (row "Tech Area")) op_fte_df in
         at_set index "Domain" (format_domain (row "Domain")) op_fte_df
       else if isna employee_id
               || negb (existsb (fun v => cell_eqb v employee_id) (employee_ids next_df))
       then op_fte_df
       else
         match List.filter (fun r => cell_eqb (r "Employee ID") employee_id) next_df with
         | [] => op_fte_df
         | next_row :: _ =>
             let source :=
               if cell_neb (next_row "Domain") (Str "Security")
               then match List.filter (fun r => cell_eqb (r "Employee ID") employee_id) current_df with
                    | [] => None
                    | current_row :: _ =>
                        if cell_neb (current_row "Domain") (Str "Security")
                        then None else Some current_row
                    end
               else Some next_row in
             match source with
             | None => op_fte_df
             | Some current_row =>
                 let op_fte_df :=
                   fold_left
                     (fun op_fte_df column =>
                        if mem_string column op_columns
                           && negb (String.eqb column "Planning Unit Country")
                        then
                          let original_value := row column in
                          let new_value := current_row column in
                          if notna new_value && cell_neb original_value new_value
                          then at_set index column new_value op_fte_df
                          else op_fte_df
                        else op_fte_df)
                     static_columns op_fte_df in
                 let op_fte_df := at_set index "Tech Area"
                                    (format_tech_area (next_row "Tech Area")) op_fte_df in
                 at_set index "Domain" (format_domain (next_row "Domain")) op_fte_df
             end
         end)
    (iterrows op_fte_df) op_fte_df.

End Detectors.

(** ** FTE_GUI.py *)

(** [merge_data_fte] leaves the rosters as they are and initialises two
    columns of the plan. *)
Definition merge_data_fte (op_fte_df : DataFrame) : DataFrame :=
  let op_fte_df := set_column "Modified" (Str "") op_fte_df in
  set_column "Line Manager" (Str "") op_fte_df.

Section Driver.

(** [datetime.now().date()] *)
Variable today : date.

(** [str(x)] for a number, a date or a timestamp. *)
Variable py_repr : cell -> string.

(** [int(s)] does not raise for the string [s]. *)
Variable int_parses : string -> bool.

(** [pd.to_datetime(_, errors='coerce')] on one value. *)
Variable to_datetime : cell -> option (date * Z).

Definition scenario_functions_fte
  : list (DataFrame -> DataFrame -> DataFrame -> string * string -> result DataFrame) :=
  let total f := fun c n op fd => Ok (f c n op fd) in
  [ total (identify_exits_fte);
    total (identify_new_joiners_fte today py_repr);
    total (identify_transfers_in_fte today py_repr);
    total (identify_transfers_out_fte);
    total (identify_grade_changes_fte today);
    total (identify_internal_mobility_fte today);
    total (indetify_conversions_within_fte today py_repr);
    total (identify_conversions_cwr_to_fte today py_repr);
    total (identify_conversions_fte_to_cwr);
    identify_line_manager_changes_fte py_repr int_parses;
    total (identify_location_changes_fte today) ].

(** [for func in scenario_functions_fte: op_fte_df = func(...)] *)
Definition run_scenarios
    (funcs : list (DataFrame -> DataFrame -> DataFrame -> string * string -> result DataFrame))
    (current_df next_df : DataFrame) (file_date : string * string)
    (op_df : DataFrame) : result DataFrame :=
  fold_left
    (fun st func =>
       match st with
       | Raise => Raise
       | Ok op_df => func current_df next_df op_df file_date
       end)
    funcs (Ok op_df).

(** [process_fte] from the loaded frames to the frame handed to
    [save_data]; the termination flag is taken as never set.  [Raise] is a
    run that ends without saving: an early [return] or an exception caught
    by the outer handler.  [op_columns] is the list of column labels of the
    plan when the sanity pass runs. *)
Definition process_fte (static_file : string) (op_columns : list string)
    (current_df next_df op_fte_df : DataFrame) : result DataFrame :=
  let op_fte_df := identify_missing_employees_fte py_repr current_df next_df op_fte_df in
  let op_fte_df := check_and_mark_fulfilled_fte to_datetime current_df next_df op_fte_df in
  match initiate_skip_column_fte static_file op_fte_df with
  | Raise => Raise
  | Ok op_fte_df =>
      let op_fte_df := sanity_checks_fte op_columns current_df next_df op_fte_df in
      match extract_date_from_filename static_file with
      | Ok (Some file_date) =>
          let op_fte_df := merge_data_fte op_fte_df in
          run_scenarios scenario_functions_fte current_df next_df file_date op_fte_df
      | _ => Raise
      end
  end.

End Driver.

(** ** Fixtures *)

Module Fixture.

(** A row given by the cells it carries. *)
Definition row_of (values : list (string * cell)) : Series :=
  fun c => match assoc c values with Some v => v | None => NaN end.

Definition emp (n : Z) : cell := Num (inject_Z n).

Definition today : date := mk_date 2024 7 15.

Definition py_repr (c : cell) : string :=
  match c with
  | Num q => str_of_int (py_int q)
  | _ => ""
  end.

Definition int_parses (s : string) : bool := negb (String.eqb s "") && all_digits s.

Definition to_datetime (c : cell) : option (date * Z) :=
  match c with
  | Datetime d t => Some (d, t)
  | Str s => (fun d => (d, 0)) <$> strptime_b_y s
  | _ => None
  end.

Definition static_file : string := "Copy of Static 240630.xlsx".

Definition file_date : string * string := ("May-24", "Jun-24").

(** A roster record of the Security domain. *)
Definition roster_row (id : Z) (first last resource grade category domain area : string) : Series :=
  row_of [ ("Employee ID", emp id); ("Legal First Name", Str first); ("Legal Surname", Str last);
           ("Resource Type", Str resource); ("Supervisor Employee ID", emp 7);
           ("Supervisor Legal First Name", Str "Ada"); ("Supervisor Legal Surname", Str "Byron");
           ("Role Type", Str "Engineer"); ("Job Grade", Str grade); ("FTE #", Num (inject_Z 1));
           ("FTE Category", Str category); ("LANID", Str ("u" ++ first)%string);
           ("Planning Unit Country", Str "Australia"); ("Domain", Str domain);
           ("Tech Area", Str area) ].

Definition e1001_current : Series :=
  roster_row 1001 "Kim" "Lee" "Permanent" "P4" "FTE" "Security" "Security_Cloud".

Definition e1001_next : Series :=
  roster_row 1001 "Kim" "Lee" "Permanent" "P5" "FTE" "Security" "Security_Cloud".

(** A plan row. *)
Definition plan_row (id : cell) (name resource grade area status : string)
    (lanid end_date fulfilled skip : cell) : Series :=
  row_of [ ("Resource Type", Str resource); ("Employee ID", id); ("FTE Name", Str name);
           ("Resource Name", Str name);
           ("LANID", lanid); ("Role Type", Str "Engineer"); ("Job Grade", Str grade);
           ("Domain", Str "Security_Domain"); ("Tech Area", Str area);
           ("Start Date", Str "Jan-24"); ("End Date", end_date);
           ("Role Status", Str status); ("Fulfilled", fulfilled); ("Skip", skip) ].

(** A plan of the MS sheet with one placeholder row for a stretch role. *)
Definition ms_stretch_plan : DataFrame :=
  [ plan_row (emp 1001) "Kim Lee" "Stretch" "" "Security_Cloud" "" (Str "ukim") (Str "Sep-24")
      (Str "") (Str "") ].

(** The same for the FTE sheet, with an ordinary row after it. *)
Definition fte_plan : DataFrame :=
  [ plan_row (emp 1001) "Kim Lee" "Stretch" "P4" "Security_Cloud" "" (Str "ukim") (Str "Sep-24")
      (Str "") (Str "");
    plan_row (emp 1001) "Kim Lee" "Permanent" "P4" "Security_Cloud" "" (Str "ukim") (Str "Sep-24")
      (Str "") (Str "") ].

(** A plan with one row, left by an earlier run of the conversion
    detector. *)
Definition conversion_plan : DataFrame :=
  [ plan_row (emp 1001) "Kim Lee" "Permanent" "P4" "Security_Cloud"
      "Conversion from Fixed Term Contract to Permanent"
      (Str "ukim") (Str "Sep-24") NaN NaN ].

(** A plan that already holds the row a second run would add for
    employee 1001: the new grade, the same tech area, and the
    financial-year end as End Date. *)
Definition guard_plan : DataFrame :=
  [ plan_row (emp 1001) "Kim Lee" "Permanent" "P5" "Security_Cloud" "Grade Change"
      (Str "ukim") (Str "Sep-24") (Str "") (Str "") ].

(** The same row once the fulfilled pass has tagged it. *)
Definition fulfilled_plan : DataFrame :=
  [ plan_row (emp 1001) "Kim Lee" "Permanent" "P5" "Security_Cloud" "Conversion to FTE"
      (Str "ukim") (Str "Sep-24") (Str "Yes") (Str "") ].

(** Employee 1001 as a contractor of the Security domain. *)
Definition e1001_contractor : Series :=
  roster_row 1001 "Kim" "Lee" "CWR" "P4" "Non-FTE" "Security" "Security_Cloud".

(** Employee 1001 moves from one tech area of the Security domain to
    another; the plan has one row for the employee. *)
Definition e1001_platform : Series :=
  roster_row 1001 "Kim" "Lee" "Permanent" "P4" "FTE" "Security" "Cloud Platform".

Definition e1001_network : Series :=
  roster_row 1001 "Kim" "Lee" "Permanent" "P4" "FTE" "Security" "Network Defence".

Definition mobility_plan : DataFrame :=
  [ plan_row (emp 1001) "Kim Lee" "Permanent" "P4" "Security_Cloud_Platform" ""
      (Str "ukim") (Str "Dec-24") (Str "") (Str "") ].

(** A plan with one ordinary row for employee 1001. *)
Definition grade_plan : DataFrame :=
  [ plan_row (emp 1001) "Kim Lee" "Permanent" "P4" "Security_Cloud" ""
      (Str "ukim") (Str "Dec-24") (Str "") (Str "") ].

(** Employee 1001 in another domain. *)
Definition e1001_moved : Series :=
  roster_row 1001 "Kim" "Lee" "Permanent" "P4" "FTE" "Cloud" "Cloud_Platform".

End Fixture.

(** ** The matching policies, as properties of a row *)

(** What the strict policy of the FTE sheet promises of a row. *)
Definition strict_row_fte (r : Series) : Prop :=
  r "Resource Type" <> Str "Stretch"
  /\ cell_contains "Vacant" (r "FTE Name") = false
  /\ r "Employee ID" <> NaN
  /\ r "LANID" <> NaN
  /\ r "Role Status" <> Str "Missing from Op FTE"
  /\ r "Fulfilled" <> Str "Yes"
  /\ r "Skip" <> Str "Past".


(** What the strict policy of the MS sheet tests. *)
Definition strict_row_ms (r : Series) : Prop :=
  r "Employee ID" <> NaN
  /\ r "LANID" <> NaN
  /\ r "Role Status" <> Str "Missing from Op MS"
  /\ r "Fulfilled" <> Str "Yes"
  /\ r "Skip" <> Str "Past".

(** ** Auxiliary definitions of the proofs *)

(** A label written by [strftime] is read back as the first of its month. *)
Definition label_round_trip (y m : Z) : bool :=
  match strptime_b_y (strftime_b_y (mk_date y m 1)) with
  | Some d => date_eqb d (mk_date y m 1)
  | None => false
  end.

(** What the loop of the skip pass does to the row it visits. *)
Definition skip_tag (static_report_date : date) (row r : Series) : Series :=
  if end_date_is_past static_report_date (row "End Date")
  then set "Skip" (Str "Past") r else r.

(** A row closed by the exit detector. *)
Definition exited (d : date) (r : Series) : Prop :=
  r "End Date" = Date d /\ r "Role Status" = Str "Exit".

(** How a row of the plan may differ from the row the exit detector was
    given: the columns that the relaxed policy reads are the same, apart
    from the status of a row that has been closed. *)
Definition exit_rel (d : date) (r0 r : Series) : Prop :=
  r "Resource Type" = r0 "Resource Type"
  /\ r "FTE Name" = r0 "FTE Name"
  /\ r "Employee ID" = r0 "Employee ID"
  /\ r "LANID" = r0 "LANID"
  /\ (r "Role Status" = r0 "Role Status" \/ exited d r).

(** The invariant of the loop of the exit detector, and what the round of
    one employee establishes. *)
Definition exit_state (d : date) (op0 : DataFrame) (st : loop_state) : Prop :=
  Forall2 (exit_rel d) op0 (fst st).

Definition exit_closed (d : date) (op0 : DataFrame) (employee_id : cell) (st : loop_state) : Prop :=
  forall i, In i (shorten_filtering_condition_fte op0 employee_id) ->
            exists r, fst st !! i = Some r /\ exited d r.

(** The rows of an employee, by the key of the joins. *)
Definition for_employee (E : cell) (r : Series) : bool := key_eqb (r "Employee ID") E.

(** Two rows that the strict policy of the FTE sheet cannot tell apart. *)
Definition same_strict_mask (r0 r : Series) : Prop :=
  forall id, employee_filtering_condition_fte_mask id r
             = employee_filtering_condition_fte_mask id r0.

(** A label as [strftime] writes it. *)
Definition label_fixed (yy m : Z) : bool :=
  match strptime_b_y (strftime_b_y (mk_date yy m 1)) with
  | Some d => String.eqb (strftime_b_y d) (strftime_b_y (mk_date yy m 1))
  | None => false
  end.

(** The roster columns that a new plan row copies or formats. *)
Definition required_roster_fields : list string :=
  [ "Employee ID"; "Resource Type"; "LANID"; "Role Type"; "Job Grade";
    "Planning Unit Country"; "Domain"; "Tech Area"; "FTE #" ].

(** The strict policy returns no row of the plan for the employee of a
    roster row. *)
Definition unmatched_fte (op_fte_df : DataFrame) (row : Series) : bool :=
  is_empty (employee_filtering_condition_fte op_fte_df (row "Employee ID")).

(** The number of rows of an employee in a plan. *)
Definition count_for (E : cell) (df : DataFrame) : nat :=
  length (List.filter (for_employee E) df).

(** A row of the plan compared with the row a detector was given: the
    employee is the same, and a row of [E] has not been written to. *)
Definition untouched (E : cell) (r0 r : Series) : Prop :=
  r "Employee ID" = r0 "Employee ID"
  /\ (for_employee E r0 = true -> forall c, r c = r0 c).

(** The state of a loop that adds no row for [E] and leaves the rows of
    [E] alone. *)
Definition no_row_for (E : cell) (op0 : DataFrame) (st : loop_state) : Prop :=
  Forall2 (untouched E) op0 (fst st)
  /\ Forall (fun a => for_employee E a = false) (snd st).

(** A row of the plan after a pass, compared with the row at the same
    position before it: it is a row of the same employee, and a row tagged
    as missing from the plan keeps the tag. *)
Definition kept_row (r0 r : Series) : Prop :=
  key_eqb (r "Employee ID") (r0 "Employee ID") = true
  /\ (r0 "Role Status" = Str "Missing from Op FTE" ->
      r "Role Status" = Str "Missing from Op FTE").

(** Every row that [E] has in the plan is tagged as missing from it. *)
Definition only_missing (E : cell) (df : DataFrame) : Prop :=
  forall r, In r df -> for_employee E r = true -> r "Role Status" = Str "Missing from Op FTE".

(** The records of [E] in the two rosters: in the current one they are
    Security/FTE records, [E] has one, and the resource type is the same
    in the next one. *)
Definition steady (E : cell) (current_df next_df : DataFrame) : Prop :=
  isin E (employee_ids current_df) = true
  /\ (forall c, In c current_df -> for_employee E c = true ->
                c "Domain" = Str "Security" /\ c "FTE Category" = Str "FTE")
  /\ (forall c n, In c current_df -> In n next_df ->
                  for_employee E c = true -> for_employee E n = true ->
                  cell_eqb (c "Resource Type") (n "Resource Type") = true).

(** The state of the loop of a detector: the rows of the plan are kept,
    and, under the guard [G], no new entry is a row of [E]. *)
Definition keeps (G : Prop) (E : cell) (op0 : DataFrame) (st : loop_state) : Prop :=
  Forall2 kept_row op0 (fst st)
  /\ (G -> Forall (fun a => for_employee E a = false) (snd st)).

(** The plan returned by a pass: the rows it was given, at their
    positions, then the rows appended, none of them a row of [E] under the
    guard. *)
Definition extends (G : Prop) (E : cell) (op0 out : DataFrame) : Prop :=
  exists kept appended,
    out = kept ++ appended
    /\ Forall2 kept_row op0 kept
    /\ (G -> Forall (fun a => for_employee E a = false) appended).

(** The row at position [i] of the plan a pass was given is a row of the
    employee [id] that is not tagged as missing from the plan. *)
Definition matched_in (op0 : DataFrame) (id : cell) (i : nat) : Prop :=
  exists r0 : Series,
    op0 !! i = Some r0
    /\ cell_eqb (r0 "Employee ID") id = true
    /\ r0 "Role Status" <> Str "Missing from Op FTE".

(** The plan [out] returned by a pass still holds every row of the plan
    [op0] it was given: [out] is a frame of the same length as [op0], then
    the appended rows, and the row at a label of [op0] is still a row of the
    same employee. *)
Definition rows_kept (op0 out : DataFrame) : Prop :=
  exists kept appended : DataFrame,
    out = kept ++ appended
    /\ length kept = length op0
    /\ forall (i : nat) (r0 : Series),
         op0 !! i = Some r0 ->
         exists r : Series,
           out !! i = Some r
           /\ key_eqb (r "Employee ID") (r0 "Employee ID") = true.

(** ** Rows outside a matching policy *)

(** A row that the strict policy of the FTE sheet returns for no
    employee. *)
Definition outside_strict_fte (r : Series) : Prop :=
  forall id, employee_filtering_condition_fte_mask id r = false.

(** The same for the relaxed policy. *)
Definition outside_relaxed_fte (r : Series) : Prop :=
  forall id, shorten_filtering_condition_fte_mask id r = false.

(** The row [r], compared with the row [r0] a pass was given at the same
    label: when [r0] is locked, [r] holds what [r0] held. *)
Definition left_alone (lock : Series -> Prop) (r0 r : Series) : Prop :=
  lock r0 -> forall col, r col = r0 col.

(** Every locked row of [op0] is in [out], at its label, as it was. *)
Definition locked_rows_left_alone (lock : Series -> Prop) (op0 out : DataFrame) : Prop :=
  forall (i : nat) (r0 : Series),
    op0 !! i = Some r0 -> lock r0 ->
    exists r : Series, out !! i = Some r /\ forall col, r col = r0 col.

(** ** Formatted names *)

(** Every character of [s] satisfies [p]. *)
Fixpoint string_forall (p : ascii -> bool) (s : string) : bool :=
  match s with
  | EmptyString => true
  | String c s' => p c && string_forall p s'
  end.

(** A name as the two formatting functions leave it: no character of
    the class [cls], and no underscore at either end. *)
Definition formatted (cls : ascii -> bool) (s : string) : Prop :=
  string_forall (fun c => negb (cls c)) s = true
  /\ lstrip_underscore s = s
  /\ rstrip_underscore s = s.

(** ** modules/get_column_index.py *)

(** The worksheet is read through [ws[1]], its header row: the values of
    the cells, [NaN] for an empty one.  [idx] is the counter of
    [enumerate]. *)
Fixpoint get_column_index_from (idx : nat) (header : list cell) (column_name : string)
    : option nat :=
  match header with
  | [] => None
  | value :: rest =>
      if cell_eqb value (Str column_name) then Some (idx + 1)%nat
      else get_column_index_from (S idx) rest column_name
  end.

Definition get_column_index (header : list cell) (column_name : string) : option nat :=
  get_column_index_from 0 header column_name.

(** ** The columns a pass writes *)

(** The row [r], compared with the row [r0] a pass was given at the same
    label: the columns outside [cols] hold what they held. *)
Definition same_outside (cols : list string) (r0 r : Series) : Prop :=
  forall col, mem_string col cols = false -> r col = r0 col.

(** Every row of [op0] is in [out], at its label, and differs from what
    it was in the columns [cols] at most. *)
Definition changes_only (cols : list string) (op0 out : DataFrame) : Prop :=
  forall (i : nat) (r0 : Series),
    op0 !! i = Some r0 ->
    exists r : Series, out !! i = Some r /\ same_outside cols r0 r.

(** ** The Managed Services sheet: config/config_GUI.py *)

Definition OP_MS_COLUMNS : list string :=
  [ "Resource Type"; "Vendor Name"; "MS Daily Rate"; "Annualised FY24 Cost or (Stretch) $";
    "Resource Name"; "Employee ID"; "LANID"; "Role Type"; "Domain"; "Tech Area";
    "Planning Unit Country"; "Physical Location"; "Squad"; "Service"; "Asset"; "Product";
    "VEP Approval reference"; "Tech Financial Reform"; "T&M / FP"; "Start Date"; "End Date";
    "Comments"; "Free Input"; "Run %"; "Divisional Change %"; "Tech Projects %"; "Total %" ].

Definition COLUMN_MAPPING_MS : list (string * string) :=
  [ ("Employee ID", "Employee ID");
    ("Employee Group (Name)", "Resource Type");
    ("Username", "LANID");
    ("Position Title", "Role Type");
    ("ORG_HIER2_NAME", "Domain");
    ("ORG_HIER3_NAME", "Tech Area");
    ("Country (Label)", "Planning Unit Country") ].

Definition COLUMN_VALUES_MS : list (string * cell) :=
  [ ("MS Daily Rate", Str "-"); ("Annualised FY23 Cost or (Stretch) $", Str "-");
    ("Squad", Str "-"); ("Service", Str "-"); ("Asset", Str "-"); ("Product", Str "-");
    ("Tech Financial Reform", Str "Select Dropdown"); ("T&M / FP", Str "-");
    ("Comments", Str "-"); ("Free Input", Str "-"); ("Run %", Str "-");
    ("Divisional Change %", Str "-"); ("Tech Projects %", Str "-"); ("Total %", Str "-") ].

(** The columns of [current_df] and [next_df] once [load_data] of
    [MS_GUI.py] has renamed them: the pay grade and the FTE figure keep
    the names of the report. *)
Definition static_columns_ms : list string := rename_columns COLUMN_MAPPING_MS usecols.

(** ** modules/sanity_checks.py, the MS sheet *)

(** [sanity_checks_ms] has the statements of [sanity_checks_fte]; the
    columns of its inner loop, [next_df.columns], are those of the MS
    rosters, and the name it reads for its log lines is in
    [Resource Name]. *)
Definition sanity_checks_ms (op_columns : list string)
    (current_df next_df op_ms_df : DataFrame) : DataFrame :=
  fold_left
    (fun op_ms_df '(index, row) =>
       let employee_id := row "Employee ID" in
       let skip_status := row "Skip" in
       if cell_eqb skip_status (Str "Past")
       then
         let op_ms_df := at_set index "Tech Area" (format_tech_area (row "Tech Area")) op_ms_df in
         at_set index "Domain" (format_domain (row "Domain")) op_ms_df
       else if isna employee_id
               || negb (existsb (fun v => cell_eqb v employee_id) (employee_ids next_df))
       then op_ms_df
       else
         match List.filter (fun r => cell_eqb (r "Employee ID") employee_id) next_df with
         | [] => op_ms_df
         | next_row :: _ =>
             let source :=
               if cell_neb (next_row "Domain") (Str "Security")
               then match List.filter (fun r => cell_eqb (r "Employee ID") employee_id) current_df with
                    | [] => None
                    | current_row :: _ =>
                        if cell_neb (current_row "Domain") (Str "Security")
                        then None else Some current_row
                    end
               else Some next_row in
             match source with
             | None => op_ms_df
             | Some current_row =>
                 let op_ms_df :=
                   fold_left
                     (fun op_ms_df column =>
                        if mem_string column op_columns
                           && negb (String.eqb column "Planning Unit Country")
                        then
                          let original_value := row column in
                          let new_value := current_row column in
                          if notna new_value && cell_neb original_value new_value
                          then at_set index column new_value op_ms_df
                          else op_ms_df
                        else op_ms_df)
                     static_columns_ms op_ms_df in
                 let op_ms_df := at_set index "Tech Area"
                                   (format_tech_area (next_row "Tech Area")) op_ms_df in
                 at_set index "Domain" (format_domain (next_row "Domain")) op_ms_df
             end
         end)
    (iterrows op_ms_df) op_ms_df.

(** The writes of one round of the loop of the sanity pass, for the plan
    row [row] as [iterrows] gives it, on the row [r] that the frame holds
    at its label; [roster_columns] is [next_df.columns]. *)
Definition sanity_row (roster_columns op_columns : list string)
    (current_df next_df : DataFrame) (row r : Series) : Series :=
  let employee_id := row "Employee ID" in
  if cell_eqb (row "Skip") (Str "Past")
  then set "Domain" (format_domain (row "Domain"))
         (set "Tech Area" (format_tech_area (row "Tech Area")) r)
  else if isna employee_id
          || negb (existsb (fun v => cell_eqb v employee_id) (employee_ids next_df))
  then r
  else
    match List.filter (fun r => cell_eqb (r "Employee ID") employee_id) next_df with
    | [] => r
    | next_row :: _ =>
        let source :=
          if cell_neb (next_row "Domain") (Str "Security")
          then match List.filter (fun r => cell_eqb (r "Employee ID") employee_id) current_df with
               | [] => None
               | current_row :: _ =>
                   if cell_neb (current_row "Domain") (Str "Security")
                   then None else Some current_row
               end
          else Some next_row in
        match source with
        | None => r
        | Some current_row =>
            let r :=
              fold_left
                (fun r column =>
                   if mem_string column op_columns
                      && negb (String.eqb column "Planning Unit Country")
                   then
                     if notna (current_row column) && cell_neb (row column) (current_row column)
                     then set column (current_row column) r
                     else r
                   else r)
                roster_columns r in
            set "Domain" (format_domain (next_row "Domain"))
              (set "Tech Area" (format_tech_area (next_row "Tech Area")) r)
        end
    end.

(** ** identifier_functions_MS/identifier_MS_GUI.py *)

Definition other_columns_ms : list string :=
  List.filter (fun c => negb (String.eqb c "Employee ID")) static_columns_ms.

(** [row[col]] for a row of a frame merged from two MS rosters: as
    [mget], over the columns of the MS rosters. *)
Definition mget_ms (m : merged) : Series :=
  fun col =>
    if String.eqb col "Employee ID"
    then match left_row m with
         | Some r => r "Employee ID"
         | None => opt_get (right_row m) "Employee ID"
         end
    else if String.eqb col "_merge"
    then match left_row m, right_row m with
         | Some _, Some _ => Str "both"
         | Some _, None => Str "left_only"
         | None, _ => Str "right_only"
         end
    else
      match List.find (fun c => String.eqb col (c ++ "_current")%string) other_columns_ms with
      | Some c => opt_get (left_row m) c
      | None =>
          match List.find (fun c => String.eqb col (c ++ "_next")%string) other_columns_ms with
          | Some c => opt_get (right_row m) c
          | None => NaN
          end
      end.

(** The labels of a frame merged from two MS rosters with the suffixes
    [_current] and [_next], the indicator apart. *)
Definition in_merged_ms (col : string) : bool :=
  String.eqb col "Employee ID"
  || mem_string col ((fun c => (c ++ "_current")%string) <$> other_columns_ms)
  || mem_string col ((fun c => (c ++ "_next")%string) <$> other_columns_ms).

(** [row[col]] for a row with the labels [labels]: a label that the row
    does not have raises [KeyError]. *)
Definition getitem (labels : string -> bool) (row : Series) (col : string) : result cell :=
  if labels col then Ok (row col) else Raise.

Definition bind {A B : Type} (r : result A) (k : A -> result B) : result B :=
  match r with
  | Ok a => k a
  | Raise => Raise
  end.

Notation "'let*' x := r 'in' k" := (bind r (fun x => k))
  (at level 10, x name, r at level 200, k at level 200).

(** [for index, row in selected.iterrows(): ...] with a body that may
    raise. *)
Definition for_rows_result {R : Type} (selected : list R)
    (body : R -> loop_state -> result loop_state) (st : loop_state) : result loop_state :=
  fold_left (fun st row => bind st (body row)) selected (Ok st).

(** [pd.merge(rows, global_staff_df[['Employee ID', 'Vendor Name']],
    on='Employee ID', how='left')]: a row is repeated for every record of
    the staff list that has its id and carries the missing value when
    there is none.  With [indicator=True] the column [_merge] is added. *)
Definition merge_vendor (indicator : bool) (rows : list Series) (global_staff_df : DataFrame)
    : list Series :=
  let tag (v : string) (row : Series) : Series :=
    if indicator then set "_merge" (Str v) row else row in
  flat_map (fun row =>
              match matching (row "Employee ID") global_staff_df with
              | [] => [tag "left_only" (set "Vendor Name" NaN row)]
              | staff => (fun g => tag "both" (set "Vendor Name" (g "Vendor Name") row)) <$> staff
              end) rows.

(** The labels of a roster row with its vendor. *)
Definition joiner_labels (col : string) : bool :=
  mem_string col static_columns_ms || String.eqb col "Vendor Name".

(** The labels of a merged row with its vendor. *)
Definition merged_vendor_labels (indicator : bool) (col : string) : bool :=
  in_merged_ms col || String.eqb col "Vendor Name" || (indicator && String.eqb col "_merge").

Section DetectorsMS.

(** [datetime.now().date()] *)
Variable today : date.

(** [str(x)] for a number, a date or a timestamp. *)
Variable py_repr : cell -> string.

(** [int(s)] does not raise for the string [s]. *)
Variable int_parses : string -> bool.

(** The frame that [pd.read_excel(CONFIG['GLOBAL_STAFF_LIST'])] returns;
    the file is taken to be readable and to have the columns
    [Employee ID] and [Vendor Name]. *)
Variable global_staff_df : DataFrame.

(** The construction of a new plan row in [identify_new_joiners_ms],
    [identify_transfers_in_ms] and [identify_conversions_fte_to_cwr]:
    [new_entry] is the series the row starts from, [labels] the labels of
    [row], [suffix] the suffix of the roster columns it reads ([X] or
    [X_next]), and [with_id] tells whether the detector assigns the employee
    id after the mapping loop. *)
Definition build_entry_ms (labels : string -> bool) (row : Series)
    (new_entry : Series) (suffix : string) (with_id : bool)
    (start_date end_date role_status : cell) : result Series :=
  let new_entry :=
    fold_left (fun new_entry '(static_col, op_col) =>
                 if labels static_col
                 then set op_col (row static_col) new_entry
                 else new_entry)
              COLUMN_MAPPING_MS new_entry in
  let* v := getitem labels row "Legal First Name" in
  let first_name := name_part py_repr v in
  let* v := getitem labels row "Legal Surname" in
  let last_name := name_part py_repr v in
  let* v := getitem labels row ("Resource Type" ++ suffix) in
  let new_entry := set "Resource Type" v new_entry in
  let* v := getitem labels row "Vendor Name" in
  let new_entry := set "Vendor Name" v new_entry in
  let new_entry := set "Resource Name" (Str (first_name ++ " " ++ last_name)%string) new_entry in
  let* new_entry :=
    (if with_id
     then let* v := getitem labels row "Employee ID" in
          Ok (set "Employee ID" v new_entry)
     else Ok new_entry) in
  let* v := getitem labels row ("LANID" ++ suffix) in
  let new_entry := set "LANID" v new_entry in
  let* v := getitem labels row ("Role Type" ++ suffix) in
  let new_entry := set "Role Type" v new_entry in
  let* v := getitem labels row ("Domain" ++ suffix) in
  let new_entry := set "Domain" (format_domain v) new_entry in
  let* v := getitem labels row ("Tech Area" ++ suffix) in
  let new_entry := set "Tech Area" (format_tech_area v) new_entry in
  let* v := getitem labels row ("P Unit Country" ++ suffix) in
  let new_entry := set "P Unit Country" v new_entry in
  let* v := getitem labels row ("P Unit Country" ++ suffix) in
  let new_entry := set "Physical Location" v new_entry in
  let new_entry := set "Start Date" start_date new_entry in
  let new_entry := set "End Date" end_date new_entry in
  let new_entry := set "Role Status" role_status new_entry in
  Ok (set "Modified" (Boolean true) new_entry).


Definition identify_exits_ms (current_df next_df op_ms_df : DataFrame)
    (file_date : string * string) : DataFrame :=
  let '(end_date_str, _) := file_date in
  if String.eqb end_date_str "" then op_ms_df
  else
    match relabel end_date_str with
    | None => op_ms_df
    | Some file_date =>
        let current_security_cwr := employee_security_ms current_df in
        (* the right frame is [next_df[['Employee ID']]] *)
        let merged_df := merge_left current_security_cwr next_df in
        let exits :=
          List.filter (fun m => cell_eqb (mget_ms m "_merge") (Str "left_only")) merged_df in
        fst (for_rows exits
               (fun m '(op_ms_df, new_entries) =>
                  let row := mget_ms m in
                  let emp_indices := shorten_filtering_condition_ms op_ms_df (row "Employee ID") in
                  for_indices emp_indices
                    (fun emp_index '(op_ms_df, new_entries) =>
                       let op_ms_df := at_set emp_index "End Date" (Str file_date) op_ms_df in
                       let op_ms_df := at_set emp_index "Role Status" (Str "Exit") op_ms_df in
                       let op_ms_df := at_set emp_index "Modified" (Boolean true) op_ms_df in
                       (op_ms_df, new_entries))
                    (op_ms_df, new_entries))
               (op_ms_df, []))
    end.

(** The frame [new_joiners] of [identify_new_joiners_ms], with the
    vendors. *)
Definition new_joiners_ms (current_df next_df : DataFrame) : list Series :=
  let current_security_cwr := employee_security_ms current_df in
  let next_security_cwr := employee_security_ms next_df in
  let new_joiners_condition1 :=
    List.filter (fun r => negb (isin (r "Employee ID") (employee_ids current_df)))
                next_security_cwr in
  let current_ms_not_security :=
    List.filter (fun r => cell_neb (r "Domain") (Str "Security")
                          && cell_eqb (r "FTE Category") (Str "FTE"))
                current_security_cwr in
  let new_joiners_condition2 :=
    List.filter (fun r => isin (r "Employee ID") (employee_ids current_ms_not_security))
                next_security_cwr in
  let new_joiners := new_joiners_condition1 ++ new_joiners_condition2 in
  merge_vendor false new_joiners global_staff_df.

(** The new row starts from [pd.Series(CONFIG['COLUMN_VALUES_FTE'],
    index=CONFIG['OP_MS_COLUMNS'])]. *)
Definition identify_new_joiners_ms (current_df next_df op_ms_df : DataFrame)
    (file_date : string * string) : result DataFrame :=
  let '(_, start_date_str) := file_date in
  match relabel start_date_str with
  | None => Ok op_ms_df
  | Some first_day_of_static_month =>
      let eofy := eofy_label today in
      let new_joiners := new_joiners_ms current_df next_df in
      let* st := for_rows_result new_joiners
              (fun row '(op_ms_df, new_entries) =>
                 let emp_indices := employee_filtering_condition_ms op_ms_df (row "Employee ID") in
                 if negb (is_empty emp_indices)
                 then
                   Ok (for_indices emp_indices
                         (fun emp_index '(op_ms_df, new_entries) =>
                            let op_ms_df := at_set emp_index "Role Status" (Str "New Hired") op_ms_df in
                            let op_ms_df := at_set emp_index "Modified" (Boolean true) op_ms_df in
                            (op_ms_df, new_entries))
                         (op_ms_df, new_entries))
                 else
                   let* new_entry := build_entry_ms joiner_labels row
                                  (series_of_dict COLUMN_VALUES_FTE OP_MS_COLUMNS) "" true
                                  (Str first_day_of_static_month) (Str eofy) (Str "New Hired") in
                   Ok (op_ms_df, new_entries ++ [new_entry]))
              (op_ms_df, []) in
      let '(op_ms_df, new_entries) := st in
      Ok (add_new_entries_ms op_ms_df new_entries)
  end.

(** The frame [transfers_in] of [identify_transfers_in_ms], with the
    vendors. *)
Definition transfers_in_ms (current_df next_df : DataFrame) : list Series :=
  let next_security_cwr := employee_security_ms next_df in
  let merged_df := merge_inner current_df next_security_cwr in
  let transfers_in :=
    List.filter (fun m => let row := mget_ms m in
                          cell_neb (row "Domain_current") (Str "Security")
                          && cell_eqb (row "FTE Category_current") (Str "Non-FTE"))
                merged_df in
  merge_vendor true (mget_ms <$> transfers_in) global_staff_df.

(** The new row starts from [pd.Series(index=CONFIG['OP_MS_COLUMNS'])]. *)
Definition identify_transfers_in_ms (current_df next_df op_ms_df : DataFrame)
    (file_date : string * string) : result DataFrame :=
  let '(_, start_date_str) := file_date in
  match relabel start_date_str with
  | None => Ok op_ms_df
  | Some first_day_of_static_month =>
      let eofy := eofy_label today in
      let transfers_in := transfers_in_ms current_df next_df in
      let* st := for_rows_result transfers_in
              (fun row '(op_ms_df, new_entries) =>
                 let emp_indices := employee_filtering_condition_ms op_ms_df (row "Employee ID") in
                 if negb (is_empty emp_indices)
                 then
                   Ok (for_indices emp_indices
                         (fun emp_index '(op_ms_df, new_entries) =>
                            let op_ms_df := at_set emp_index "Role Status" (Str "Transfer In") op_ms_df in
                            let op_ms_df := at_set emp_index "Modified" (Boolean true) op_ms_df in
                            (op_ms_df, new_entries))
                         (op_ms_df, new_entries))
                 else
                   let* new_entry := build_entry_ms (merged_vendor_labels true) row
                                  (series_of_dict [] OP_MS_COLUMNS) "_next" true
                                  (Str first_day_of_static_month) (Str eofy) (Str "Transfer In") in
                   Ok (op_ms_df, new_entries ++ [new_entry]))
              (op_ms_df, []) in
      let '(op_ms_df, new_entries) := st in
      Ok (add_new_entries_ms op_ms_df new_entries)
  end.

Definition identify_transfers_out_ms (current_df next_df op_ms_df : DataFrame)
    (file_date : string * string) : DataFrame :=
  let '(end_date_str, _) := file_date in
  match relabel end_date_str with
  | None => op_ms_df
  | Some last_day_of_op_month =>
      let current_security_cwr := employee_security_ms current_df in
      let merged_df := merge_left current_security_cwr next_df in
      let transfers_out :=
        List.filter (fun m => let row := mget_ms m in
                              cell_neb (row "Domain_next") (Str "Security")
                              && cell_eqb (row "FTE Category_next") (Str "Non-FTE")
                              && cell_eqb (row "_merge") (Str "both"))
                    merged_df in
      fst (for_rows transfers_out
             (fun m '(op_ms_df, new_entries) =>
                let row := mget_ms m in
                let emp_indices := employee_filtering_condition_ms op_ms_df (row "Employee ID") in
                for_indices emp_indices
                  (fun emp_index '(op_ms_df, new_entries) =>
                     let op_ms_df := at_set emp_index "End Date" (Str last_day_of_op_month) op_ms_df in
                     let op_ms_df := at_set emp_index "Role Status" (Str "Transfer Out") op_ms_df in
                     let op_ms_df := at_set emp_index "Modified" (Boolean true) op_ms_df in
                     (op_ms_df, new_entries))
                  (op_ms_df, new_entries))
             (op_ms_df, []))
  end.

Definition identify_internal_mobility_ms (current_df next_df op_ms_df : DataFrame)
    (file_date : string * string) : DataFrame :=
  let '(end_date_str, start_date_str) := file_date in
  match relabel end_date_str, relabel start_date_str with
  | Some last_day_of_op_month, Some first_day_of_static_month =>
      let eofy := eofy_label today in
      let current_security_ms := employee_security_ms current_df in
      let next_security_ms := employee_security_ms next_df in
      let merged_df := merge_inner current_security_ms next_security_ms in
      let internal_mobility :=
        List.filter (fun m => let row := mget_ms m in
                              cell_eqb (row "Resource Type_current") (row "Resource Type_next")
                              && cell_neb (row "Tech Area_current") (row "Tech Area_next"))
                    merged_df in
      let internal_mobility := merge_vendor false (mget_ms <$> internal_mobility) global_staff_df in
      let '(op_ms_df, new_entries) :=
        for_rows internal_mobility
          (fun row '(op_ms_df, new_entries) =>
             let emp_indices := employee_filtering_condition_ms op_ms_df (row "Employee ID") in
             if negb (is_empty emp_indices)
             then
               (* the [for] loop with its [break]; [emp_index] keeps its
                  last value when the loop is left *)
               let '(processed_internal_mobility, emp_index) :=
                 fold_left
                   (fun '((processed, last_index) : bool * nat) emp_index =>
                      if processed then (processed, last_index)
                      else if negb (is_empty (existing_entries op_ms_df (row "Employee ID")
                                                "Tech Area" (row "Tech Area_next") eofy))
                           then (true, emp_index)
                           else (false, emp_index))
                   emp_indices (false, 0%nat) in
               if negb processed_internal_mobility
               then
                 let op_ms_df := at_set emp_index "Tech Area"
                                   (format_tech_area (row "Tech Area_current")) op_ms_df in
                 let op_ms_df := at_set emp_index "End Date" (Str last_day_of_op_month) op_ms_df in
                 let op_ms_df := at_set emp_index "Role Status" (Str "Not Current") op_ms_df in
                 let op_ms_df := at_set emp_index "Modified" (Boolean true) op_ms_df in
                 let new_entry := loc emp_index op_ms_df in
                 let new_entry := set "Role Type" (row "Role Type_next") new_entry in
                 let new_entry := set "Tech Area" (format_tech_area (row "Tech Area_next")) new_entry in
                 let new_entry := set "Start Date" (Str first_day_of_static_month) new_entry in
                 let new_entry := set "End Date" (Str eofy) new_entry in
                 let new_entry := set "Role Status" (Str "Internal Mobility") new_entry in
                 let new_entry := set "Modified" (Boolean true) new_entry in
                 (op_ms_df, new_entries ++ [new_entry])
               else (op_ms_df, new_entries)
             else (op_ms_df, new_entries))
          (op_ms_df, []) in
      add_new_entries_ms op_ms_df new_entries
  | _, _ => op_ms_df
  end.

(** The frame [conversions_to_cwr] of [identify_conversions_fte_to_cwr]
    of the MS module, with the vendors. *)
Definition conversions_to_cwr_ms (current_df next_df : DataFrame) : list Series :=
  let next_security_cwr := employee_security_ms next_df in
  let merged_df := merge_inner current_df next_security_cwr in
  let conversions_to_cwr :=
    List.filter (fun m => let row := mget_ms m in
                          cell_eqb (row "Domain_current") (Str "Security")
                          && cell_eqb (row "FTE Category_current") (Str "FTE"))
                merged_df in
  merge_vendor false (mget_ms <$> conversions_to_cwr) global_staff_df.

(** [identify_conversions_fte_to_cwr] of the MS module.  For an employee
    with rows in the plan the loop over the rows only logs; the new row
    starts from [pd.Series(CONFIG['COLUMN_VALUES_MS'],
    index=CONFIG['OP_MS_COLUMNS'])]. *)
Definition identify_conversions_fte_to_cwr_ms (current_df next_df op_ms_df : DataFrame)
    (file_date : string * string) : result DataFrame :=
  let '(_, start_date_str) := file_date in
  match relabel start_date_str with
  | None => Ok op_ms_df
  | Some first_day_of_static_month =>
      let eofy := eofy_label today in
      let conversions_to_cwr := conversions_to_cwr_ms current_df next_df in
      let* st := for_rows_result conversions_to_cwr
              (fun row '(op_ms_df, new_entries) =>
                 let emp_indices := employee_filtering_condition_ms op_ms_df (row "Employee ID") in
                 if negb (is_empty emp_indices)
                 then
                   Ok (for_indices emp_indices
                         (fun emp_index '(op_ms_df, new_entries) =>
                            if negb (is_empty (existing_entries op_ms_df (row "Employee ID")
                                                 "Resource Type" (row "Resource Type_next") eofy))
                            then (op_ms_df, new_entries)
                            else (op_ms_df, new_entries))
                         (op_ms_df, new_entries))
                 else
                   let* new_entry := build_entry_ms (merged_vendor_labels false) row
                                  (series_of_dict COLUMN_VALUES_MS OP_MS_COLUMNS) "_next" false
                                  (Str first_day_of_static_month) (Str eofy)
                                  (Str "Conversion to MS") in
                   Ok (op_ms_df, new_entries ++ [new_entry]))
              (op_ms_df, []) in
      let '(op_ms_df, new_entries) := st in
      Ok (add_new_entries_ms op_ms_df new_entries)
  end.

(** [identify_conversions_cwr_to_fte] of the MS module. *)
Definition identify_conversions_cwr_to_fte_ms (current_df next_df op_ms_df : DataFrame)
    (file_date : string * string) : DataFrame :=
  let '(end_date_str, _) := file_date in
  match relabel end_date_str with
  | None => op_ms_df
  | Some last_day_of_op_month =>
      let current_security_cwr := employee_security_ms current_df in
      let merged_df := merge_inner current_security_cwr next_df in
      let conversions_to_cwr :=
        List.filter (fun m => let row := mget_ms m in
                              cell_eqb (row "Domain_current") (Str "Security")
                              && cell_eqb (row "FTE Category_current") (Str "Non-FTE")
                              && cell_eqb (row "Domain_next") (Str "Security")
                              && cell_eqb (row "FTE Category_next") (Str "FTE"))
                    merged_df in
      fst (for_rows conversions_to_cwr
             (fun m '(op_ms_df, new_entries) =>
                let row := mget_ms m in
                let emp_indices := employee_filtering_condition_ms op_ms_df (row "Employee ID") in
                for_indices emp_indices
                  (fun emp_index '(op_ms_df, new_entries) =>
                     let op_ms_df := at_set emp_index "Resource Type"
                                       (row "Resource Type_current") op_ms_df in
                     let op_ms_df := at_set emp_index "Employee ID" (row "Employee ID") op_ms_df in
                     let op_ms_df := at_set emp_index "End Date" (Str last_day_of_op_month) op_ms_df in
                     let op_ms_df := at_set emp_index "Role Status"
                                       (conversion_label py_repr (row "Resource Type_current")
                                          (row "Resource Type_next")) op_ms_df in
                     let op_ms_df := at_set emp_index "Modified" (Boolean true) op_ms_df in
                     (op_ms_df, new_entries))
                  (op_ms_df, new_entries))
             (op_ms_df, []))
  end.

(** As in the FTE detector, the message logged for a matched row formats
    [int(...)] of the two supervisor ids. *)
Definition identify_line_manager_changes_ms (current_df next_df op_ms_df : DataFrame)
    (file_date : string * string) : result DataFrame :=
  let current_security_ms := employee_security_ms current_df in
  let next_security_ms := employee_security_ms next_df in
  let merged_df := merge_inner current_security_ms next_security_ms in
  let line_manager_changes :=
    List.filter (fun m => let row := mget_ms m in
                          cell_neb (row "Supervisor Employee ID_current")
                                   (row "Supervisor Employee ID_next"))
                merged_df in
  fold_left
    (fun st m =>
       match st with
       | Raise => Raise
       | Ok op_ms_df =>
           let row := mget_ms m in
           let emp_indices := shorten_filtering_condition_ms op_ms_df (row "Employee ID") in
           fold_left
             (fun st emp_index =>
                match st with
                | Raise => Raise
                | Ok op_ms_df =>
                    let op_ms_df := at_set emp_index "Modified" (Boolean true) op_ms_df in
                    let op_ms_df :=
                      at_set emp_index "Line Manager"
                        (Str (py_str py_repr (row "Supervisor Legal First Name_next") ++ " "
                              ++ py_str py_repr (row "Supervisor Legal Surname_next"))%string)
                        op_ms_df in
                    if int_ok int_parses (row "Supervisor Employee ID_current")
                       && int_ok int_parses (row "Supervisor Employee ID_next")
                    then Ok op_ms_df
                    else Raise
                end)
             emp_indices (Ok op_ms_df)
       end)
    line_manager_changes (Ok op_ms_df).

(** The filter selects the columns [P Unit Country_current] and
    [P Unit Country_next] of the merged frame: [merged_df[col]] raises
    [KeyError] for a label that the frame does not have. *)
Definition identify_location_changes_ms (current_df next_df op_ms_df : DataFrame)
    (file_date : string * string) : result DataFrame :=
  let '(end_date_str, start_date_str) := file_date in
  match relabel end_date_str, relabel start_date_str with
  | Some last_day_of_op_month, Some first_day_of_static_month =>
      let eofy := eofy_label today in
      let current_security_ms := employee_security_ms current_df in
      let next_security_ms := employee_security_ms next_df in
      let merged_df := merge_inner current_security_ms next_security_ms in
      if negb (forallb in_merged_ms
                 [ "Resource Type_current"; "Resource Type_next";
                   "P Unit Country_current"; "P Unit Country_next" ])
      then Raise
      else
        let location_changes :=
          List.filter (fun m => let row := mget_ms m in
                                cell_eqb (row "Resource Type_current") (row "Resource Type_next")
                                && cell_neb (row "P Unit Country_current")
                                            (row "P Unit Country_next"))
                      merged_df in
        let '(op_ms_df, new_entries) :=
          for_rows location_changes
            (fun m '(op_ms_df, new_entries) =>
               let row := mget_ms m in
               let emp_indices := shorten_filtering_condition_ms op_ms_df (row "Employee ID") in
               for_indices emp_indices
                 (fun emp_index '(op_ms_df, new_entries) =>
                    let op_ms_df := at_set emp_index "Physical Location"
                                      (row "P Unit Country_current") op_ms_df in
                    let op_ms_df := at_set emp_index "End Date" (Str last_day_of_op_month) op_ms_df in
                    let op_ms_df := at_set emp_index "Role Status" (Str "Not Current") op_ms_df in
                    let op_ms_df := at_set emp_index "Modified" (Boolean true) op_ms_df in
                    let new_entry := loc emp_index op_ms_df in
                    let new_entry := set "Physical Location" (row "P Unit Country_next") new_entry in
                    let new_entry := set "Start Date" (Str first_day_of_static_month) new_entry in
                    let new_entry := set "End Date" (Str eofy) new_entry in
                    let new_entry := set "Role Status" (Str "Location Change") new_entry in
                    let new_entry := set "Modified" (Boolean true) new_entry in
                    (op_ms_df, new_entries ++ [new_entry]))
                 (op_ms_df, new_entries))
            (op_ms_df, []) in
        Ok (add_new_entries_ms op_ms_df new_entries)
  | _, _ => Ok op_ms_df
  end.

(** *** modules/missing_employees.py, the MS sheet *)

(** The frame [missing_entries] of [identify_missing_employees_ms], with
    the vendors.  The two resource types are turned into strings as in the
    FTE pass. *)
Definition missing_entries_ms (current_df next_df op_ms_df : DataFrame) : list Series :=
  let current_security_ms := employee_security_ms current_df in
  let next_security_ms := employee_security_ms next_df in
  let merged_df := merge_outer current_security_ms next_security_ms in
  let merged_df :=
    (fun m => mk_merged
                ((fun r => set "Resource Type" (Str (py_str py_repr (r "Resource Type"))) r)
                   <$> left_row m)
                ((fun r => set "Resource Type" (Str (py_str py_repr (r "Resource Type"))) r)
                   <$> right_row m))
      <$> merged_df in
  let missing_entries :=
    List.filter
      (fun m =>
         let row := mget_ms m in
         let in_op := isin (row "Employee ID") (employee_ids op_ms_df) in
         (cell_neb (row "_merge") (Str "right_only") && negb in_op)
         || (cell_eqb (row "_merge") (Str "left_only") && negb in_op))
      merged_df in
  merge_vendor false (mget_ms <$> missing_entries) global_staff_df.

(** The row built for a missing employee; every label it reads is a label
    of the merged row. *)
Definition missing_entry_ms (row : Series) : Series :=
  let new_entry := series_of_dict COLUMN_VALUES_MS OP_MS_COLUMNS in
  let new_entry :=
    fold_left (fun new_entry '(static_col, op_col) =>
                 if merged_vendor_labels false static_col
                 then set op_col (row static_col) new_entry
                 else new_entry)
              COLUMN_MAPPING_MS new_entry in
  let first_name := name_part py_repr (row "Legal First Name_current") in
  let last_name := name_part py_repr (row "Legal Surname_current") in
  let new_entry := set "Resource Type" (row "Resource Type_current") new_entry in
  let new_entry := set "Resource Name" (Str (first_name ++ " " ++ last_name)%string) new_entry in
  let new_entry := set "Vendor Name" (row "Vendor Name") new_entry in
  let new_entry := set "Employee ID" (row "Employee ID") new_entry in
  let new_entry := set "LANID" (row "LANID_current") new_entry in
  let new_entry := set "Role Type" (row "Role Type_current") new_entry in
  let new_entry := set "Domain" (format_domain (row "Domain_current")) new_entry in
  let new_entry := set "Tech Area" (format_tech_area (row "Tech Area_current")) new_entry in
  let new_entry := set "Planning Unit Country" (row "Planning Unit Country_current") new_entry in
  let new_entry := set "Start Date" (Str "-") new_entry in
  let new_entry := set "End Date" (Str "-") new_entry in
  let new_entry := set "Role Status" (Str "Missing from Op MS") new_entry in
  set "Modified" (Boolean true) new_entry.

Definition identify_missing_employees_ms (current_df next_df op_ms_df : DataFrame) : DataFrame :=
  let missing_entries := missing_entries_ms current_df next_df op_ms_df in
  let new_entries := missing_entry_ms <$> missing_entries in
  add_new_entries_ms op_ms_df new_entries.

End DetectorsMS.

(** ** MS_GUI.py *)

(** [merge_data_ms] leaves the rosters as they are and initialises two
    columns of the plan. *)
Definition merge_data_ms (op_ms_df : DataFrame) : DataFrame :=
  let op_ms_df := set_column "Modified" (Str "") op_ms_df in
  set_column "Line Manager" (Str "") op_ms_df.

Section DriverMS.

(** [datetime.now().date()] *)
Variable today : date.

(** [str(x)] for a number, a date or a timestamp. *)
Variable py_repr : cell -> string.

(** [int(s)] does not raise for the string [s]. *)
Variable int_parses : string -> bool.

(** [pd.to_datetime(_, errors='coerce')] on one value. *)
Variable to_datetime : cell -> option (date * Z).

(** The frame read from [CONFIG['GLOBAL_STAFF_LIST']]. *)
Variable global_staff_df : DataFrame.

Definition scenario_functions_ms
  : list (DataFrame -> DataFrame -> DataFrame -> string * string -> result DataFrame) :=
  let total f := fun c n op fd => Ok (f c n op fd) in
  [ total (identify_exits_ms);
    identify_new_joiners_ms today py_repr global_staff_df;
    identify_transfers_in_ms today py_repr global_staff_df;
    total (identify_transfers_out_ms);
    identify_conversions_fte_to_cwr_ms today py_repr global_staff_df;
    total (identify_conversions_cwr_to_fte_ms py_repr);
    total (identify_internal_mobility_ms today global_staff_df);
    identify_line_manager_changes_ms py_repr int_parses;
    identify_location_changes_ms today ].

(** [process_ms] from the loaded frames to the frame handed to
    [save_data], with the conventions of [process_fte]. *)
Definition process_ms (static_file : string) (op_columns : list string)
    (current_df next_df op_ms_df : DataFrame) : result DataFrame :=
  match initiate_skip_column_ms static_file op_ms_df with
  | Raise => Raise
  | Ok op_ms_df =>
      let op_ms_df := identify_missing_employees_ms py_repr global_staff_df
                        current_df next_df op_ms_df in
      let op_ms_df := check_and_mark_fulfilled_ms to_datetime current_df next_df op_ms_df in
      let op_ms_df := sanity_checks_ms op_columns current_df next_df op_ms_df in
      match extract_date_from_filename static_file with
      | Ok (Some file_date) =>
          let op_ms_df := merge_data_ms op_ms_df in
          run_scenarios scenario_functions_ms current_df next_df file_date op_ms_df
      | _ => Raise
      end
  end.

End DriverMS.

(** ** The rows the MS detectors select again *)

(** The row [r], compared with the row [r0] that a detector was given at
    the same label: it differs in the columns [cols] at most, and the
    strict MS policy selects it for the same employees. *)
Definition same_for_strict_ms (cols : list string) (r0 r : Series) : Prop :=
  same_outside cols r0 r
  /\ forall id, employee_filtering_condition_ms_mask id r
                = employee_filtering_condition_ms_mask id r0.

(** A row that the strict policy of the MS sheet returns for no
    employee. *)
Definition outside_strict_ms (r : Series) : Prop :=
  forall id, employee_filtering_condition_ms_mask id r = false.

(** The same for the relaxed policy. *)
Definition outside_relaxed_ms (r : Series) : Prop :=
  forall id, shorten_filtering_condition_ms_mask id r = false.

(** ** Rows of the same employee *)

(** The row [r] is a row of the employee of the row [r0]. *)
Definition same_employee (r0 r : Series) : Prop :=
  key_eqb (r "Employee ID") (r0 "Employee ID") = true.

(** ** The rows a pass appends *)

(** Every row of [out] at a label that the plan [op0] did not have holds
    [v] as End Date. *)
Definition new_rows_end (v : cell) (op0 out : DataFrame) : Prop :=
  forall (i : nat) (r : Series),
    (length op0 <= i)%nat -> out !! i = Some r -> r "End Date" = v.

(** * Properties *)

(** ** Cells *)

Lemma cell_eqb_Str (c : cell) (s : string) : cell_eqb c (Str s) = true <-> c = Str s.
Proof.
  destruct c; simpl; try (split; [discriminate | discriminate]).
  rewrite String.eqb_eq. split; [intros -> | intros [= ->]]; reflexivity.
Qed.

Lemma cell_neb_Str (c : cell) (s : string) : cell_neb c (Str s) = true <-> c <> Str s.
Proof.
  unfold cell_neb. rewrite negb_true_iff, <- not_true_iff_false, cell_eqb_Str. reflexivity.
Qed.

Lemma notna_true (c : cell) : notna c = true <-> c <> NaN.
Proof. destruct c; simpl; split; (discriminate || congruence || auto). Qed.

Lemma date_eqb_eq (a b : date) : date_eqb a b = true <-> a = b.
Proof.
  destruct a, b; unfold date_eqb; simpl.
  rewrite !andb_true_iff, !Z.eqb_eq. split.
  - intros [[-> ->] ->]; reflexivity.
  - intros [= -> -> ->]; auto.
Qed.

Lemma cell_eqb_sym (a b : cell) : cell_eqb a b = cell_eqb b a.
Proof.
  destruct a, b; simpl; try reflexivity.
  - apply String.eqb_sym.
  - apply eq_true_iff_eq. rewrite !Qeq_bool_iff. split; intros H; symmetry; exact H.
  - apply eq_true_iff_eq. rewrite !Qeq_bool_iff. split; intros H; symmetry; exact H.
  - apply eq_true_iff_eq. rewrite !Qeq_bool_iff. split; intros H; symmetry; exact H.
  - destruct b0, b; reflexivity.
  - apply eq_true_iff_eq. rewrite !date_eqb_eq. split; congruence.
  - apply eq_true_iff_eq. rewrite !andb_true_iff, !date_eqb_eq, !Z.eqb_eq.
    split; intros [-> ->]; auto.
Qed.

Lemma b2z_Qeq (b b' : bool) :
  (inject_Z (Z.b2z b) == inject_Z (Z.b2z b'))%Q <-> Bool.eqb b b' = true.
Proof. destruct b, b'; unfold Qeq; simpl; split; (discriminate || reflexivity). Qed.

(** [==] seen through the value that decides it. *)
Lemma cell_eqb_trans (a b c : cell) :
  cell_eqb a b = true -> cell_eqb b c = true -> cell_eqb a c = true.
Proof.
  destruct a, b; simpl; try discriminate; destruct c; simpl; try discriminate;
    rewrite <- ?b2z_Qeq, ?String.eqb_eq, ?Qeq_bool_iff, ?date_eqb_eq, ?andb_true_iff,
      ?date_eqb_eq, ?Z.eqb_eq;
    try (intros H1 H2; rewrite H1; exact H2);
    try congruence.
  intros [-> ->] [-> ->]; auto.
Qed.

(** ** Frames *)

Lemma index_from_spec (p : Series -> bool) (df : DataFrame) (k i : nat) :
  In i (index_from p k df)
  <-> exists r, (k <= i)%nat /\ df !! (i - k)%nat = Some r /\ p r = true.
Proof.
  revert k. induction df as [|x df IH]; intros k; simpl.
  - split; [intros [] | intros (r & _ & H & _); discriminate].
  - assert (Hrec : In i (index_from p (S k) df)
                   <-> exists r, (k < i)%nat /\ df !! (i - S k)%nat = Some r /\ p r = true).
    { rewrite IH. split; intros (r & ? & ? & ?); exists r; repeat split; auto; lia. }
    destruct (p x) eqn:Hp; simpl; rewrite Hrec; split.
    + intros [<- | (r & Hlt & Hr & Hpr)].
      * exists x. rewrite Nat.sub_diag. auto.
      * exists r. repeat split; [lia | | exact Hpr].
        replace (i - k)%nat with (S (i - S k)) by lia. exact Hr.
    + intros (r & Hle & Hr & Hpr).
      destruct (Nat.eq_dec k i) as [-> | Hne]; [left; reflexivity | right].
      exists r. repeat split; [lia | | exact Hpr].
      replace (i - k)%nat with (S (i - S k)) in Hr by lia. exact Hr.
    + intros (r & Hlt & Hr & Hpr).
      exists r. repeat split; [lia | | exact Hpr].
      replace (i - k)%nat with (S (i - S k)) by lia. exact Hr.
    + intros (r & Hle & Hr & Hpr).
      destruct (Nat.eq_dec k i) as [-> | Hne].
      * rewrite Nat.sub_diag in Hr. simpl in Hr. injection Hr as ->. congruence.
      * exists r. repeat split; [lia | | exact Hpr].
        replace (i - k)%nat with (S (i - S k)) in Hr by lia. exact Hr.
Qed.

Lemma index_where_spec (p : Series -> bool) (df : DataFrame) (i : nat) :
  In i (index_where p df) <-> exists r, df !! i = Some r /\ p r = true.
Proof.
  unfold index_where. rewrite index_from_spec. rewrite Nat.sub_0_r.
  split; [intros (r & _ & H) | intros (r & H)]; exists r; [exact H | split; [lia | exact H]].
Qed.

Lemma index_where_ext (p q : Series -> bool) (df : DataFrame) :
  (forall r, In r df -> p r = q r) -> index_where p df = index_where q df.
Proof.
  unfold index_where. generalize 0%nat. induction df as [|x df IH]; intros k H; simpl.
  - reflexivity.
  - rewrite (H x) by (left; reflexivity).
    rewrite (IH (S k)) by (intros r Hr; apply H; right; exact Hr). reflexivity.
Qed.

Lemma set_same (col : string) (v : cell) (r : Series) : set col v r col = v.
Proof. unfold set. rewrite String.eqb_refl. reflexivity. Qed.

Lemma set_other (col col' : string) (v : cell) (r : Series) :
  col <> col' -> set col v r col' = r col'.
Proof. unfold set. intros H. apply String.eqb_neq in H. rewrite H. reflexivity. Qed.

Lemma length_at_set (i : nat) (col : string) (v : cell) (df : DataFrame) :
  length (at_set i col v df) = length df.
Proof. apply length_alter. Qed.

Lemma lookup_at_set (i j : nat) (col : string) (v : cell) (df : DataFrame) :
  at_set i col v df !! j
  = if Nat.eqb i j then set col v <$> df !! j else df !! j.
Proof.
  unfold at_set. destruct (Nat.eqb_spec i j) as [-> | Hne].
  - apply list_lookup_alter_eq.
  - apply list_lookup_alter_ne. exact Hne.
Qed.

(** ** The matching policies *)

Lemma strict_mask_fte_row (id : cell) (r : Series) :
  employee_filtering_condition_fte_mask id r = true ->
  strict_row_fte r /\ cell_eqb (r "Employee ID") id = true.
Proof.
  unfold employee_filtering_condition_fte_mask, strict_row_fte.
  rewrite !andb_true_iff, !cell_neb_Str, !notna_true, negb_true_iff. tauto.
Qed.

Lemma strict_mask_ms_row (id : cell) (r : Series) :
  employee_filtering_condition_ms_mask id r = true ->
  strict_row_ms r /\ cell_eqb (r "Employee ID") id = true.
Proof.
  unfold employee_filtering_condition_ms_mask, strict_row_ms.
  rewrite !andb_true_iff, !cell_neb_Str, !notna_true. tauto.
Qed.

Lemma strict_mask_fte_relaxed (id : cell) (r : Series) :
  employee_filtering_condition_fte_mask id r = true ->
  shorten_filtering_condition_fte_mask id r = true.
Proof.
  unfold employee_filtering_condition_fte_mask, shorten_filtering_condition_fte_mask.
  rewrite !andb_true_iff. tauto.
Qed.

Lemma strict_mask_ms_relaxed (id : cell) (r : Series) :
  employee_filtering_condition_ms_mask id r = true ->
  r "Resource Type" <> Str "Stretch" ->
  cell_contains "Vacant" (r "Resource Name") = false ->
  shorten_filtering_condition_ms_mask id r = true.
Proof.
  unfold employee_filtering_condition_ms_mask, shorten_filtering_condition_ms_mask.
  rewrite !andb_true_iff, !cell_neb_Str, negb_true_iff. tauto.
Qed.




(** On the FTE sheet every row the strict policy returns is returned by
    the relaxed policy; on the MS sheet this is so for the rows that are
    neither stretch rows nor vacant. *)
Theorem strict_subset_relaxed (df : DataFrame) (employee_id : cell) (i : nat) :
  (In i (employee_filtering_condition_fte df employee_id) ->
   In i (shorten_filtering_condition_fte df employee_id))
  /\ (forall r : Series, df !! i = Some r ->
                r "Resource Type" <> Str "Stretch" ->
                cell_contains "Vacant" (r "Resource Name") = false ->
                In i (employee_filtering_condition_ms df employee_id) ->
                In i (shorten_filtering_condition_ms df employee_id)).
Proof.
  split.
  - intros Hin. apply index_where_spec in Hin as (r & Hr & Hp).
    apply index_where_spec. exists r. split; [exact Hr |].
    apply strict_mask_fte_relaxed. exact Hp.
  - intros r Hr Hs Hv Hin. apply index_where_spec in Hin as (r' & Hr' & Hp).
    apply index_where_spec. exists r'. split; [exact Hr' |].
    assert (r' = r) as -> by congruence.
    apply strict_mask_ms_relaxed; assumption.
Qed.

Lemma strict_subset_relaxed_witness :
  In 1%nat (employee_filtering_condition_fte Fixture.fte_plan (Fixture.emp 1001))
  /\ In 1%nat (shorten_filtering_condition_fte Fixture.fte_plan (Fixture.emp 1001)).
Proof.
  assert (H : In 1%nat (employee_filtering_condition_fte Fixture.fte_plan (Fixture.emp 1001))).
  { vm_compute. left. reflexivity. }
  split; [exact H |].
  exact (proj1 (strict_subset_relaxed Fixture.fte_plan (Fixture.emp 1001) 1%nat) H).
Defined.

(** On the MS sheet a stretch row is returned by the strict policy and
    not by the relaxed one. *)
Lemma strict_ms_not_subset_relaxed :
  ~ (forall (df : DataFrame) (employee_id : cell) (i : nat),
        In i (employee_filtering_condition_ms df employee_id) ->
        In i (shorten_filtering_condition_ms df employee_id)).
Proof.
  intros H.
  assert (Hin : In 0%nat (employee_filtering_condition_ms Fixture.ms_stretch_plan (Fixture.emp 1001))).
  { vm_compute. left. reflexivity. }
  apply H in Hin. vm_compute in Hin. exact Hin.
Qed.

(** ** The financial-year end *)

(** [get_eofy] is the first of September: of the current year up to and
    including September, of the next year after it. *)
Lemma get_eofy_september (today : date) :
  get_eofy today
  = mk_date (if month today <=? 9 then year today else year today + 1) 9 1.
Proof.
  unfold get_eofy. destruct (Z.ltb_spec 9 (month today)), (Z.leb_spec (month today) 9);
    (reflexivity || lia).
Qed.

(** ** Loops over the rows of a frame *)

Lemma fold_left_ext {A B : Type} (f g : A -> B -> A) (l : list B) (a : A) :
  (forall a b, f a b = g a b) -> fold_left f l a = fold_left g l a.
Proof.
  intros H. revert a. induction l as [|x l IH]; intros a; simpl.
  - reflexivity.
  - rewrite H. apply IH.
Qed.

(** A loop over [iterrows] whose body rewrites the row it visits. *)
Lemma fold_rows_lookup (g : Series -> Series -> Series) (l : list Series)
    (k : nat) (df : DataFrame) (j : nat) :
  fold_left (fun d '(i, row) => alter (g row) i d) (combine (seq k (length l)) l) df !! j
  = match l !! (j - k)%nat with
    | Some row => if (k <=? j)%nat then g row <$> df !! j else df !! j
    | None => df !! j
    end.
Proof.
  revert k df. induction l as [|x l IH]; intros k df.
  - reflexivity.
  - cbn [length seq combine fold_left]. rewrite IH.
    destruct (Nat.leb_spec k j) as [Hle | Hlt].
    + destruct (Nat.eq_dec k j) as [-> | Hne].
      * rewrite list_lookup_alter_eq, Nat.sub_diag.
        replace (j - S j)%nat with 0%nat by lia.
        destruct (Nat.leb_spec (S j) j) as [? | _]; [lia |].
        destruct (l !! 0%nat); reflexivity.
      * rewrite list_lookup_alter_ne by exact Hne.
        replace (j - k)%nat with (S (j - S k)) by lia.
        destruct (Nat.leb_spec (S k) j) as [_ | ?]; [| lia].
        reflexivity.
    + rewrite list_lookup_alter_ne by lia.
      replace (j - k)%nat with 0%nat by lia.
      replace (j - S k)%nat with 0%nat by lia.
      destruct (Nat.leb_spec (S k) j) as [? | _]; [lia |].
      destruct (l !! 0%nat); reflexivity.
Qed.

Lemma fold_iterrows_lookup (g : Series -> Series -> Series) (df0 df : DataFrame) (j : nat) :
  fold_left (fun d '(i, row) => alter (g row) i d) (iterrows df0) df !! j
  = match df0 !! j with
    | Some row => g row <$> df !! j
    | None => df !! j
    end.
Proof.
  unfold iterrows. rewrite fold_rows_lookup, Nat.sub_0_r. reflexivity.
Qed.

Lemma fold_rows_length (g : Series -> Series -> Series) (l : list (nat * Series)) (df : DataFrame) :
  length (fold_left (fun d '(i, row) => alter (g row) i d) l df) = length df.
Proof.
  revert df. induction l as [|[i row] l IH]; intros df; simpl.
  - reflexivity.
  - rewrite IH. apply length_alter.
Qed.

(** ** Dates and labels *)

Lemma label_round_trip_all :
  forallb (fun y => forallb (fun m => label_round_trip (1969 + Z.of_nat y) (1 + Z.of_nat m))
                            (seq 0 12))
          (seq 0 100) = true.
Proof. vm_compute. reflexivity. Qed.

(** A label written by [strftime] is read back by [strptime]. *)
Lemma strptime_strftime (y m d : Z) :
  1969 <= y <= 2068 -> 1 <= m <= 12 ->
  strptime_b_y (strftime_b_y (mk_date y m d)) = Some (mk_date y m 1).
Proof.
  intros Hy Hm.
  pose proof label_round_trip_all as H.
  rewrite forallb_forall in H.
  specialize (H (Z.to_nat (y - 1969))).
  rewrite forallb_forall in H.
  specialize (H ltac:(apply in_seq; lia) (Z.to_nat (m - 1)) ltac:(apply in_seq; lia)).
  replace (1969 + Z.of_nat (Z.to_nat (y - 1969))) with y in H by lia.
  replace (1 + Z.of_nat (Z.to_nat (m - 1))) with m in H by lia.
  unfold label_round_trip in H.
  change (strftime_b_y (mk_date y m d)) with (strftime_b_y (mk_date y m 1)).
  destruct (strptime_b_y (strftime_b_y (mk_date y m 1))) as [d'|]; [| discriminate].
  apply date_eqb_eq in H. congruence.
Qed.

Lemma two_digit_year_range (a b : Z) :
  0 <= a <= 9 -> 0 <= b <= 9 -> 1969 <= two_digit_year a b <= 2068.
Proof. intros Ha Hb. unfold two_digit_year. destruct (Z.leb_spec (10 * a + b) 68); lia. Qed.

Lemma digit_of_ascii_range (c : ascii) (d : Z) : digit_of_ascii c = Some d -> 0 <= d <= 9.
Proof.
  unfold digit_of_ascii.
  destruct (Nat.leb_spec 48 (nat_of_ascii c)), (Nat.leb_spec (nat_of_ascii c) 57);
    simpl; try discriminate.
  intros [= <-]. lia.
Qed.

Lemma strptime_ymd_range (s : string) (d : date) :
  strptime_ymd s = Some d -> 1969 <= year d <= 2068 /\ 1 <= month d <= 12.
Proof.
  unfold strptime_ymd.
  destruct s as [|y1 [|y2 [|m1 [|m2 [|d1 [|d2 [|? ?]]]]]]]; try discriminate.
  destruct (digit_of_ascii y1) as [a|] eqn:Ha; [| discriminate].
  destruct (digit_of_ascii y2) as [b|] eqn:Hb; [| discriminate].
  destruct (digit_of_ascii m1) as [c|]; [| discriminate].
  destruct (digit_of_ascii m2) as [e|]; [| discriminate].
  destruct (digit_of_ascii d1) as [f|]; [| discriminate].
  destruct (digit_of_ascii d2) as [g|]; [| discriminate].
  destruct (_ && _) eqn:Hc; [| discriminate].
  intros [= <-]. simpl.
  apply digit_of_ascii_range in Ha, Hb.
  rewrite !andb_true_iff, !Z.leb_le in Hc.
  split; [apply two_digit_year_range; assumption | lia].
Qed.

(** The period the file name gives: its second label is the first day of
    the month of the date in the name. *)
Lemma extract_date_start (static_file : string) (file_date : string * string) :
  extract_date_from_filename static_file = Ok (Some file_date) ->
  exists d, strptime_b_y (snd file_date) = Some d /\ day d = 1
            /\ 1969 <= year d <= 2068 /\ 1 <= month d <= 12.
Proof.
  unfold extract_date_from_filename.
  destruct (search_six_digits static_file) as [date_str|]; [| discriminate].
  destruct (strptime_ymd date_str) as [date_obj|] eqn:Hd; [| discriminate].
  intros [= <-]. simpl.
  apply strptime_ymd_range in Hd as [Hy Hm].
  exists (mk_date (year date_obj) (month date_obj) 1).
  rewrite strptime_strftime by assumption. simpl. auto.
Qed.

(** ** The skip pass *)

(** The decimal form of an integer is not a month label. *)
Lemma strptime_str_of_int (n : Z) : strptime_b_y (str_of_int n) = None.
Proof.
  unfold str_of_int, NilZero.string_of_int.
  destruct (Z.to_int n) as [u | u]; destruct u as [|u|u|u|u|u|u|u|u|u|u];
    try reflexivity; unfold NilZero.string_of_uint; cbn [NilEmpty.string_of_uint];
    destruct (NilEmpty.string_of_uint u) as [|b [|c [|sep [|y1 [|y2 [|? ?]]]]]];
    try reflexivity;
    unfold strptime_b_y; try (destruct (Ascii.eqb _ "-"%char); reflexivity);
    destruct (Ascii.eqb _ "-"%char); try reflexivity.
Qed.

Lemma end_date_is_past_cases (static_report_date : date) (c : cell) :
  end_date_is_past static_report_date c
  = match c with
    | Datetime d _ => date_ltb d static_report_date
    | Str s => match strptime_b_y s with
               | Some d => date_ltb d static_report_date
               | None => false
               end
    | _ => false
    end.
Proof.
  unfold end_date_is_past, parse_end_date.
  destruct c; simpl; try reflexivity; rewrite strptime_str_of_int; reflexivity.
Qed.

Lemma skip_body_alter (static_report_date : date) (d : DataFrame) (b : nat * Series) :
  (let '(index, row) := b in
   match parse_end_date (row "End Date") with
   | None => d
   | Some end_date =>
       if date_ltb end_date static_report_date
       then at_set index "Skip" (Str "Past") d
       else d
   end)
  = (let '(i, row) := b in alter (skip_tag static_report_date row) i d).
Proof.
  destruct b as [index row]. unfold skip_tag, end_date_is_past.
  destruct (parse_end_date (row "End Date")) as [e|].
  - destruct (date_ltb e static_report_date); [reflexivity |].
    symmetry. apply list_alter_id. reflexivity.
  - symmetry. apply list_alter_id. reflexivity.
Qed.

(** C5.  Once the file name gives the reporting period, the skip pass
    returns, whatever the rows hold; it keeps every row and changes the
    column [Skip] alone; a row is tagged ['Past'] exactly when its end date
    is a timestamp, or a string that [strptime] reads as ['%b-%y'], that
    lies strictly before the first day of the period; a number (turned into
    a string first), a missing value and an unreadable string are never
    tagged. *)
Theorem skip_tagging (static_file : string) (file_date : string * string) (op_df : DataFrame) :
  extract_date_from_filename static_file = Ok (Some file_date) ->
  exists (static_report_date : date) (op_df' : DataFrame),
    strptime_b_y (snd file_date) = Some static_report_date
    /\ initiate_skip_column_fte static_file op_df = Ok op_df'
    /\ initiate_skip_column_ms static_file op_df = Ok op_df'
    /\ length op_df' = length op_df
    /\ (forall (i : nat) (r : Series),
           op_df !! i = Some r ->
           exists r' : Series,
             op_df' !! i = Some r'
             /\ (forall c, c <> "Skip" -> r' c = r c)
             /\ r' "Skip" = match r "End Date" with
                            | Datetime d _ =>
                                if date_ltb d static_report_date then Str "Past" else Str ""
                            | Str s =>
                                match strptime_b_y s with
                                | Some d =>
                                    if date_ltb d static_report_date then Str "Past" else Str ""
                                | None => Str ""
                                end
                            | _ => Str ""
                            end).
Proof.
  intros Hfile.
  destruct (extract_date_start _ _ Hfile) as (sd & Hsd & _).
  unfold initiate_skip_column_fte, initiate_skip_column_ms, initiate_skip_column.
  rewrite Hfile. destruct file_date as [e s]. simpl in Hsd. rewrite Hsd.
  exists sd. eexists. split; [exact Hsd |]. split; [reflexivity |]. split; [reflexivity |].
  rewrite (fold_left_ext _ _ _ _ (skip_body_alter sd)).
  split.
  - rewrite (fold_rows_length (skip_tag sd)). unfold set_column. apply length_fmap.
  - intros i r Hr.
    rewrite (fold_iterrows_lookup (skip_tag sd)).
    unfold set_column. rewrite list_lookup_fmap, Hr. simpl.
    eexists. split; [reflexivity |].
    unfold skip_tag. rewrite set_other by discriminate.
    pose proof (end_date_is_past_cases sd (r "End Date")) as Hc. rewrite Hc.
    split.
    + intros c Hne.
      destruct (match r "End Date" with Datetime d _ => _ | _ => _ end);
        rewrite ?set_other by congruence; reflexivity.
    + destruct (r "End Date") as [|s0|?|?|?|d t]; try (rewrite set_same; reflexivity).
      * destruct (strptime_b_y s0) as [d|]; [| rewrite set_same; reflexivity].
        destruct (date_ltb d sd); rewrite set_same; reflexivity.
      * destruct (date_ltb d sd); rewrite set_same; reflexivity.
Qed.

Lemma skip_tagging_witness :
  exists (static_report_date : date) (op_df' : DataFrame),
    strptime_b_y (snd Fixture.file_date) = Some static_report_date
    /\ initiate_skip_column_fte Fixture.static_file Fixture.fte_plan = Ok op_df'
    /\ initiate_skip_column_ms Fixture.static_file Fixture.fte_plan = Ok op_df'
    /\ length op_df' = length Fixture.fte_plan
    /\ (forall (i : nat) (r : Series),
           Fixture.fte_plan !! i = Some r ->
           exists r' : Series,
             op_df' !! i = Some r'
             /\ (forall c, c <> "Skip" -> r' c = r c)
             /\ r' "Skip" = match r "End Date" with
                            | Datetime d _ =>
                                if date_ltb d static_report_date then Str "Past" else Str ""
                            | Str s =>
                                match strptime_b_y s with
                                | Some d =>
                                    if date_ltb d static_report_date then Str "Past" else Str ""
                                | None => Str ""
                                end
                            | _ => Str ""
                            end).
Proof.
  apply (skip_tagging Fixture.static_file Fixture.file_date Fixture.fte_plan).
  vm_compute. reflexivity.
Defined.

(** ** The fulfilled pass *)

(** C4, at the failing input.  The only plan row of employee 1001 carries
    the status that the conversion detector writes, and the two roster
    records of the employee agree on the columns compared: the group is not
    exempted, and the row is marked fulfilled, on the FTE and on the MS
    sheet.  The list of exempt statuses is matched with [isin], that is, a
    status has to be equal to ['Conversion']. *)
Theorem fulfilled_marks_conversion_group (to_datetime : cell -> option (date * Z)) :
  (exists r : Series,
      check_and_mark_fulfilled_fte to_datetime
        [Fixture.e1001_current] [Fixture.e1001_current] Fixture.conversion_plan !! 0%nat = Some r
      /\ r "Role Status" = Str "Conversion from Fixed Term Contract to Permanent"
      /\ r "Fulfilled" = Str "Yes")
  /\ (exists r : Series,
         check_and_mark_fulfilled_ms to_datetime
           [Fixture.e1001_current] [Fixture.e1001_current] Fixture.conversion_plan !! 0%nat = Some r
         /\ r "Role Status" = Str "Conversion from Fixed Term Contract to Permanent"
         /\ r "Fulfilled" = Str "Yes").
Proof.
  split; eexists; (split; [reflexivity |]); split; reflexivity.
Qed.

(** ** Loops of the detectors *)

Lemma fold_left_invariant {A B : Type} (P : A -> Prop) (f : A -> B -> A) (l : list B) (a : A) :
  P a -> (forall a b, In b l -> P a -> P (f a b)) -> P (fold_left f l a).
Proof.
  revert a. induction l as [|x l IH]; intros a Ha Hstep; simpl.
  - exact Ha.
  - apply IH.
    + apply Hstep; [left; reflexivity | exact Ha].
    + intros a' b Hb. apply Hstep. right. exact Hb.
Qed.

(** An invariant [P], and a property [Q] that one round of the loop
    establishes and the later rounds keep. *)
Lemma fold_left_event {A B : Type} (P Q : A -> Prop) (f : A -> B -> A)
    (l : list B) (x : B) (a : A) :
  In x l -> P a ->
  (forall a b, In b l -> P a -> P (f a b)) ->
  (forall a, P a -> Q (f a x)) ->
  (forall a b, In b l -> P a -> Q a -> Q (f a b)) ->
  Q (fold_left f l a).
Proof.
  revert a. induction l as [|y l IH]; intros a Hin Ha HP Hx HQ; simpl.
  - destruct Hin.
  - assert (HPl : forall a b, In b l -> P a -> P (f a b)).
    { intros a' b Hb. apply HP. right. exact Hb. }
    assert (HQl : forall a b, In b l -> P a -> Q a -> Q (f a b)).
    { intros a' b Hb. apply HQ. right. exact Hb. }
    assert (HPy : P (f a y)) by (apply HP; [left; reflexivity | exact Ha]).
    destruct Hin as [-> | Hin].
    + assert (HQy : Q (f a x)) by (apply Hx; exact Ha).
      clear IH. revert HPy HQy. generalize (f a x). clear Ha.
      induction l as [|z l IHl]; intros a' HPa HQa; simpl.
      * exact HQa.
      * apply IHl.
        -- intros a'' b Hb. apply HP. destruct Hb as [-> | Hb]; [left; reflexivity |].
           right. right. exact Hb.
        -- intros a'' b Hb. apply HQ. destruct Hb as [-> | Hb]; [left; reflexivity |].
           right. right. exact Hb.
        -- intros a'' b Hb. apply HPl. right. exact Hb.
        -- intros a'' b Hb. apply HQl. right. exact Hb.
        -- apply HPl; [left; reflexivity | exact HPa].
        -- apply HQl; [left; reflexivity | exact HPa | exact HQa].
    + apply IH; auto.
Qed.

(** ** The exit detector *)

Lemma exit_rel_refl (d : date) (r : Series) : exit_rel d r r.
Proof. unfold exit_rel. repeat split; auto. Qed.

Lemma exit_rel_mask (d : date) (id : cell) (r0 r : Series) :
  exit_rel d r0 r ->
  shorten_filtering_condition_fte_mask id r0 = true ->
  shorten_filtering_condition_fte_mask id r = true.
Proof.
  intros (H1 & H2 & H3 & H4 & H5). unfold shorten_filtering_condition_fte_mask.
  rewrite H1, H2, H3, H4. rewrite !andb_true_iff.
  intros (((((? & ?) & ?) & ?) & ?) & Hs). repeat split; auto.
  destruct H5 as [-> | [_ ->]]; [exact Hs | reflexivity].
Qed.

Lemma exit_rel_mask_back (d : date) (id : cell) (r0 r : Series) :
  exit_rel d r0 r ->
  shorten_filtering_condition_fte_mask id r = true ->
  shorten_filtering_condition_fte_mask id r0 = true \/ exited d r.
Proof.
  intros (H1 & H2 & H3 & H4 & H5). unfold shorten_filtering_condition_fte_mask.
  rewrite H1, H2, H3, H4. destruct H5 as [-> | H5]; auto.
Qed.

(** The three assignments of the inner loop, on a row. *)
Lemma exit_assignments (d : date) (r0 r : Series) :
  exit_rel d r0 r ->
  let r' := set "Modified" (Boolean true)
              (set "Role Status" (Str "Exit") (set "End Date" (Date d) r)) in
  exit_rel d r0 r' /\ exited d r'.
Proof.
  intros (H1 & H2 & H3 & H4 & _). unfold exit_rel, exited, set. simpl. auto 10.
Qed.


Lemma exit_inner (d : date) (op0 : DataFrame) (idxs : list nat) (st : loop_state) :
  exit_state d op0 st ->
  (forall i, In i idxs -> (i < length (fst st))%nat) ->
  let res :=
    for_indices idxs
      (fun emp_index '(op_fte_df, new_entries) =>
         let op_fte_df := at_set emp_index "End Date" (Date d) op_fte_df in
         let op_fte_df := at_set emp_index "Role Status" (Str "Exit") op_fte_df in
         let op_fte_df := at_set emp_index "Modified" (Boolean true) op_fte_df in
         (op_fte_df, new_entries)) st in
  exit_state d op0 res
  /\ (forall j, In j idxs \/ (exists r, fst st !! j = Some r /\ exited d r) ->
                exists r, fst res !! j = Some r /\ exited d r).
Proof.
  unfold for_indices. revert st.
  induction idxs as [|i idxs IH]; intros [op ne] Hst Hlen; simpl.
  - split; [exact Hst |]. intros j [[] | H]. exact H.
  - unfold at_set. rewrite !list_alter_alter_eq.
    set (mark := (set "Modified" (Boolean true) ∘ set "Role Status" (Str "Exit"))
                 ∘ set "End Date" (Date d)).
    assert (Hst' : exit_state d op0 (alter mark i op, ne)).
    { unfold exit_state in *. simpl in *. apply Forall2_alter_r; [exact Hst |].
      intros x y _ _ Hxy. apply (exit_assignments d x y Hxy). }
    assert (Hlen' : forall k, In k idxs -> (k < length (fst (alter mark i op, ne)))%nat).
    { intros k Hk. simpl. rewrite length_alter. apply (Hlen k). right. exact Hk. }
    destruct (IH _ Hst' Hlen') as [IH1 IH2]. split; [exact IH1 |].
    intros j Hj. apply IH2. simpl.
    destruct (Nat.eq_dec i j) as [<- | Hne].
    + right. rewrite list_lookup_alter_eq.
      assert (Hi : (i < length op)%nat) by (apply (Hlen i); left; reflexivity).
      destruct (lookup_lt_is_Some_2 op i Hi) as [r Hr]. rewrite Hr. simpl.
      exists (mark r). split; [reflexivity |].
      unfold exited, mark, set. simpl. auto.
    + destruct Hj as [[Hij | Hj] | (r & Hr & He)].
      * contradiction.
      * left. exact Hj.
      * right. exists r. rewrite list_lookup_alter_ne by exact Hne. auto.
Qed.

Lemma index_where_lt (p : Series -> bool) (df : DataFrame) (i : nat) :
  In i (index_where p df) -> (i < length df)%nat.
Proof.
  intros H. apply index_where_spec in H as (r & Hr & _).
  apply lookup_lt_Some in Hr. exact Hr.
Qed.

(** X22.  Let the period-end label be readable, and let E be an employee
    of the Security/FTE rows of the current roster whose id is nowhere in
    the next roster.  After the exit detector of the FTE sheet, every plan
    row that the relaxed or the strict policy matches for E, in the plan
    given or in the plan returned, has "Exit" as Role Status, and its End
    Date is the date that [strptime] reads from the period-end label (the
    first day of that month), not the label. *)
Theorem exits_close_matched_rows
    (current_df next_df op_fte_df : DataFrame) (file_date : string * string)
    (d : date) (E : cell) (i : nat) :
  strptime_b_y (fst file_date) = Some d ->
  In E (employee_ids (employee_security_fte current_df)) ->
  isin E (employee_ids next_df) = false ->
  In i (shorten_filtering_condition_fte op_fte_df E)
  \/ In i (employee_filtering_condition_fte op_fte_df E)
  \/ In i (shorten_filtering_condition_fte
             (identify_exits_fte current_df next_df op_fte_df file_date) E)
  \/ In i (employee_filtering_condition_fte
             (identify_exits_fte current_df next_df op_fte_df file_date) E) ->
  exists r : Series,
    identify_exits_fte current_df next_df op_fte_df file_date !! i = Some r
    /\ r "End Date" = Date d
    /\ r "Role Status" = Str "Exit".
Proof.
  intros Hd HE Hnext.
  unfold identify_exits_fte. destruct file_date as [e s]. simpl in Hd.
  destruct (String.eqb_spec e "") as [-> | _]; [discriminate |].
  rewrite Hd. cbv beta iota.
  match goal with
  | |- context [for_rows ?l ?b _] => set (exits := l); set (body := b)
  end.
  assert (Hbody : forall row st,
             exit_state d op_fte_df st ->
             exit_state d op_fte_df (body row st)
             /\ (forall j,
                    In j (shorten_filtering_condition_fte (fst st) (row "Employee ID"))
                    \/ (exists r, fst st !! j = Some r /\ exited d r) ->
                    exists r, fst (body row st) !! j = Some r /\ exited d r)).
  { intros row [op ne] Hst. unfold body.
    apply (exit_inner d op_fte_df _ (op, ne) Hst).
    intros k Hk. simpl. eapply index_where_lt. exact Hk. }
  assert (HP : exit_state d op_fte_df (for_rows exits body (op_fte_df, []))).
  { unfold for_rows. apply fold_left_invariant.
    - unfold exit_state. simpl. apply Forall2_same_length_lookup_2; [reflexivity |].
      intros k x y Hx Hy. assert (x = y) as -> by congruence. apply exit_rel_refl.
    - intros st row _ Hst. apply (Hbody row st Hst). }
  assert (HQ : exit_closed d op_fte_df E (for_rows exits body (op_fte_df, []))).
  { apply in_map_iff in HE as (x & Hx & Hin).
    assert (Hexit : In x exits).
    { unfold exits. apply filter_In. split; [exact Hin |]. rewrite Hx, Hnext. reflexivity. }
    unfold for_rows.
    apply (fold_left_event (exit_state d op_fte_df) (exit_closed d op_fte_df E)
             (fun st row => body row st) exits x); auto.
    - unfold exit_state. simpl. apply Forall2_same_length_lookup_2; [reflexivity |].
      intros k y z Hy Hz. assert (y = z) as -> by congruence. apply exit_rel_refl.
    - intros st row _ Hst. apply (Hbody row st Hst).
    - intros st Hst k Hk. apply (Hbody x st Hst). left. rewrite Hx.
      apply index_where_spec in Hk as (r0 & Hr0 & Hm).
      destruct (Forall2_lookup_l _ _ _ _ _ Hst Hr0) as (r & Hr & Hrel).
      apply index_where_spec. exists r. split; [exact Hr |].
      eapply exit_rel_mask; eauto.
    - intros st row _ Hst Hcl k Hk. apply (Hbody row st Hst). right. apply Hcl. exact Hk. }
  intros Hi.
  assert (Hrel : In i (shorten_filtering_condition_fte op_fte_df E)
                 \/ In i (shorten_filtering_condition_fte
                            (fst (for_rows exits body (op_fte_df, []))) E)).
  { destruct Hi as [Hi | [Hi | [Hi | Hi]]]; [left; exact Hi | left | right; exact Hi | right];
      apply index_where_spec in Hi as (r & Hr & Hm);
      apply index_where_spec; exists r; (split; [exact Hr |]);
      apply strict_mask_fte_relaxed; exact Hm. }
  destruct Hrel as [Hin | Hin].
  - destruct (HQ i Hin) as (r & Hr & He & Hs). exists r. auto.
  - pose proof Hin as Hin'.
    apply index_where_spec in Hin as (r & Hr & Hm).
    destruct (Forall2_lookup_r _ _ _ _ _ HP Hr) as (r0 & Hr0 & Hrel).
    destruct (exit_rel_mask_back d E r0 r Hrel Hm) as [Hm0 | [He Hs]].
    + assert (Hin0 : In i (shorten_filtering_condition_fte op_fte_df E)).
      { apply index_where_spec. exists r0. auto. }
      destruct (HQ i Hin0) as (r' & Hr' & He & Hs). exists r'. auto.
    + exists r. auto.
Qed.

Lemma exits_close_matched_rows_witness :
  exists r : Series,
    identify_exits_fte [Fixture.e1001_current] [] Fixture.fte_plan Fixture.file_date !! 1%nat
    = Some r
    /\ r "End Date" = Date (mk_date 2024 5 1)
    /\ r "Role Status" = Str "Exit".
Proof.
  apply (exits_close_matched_rows [Fixture.e1001_current] [] Fixture.fte_plan Fixture.file_date
           (mk_date 2024 5 1) (Fixture.emp 1001) 1%nat).
  - reflexivity.
  - vm_compute. left. reflexivity.
  - reflexivity.
  - left. vm_compute. left. reflexivity.
Defined.

(** ** Labels *)

Lemma label_fixed_all :
  forallb (fun y => forallb (fun m => label_fixed (Z.of_nat y) (1 + Z.of_nat m)) (seq 0 12))
          (seq 0 100) = true.
Proof. vm_compute. reflexivity. Qed.

Lemma strftime_year_mod (y m d : Z) :
  strftime_b_y (mk_date y m d) = strftime_b_y (mk_date (y mod 100) m 1).
Proof.
  unfold strftime_b_y. simpl.
  rewrite Z.mod_mod by lia.
  rewrite (Z.mod_mod_divide y 100 10) by (exists 10; reflexivity).
  reflexivity.
Qed.

(** Reading a label that [strftime] wrote and writing it again gives the
    same label. *)
Lemma relabel_strftime (y m d : Z) :
  1 <= m <= 12 -> relabel (strftime_b_y (mk_date y m d)) = Some (strftime_b_y (mk_date y m d)).
Proof.
  intros Hm. rewrite strftime_year_mod.
  pose proof (Z.mod_pos_bound y 100 ltac:(lia)) as Hy.
  pose proof label_fixed_all as H.
  rewrite forallb_forall in H.
  specialize (H (Z.to_nat (y mod 100)) ltac:(apply in_seq; lia)).
  rewrite forallb_forall in H.
  specialize (H (Z.to_nat (m - 1)) ltac:(apply in_seq; lia)).
  replace (Z.of_nat (Z.to_nat (y mod 100))) with (y mod 100) in H by lia.
  replace (1 + Z.of_nat (Z.to_nat (m - 1))) with m in H by lia.
  unfold label_fixed in H. unfold relabel.
  destruct (strptime_b_y (strftime_b_y (mk_date (y mod 100) m 1))) as [d'|]; [| discriminate].
  apply String.eqb_eq in H. simpl. rewrite H. reflexivity.
Qed.

(** The two labels of the period that the file name gives are in the
    form [strftime] writes. *)
Lemma relabel_extract (static_file : string) (file_date : string * string) :
  extract_date_from_filename static_file = Ok (Some file_date) ->
  relabel (fst file_date) = Some (fst file_date)
  /\ relabel (snd file_date) = Some (snd file_date).
Proof.
  unfold extract_date_from_filename.
  destruct (search_six_digits static_file) as [date_str|]; [| discriminate].
  destruct (strptime_ymd date_str) as [date_obj|] eqn:Hd; [| discriminate].
  intros [= <-]. simpl.
  apply strptime_ymd_range in Hd as [Hy Hm].
  split.
  - unfold last_day_of_previous_month. simpl.
    destruct (Z.eqb_spec (month date_obj) 1); apply relabel_strftime; lia.
  - apply relabel_strftime. exact Hm.
Qed.

(** ** Keys *)

Lemma key_eqb_sym (a b : cell) : key_eqb a b = key_eqb b a.
Proof. unfold key_eqb. rewrite cell_eqb_sym, (andb_comm (isna a)). reflexivity. Qed.

Lemma cell_eqb_notna (a b : cell) : cell_eqb a b = true -> a <> NaN /\ b <> NaN.
Proof. destruct a, b; simpl; try discriminate; split; discriminate. Qed.

Lemma key_eqb_trans (a b c : cell) :
  key_eqb a b = true -> key_eqb b c = true -> key_eqb a c = true.
Proof.
  unfold key_eqb. rewrite !orb_true_iff, !andb_true_iff.
  intros [H1 | [H1 H1']] [H2 | [H2 H2']].
  - left. eapply cell_eqb_trans; eauto.
  - apply cell_eqb_notna in H1 as [_ Hb]. destruct b; try discriminate. contradiction.
  - apply cell_eqb_notna in H2 as [Hb _]. destruct b; try discriminate. contradiction.
  - right. auto.
Qed.

Lemma key_eqb_false_l (a b c : cell) :
  key_eqb a b = true -> key_eqb a c = false -> key_eqb b c = false.
Proof.
  intros Hab Hac. destruct (key_eqb b c) eqn:Hbc; [| reflexivity].
  rewrite (key_eqb_trans a b c Hab Hbc) in Hac. discriminate.
Qed.

Lemma isin_key (a b : cell) (l : list cell) :
  key_eqb a b = true -> isin a l = isin b l.
Proof.
  intros Hab. unfold isin. induction l as [|x l IH]; simpl; [reflexivity |].
  rewrite IH. f_equal.
  destruct (key_eqb a x) eqn:Hax, (key_eqb b x) eqn:Hbx; try reflexivity.
  - rewrite key_eqb_sym in Hab. rewrite (key_eqb_trans b a x Hab Hax) in Hbx. discriminate.
  - rewrite (key_eqb_trans a b x Hab Hbx) in Hax. discriminate.
Qed.

Lemma isin_filter (a : cell) (p : Series -> bool) (df : DataFrame) :
  isin a (employee_ids df) = false -> isin a (employee_ids (List.filter p df)) = false.
Proof.
  unfold isin, employee_ids. induction df as [|x df IH]; simpl; [reflexivity |].
  rewrite orb_false_iff. intros [Hx Hdf].
  destruct (p x); simpl; [rewrite Hx |]; auto.
Qed.

(** When [filter] keeps one element, the others are before and after it. *)
Lemma filter_singleton {A : Type} (p : A -> bool) (l : list A) (x : A) :
  List.filter p l = [x] ->
  exists l1 l2, l = l1 ++ x :: l2 /\ p x = true
                /\ Forall (fun y => p y = false) l1 /\ Forall (fun y => p y = false) l2.
Proof.
  induction l as [|y l IH]; simpl; [discriminate |].
  destruct (p y) eqn:Hy.
  - intros [= -> Hl]. exists [], l. repeat split; auto.
    apply Forall_forall. intros z Hz.
    destruct (p z) eqn:Hpz; [| reflexivity].
    assert (Hin : In z (List.filter p l)).
    { apply filter_In. split; [apply list_elem_of_In; exact Hz | exact Hpz]. }
    rewrite Hl in Hin. destruct Hin.
  - intros Hl. destruct (IH Hl) as (l1 & l2 & -> & Hx & H1 & H2).
    exists (y :: l1), l2. repeat split; auto.
Qed.

(** ** The new-joiner detector *)

Lemma same_strict_mask_refl (r : Series) : same_strict_mask r r.
Proof. intros id. reflexivity. Qed.

Lemma same_strict_mask_trans (a b c : Series) :
  same_strict_mask a b -> same_strict_mask b c -> same_strict_mask a c.
Proof. intros H1 H2 id. rewrite H2, H1. reflexivity. Qed.

Lemma same_strict_mask_status (id : cell) (s : string) (r : Series) :
  employee_filtering_condition_fte_mask id r = true ->
  s <> "Missing from Op FTE" ->
  same_strict_mask r (set "Role Status" (Str s) r).
Proof.
  intros Hm Hs id'. unfold employee_filtering_condition_fte_mask in *.
  rewrite !set_other by discriminate. rewrite set_same.
  rewrite !andb_true_iff in Hm. destruct Hm as [[[_ Hrs] _] _].
  rewrite Hrs.
  assert (Hn : cell_neb (Str s) (Str "Missing from Op FTE") = true).
  { apply cell_neb_Str. congruence. }
  rewrite Hn. reflexivity.
Qed.

Lemma same_strict_mask_modified (v : cell) (r : Series) :
  same_strict_mask r (set "Modified" v r).
Proof.
  intros id. unfold employee_filtering_condition_fte_mask.
  rewrite !set_other by discriminate. reflexivity.
Qed.

Lemma index_from_Forall2 (p q : Series -> bool) (df0 df : DataFrame) (k : nat) :
  Forall2 (fun r0 r => q r = p r0) df0 df -> index_from q k df = index_from p k df0.
Proof.
  intros H. revert k. induction H as [|r0 r df0 df Hr _ IH]; intros k; simpl.
  - reflexivity.
  - rewrite Hr, IH. reflexivity.
Qed.

Lemma strict_same_mask (df0 df : DataFrame) (id : cell) :
  Forall2 same_strict_mask df0 df ->
  employee_filtering_condition_fte df id = employee_filtering_condition_fte df0 id.
Proof.
  intros H. unfold employee_filtering_condition_fte, index_where.
  apply index_from_Forall2. eapply Forall2_impl; [exact H |].
  intros r0 r Hr. apply Hr.
Qed.

Lemma Forall2_refl_on {A : Type} (R : A -> A -> Prop) (l : list A) :
  (forall x, R x x) -> Forall2 R l l.
Proof. intros H. induction l; constructor; auto. Qed.

Lemma new_joiner_inner (op0 : DataFrame) (id : cell) (idxs : list nat) (st : loop_state) :
  Forall2 same_strict_mask op0 (fst st) ->
  (forall i, In i idxs -> In i (employee_filtering_condition_fte op0 id)) ->
  let res :=
    for_indices idxs
      (fun emp_index '(op_fte_df, new_entries) =>
         let op_fte_df := at_set emp_index "Role Status" (Str "New Hire") op_fte_df in
         let op_fte_df := at_set emp_index "Modified" (Boolean true) op_fte_df in
         (op_fte_df, new_entries)) st in
  Forall2 same_strict_mask op0 (fst res) /\ snd res = snd st.
Proof.
  unfold for_indices. revert st.
  induction idxs as [|i idxs IH]; intros [op ne] Hst Hin; simpl.
  - auto.
  - apply IH; [| intros k Hk; apply Hin; right; exact Hk].
    simpl in *. unfold at_set.
    assert (Hi : In i (employee_filtering_condition_fte op0 id)) by (apply Hin; left; reflexivity).
    apply index_where_spec in Hi as (r0 & Hr0 & Hm).
    apply Forall2_alter_r.
    + apply Forall2_alter_r; [exact Hst |].
      intros x y Hx _ Hxy. eapply same_strict_mask_trans; [exact Hxy |].
      apply (same_strict_mask_status id); [| discriminate].
      rewrite Hxy. congruence.
    + intros x y _ _ Hxy. eapply same_strict_mask_trans; [exact Hxy |].
      apply same_strict_mask_modified.
Qed.

Lemma is_empty_false {A : Type} (l : list A) : negb (is_empty l) = false <-> l = [].
Proof. destruct l; simpl; split; (discriminate || reflexivity). Qed.

(** The loop of the new-joiner detector: the plan keeps its length, and
    the new entries are those built for the selected rows that the strict
    policy does not match in the plan the detector was given. *)
Lemma new_joiner_loop (build : Series -> Series) (op0 : DataFrame)
    (rows : list Series) (st : loop_state) :
  Forall2 same_strict_mask op0 (fst st) ->
  let res :=
    for_rows rows
      (fun row '(op_fte_df, new_entries) =>
         let emp_indices := employee_filtering_condition_fte op_fte_df (row "Employee ID") in
         if negb (is_empty emp_indices)
         then for_indices emp_indices
                (fun emp_index '(op_fte_df, new_entries) =>
                   let op_fte_df := at_set emp_index "Role Status" (Str "New Hire") op_fte_df in
                   let op_fte_df := at_set emp_index "Modified" (Boolean true) op_fte_df in
                   (op_fte_df, new_entries))
                (op_fte_df, new_entries)
         else (op_fte_df, new_entries ++ [build row])) st in
  Forall2 same_strict_mask op0 (fst res)
  /\ snd res = snd st ++ (build <$> List.filter (unmatched_fte op0) rows).
Proof.
  unfold for_rows. revert st.
  induction rows as [|row rows IH]; intros [op ne] Hst; simpl.
  - split; [exact Hst | rewrite app_nil_r; reflexivity].
  - simpl in Hst. rewrite (strict_same_mask op0 op _ Hst).
    destruct (employee_filtering_condition_fte op0 (row "Employee ID")) as [|i idxs] eqn:Hidx.
    + assert (Hu : unmatched_fte op0 row = true)
        by (unfold unmatched_fte; rewrite Hidx; reflexivity).
      rewrite Hu. simpl negb. cbv iota.
      destruct (IH (op, ne ++ [build row]) Hst) as [H1 H2]. split; [exact H1 |].
      rewrite H2. simpl. rewrite <- app_assoc. reflexivity.
    + assert (Hu : unmatched_fte op0 row = false)
        by (unfold unmatched_fte; rewrite Hidx; reflexivity).
      rewrite Hu. simpl negb. cbv iota.
      pose proof (new_joiner_inner op0 (row "Employee ID") (i :: idxs) (op, ne) Hst) as Hinner.
      rewrite Hidx in Hinner. specialize (Hinner (fun k Hk => Hk)).
      destruct Hinner as [Hop Hne].
      match goal with
      | |- context [fold_left _ rows ?s] => destruct (IH s Hop) as [H1 H2]
      end.
      split; [exact H1 |]. rewrite H2. f_equal. exact Hne.
Qed.

Lemma format_domain_notna (c : cell) : c <> NaN -> format_domain c <> NaN.
Proof. destruct c; simpl; intros H; (discriminate || congruence). Qed.

Lemma format_tech_area_notna (c : cell) : c <> NaN -> format_tech_area c <> NaN.
Proof. destruct c; simpl; intros H; (discriminate || congruence). Qed.

Lemma map_to_hub_FTE_notna (c : cell) : c <> NaN -> map_to_hub_FTE c <> NaN.
Proof.
  intros H. unfold map_to_hub_FTE. destruct c as [|s| | | |]; try exact H.
  repeat match goal with
         | |- context [match ?x with _ => _ end] => destruct x; try discriminate
         end.
Qed.

(** The columns of a row that the new-joiner detector builds. *)
Lemma new_joiner_entry_columns (py_repr : cell -> string)
    (n : Series) (start_date end_date : cell) :
  let e := build_entry_fte py_repr (fun c => mem_string c static_columns) n n
             start_date end_date (Str "New Hire") in
  e "Employee ID" = n "Employee ID"
  /\ e "Start Date" = start_date
  /\ e "End Date" = end_date
  /\ e "Role Status" = Str "New Hire"
  /\ e "Modified" = Boolean true
  /\ e Input_Annualised_Stretch = NaN
  /\ (forall c v, assoc c COLUMN_VALUES_FTE = Some v -> e c = v).
Proof.
  intros e. repeat (split; [reflexivity |]).
  intros c v. unfold COLUMN_VALUES_FTE. simpl assoc.
  repeat match goal with
         | |- (if String.eqb c ?k then _ else _) = _ -> _ =>
             destruct (String.eqb_spec c k) as [-> | _]; [intros [= <-]; reflexivity |]
         end.
  discriminate.
Qed.

Lemma new_joiner_entry_populated (py_repr : cell -> string)
    (n : Series) (start_date end_date : string) (c : string) :
  (forall f, In f required_roster_fields -> n f <> NaN) ->
  In c OP_FTE_COLUMNS -> c <> Input_Annualised_Stretch ->
  build_entry_fte py_repr (fun c => mem_string c static_columns) n n
    (Str start_date) (Str end_date) (Str "New Hire") c <> NaN.
Proof.
  intros Hn Hin Hc. unfold OP_FTE_COLUMNS in Hin.
  assert (Hf : forall f, mem_string f required_roster_fields = true -> n f <> NaN).
  { intros f Hf. apply Hn. unfold mem_string in Hf. apply existsb_exists in Hf as (x & Hx & He).
    apply String.eqb_eq in He. subst. exact Hx. }
  repeat (destruct Hin as [<- | Hin];
          [ first [ exfalso; apply Hc; reflexivity
                  | cbv - [format_domain format_tech_area map_to_hub_FTE py_str name_part
                           String.append];
                    first [ discriminate
                          | apply format_domain_notna; apply Hf; reflexivity
                          | apply format_tech_area_notna; apply Hf; reflexivity
                          | apply map_to_hub_FTE_notna; apply Hf; reflexivity
                          | apply Hf; reflexivity ] ] |]).
  destruct Hin.
Qed.

Lemma filter_filter_comm {A : Type} (p q : A -> bool) (l : list A) :
  List.filter p (List.filter q l) = List.filter q (List.filter p l).
Proof.
  induction l as [|x l IH]; simpl; [reflexivity |].
  destruct (q x) eqn:Hq, (p x) eqn:Hp; simpl; rewrite ?Hq, ?Hp, IH; reflexivity.
Qed.

Lemma filter_and {A : Type} (p q : A -> bool) (l : list A) :
  List.filter (fun x => p x && q x) l = List.filter p (List.filter q l).
Proof.
  induction l as [|x l IH]; simpl; [reflexivity |].
  destruct (q x) eqn:Hq, (p x) eqn:Hp; simpl; rewrite ?Hp, IH; reflexivity.
Qed.

Lemma filter_fmap {A B : Type} (f : A -> B) (p : B -> bool) (l : list A) :
  List.filter p (f <$> l) = f <$> List.filter (fun x => p (f x)) l.
Proof.
  induction l as [|x l IH]; [reflexivity |].
  rewrite fmap_cons. simpl List.filter.
  destruct (p (f x)); rewrite IH; reflexivity.
Qed.

(** C2, as amended.  Let the period come from the file name, and let [n]
    be the only record of its employee among the Security/FTE rows of the
    next roster, an employee who is not in the current roster and for whom
    the strict policy returns no plan row.  The new-joiner detector keeps
    the rows of the plan and appends exactly one row for the employee; the
    row has the period-start label as Start Date, the label of the
    financial-year end as End Date, "New Hire" as Role Status and [True] as
    Modified; each column with a configured default holds it; every column
    of the schema but one is filled when the roster fields of the employee
    are, and the column 'Input Annualised Stretch $ (if applicable)' is
    left missing. *)
Theorem new_joiner_row (today : date) (py_repr : cell -> string)
    (static_file : string) (file_date : string * string)
    (current_df next_df op_fte_df : DataFrame) (n : Series) :
  extract_date_from_filename static_file = Ok (Some file_date) ->
  isin (n "Employee ID") (employee_ids current_df) = false ->
  List.filter (for_employee (n "Employee ID")) (employee_security_fte next_df) = [n] ->
  employee_filtering_condition_fte op_fte_df (n "Employee ID") = [] ->
  exists (kept appended : DataFrame) (new_entry : Series),
    identify_new_joiners_fte today py_repr current_df next_df op_fte_df file_date
    = kept ++ appended
    /\ length kept = length op_fte_df
    /\ List.filter (for_employee (n "Employee ID")) appended = [new_entry]
    /\ new_entry "Employee ID" = n "Employee ID"
    /\ new_entry "Start Date" = Str (snd file_date)
    /\ new_entry "End Date" = Str (strftime_b_y (get_eofy today))
    /\ new_entry "Role Status" = Str "New Hire"
    /\ new_entry "Modified" = Boolean true
    /\ new_entry Input_Annualised_Stretch = NaN
    /\ (forall c v, assoc c COLUMN_VALUES_FTE = Some v -> new_entry c = v)
    /\ ((forall f, In f required_roster_fields -> n f <> NaN) ->
        forall c, In c OP_FTE_COLUMNS -> c <> Input_Annualised_Stretch -> new_entry c <> NaN).
Proof.
  intros Hfile Hcur Hnext Hplan.
  destruct (relabel_extract _ _ Hfile) as [_ Hstart].
  unfold identify_new_joiners_fte. destruct file_date as [e s]. simpl in Hstart.
  rewrite Hstart. cbv zeta beta iota.
  set (build := fun row : Series =>
                  build_entry_fte py_repr (fun c => mem_string c static_columns)
                    row row (Str s) (Str (eofy_label today)) (Str "New Hire")).
  match goal with
  | |- context [for_rows ?l ?b ?st] =>
      set (new_joiners := l);
      assert (Hloop : Forall2 same_strict_mask op_fte_df (fst (for_rows new_joiners b st))
                      /\ snd (for_rows new_joiners b st)
                         = snd st ++ (build <$> List.filter (unmatched_fte op_fte_df) new_joiners))
        by (apply (new_joiner_loop build op_fte_df new_joiners st);
            apply Forall2_refl_on; apply same_strict_mask_refl);
      destruct (for_rows new_joiners b st) as [op' ne']
  end.
  simpl in Hloop. destruct Hloop as [Hop Hne].
  exists op', ne', (build n).
  split; [unfold add_new_entries_fte; destruct ne'; rewrite ?app_nil_r; reflexivity |].
  split; [symmetry; eapply Forall2_length; exact Hop |].
  assert (Hkey : for_employee (n "Employee ID") n = true).
  { assert (Hin : In n (List.filter (for_employee (n "Employee ID"))
                          (employee_security_fte next_df))) by (rewrite Hnext; left; reflexivity).
    apply filter_In in Hin. apply Hin. }
  split.
  { rewrite Hne, filter_fmap.
    change (fun x => for_employee (n "Employee ID") (build x))
      with (for_employee (n "Employee ID")).
    rewrite filter_filter_comm. unfold new_joiners.
    rewrite List.filter_app, !(filter_filter_comm (for_employee (n "Employee ID"))), Hnext.
    simpl. rewrite Hcur. simpl.
    rewrite (isin_filter _ _ _ Hcur). simpl.
    unfold unmatched_fte. rewrite Hplan. reflexivity. }
  pose proof (new_joiner_entry_columns py_repr n (Str s) (Str (eofy_label today)))
    as (H1 & H2 & H3 & H4 & H5 & H6 & H7).
  repeat (split; [assumption |]).
  intros Hn c Hc Hne'. apply new_joiner_entry_populated; assumption.
Qed.

Lemma new_joiner_row_witness :
  exists (kept appended : DataFrame) (new_entry : Series),
    identify_new_joiners_fte Fixture.today Fixture.py_repr [] [Fixture.e1001_next] []
      Fixture.file_date = kept ++ appended
    /\ length kept = 0%nat
    /\ List.filter (for_employee (Fixture.e1001_next "Employee ID")) appended = [new_entry]
    /\ new_entry "Start Date" = Str "Jun-24"
    /\ new_entry "End Date" = Str "Sep-24"
    /\ new_entry "Role Status" = Str "New Hire".
Proof.
  destruct (new_joiner_row Fixture.today Fixture.py_repr Fixture.static_file Fixture.file_date
              [] [Fixture.e1001_next] [] Fixture.e1001_next)
    as (kept & appended & new_entry & H1 & H2 & H3 & _ & H5 & H6 & H7 & _).
  - vm_compute. reflexivity.
  - reflexivity.
  - reflexivity.
  - reflexivity.
  - exists kept, appended, new_entry. repeat split; assumption.
Defined.

(** C2 fails as it stands: the row built for a new joiner whose roster
    record has every field leaves a column of the schema missing. *)
Lemma new_joiner_row_not_fully_populated :
  ~ (forall (new_entry : Series) (c : string),
        identify_new_joiners_fte Fixture.today Fixture.py_repr [] [Fixture.e1001_next] []
          Fixture.file_date !! 0%nat = Some new_entry ->
        In c OP_FTE_COLUMNS ->
        new_entry c <> NaN).
Proof.
  intros H.
  apply (H _ Input_Annualised_Stretch eq_refl).
  - vm_compute. tauto.
  - reflexivity.
Qed.

(** ** Merged frames *)

Lemma merge_inner_In (left right : DataFrame) (m : merged) :
  In m (merge_inner left right) ->
  exists c n, m = mk_merged (Some c) (Some n) /\ In c left /\ In n right
              /\ key_eqb (n "Employee ID") (c "Employee ID") = true.
Proof.
  unfold merge_inner. rewrite in_flat_map. intros (c & Hc & Hm).
  apply list_elem_of_In in Hm. apply list_elem_of_fmap in Hm as (n & -> & Hn).
  apply list_elem_of_In in Hn. unfold matching in Hn. apply filter_In in Hn as [Hn Hk].
  exists c, n. auto.
Qed.

Lemma cell_eqb_key (a b : cell) : cell_eqb a b = true -> key_eqb a b = true.
Proof. unfold key_eqb. intros ->. reflexivity. Qed.

Lemma key_eqb_cell (a b : cell) : key_eqb a b = true -> b <> NaN -> cell_eqb a b = true.
Proof.
  unfold key_eqb. rewrite orb_true_iff, andb_true_iff. intros [H | [_ H]] Hb; [exact H |].
  destruct b; try discriminate. contradiction.
Qed.

(** ** Detectors that add no row for an employee *)

Lemma untouched_refl (E : cell) (r : Series) : untouched E r r.
Proof. split; auto. Qed.

Lemma count_for_untouched (E : cell) (df0 df : DataFrame) :
  Forall2 (untouched E) df0 df -> count_for E df = count_for E df0.
Proof.
  unfold count_for. induction 1 as [|r0 r df0 df [Hid _] _ IH]; simpl; [reflexivity |].
  assert (Hf : for_employee E r = for_employee E r0)
    by (unfold for_employee; rewrite Hid; reflexivity).
  rewrite Hf. destruct (for_employee E r0); simpl; rewrite IH; reflexivity.
Qed.

Lemma count_for_app (E : cell) (df ne : DataFrame) :
  Forall (fun a => for_employee E a = false) ne ->
  count_for E (df ++ ne) = count_for E df.
Proof.
  intros H. unfold count_for. rewrite List.filter_app, length_app.
  replace (List.filter (for_employee E) ne) with (@nil Series); [simpl; lia |].
  induction H as [|a ne Ha _ IH]; simpl; [reflexivity |]. rewrite Ha. exact IH.
Qed.

Lemma count_for_add_new_entries (E : cell) (op0 : DataFrame) (st : loop_state) :
  no_row_for E op0 st ->
  count_for E (add_new_entries_fte (fst st) (snd st)) = count_for E op0.
Proof.
  intros [H1 H2]. destruct st as [op ne]. simpl in *.
  rewrite <- (count_for_untouched E op0 op H1).
  unfold add_new_entries_fte. destruct ne; [reflexivity |].
  apply count_for_app. exact H2.
Qed.

(** A write to a column other than the employee id, at a row that is not
    a row of [E]. *)
Lemma untouched_at_set (E : cell) (op0 op : DataFrame) (i : nat) (col : string) (v : cell) :
  Forall2 (untouched E) op0 op ->
  col <> "Employee ID" ->
  (forall r0, op0 !! i = Some r0 -> for_employee E r0 = false) ->
  Forall2 (untouched E) op0 (at_set i col v op).
Proof.
  intros H Hcol Hi. unfold at_set. apply Forall2_alter_r; [exact H |].
  intros x y Hx _ [Hid _]. split.
  - rewrite set_other by exact Hcol. exact Hid.
  - rewrite (Hi x Hx). discriminate.
Qed.

(** A row that the strict policy returns for [id] belongs to the
    employee [id], in the plan the detector was given as well. *)
Lemma strict_index_original (E : cell) (op0 op : DataFrame) (id : cell) (i : nat) :
  Forall2 (untouched E) op0 op ->
  In i (employee_filtering_condition_fte op id) ->
  exists r0, op0 !! i = Some r0 /\ cell_eqb (r0 "Employee ID") id = true.
Proof.
  intros H Hi. apply index_where_spec in Hi as (r & Hr & Hm).
  destruct (Forall2_lookup_r _ _ _ _ _ H Hr) as (r0 & Hr0 & Hid & _).
  exists r0. split; [exact Hr0 |]. rewrite <- Hid.
  apply strict_mask_fte_row in Hm. apply Hm.
Qed.

Lemma not_for_employee (E id : cell) (r0 : Series) :
  cell_eqb (r0 "Employee ID") id = true -> key_eqb id E = false -> for_employee E r0 = false.
Proof.
  intros H1 H2. unfold for_employee.
  destruct (key_eqb (r0 "Employee ID") E) eqn:H; [| reflexivity].
  apply cell_eqb_key in H1. rewrite key_eqb_sym in H1.
  rewrite (key_eqb_trans _ _ _ H1 H) in H2. discriminate.
Qed.

(** The check [existing_entries] finds a row of [E] again in the plan as
    the loop has left it. *)
Lemma existing_entries_kept (E : cell) (op0 op : DataFrame) (id : cell)
    (col : string) (v : cell) (eofy : string) :
  Forall2 (untouched E) op0 op ->
  key_eqb id E = true ->
  existing_entries op0 E col v eofy <> [] ->
  existing_entries op id col v eofy <> [].
Proof.
  intros H Hid Hex.
  destruct (existing_entries op0 E col v eofy) as [|x l] eqn:Hl; [contradiction |].
  assert (Hx : In x (existing_entries op0 E col v eofy)) by (rewrite Hl; left; reflexivity).
  unfold existing_entries in Hx. apply filter_In in Hx as [Hx Hp].
  rewrite !andb_true_iff in Hp. destruct Hp as [[Hp1 Hp2] Hp3].
  apply list_elem_of_In, list_elem_of_lookup in Hx as [k Hk].
  destruct (Forall2_lookup_l _ _ _ _ _ H Hk) as (y & Hy & _ & Hsame).
  assert (HE : for_employee E x = true) by (apply cell_eqb_key; exact Hp1).
  specialize (Hsame HE).
  assert (Hin : In y (existing_entries op id col v eofy)).
  { unfold existing_entries. apply filter_In. split.
    - apply list_elem_of_In, list_elem_of_lookup. exists k. exact Hy.
    - rewrite !Hsame, Hp2, Hp3, !andb_true_r.
      destruct (cell_eqb_notna _ _ Hp1) as [_ HEn].
      apply (cell_eqb_trans _ E); [exact Hp1 |].
      rewrite cell_eqb_sym. apply key_eqb_cell; assumption. }
  intros Hnil. rewrite Hnil in Hin. destruct Hin.
Qed.

Lemma set_id_other (col : string) (v : cell) (r : Series) :
  String.eqb col "Employee ID" = false ->
  set col v r "Employee ID" = r "Employee ID".
Proof. unfold set. intros ->. reflexivity. Qed.

Lemma loc_at_set_id (i j : nat) (col : string) (v : cell) (df : DataFrame) :
  String.eqb col "Employee ID" = false ->
  loc i (at_set j col v df) "Employee ID" = loc i df "Employee ID".
Proof.
  intros Hcol. unfold loc. rewrite lookup_at_set.
  destruct (Nat.eqb j i); [| reflexivity].
  destruct (df !! i); simpl; [apply set_id_other; exact Hcol | reflexivity].
Qed.

Lemma loc_untouched_id (E : cell) (op0 op : DataFrame) (i : nat) (r0 : Series) :
  Forall2 (untouched E) op0 op -> op0 !! i = Some r0 ->
  loc i op "Employee ID" = r0 "Employee ID".
Proof.
  intros H Hr0. destruct (Forall2_lookup_l _ _ _ _ _ H Hr0) as (r & Hr & Hid & _).
  unfold loc. rewrite Hr. exact Hid.
Qed.

(** The merged rows that a detector selects for the employee [E] carry a
    record of [E] from the next roster. *)
Lemma merged_next_record (E : cell) (c n : Series) :
  key_eqb (n "Employee ID") (c "Employee ID") = true ->
  key_eqb (mget (mk_merged (Some c) (Some n)) "Employee ID") E = true ->
  key_eqb (n "Employee ID") E = true.
Proof. intros H1 H2. eapply key_eqb_trans; [exact H1 | exact H2]. Qed.

Lemma grade_changes_no_row (today : date) (current_df next_df op_fte_df : DataFrame)
    (file_date : string * string) (E : cell) :
  (forall n, In n (employee_security_fte next_df) ->
             key_eqb (n "Employee ID") E = true ->
             existing_entries op_fte_df E "Job Grade" (n "Job Grade") (eofy_label today) <> []) ->
  count_for E (identify_grade_changes_fte today current_df next_df op_fte_df file_date)
  = count_for E op_fte_df.
Proof.
  intros Hex. unfold identify_grade_changes_fte. destruct file_date as [e s].
  destruct (relabel e) as [last_day|]; [| reflexivity].
  destruct (relabel s) as [first_day|]; [| reflexivity].
  cbv zeta.
  match goal with
  | |- context [for_rows ?l ?b ?st] =>
      set (rows := l);
      assert (Hinv : no_row_for E op_fte_df (for_rows rows b st));
      [| destruct (for_rows rows b st) as [op' ne'];
         apply (count_for_add_new_entries E op_fte_df (op', ne') Hinv)]
  end.
  unfold for_rows. apply fold_left_invariant.
  { split; [apply Forall2_refl_on, untouched_refl | constructor]. }
  intros [op ne] m Hm Hst.
  apply filter_In in Hm as [Hm _].
  apply merge_inner_In in Hm as (c & n & -> & _ & Hn & Hkey).
  cbv beta iota.
  set (row := mget (mk_merged (Some c) (Some n))).
  unfold for_indices.
  apply fold_left_invariant; [exact Hst |].
  intros [op1 ne1] i Hi [Hop1 Hne1]. cbv beta iota. simpl in Hop1, Hne1.
  destruct (negb (is_empty (existing_entries op1 (row "Employee ID") "Job Grade"
                              (row "Job Grade_next") (eofy_label today)))) eqn:Hchk.
  - split; assumption.
  - apply is_empty_false in Hchk.
    assert (HnE : key_eqb (row "Employee ID") E = false).
    { destruct (key_eqb (row "Employee ID") E) eqn:HrE; [| reflexivity]. exfalso.
      refine (existing_entries_kept E op_fte_df op1 _ _ _ _ Hop1 HrE _ Hchk).
      apply (Hex n Hn). eapply merged_next_record; eauto. }
    destruct (strict_index_original E op_fte_df op _ i (proj1 Hst) Hi) as (r0 & Hr0 & Hid0).
    assert (Hnot : forall x, op_fte_df !! i = Some x -> for_employee E x = false).
    { intros x Hx. rewrite Hr0 in Hx. injection Hx as <-.
      eapply not_for_employee; eauto. }
    split; simpl.
    + repeat (apply untouched_at_set; [| discriminate | exact Hnot]). exact Hop1.
    + apply Forall_app. split; [exact Hne1 |]. constructor; [| constructor].
      unfold for_employee. rewrite !set_id_other by reflexivity.
      rewrite !loc_at_set_id by reflexivity.
      rewrite (loc_untouched_id E op_fte_df op1 i r0 Hop1 Hr0).
      eapply not_for_employee; eauto.
Qed.

(** The [for] loop of the mobility detector that looks for an existing
    entry: the test does not depend on the index, so the loop stops at the
    first index when the test holds and runs to the last one otherwise. *)
Lemma mobility_flag (chk : bool) (idxs : list nat) (p0 : bool) (k0 : nat) :
  let res := fold_left
               (fun '((processed, last_index) : bool * nat) emp_index =>
                  if processed then (processed, last_index)
                  else if chk then (true, emp_index) else (false, emp_index))
               idxs (p0, k0) in
  (p0 = true -> res = (true, k0))
  /\ (p0 = false -> idxs <> [] -> fst res = chk /\ In (snd res) idxs).
Proof.
  revert p0 k0. induction idxs as [|i idxs IH]; intros p0 k0; simpl.
  - split; [intros ->; reflexivity | intros _ H; contradiction].
  - destruct p0.
    + split; [intros _; apply (IH true k0); reflexivity | discriminate].
    + split; [discriminate |]. intros _ _.
      destruct chk.
      * destruct (IH true i) as [H _]. rewrite (H eq_refl). simpl. auto.
      * destruct idxs as [|j idxs'].
        -- simpl. auto.
        -- destruct (IH false i) as [_ H]. destruct (H eq_refl ltac:(discriminate)) as [H1 H2].
           split; [exact H1 | right; exact H2].
Qed.

Lemma build_entry_fte_id (py_repr : cell -> string) (in_row : string -> bool)
    (row src : Series) (start_date end_date role_status : cell) :
  build_entry_fte py_repr in_row row src start_date end_date role_status "Employee ID"
  = row "Employee ID".
Proof. reflexivity. Qed.

Lemma cell_eqb_key_r (x a b : cell) : key_eqb a b = true -> cell_eqb x a = cell_eqb x b.
Proof.
  unfold key_eqb. rewrite orb_true_iff, andb_true_iff. intros [H | [Ha Hb]].
  - apply eq_true_iff_eq. split; intros Hx.
    + eapply cell_eqb_trans; eauto.
    + rewrite cell_eqb_sym in H. eapply cell_eqb_trans; eauto.
  - destruct a; try discriminate. destruct b; try discriminate. reflexivity.
Qed.

Lemma strict_key (df : DataFrame) (id E : cell) :
  key_eqb id E = true ->
  employee_filtering_condition_fte df id = employee_filtering_condition_fte df E.
Proof.
  intros H. unfold employee_filtering_condition_fte. apply index_where_ext.
  intros r _. unfold employee_filtering_condition_fte_mask.
  rewrite (cell_eqb_key_r _ _ _ H). reflexivity.
Qed.

Lemma internal_mobility_no_row (today : date) (current_df next_df op_fte_df : DataFrame)
    (file_date : string * string) (E : cell) :
  (forall n, In n (employee_security_fte next_df) ->
             key_eqb (n "Employee ID") E = true ->
             existing_entries op_fte_df E "Tech Area" (n "Tech Area") (eofy_label today) <> []) ->
  count_for E (identify_internal_mobility_fte today current_df next_df op_fte_df file_date)
  = count_for E op_fte_df.
Proof.
  intros Hex. unfold identify_internal_mobility_fte. destruct file_date as [e s].
  destruct (relabel e) as [last_day|]; [| reflexivity].
  destruct (relabel s) as [first_day|]; [| reflexivity].
  cbv zeta.
  match goal with
  | |- context [for_rows ?l ?b ?st] =>
      set (rows := l);
      assert (Hinv : no_row_for E op_fte_df (for_rows rows b st));
      [| destruct (for_rows rows b st) as [op' ne'];
         apply (count_for_add_new_entries E op_fte_df (op', ne') Hinv)]
  end.
  unfold for_rows. apply fold_left_invariant.
  { split; [apply Forall2_refl_on, untouched_refl | constructor]. }
  intros [op ne] m Hm [Hop Hne]. simpl in Hop, Hne.
  apply filter_In in Hm as [Hm _].
  apply merge_inner_In in Hm as (c & n & -> & _ & Hn & Hkey).
  cbv beta iota.
  set (row := mget (mk_merged (Some c) (Some n))).
  destruct (employee_filtering_condition_fte op (row "Employee ID")) as [|i0 idxs0] eqn:Hidx;
    [split; assumption |].
  simpl negb. cbv iota.
  match goal with
  | |- context [fold_left ?f (i0 :: idxs0) (false, 0%nat)] =>
      pose proof (mobility_flag
                    (negb (is_empty (existing_entries op (row "Employee ID") "Tech Area"
                                       (row "Tech Area_next") (eofy_label today))))
                    (i0 :: idxs0) false 0%nat) as [_ Hflag];
      cbv zeta in Hflag;
      destruct (fold_left f (i0 :: idxs0) (false, 0%nat)) as [processed i]
  end.
  destruct (Hflag eq_refl ltac:(discriminate)) as [Hp Hi]. cbn [fst snd] in Hp, Hi.
  destruct processed; simpl negb; cbv iota; [split; assumption |].
  symmetry in Hp. apply is_empty_false in Hp.
  assert (HnE : key_eqb (row "Employee ID") E = false).
  { destruct (key_eqb (row "Employee ID") E) eqn:HrE; [| reflexivity]. exfalso.
    refine (existing_entries_kept E op_fte_df op _ _ _ _ Hop HrE _ Hp).
    apply (Hex n Hn). eapply merged_next_record; eauto. }
  rewrite <- Hidx in Hi.
  destruct (strict_index_original E op_fte_df op _ i Hop Hi) as (r0 & Hr0 & Hid0).
  assert (Hnot : forall x, op_fte_df !! i = Some x -> for_employee E x = false).
  { intros x Hx. rewrite Hr0 in Hx. injection Hx as <-.
    eapply not_for_employee; eauto. }
  split; simpl.
  - repeat (apply untouched_at_set; [| discriminate | exact Hnot]). exact Hop.
  - apply Forall_app. split; [exact Hne |]. constructor; [| constructor].
    unfold for_employee. rewrite !set_id_other by reflexivity.
    rewrite !loc_at_set_id by reflexivity.
    rewrite (loc_untouched_id E op_fte_df op i r0 Hop Hr0).
    eapply not_for_employee; eauto.
Qed.

Lemma conversions_cwr_to_fte_no_row (today : date) (py_repr : cell -> string)
    (current_df next_df op_fte_df : DataFrame) (file_date : string * string) (E : cell) :
  employee_filtering_condition_fte op_fte_df E <> [] ->
  count_for E (identify_conversions_cwr_to_fte today py_repr current_df next_df op_fte_df file_date)
  = count_for E op_fte_df.
Proof.
  intros Hmatch. unfold identify_conversions_cwr_to_fte. destruct file_date as [e s].
  destruct (relabel s) as [first_day|]; [| reflexivity].
  cbv zeta.
  match goal with
  | |- context [for_rows ?l ?b ?st] =>
      set (rows := l);
      assert (Hinv : fst (for_rows rows b st) = op_fte_df
                     /\ Forall (fun a => for_employee E a = false) (snd (for_rows rows b st)));
      [| destruct (for_rows rows b st) as [op' ne']; simpl in Hinv; destruct Hinv as [-> Hne];
         unfold add_new_entries_fte; destruct ne'; [reflexivity |];
         apply count_for_app; exact Hne]
  end.
  unfold for_rows. apply fold_left_invariant; [split; [reflexivity | constructor] |].
  intros [op ne] m _ [Hop Hne]. simpl in Hop, Hne. subst op. cbv beta iota.
  set (row := mget m).
  destruct (employee_filtering_condition_fte op_fte_df (row "Employee ID")) as [|i0 idxs0] eqn:Hidx.
  - simpl. split; [reflexivity |]. apply Forall_app. split; [exact Hne |].
    constructor; [| constructor].
    unfold for_employee. rewrite build_entry_fte_id.
    destruct (key_eqb (row "Employee ID") E) eqn:HrE; [| reflexivity]. exfalso.
    apply Hmatch. rewrite <- (strict_key _ _ _ HrE). exact Hidx.
  - simpl negb. cbv iota. unfold for_indices.
    apply fold_left_invariant; [split; [reflexivity | exact Hne] |].
    intros [op1 ne1] i _ H. cbv beta iota.
    destruct (negb (is_empty _)); exact H.
Qed.

(** What the check of each detector does when it finds a row.  Let the
    plan hold, for each record of [E] among the Security/FTE rows of the
    next roster, a row of [E] with the new grade (for the mobility
    detector: the tech area as the roster writes it) and the
    financial-year end as End Date.  Then the grade-change detector and
    the mobility detector add no row for [E].  The detector of conversions
    to FTE adds no row for [E] when the strict policy returns a plan row
    for [E]; it consults the check for those rows only. *)
Theorem guarded_detectors_add_no_row (today : date) (py_repr : cell -> string)
    (current_df next_df op_fte_df : DataFrame) (file_date : string * string) (E : cell) :
  ((forall n, In n (employee_security_fte next_df) ->
              key_eqb (n "Employee ID") E = true ->
              existing_entries op_fte_df E "Job Grade" (n "Job Grade") (eofy_label today) <> []) ->
   count_for E (identify_grade_changes_fte today current_df next_df op_fte_df file_date)
   = count_for E op_fte_df)
  /\ ((forall n, In n (employee_security_fte next_df) ->
                 key_eqb (n "Employee ID") E = true ->
                 existing_entries op_fte_df E "Tech Area" (n "Tech Area") (eofy_label today) <> []) ->
      count_for E (identify_internal_mobility_fte today current_df next_df op_fte_df file_date)
      = count_for E op_fte_df)
  /\ (employee_filtering_condition_fte op_fte_df E <> [] ->
      count_for E (identify_conversions_cwr_to_fte today py_repr current_df next_df
                     op_fte_df file_date)
      = count_for E op_fte_df).
Proof.
  split; [apply grade_changes_no_row |].
  split; [apply internal_mobility_no_row | apply conversions_cwr_to_fte_no_row].
Qed.

Lemma guarded_detectors_add_no_row_witness :
  count_for (Fixture.emp 1001)
    (identify_grade_changes_fte Fixture.today [Fixture.e1001_current] [Fixture.e1001_next]
       Fixture.guard_plan Fixture.file_date) = 1%nat
  /\ count_for (Fixture.emp 1001)
       (identify_internal_mobility_fte Fixture.today [Fixture.e1001_current] [Fixture.e1001_next]
          Fixture.guard_plan Fixture.file_date) = 1%nat
  /\ count_for (Fixture.emp 1001)
       (identify_conversions_cwr_to_fte Fixture.today Fixture.py_repr
          [Fixture.e1001_contractor] [Fixture.e1001_next]
          Fixture.guard_plan Fixture.file_date) = 1%nat.
Proof.
  destruct (guarded_detectors_add_no_row Fixture.today Fixture.py_repr
              [Fixture.e1001_current] [Fixture.e1001_next] Fixture.guard_plan
              Fixture.file_date (Fixture.emp 1001)) as (H1 & H2 & _).
  destruct (guarded_detectors_add_no_row Fixture.today Fixture.py_repr
              [Fixture.e1001_contractor] [Fixture.e1001_next] Fixture.guard_plan
              Fixture.file_date (Fixture.emp 1001)) as (_ & _ & H3).
  split; [| split].
  - rewrite H1; [reflexivity |].
    intros n [<- | []] _. vm_compute. discriminate.
  - rewrite H2; [reflexivity |].
    intros n [<- | []] _. vm_compute. discriminate.
  - rewrite H3; [reflexivity |]. vm_compute. discriminate.
Defined.

(** The check of the conversions to FTE does not cover a row tagged
    fulfilled: the plan holds the row of the employee with the new
    resource type and the financial-year end, the strict policy returns
    nothing and a second row is appended without the check. *)
Lemma conversion_to_fte_inserts_duplicate :
  ~ (forall (today : date) (py_repr : cell -> string)
            (current_df next_df op_fte_df : DataFrame) (file_date : string * string) (E : cell),
        (forall n, In n (employee_security_fte next_df) ->
                   key_eqb (n "Employee ID") E = true ->
                   existing_entries op_fte_df E "Resource Type" (n "Resource Type")
                     (eofy_label today) <> []) ->
        count_for E (identify_conversions_cwr_to_fte today py_repr current_df next_df
                       op_fte_df file_date)
        = count_for E op_fte_df).
Proof.
  intros H.
  specialize (H Fixture.today Fixture.py_repr [Fixture.e1001_contractor] [Fixture.e1001_next]
                Fixture.fulfilled_plan Fixture.file_date (Fixture.emp 1001)).
  assert (Hex : forall n, In n (employee_security_fte [Fixture.e1001_next]) ->
                          key_eqb (n "Employee ID") (Fixture.emp 1001) = true ->
                          existing_entries Fixture.fulfilled_plan (Fixture.emp 1001) "Resource Type"
                            (n "Resource Type") (eofy_label Fixture.today) <> []).
  { intros n [<- | []] _. vm_compute. discriminate. }
  specialize (H Hex). vm_compute in H. discriminate.
Qed.

(** ** Rows kept by a pass *)

Lemma key_eqb_refl (a : cell) : key_eqb a a = true.
Proof.
  unfold key_eqb. destruct a as [|s|q|b|d|d t]; simpl; try reflexivity.
  - rewrite String.eqb_refl. reflexivity.
  - assert (H : Qeq_bool q q = true) by (apply Qeq_bool_iff; reflexivity).
    rewrite H. reflexivity.
  - destruct b; reflexivity.
  - assert (H : date_eqb d d = true) by (apply date_eqb_eq; reflexivity).
    rewrite H. reflexivity.
  - assert (H : date_eqb d d = true) by (apply date_eqb_eq; reflexivity).
    rewrite H, Z.eqb_refl. reflexivity.
Qed.

Lemma kept_row_refl (r : Series) : kept_row r r.
Proof. split; [apply key_eqb_refl | auto]. Qed.

Lemma kept_row_trans (a b c : Series) : kept_row a b -> kept_row b c -> kept_row a c.
Proof.
  intros [H1 H2] [H3 H4]. split; [eapply key_eqb_trans; eauto | auto].
Qed.

Lemma kept_row_for_employee (E : cell) (r0 r : Series) :
  kept_row r0 r -> for_employee E r = for_employee E r0.
Proof.
  intros [H _]. unfold for_employee. apply eq_true_iff_eq. split; intros Hx.
  - rewrite key_eqb_sym in H. eapply key_eqb_trans; eauto.
  - eapply key_eqb_trans; eauto.
Qed.

Lemma extends_refl (G : Prop) (E : cell) (op : DataFrame) : extends G E op op.
Proof.
  exists op, []. rewrite app_nil_r. split; [reflexivity |].
  split; [apply Forall2_refl_on, kept_row_refl | constructor].
Qed.

Lemma Forall2_kept_trans (l1 l2 l3 : DataFrame) :
  Forall2 kept_row l1 l2 -> Forall2 kept_row l2 l3 -> Forall2 kept_row l1 l3.
Proof.
  intros H. revert l3. induction H as [|x y l1 l2 Hxy _ IH]; intros l3 H3.
  - inversion H3. constructor.
  - inversion H3 as [|? z ? l3' Hyz H3' ]; subst. constructor.
    + eapply kept_row_trans; eauto.
    + apply IH. exact H3'.
Qed.

Lemma extends_trans (G : Prop) (E : cell) (op0 op1 op2 : DataFrame) :
  extends G E op0 op1 -> extends G E op1 op2 -> extends G E op0 op2.
Proof.
  intros (k1 & a1 & -> & Hk1 & Ha1) (k2 & a2 & -> & Hk2 & Ha2).
  apply Forall2_app_inv_l in Hk2 as (k2' & k2'' & Hk2' & Hk2'' & ->).
  exists k2', (k2'' ++ a2). split; [rewrite app_assoc; reflexivity |].
  split; [eapply Forall2_kept_trans; eauto |].
  intros HG. apply Forall_app. split; [| apply Ha2; exact HG].
  specialize (Ha1 HG). clear - Ha1 Hk2''.
  induction Hk2'' as [|x y a1 k2'' Hxy _ IH]; [constructor |].
  inversion Ha1; subst. constructor; [| apply IH; assumption].
  rewrite (kept_row_for_employee E x y Hxy). assumption.
Qed.

Lemma keeps_extends (G : Prop) (E : cell) (op0 : DataFrame) (st : loop_state) :
  keeps G E op0 st -> extends G E op0 (add_new_entries_fte (fst st) (snd st)).
Proof.
  intros [H1 H2]. destruct st as [op ne]. simpl in *.
  exists op, ne. split; [| split; assumption].
  unfold add_new_entries_fte. destruct ne; rewrite ?app_nil_r; reflexivity.
Qed.

Lemma keeps_extends_fst (G : Prop) (E : cell) (op0 : DataFrame) (st : loop_state) :
  Forall2 kept_row op0 (fst st) -> extends G E op0 (fst st).
Proof.
  intros H. exists (fst st), []. rewrite app_nil_r. split; [reflexivity |].
  split; [exact H | constructor].
Qed.

(** A write to a column other than the employee id and the status. *)
Lemma kept_at_set (op0 op : DataFrame) (i : nat) (col : string) (v : cell) :
  Forall2 kept_row op0 op ->
  String.eqb col "Employee ID" = false ->
  String.eqb col "Role Status" = false ->
  Forall2 kept_row op0 (at_set i col v op).
Proof.
  intros H H1 H2. unfold at_set. apply Forall2_alter_r; [exact H |].
  intros x y _ _ [Hid Hrs]. unfold kept_row, set. rewrite H1, H2. auto.
Qed.

(** A write to the status of a row that was not tagged as missing. *)
Lemma kept_at_set_status (op0 op : DataFrame) (i : nat) (v : cell) :
  Forall2 kept_row op0 op ->
  (forall r0, op0 !! i = Some r0 -> r0 "Role Status" <> Str "Missing from Op FTE") ->
  Forall2 kept_row op0 (at_set i "Role Status" v op).
Proof.
  intros H Hi. unfold at_set. apply Forall2_alter_r; [exact H |].
  intros x y Hx _ [Hid Hrs]. split.
  - rewrite set_other by discriminate. exact Hid.
  - intros Hm. exfalso. exact (Hi x Hx Hm).
Qed.

(** A write of the id of the employee the row belongs to. *)
Lemma kept_at_set_id (op0 op : DataFrame) (i : nat) (v : cell) :
  Forall2 kept_row op0 op ->
  (forall r0, op0 !! i = Some r0 -> key_eqb v (r0 "Employee ID") = true) ->
  Forall2 kept_row op0 (at_set i "Employee ID" v op).
Proof.
  intros H Hi. unfold at_set. apply Forall2_alter_r; [exact H |].
  intros x y Hx _ [Hid Hrs]. split.
  - rewrite set_same. apply Hi. exact Hx.
  - rewrite set_other by discriminate. exact Hrs.
Qed.

(** What the two policies tell about a row they return, in terms of the
    plan the pass was given. *)
Lemma matched_original (op0 op : DataFrame) (p : Series -> bool) (id : cell) (i : nat) :
  Forall2 kept_row op0 op ->
  (forall r, p r = true ->
             cell_eqb (r "Employee ID") id = true
             /\ r "Role Status" <> Str "Missing from Op FTE") ->
  In i (index_where p op) ->
  exists r0, op0 !! i = Some r0
             /\ cell_eqb (r0 "Employee ID") id = true
             /\ r0 "Role Status" <> Str "Missing from Op FTE".
Proof.
  intros H Hp Hi. apply index_where_spec in Hi as (r & Hr & Hm).
  destruct (Forall2_lookup_r _ _ _ _ _ H Hr) as (r0 & Hr0 & Hid & Hrs).
  destruct (Hp r Hm) as [Hrid Hrm].
  exists r0. split; [exact Hr0 |]. split.
  - destruct (cell_eqb_notna _ _ Hrid) as [Hn _].
    rewrite key_eqb_sym in Hid. apply key_eqb_cell in Hid; [| exact Hn].
    eapply cell_eqb_trans; eauto.
  - intros Hm0. apply Hrm. apply Hrs. exact Hm0.
Qed.

Lemma strict_original (op0 op : DataFrame) (id : cell) (i : nat) :
  Forall2 kept_row op0 op ->
  In i (employee_filtering_condition_fte op id) ->
  matched_in op0 id i.
Proof.
  intros H. apply matched_original; [exact H |].
  intros r Hm. apply strict_mask_fte_row in Hm as [Hs Hid]. split; [exact Hid |].
  destruct Hs as (_ & _ & _ & _ & Hs & _). exact Hs.
Qed.

Lemma relaxed_original (op0 op : DataFrame) (id : cell) (i : nat) :
  Forall2 kept_row op0 op ->
  In i (shorten_filtering_condition_fte op id) ->
  matched_in op0 id i.
Proof.
  intros H. apply matched_original; [exact H |].
  intros r Hm. unfold shorten_filtering_condition_fte_mask in Hm.
  rewrite !andb_true_iff, !cell_neb_Str in Hm.
  destruct Hm as [[[[_ Hid] _] _] Hrs]. split; assumption.
Qed.

Lemma kept_at_set_matched_status (op0 op : DataFrame) (id : cell) (i : nat) (v : cell) :
  Forall2 kept_row op0 op -> matched_in op0 id i ->
  Forall2 kept_row op0 (at_set i "Role Status" v op).
Proof.
  intros H (r0 & Hr0 & _ & Hrs). apply kept_at_set_status; [exact H |].
  intros x Hx. assert (x = r0) as -> by congruence. exact Hrs.
Qed.

Lemma kept_at_set_matched_id (op0 op : DataFrame) (id : cell) (i : nat) :
  Forall2 kept_row op0 op -> matched_in op0 id i ->
  Forall2 kept_row op0 (at_set i "Employee ID" id op).
Proof.
  intros H (r0 & Hr0 & Hid & _). apply kept_at_set_id; [exact H |].
  intros x Hx. assert (x = r0) as -> by congruence.
  apply cell_eqb_key. rewrite cell_eqb_sym. exact Hid.
Qed.

(** The writes of a detector to a row its policy has returned. *)
Ltac keep_writes Hmi :=
  repeat first
    [ apply kept_at_set; [| reflexivity | reflexivity]
    | eapply kept_at_set_matched_status; [| exact Hmi]
    | eapply kept_at_set_matched_id; [| exact Hmi] ].

Lemma for_employee_set (E : cell) (col : string) (v : cell) (r : Series) :
  String.eqb col "Employee ID" = false ->
  for_employee E (set col v r) = for_employee E r.
Proof. intros H. unfold for_employee. rewrite set_id_other by exact H. reflexivity. Qed.

Lemma matched_not_for (E : cell) (op0 : DataFrame) (id : cell) (i : nat) :
  only_missing E op0 -> matched_in op0 id i -> key_eqb id E = false.
Proof.
  intros Hom (r0 & Hr0 & Hid & Hrs).
  destruct (key_eqb id E) eqn:HE; [| reflexivity]. exfalso. apply Hrs.
  apply Hom.
  - apply list_elem_of_In. eapply list_elem_of_lookup_2. exact Hr0.
  - unfold for_employee. eapply key_eqb_trans; [| exact HE].
    apply cell_eqb_key. exact Hid.
Qed.

(** The copy of a matched row that a detector appends is a row of the
    employee the detector is handling. *)
Lemma copy_id (op0 op : DataFrame) (id : cell) (i : nat) :
  Forall2 kept_row op0 op -> matched_in op0 id i ->
  key_eqb (loc i op "Employee ID") id = true.
Proof.
  intros H (r0 & Hr0 & Hid & _).
  destruct (Forall2_lookup_l _ _ _ _ _ H Hr0) as (r & Hr & Hk & _).
  unfold loc. rewrite Hr. eapply key_eqb_trans; [exact Hk |].
  apply cell_eqb_key. exact Hid.
Qed.

Lemma copy_not_for (E : cell) (op0 op : DataFrame) (id : cell) (i : nat) :
  only_missing E op0 -> Forall2 kept_row op0 op -> matched_in op0 id i ->
  key_eqb (loc i op "Employee ID") E = false.
Proof.
  intros Hom H Hmi.
  pose proof (copy_id op0 op id i H Hmi) as Hc.
  pose proof (matched_not_for E op0 id i Hom Hmi) as Hn.
  rewrite key_eqb_sym in Hc. eapply key_eqb_false_l; eauto.
Qed.

Lemma keeps_init (G : Prop) (E : cell) (op : DataFrame) : keeps G E op (op, []).
Proof. split; simpl; [apply Forall2_refl_on, kept_row_refl | constructor]. Qed.

Lemma for_indices_keeps (G : Prop) (E : cell) (op0 : DataFrame) (id : cell)
    (idxs : list nat) (body : nat -> loop_state -> loop_state) (st : loop_state) :
  keeps G E op0 st ->
  (forall i, In i idxs -> matched_in op0 id i) ->
  (forall i st, matched_in op0 id i -> keeps G E op0 st -> keeps G E op0 (body i st)) ->
  keeps G E op0 (for_indices idxs body st).
Proof.
  intros Hst Hidx Hbody. unfold for_indices. apply fold_left_invariant; [exact Hst |].
  intros st' i Hi Hst'. apply Hbody; [apply Hidx; exact Hi | exact Hst'].
Qed.

(** *** The detectors that only close or relabel matched rows *)

Lemma identify_exits_fte_extends (G : Prop) (E : cell)
    (current_df next_df op_fte_df : DataFrame) (file_date : string * string) :
  extends G E op_fte_df (identify_exits_fte current_df next_df op_fte_df file_date).
Proof.
  unfold identify_exits_fte. destruct file_date as [e s].
  destruct (String.eqb e ""); [apply extends_refl |].
  destruct (strptime_b_y e) as [d|]; [| apply extends_refl].
  cbv zeta.
  match goal with
  | |- context [for_rows ?l ?b ?st] =>
      assert (Hinv : keeps G E op_fte_df (for_rows l b st));
      [| exact (keeps_extends_fst G E op_fte_df _ (proj1 Hinv))]
  end.
  unfold for_rows. apply fold_left_invariant; [apply keeps_init |].
  intros [op ne] row _ Hst. cbv beta iota.
  apply for_indices_keeps with (id := row "Employee ID"); [exact Hst | |].
  - intros i Hi. exact (relaxed_original _ _ _ _ (proj1 Hst) Hi).
  - intros i [op1 ne1] Hmi [H1 H2]. split; simpl; [| exact H2].
    simpl in H1. keep_writes Hmi. exact H1.
Qed.

Lemma identify_transfers_out_fte_extends (G : Prop) (E : cell)
    (current_df next_df op_fte_df : DataFrame) (file_date : string * string) :
  extends G E op_fte_df (identify_transfers_out_fte current_df next_df op_fte_df file_date).
Proof.
  unfold identify_transfers_out_fte. destruct file_date as [e s].
  destruct (relabel e) as [last_day|]; [| apply extends_refl].
  cbv zeta.
  match goal with
  | |- context [for_rows ?l ?b ?st] =>
      assert (Hinv : keeps G E op_fte_df (for_rows l b st));
      [| exact (keeps_extends_fst G E op_fte_df _ (proj1 Hinv))]
  end.
  unfold for_rows. apply fold_left_invariant; [apply keeps_init |].
  intros [op ne] m _ Hst. cbv beta iota.
  apply for_indices_keeps with (id := mget m "Employee ID"); [exact Hst | |].
  - intros i Hi. exact (relaxed_original _ _ _ _ (proj1 Hst) Hi).
  - intros i [op1 ne1] Hmi [H1 H2]. split; simpl; [| exact H2].
    simpl in H1. keep_writes Hmi. exact H1.
Qed.

Lemma identify_conversions_fte_to_cwr_extends (G : Prop) (E : cell)
    (current_df next_df op_fte_df : DataFrame) (file_date : string * string) :
  extends G E op_fte_df (identify_conversions_fte_to_cwr current_df next_df op_fte_df file_date).
Proof.
  unfold identify_conversions_fte_to_cwr. destruct file_date as [e s].
  destruct (relabel e) as [last_day|]; [| apply extends_refl].
  cbv zeta.
  match goal with
  | |- context [for_rows ?l ?b ?st] =>
      assert (Hinv : keeps G E op_fte_df (for_rows l b st));
      [| exact (keeps_extends_fst G E op_fte_df _ (proj1 Hinv))]
  end.
  unfold for_rows. apply fold_left_invariant; [apply keeps_init |].
  intros [op ne] m _ Hst. cbv beta iota.
  apply for_indices_keeps with (id := mget m "Employee ID"); [exact Hst | |].
  - intros i Hi. exact (strict_original _ _ _ _ (proj1 Hst) Hi).
  - intros i [op1 ne1] Hmi [H1 H2]. split; simpl; [| exact H2].
    simpl in H1. keep_writes Hmi. exact H1.
Qed.

(** *** The detectors that close a matched row and append its copy *)

(** The copy appended for a matched row, after the writes to its
    columns, is not a row of [E]. *)
Ltac copy_appended Hom H1 H2 Hmi :=
  let HG := fresh "HG" in
  intros HG; apply Forall_app; split; [exact (H2 HG) |];
  constructor; [| constructor];
  unfold for_employee; rewrite !set_id_other by reflexivity;
  rewrite !loc_at_set_id by reflexivity;
  exact (copy_not_for _ _ _ _ _ (Hom HG) H1 Hmi).

Lemma identify_location_changes_fte_extends (G : Prop) (E : cell) (today : date)
    (current_df next_df op_fte_df : DataFrame) (file_date : string * string) :
  (G -> only_missing E op_fte_df) ->
  extends G E op_fte_df (identify_location_changes_fte today current_df next_df op_fte_df file_date).
Proof.
  intros Hom. unfold identify_location_changes_fte. destruct file_date as [e s].
  destruct (relabel e) as [last_day|]; [| apply extends_refl].
  destruct (relabel s) as [first_day|]; [| apply extends_refl].
  cbv zeta.
  match goal with
  | |- context [for_rows ?l ?b ?st] =>
      assert (Hinv : keeps G E op_fte_df (for_rows l b st));
      [| destruct (for_rows l b st) as [op' ne'];
         exact (keeps_extends G E op_fte_df (op', ne') Hinv)]
  end.
  unfold for_rows. apply fold_left_invariant; [apply keeps_init |].
  intros [op ne] m _ Hst. cbv beta iota.
  apply for_indices_keeps with (id := mget m "Employee ID"); [exact Hst | |].
  - intros i Hi. exact (relaxed_original _ _ _ _ (proj1 Hst) Hi).
  - intros i [op1 ne1] Hmi [H1 H2]. simpl in H1, H2. split; simpl.
    + keep_writes Hmi. exact H1.
    + copy_appended Hom H1 H2 Hmi.
Qed.

Lemma identify_grade_changes_fte_extends (G : Prop) (E : cell) (today : date)
    (current_df next_df op_fte_df : DataFrame) (file_date : string * string) :
  (G -> only_missing E op_fte_df) ->
  extends G E op_fte_df (identify_grade_changes_fte today current_df next_df op_fte_df file_date).
Proof.
  intros Hom. unfold identify_grade_changes_fte. destruct file_date as [e s].
  destruct (relabel e) as [last_day|]; [| apply extends_refl].
  destruct (relabel s) as [first_day|]; [| apply extends_refl].
  cbv zeta.
  match goal with
  | |- context [for_rows ?l ?b ?st] =>
      assert (Hinv : keeps G E op_fte_df (for_rows l b st));
      [| destruct (for_rows l b st) as [op' ne'];
         exact (keeps_extends G E op_fte_df (op', ne') Hinv)]
  end.
  unfold for_rows. apply fold_left_invariant; [apply keeps_init |].
  intros [op ne] m _ Hst. cbv beta iota.
  apply for_indices_keeps with (id := mget m "Employee ID"); [exact Hst | |].
  - intros i Hi. exact (strict_original _ _ _ _ (proj1 Hst) Hi).
  - intros i [op1 ne1] Hmi [H1 H2]. simpl in H1, H2.
    match goal with |- context [if ?c then _ else _] => destruct c end;
      [split; assumption |].
    split; simpl.
    + keep_writes Hmi. exact H1.
    + copy_appended Hom H1 H2 Hmi.
Qed.

(** *** The employees a detector selects, when the records of [E] are steady *)

Lemma steady_in_current (E : cell) (current_df next_df : DataFrame) (c : Series) :
  steady E current_df next_df -> In c current_df -> for_employee E c = true ->
  c "Domain" = Str "Security" /\ c "FTE Category" = Str "FTE".
Proof. intros (_ & H & _). apply H. Qed.

Lemma In_employee_security_fte (df : DataFrame) (r : Series) :
  In r (employee_security_fte df) -> In r df.
Proof. unfold employee_security_fte. intros H. apply filter_In in H. tauto. Qed.

Lemma steady_new_joiner (E : cell) (current_df next_df : DataFrame) (row : Series) :
  steady E current_df next_df ->
  negb (isin (row "Employee ID") (employee_ids current_df)) = true
  \/ isin (row "Employee ID")
          (employee_ids (List.filter (fun r => cell_neb (r "Domain") (Str "Security")
                                               && cell_eqb (r "FTE Category") (Str "Non-FTE"))
                                     current_df)) = true ->
  key_eqb (row "Employee ID") E = false.
Proof.
  intros Hs H. destruct (key_eqb (row "Employee ID") E) eqn:HE; [| reflexivity]. exfalso.
  destruct H as [H | H].
  - rewrite (isin_key _ _ _ HE) in H. destruct Hs as (Hin & _). rewrite Hin in H. discriminate.
  - unfold isin in H. apply existsb_exists in H as (x & Hx & Hk).
    unfold employee_ids in Hx. apply list_elem_of_In, list_elem_of_fmap in Hx as (c & -> & Hc).
    apply list_elem_of_In, filter_In in Hc as [Hc Hm].
    apply andb_true_iff in Hm as [Hm _]. apply cell_neb_Str in Hm. apply Hm.
    apply (steady_in_current E current_df next_df c Hs Hc).
    unfold for_employee. rewrite key_eqb_sym in Hk. eapply key_eqb_trans; eauto.
Qed.

Lemma steady_transfer_in (E : cell) (current_df next_df : DataFrame) (c n : Series) :
  steady E current_df next_df -> In c current_df ->
  cell_neb (c "Domain") (Str "Security") = true ->
  key_eqb (c "Employee ID") E = false.
Proof.
  intros Hs Hc Hd. destruct (key_eqb (c "Employee ID") E) eqn:HE; [| reflexivity]. exfalso.
  apply cell_neb_Str in Hd. apply Hd. apply (steady_in_current E current_df next_df c Hs Hc HE).
Qed.

Lemma steady_conversion (E : cell) (current_df next_df : DataFrame) (c n : Series) :
  steady E current_df next_df -> In c current_df -> In n next_df ->
  key_eqb (n "Employee ID") (c "Employee ID") = true ->
  cell_neb (c "Resource Type") (n "Resource Type") = true ->
  key_eqb (c "Employee ID") E = false.
Proof.
  intros Hs Hc Hn Hk Hd. destruct (key_eqb (c "Employee ID") E) eqn:HE; [| reflexivity]. exfalso.
  destruct Hs as (_ & _ & Hs).
  assert (HnE : for_employee E n = true) by (unfold for_employee; eapply key_eqb_trans; eauto).
  specialize (Hs c n Hc Hn HE HnE). unfold cell_neb in Hd. rewrite Hs in Hd. discriminate.
Qed.

Lemma steady_contractor (E : cell) (current_df next_df : DataFrame) (c : Series) :
  steady E current_df next_df -> In c current_df ->
  cell_eqb (c "FTE Category") (Str "Non-FTE") = true ->
  key_eqb (c "Employee ID") E = false.
Proof.
  intros Hs Hc Hd. destruct (key_eqb (c "Employee ID") E) eqn:HE; [| reflexivity]. exfalso.
  destruct (steady_in_current E current_df next_df c Hs Hc HE) as [_ Hf].
  rewrite Hf in Hd. discriminate.
Qed.

(** *** The detectors that append a new entry for an unmatched employee *)

(** The new entry built for the selected roster row [row]. *)
Ltac entry_appended H2 :=
  let HG := fresh "HG" in
  intros HG; apply Forall_app; split; [exact (H2 HG) |];
  constructor; [| constructor];
  unfold for_employee; rewrite build_entry_fte_id.

Lemma identify_new_joiners_fte_extends (G : Prop) (E : cell) (today : date)
    (py_repr : cell -> string)
    (current_df next_df op_fte_df : DataFrame) (file_date : string * string) :
  (G -> steady E current_df next_df) ->
  extends G E op_fte_df
          (identify_new_joiners_fte today py_repr current_df next_df op_fte_df file_date).
Proof.
  intros Hs. unfold identify_new_joiners_fte. destruct file_date as [e s].
  destruct (relabel s) as [first_day|]; [| apply extends_refl].
  cbv zeta.
  match goal with
  | |- context [for_rows ?l ?b ?st] =>
      assert (Hinv : keeps G E op_fte_df (for_rows l b st));
      [| destruct (for_rows l b st) as [op' ne'];
         exact (keeps_extends G E op_fte_df (op', ne') Hinv)]
  end.
  unfold for_rows. apply fold_left_invariant; [apply keeps_init |].
  intros [op ne] row Hrow Hst. cbv beta iota.
  match goal with |- context [if ?c then _ else _] => destruct c end.
  - apply for_indices_keeps with (id := row "Employee ID"); [exact Hst | |].
    + intros i Hi. exact (strict_original _ _ _ _ (proj1 Hst) Hi).
    + intros i [op1 ne1] Hmi [H1 H2]. split; simpl; [| exact H2].
      simpl in H1. keep_writes Hmi. exact H1.
  - destruct Hst as [H1 H2]. simpl in H1, H2. split; simpl; [exact H1 |].
    entry_appended H2.
    apply (steady_new_joiner E current_df next_df row (Hs HG)).
    apply in_app_or in Hrow as [Hrow | Hrow]; apply filter_In in Hrow as [_ Hrow];
      [left | right]; exact Hrow.
Qed.

Lemma identify_transfers_in_fte_extends (G : Prop) (E : cell) (today : date)
    (py_repr : cell -> string)
    (current_df next_df op_fte_df : DataFrame) (file_date : string * string) :
  (G -> steady E current_df next_df) ->
  extends G E op_fte_df
          (identify_transfers_in_fte today py_repr current_df next_df op_fte_df file_date).
Proof.
  intros Hs. unfold identify_transfers_in_fte. destruct file_date as [e s].
  destruct (relabel s) as [first_day|]; [| apply extends_refl].
  cbv zeta.
  match goal with
  | |- context [for_rows ?l ?b ?st] =>
      assert (Hinv : keeps G E op_fte_df (for_rows l b st));
      [| destruct (for_rows l b st) as [op' ne'];
         exact (keeps_extends G E op_fte_df (op', ne') Hinv)]
  end.
  unfold for_rows. apply fold_left_invariant; [apply keeps_init |].
  intros [op ne] m Hm Hst. cbv beta iota.
  apply filter_In in Hm as [Hm Hsel].
  apply merge_inner_In in Hm as (c & n & -> & Hc & Hn & Hkey).
  match goal with |- context [if ?c then _ else _] => destruct c end.
  - apply for_indices_keeps with (id := mget (mk_merged (Some c) (Some n)) "Employee ID");
      [exact Hst | |].
    + intros i Hi. exact (strict_original _ _ _ _ (proj1 Hst) Hi).
    + intros i [op1 ne1] Hmi [H1 H2]. simpl in H1, H2.
      match goal with |- context [if ?c then _ else _] => destruct c end;
        [split; assumption |].
      split; simpl; [| exact H2]. keep_writes Hmi. exact H1.
  - destruct Hst as [H1 H2]. simpl in H1, H2. split; simpl; [exact H1 |].
    entry_appended H2.
    apply (steady_transfer_in E current_df next_df c n (Hs HG) Hc).
    cbv zeta in Hsel. rewrite !andb_true_iff in Hsel. destruct Hsel as [[Hd _] _]. exact Hd.
Qed.

Lemma indetify_conversions_within_fte_extends (G : Prop) (E : cell) (today : date)
    (py_repr : cell -> string)
    (current_df next_df op_fte_df : DataFrame) (file_date : string * string) :
  (G -> only_missing E op_fte_df) ->
  (G -> steady E current_df next_df) ->
  extends G E op_fte_df
          (indetify_conversions_within_fte today py_repr current_df next_df op_fte_df file_date).
Proof.
  intros Hom Hs. unfold indetify_conversions_within_fte. destruct file_date as [e s].
  destruct (relabel e) as [last_day|]; [| apply extends_refl].
  destruct (relabel s) as [first_day|]; [| apply extends_refl].
  cbv zeta.
  match goal with
  | |- context [for_rows ?l ?b ?st] =>
      assert (Hinv : keeps G E op_fte_df (for_rows l b st));
      [| destruct (for_rows l b st) as [op' ne'];
         exact (keeps_extends G E op_fte_df (op', ne') Hinv)]
  end.
  unfold for_rows. apply fold_left_invariant; [apply keeps_init |].
  intros [op ne] m Hm Hst. cbv beta iota.
  apply filter_In in Hm as [Hm Hsel].
  apply merge_inner_In in Hm as (c & n & -> & Hc & Hn & Hkey).
  match goal with |- context [if ?c then _ else _] => destruct c end.
  - apply for_indices_keeps with (id := mget (mk_merged (Some c) (Some n)) "Employee ID");
      [exact Hst | |].
    + intros i Hi. exact (strict_original _ _ _ _ (proj1 Hst) Hi).
    + intros i [op1 ne1] Hmi [H1 H2]. simpl in H1, H2. split; simpl.
      * keep_writes Hmi. exact H1.
      * copy_appended Hom H1 H2 Hmi.
  - destruct Hst as [H1 H2]. simpl in H1, H2. split; simpl; [exact H1 |].
    entry_appended H2.
    apply (steady_conversion E current_df next_df c n (Hs HG)
             (In_employee_security_fte _ _ Hc) (In_employee_security_fte _ _ Hn) Hkey).
    exact Hsel.
Qed.

Lemma identify_conversions_cwr_to_fte_extends (G : Prop) (E : cell) (today : date)
    (py_repr : cell -> string)
    (current_df next_df op_fte_df : DataFrame) (file_date : string * string) :
  (G -> steady E current_df next_df) ->
  extends G E op_fte_df
          (identify_conversions_cwr_to_fte today py_repr current_df next_df op_fte_df file_date).
Proof.
  intros Hs. unfold identify_conversions_cwr_to_fte. destruct file_date as [e s].
  destruct (relabel s) as [first_day|]; [| apply extends_refl].
  cbv zeta.
  match goal with
  | |- context [for_rows ?l ?b ?st] =>
      assert (Hinv : keeps G E op_fte_df (for_rows l b st));
      [| destruct (for_rows l b st) as [op' ne'];
         exact (keeps_extends G E op_fte_df (op', ne') Hinv)]
  end.
  unfold for_rows. apply fold_left_invariant; [apply keeps_init |].
  intros [op ne] m Hm Hst. cbv beta iota.
  apply filter_In in Hm as [Hm Hsel].
  apply merge_inner_In in Hm as (c & n & -> & Hc & Hn & Hkey).
  match goal with |- context [if ?c then _ else _] => destruct c end.
  - apply for_indices_keeps with (id := mget (mk_merged (Some c) (Some n)) "Employee ID");
      [exact Hst | |].
    + intros i Hi. exact (strict_original _ _ _ _ (proj1 Hst) Hi).
    + intros i [op1 ne1] Hmi [H1 H2]. simpl in H1, H2.
      match goal with |- context [if ?c then _ else _] => destruct c end;
        split; assumption.
  - destruct Hst as [H1 H2]. simpl in H1, H2. split; simpl; [exact H1 |].
    entry_appended H2.
    apply (steady_contractor E current_df next_df c (Hs HG) Hc).
    cbv zeta in Hsel. rewrite !andb_true_iff in Hsel. destruct Hsel as [_ Hd]. exact Hd.
Qed.

Lemma identify_internal_mobility_fte_extends (G : Prop) (E : cell) (today : date)
    (current_df next_df op_fte_df : DataFrame) (file_date : string * string) :
  (G -> only_missing E op_fte_df) ->
  extends G E op_fte_df
          (identify_internal_mobility_fte today current_df next_df op_fte_df file_date).
Proof.
  intros Hom. unfold identify_internal_mobility_fte. destruct file_date as [e s].
  destruct (relabel e) as [last_day|]; [| apply extends_refl].
  destruct (relabel s) as [first_day|]; [| apply extends_refl].
  cbv zeta.
  match goal with
  | |- context [for_rows ?l ?b ?st] =>
      assert (Hinv : keeps G E op_fte_df (for_rows l b st));
      [| destruct (for_rows l b st) as [op' ne'];
         exact (keeps_extends G E op_fte_df (op', ne') Hinv)]
  end.
  unfold for_rows. apply fold_left_invariant; [apply keeps_init |].
  intros [op ne] m _ Hst. cbv beta iota.
  set (row := mget m).
  destruct (negb (is_empty (employee_filtering_condition_fte op (row "Employee ID")))) eqn:Hemp;
    [| exact Hst].
  assert (Hne : employee_filtering_condition_fte op (row "Employee ID") <> []).
  { intros Hnil. rewrite Hnil in Hemp. discriminate. }
  match goal with
  | |- context [fold_left ?f ?l (false, 0%nat)] =>
      pose proof (mobility_flag
                    (negb (is_empty (existing_entries op (row "Employee ID") "Tech Area"
                                       (row "Tech Area_next") (eofy_label today))))
                    l false 0%nat) as Hflag;
      cbv zeta in Hflag; destruct Hflag as [_ Hflag];
      specialize (Hflag eq_refl Hne);
      destruct (fold_left f l (false, 0%nat)) as [processed emp_index]
  end.
  cbn [fst snd] in Hflag. destruct Hflag as [_ Hi].
  destruct (negb processed); [| exact Hst].
  pose proof (strict_original _ _ _ _ (proj1 Hst) Hi) as Hmi.
  destruct Hst as [H1 H2]. simpl in H1, H2. split; simpl.
  - keep_writes Hmi. exact H1.
  - copy_appended Hom H1 H2 Hmi.
Qed.

(** *** The passes that run before the detectors *)

Lemma kept_fmap (f : Series -> Series) (op0 op : DataFrame) :
  (forall r, f r "Employee ID" = r "Employee ID" /\ f r "Role Status" = r "Role Status") ->
  Forall2 kept_row op0 op -> Forall2 kept_row op0 (f <$> op).
Proof.
  intros Hf H. induction H as [|x y op0 op [Hid Hrs] _ IH]; [constructor |].
  rewrite fmap_cons. constructor; [| exact IH].
  destruct (Hf y) as [H1 H2]. unfold kept_row. rewrite H1, H2. auto.
Qed.

Lemma kept_set_column (col : string) (v : cell) (op0 op : DataFrame) :
  String.eqb col "Employee ID" = false ->
  String.eqb col "Role Status" = false ->
  Forall2 kept_row op0 op -> Forall2 kept_row op0 (set_column col v op).
Proof.
  intros H1 H2. unfold set_column. apply kept_fmap.
  intros r. unfold set. rewrite H1, H2. auto.
Qed.

Lemma kept_loc_set (index : list nat) (col : string) (v : cell) (op0 op : DataFrame) :
  String.eqb col "Employee ID" = false ->
  String.eqb col "Role Status" = false ->
  Forall2 kept_row op0 op -> Forall2 kept_row op0 (loc_set index col v op).
Proof.
  intros H1 H2 H. unfold loc_set. apply fold_left_invariant; [exact H |].
  intros a i _ Ha. apply kept_at_set; assumption.
Qed.

Lemma fulfilled_step_kept (op0 op : DataFrame) (skip several : bool) (sorted : list Series)
    (index : list nat) (columns_to_check : list string) (current_info next_info : DataFrame) :
  Forall2 kept_row op0 op ->
  Forall2 kept_row op0
    (if skip then op
     else
       let op_df :=
         if several
         then if non_overlapping sorted
              then loc_set index "Fulfilled" (Str "Yes") op
              else op
         else op in
       match current_info, next_info with
       | current_values :: _, next_values :: _ =>
           if values_equal columns_to_check current_values next_values
           then loc_set index "Fulfilled" (Str "Yes") op_df
           else op_df
       | _, _ => op_df
       end).
Proof.
  intros Hop. destruct skip; [exact Hop |]. cbv zeta.
  assert (Hop' : Forall2 kept_row op0
                   (if several
                    then if non_overlapping sorted
                         then loc_set index "Fulfilled" (Str "Yes") op
                         else op
                    else op)).
  { destruct several; [| exact Hop]. destruct (non_overlapping sorted); [| exact Hop].
    apply kept_loc_set; [reflexivity | reflexivity | exact Hop]. }
  destruct current_info as [|current_values ?]; [exact Hop' |].
  destruct next_info as [|next_values ?]; [exact Hop' |].
  destruct (values_equal columns_to_check current_values next_values); [| exact Hop'].
  apply kept_loc_set; [reflexivity | reflexivity | exact Hop'].
Qed.

Lemma check_and_mark_fulfilled_kept (to_datetime : cell -> option (date * Z))
    (skip_statuses : list cell) (columns_to_check : list string)
    (current_df next_df op_df : DataFrame) :
  Forall2 kept_row op_df
          (check_and_mark_fulfilled to_datetime skip_statuses columns_to_check
             current_df next_df op_df).
Proof.
  unfold check_and_mark_fulfilled. cbv zeta. apply fold_left_invariant.
  - apply kept_set_column; [reflexivity | reflexivity |].
    apply kept_fmap; [intros r; split; reflexivity |].
    apply kept_fmap; [intros r; split; reflexivity |].
    apply Forall2_refl_on, kept_row_refl.
  - intros op employee_id _ Hop.
    apply (fulfilled_step_kept op_df op _ _ _ _ columns_to_check _ _ Hop).
Qed.

Lemma merge_data_fte_kept (op_fte_df : DataFrame) :
  Forall2 kept_row op_fte_df (merge_data_fte op_fte_df).
Proof.
  unfold merge_data_fte. cbv zeta.
  apply kept_set_column; [reflexivity | reflexivity |].
  apply kept_set_column; [reflexivity | reflexivity |].
  apply Forall2_refl_on, kept_row_refl.
Qed.

Lemma initiate_skip_column_kept (static_file : string) (file_date : string * string)
    (op_df : DataFrame) :
  extract_date_from_filename static_file = Ok (Some file_date) ->
  exists op_df', initiate_skip_column static_file op_df = Ok op_df'
                 /\ Forall2 kept_row op_df op_df'.
Proof.
  intros Hx. destruct (extract_date_start static_file file_date Hx) as (d & Hd & _).
  unfold initiate_skip_column. rewrite Hx. destruct file_date as [e s]. simpl in Hd.
  rewrite Hd. eexists. split; [reflexivity |].
  apply fold_left_invariant.
  - apply kept_set_column; [reflexivity | reflexivity |].
    apply Forall2_refl_on, kept_row_refl.
  - intros op [index row] _ Hop.
    destruct (parse_end_date (row "End Date")) as [end_date|]; [| exact Hop].
    destruct (date_ltb end_date d); [| exact Hop].
    apply kept_at_set; [exact Hop | reflexivity | reflexivity].
Qed.

Lemma initiate_skip_column_Ok (static_file : string) (op_df op_df' : DataFrame) :
  initiate_skip_column static_file op_df = Ok op_df' ->
  Forall2 kept_row op_df op_df'.
Proof.
  intros H. unfold initiate_skip_column in H.
  destruct (extract_date_from_filename static_file) as [[[e s]|]|] eqn:Hx; try discriminate.
  destruct (initiate_skip_column_kept static_file (e, s) op_df Hx) as (out & Hout & Hk).
  unfold initiate_skip_column in Hout. rewrite Hx in Hout.
  rewrite Hout in H. injection H as <-. exact Hk.
Qed.

Lemma In_combine_seq {A : Type} (l : list A) (k i : nat) (x : A) :
  In (i, x) (combine (seq k (length l)) l) -> (k <= i)%nat /\ l !! (i - k)%nat = Some x.
Proof.
  revert k. induction l as [|y l IH]; intros k H; simpl in H; [destruct H |].
  destruct H as [[= <- <-] | H].
  - split; [lia |]. rewrite Nat.sub_diag. reflexivity.
  - apply IH in H as [Hk Hl]. split; [lia |].
    replace (i - k)%nat with (S (i - S k)) by lia. exact Hl.
Qed.

Lemma In_iterrows (df : DataFrame) (i : nat) (row : Series) :
  In (i, row) (iterrows df) -> df !! i = Some row.
Proof.
  intros H. apply In_combine_seq in H as [_ H]. rewrite Nat.sub_0_r in H. exact H.
Qed.

Lemma static_columns_no_status (column : string) :
  In column static_columns -> String.eqb column "Role Status" = false.
Proof.
  assert (H : forallb (fun c => negb (String.eqb c "Role Status")) static_columns = true)
    by reflexivity.
  rewrite forallb_forall in H. intros Hc. apply negb_true_iff. apply H. exact Hc.
Qed.

Lemma filter_head_holds {A : Type} (p : A -> bool) (l : list A) (x : A) (rest : list A) :
  List.filter p l = x :: rest -> p x = true.
Proof.
  intros H. assert (Hx : In x (List.filter p l)) by (rewrite H; left; reflexivity).
  apply filter_In in Hx. tauto.
Qed.

(** The loop of the sanity pass over the roster columns, for the plan
    row [row] at [index] and the roster row [current_row] of the same
    employee. *)
Lemma sanity_columns_kept (op_columns : list string) (op0 op : DataFrame) (index : nat)
    (row current_row : Series) :
  Forall2 kept_row op0 op -> op0 !! index = Some row ->
  cell_eqb (current_row "Employee ID") (row "Employee ID") = true ->
  Forall2 kept_row op0
    (fold_left
       (fun op_fte_df column =>
          if mem_string column op_columns
             && negb (String.eqb column "Planning Unit Country")
          then
            let original_value := row column in
            let new_value := current_row column in
            if notna new_value && cell_neb original_value new_value
            then at_set index column new_value op_fte_df
            else op_fte_df
          else op_fte_df)
       static_columns op).
Proof.
  intros Hop Hrow Hid. apply fold_left_invariant; [exact Hop |].
  intros a column Hcol Ha. cbv zeta.
  destruct (_ && _); [| exact Ha].
  destruct (_ && _); [| exact Ha].
  destruct (String.eqb column "Employee ID") eqn:Hc.
  - apply String.eqb_eq in Hc. subst column.
    apply kept_at_set_id; [exact Ha |].
    intros r0 Hr0. assert (r0 = row) as -> by congruence.
    apply cell_eqb_key. exact Hid.
  - apply kept_at_set; [exact Ha | exact Hc | apply static_columns_no_status; exact Hcol].
Qed.

Lemma sanity_checks_fte_kept (op_columns : list string)
    (current_df next_df op_fte_df : DataFrame) :
  Forall2 kept_row op_fte_df (sanity_checks_fte op_columns current_df next_df op_fte_df).
Proof.
  unfold sanity_checks_fte. apply fold_left_invariant.
  { apply Forall2_refl_on, kept_row_refl. }
  intros op [index row] Hin Hop. apply In_iterrows in Hin. cbv zeta beta iota.
  destruct (cell_eqb (row "Skip") (Str "Past")).
  { apply kept_at_set; [| reflexivity | reflexivity].
    apply kept_at_set; [exact Hop | reflexivity | reflexivity]. }
  destruct (_ || _); [exact Hop |].
  destruct (List.filter (fun r : Series => cell_eqb (r "Employee ID") (row "Employee ID")) next_df)
    as [|next_row rest] eqn:Hnext; [exact Hop |].
  apply filter_head_holds in Hnext.
  destruct (cell_neb (next_row "Domain") (Str "Security")).
  - destruct (List.filter (fun r : Series => cell_eqb (r "Employee ID") (row "Employee ID"))
                current_df) as [|current_row rest'] eqn:Hcur; [exact Hop |].
    apply filter_head_holds in Hcur.
    destruct (cell_neb (current_row "Domain") (Str "Security")); [exact Hop |].
    apply kept_at_set; [| reflexivity | reflexivity].
    apply kept_at_set; [| reflexivity | reflexivity].
    apply sanity_columns_kept; assumption.
  - apply kept_at_set; [| reflexivity | reflexivity].
    apply kept_at_set; [| reflexivity | reflexivity].
    apply sanity_columns_kept; assumption.
Qed.

(** *** The line-manager detector *)

Lemma identify_line_manager_changes_fte_kept (py_repr : cell -> string)
    (int_parses : string -> bool)
    (current_df next_df op_fte_df : DataFrame) (file_date : string * string) :
  match identify_line_manager_changes_fte py_repr int_parses current_df next_df
          op_fte_df file_date with
  | Ok out => Forall2 kept_row op_fte_df out
  | Raise => True
  end.
Proof.
  unfold identify_line_manager_changes_fte. cbv zeta.
  apply (fold_left_invariant
           (fun st => match st with
                      | Ok out => Forall2 kept_row op_fte_df out
                      | Raise => True
                      end)).
  { apply Forall2_refl_on, kept_row_refl. }
  intros [op|] m _ Hop; [| exact I].
  apply (fold_left_invariant
           (fun st => match st with
                      | Ok out => Forall2 kept_row op_fte_df out
                      | Raise => True
                      end)); [exact Hop |].
  intros [op1|] i _ Hop1; [| exact I].
  destruct (_ && _); [| exact I].
  apply kept_at_set; [| reflexivity | reflexivity].
  apply kept_at_set; [exact Hop1 | reflexivity | reflexivity].
Qed.

(** The detector returns when the supervisor ids of the two rosters are
    numbers. *)
Lemma identify_line_manager_changes_fte_returns (py_repr : cell -> string)
    (int_parses : string -> bool)
    (current_df next_df op_fte_df : DataFrame) (file_date : string * string) :
  (forall r, In r current_df \/ In r next_df ->
             int_ok int_parses (r "Supervisor Employee ID") = true) ->
  exists out, identify_line_manager_changes_fte py_repr int_parses current_df next_df
                op_fte_df file_date = Ok out.
Proof.
  intros Hint. unfold identify_line_manager_changes_fte. cbv zeta.
  apply (fold_left_invariant (fun st => exists out, st = Ok out)).
  { eexists. reflexivity. }
  intros st m Hm [op ->].
  apply filter_In in Hm as [Hm _].
  apply merge_inner_In in Hm as (c & n & -> & Hc & Hn & _).
  apply In_employee_security_fte in Hc, Hn.
  apply (fold_left_invariant (fun st => exists out, st = Ok out)).
  { eexists. reflexivity. }
  intros st i _ [op1 ->].
  change (mget (mk_merged (Some c) (Some n)) "Supervisor Employee ID_current")
    with (c "Supervisor Employee ID").
  change (mget (mk_merged (Some c) (Some n)) "Supervisor Employee ID_next")
    with (n "Supervisor Employee ID").
  rewrite (Hint c (or_introl Hc)), (Hint n (or_intror Hn)). eexists. reflexivity.
Qed.

(** *** The pass that seeds the missing employees *)

Lemma add_new_entries_fte_app (op_fte_df : DataFrame) (new_entries : list Series) :
  add_new_entries_fte op_fte_df new_entries = op_fte_df ++ new_entries.
Proof. destruct new_entries; simpl; rewrite ?app_nil_r; reflexivity. Qed.

Lemma add_new_entries_ms_app (op_ms_df : DataFrame) (new_entries : list Series) :
  add_new_entries_ms op_ms_df new_entries = op_ms_df ++ new_entries.
Proof. destruct new_entries; simpl; rewrite ?app_nil_r; reflexivity. Qed.

Lemma Forall2_kept_rows_kept (op0 kept appended : DataFrame) :
  Forall2 kept_row op0 kept -> rows_kept op0 (kept ++ appended).
Proof.
  intros H. exists kept, appended. split; [reflexivity |].
  split; [symmetry; eapply Forall2_length; exact H |].
  intros i r0 Hr0. destruct (Forall2_lookup_l _ _ _ _ _ H Hr0) as (r & Hr & Hk & _).
  exists r. split; [| exact Hk]. apply lookup_app_l_Some. exact Hr.
Qed.

Lemma extends_rows_kept (G : Prop) (E : cell) (op0 out : DataFrame) :
  extends G E op0 out -> rows_kept op0 out.
Proof. intros (kept & appended & -> & H & _). apply Forall2_kept_rows_kept. exact H. Qed.

Lemma kept_rows_kept (op0 out : DataFrame) : Forall2 kept_row op0 out -> rows_kept op0 out.
Proof.
  intros H. rewrite <- (app_nil_r out). apply Forall2_kept_rows_kept. exact H.
Qed.

Lemma identify_missing_employees_fte_rows (py_repr : cell -> string)
    (current_df next_df op_fte_df : DataFrame) :
  rows_kept op_fte_df (identify_missing_employees_fte py_repr current_df next_df op_fte_df).
Proof.
  unfold identify_missing_employees_fte. cbv zeta. rewrite add_new_entries_fte_app.
  apply Forall2_kept_rows_kept, Forall2_refl_on, kept_row_refl.
Qed.

(** ** The end-to-end scenario *)

Lemma filter_none {A : Type} (p : A -> bool) (l : list A) :
  (forall x, In x l -> p x = false) -> List.filter p l = [].
Proof.
  induction l as [|x l IH]; intros H; simpl; [reflexivity |].
  rewrite (H x (or_introl eq_refl)). apply IH. intros y Hy. apply H. right. exact Hy.
Qed.

Lemma filter_all {A : Type} (p : A -> bool) (l : list A) :
  (forall x, In x l -> p x = true) -> List.filter p l = l.
Proof.
  induction l as [|x l IH]; intros H; simpl; [reflexivity |].
  rewrite (H x (or_introl eq_refl)). f_equal. apply IH. intros y Hy. apply H. right. exact Hy.
Qed.

Lemma merge_left_cons (l : Series) (left right : DataFrame) :
  merge_left (l :: left) right
  = match matching (l "Employee ID") right with
    | [] => [mk_merged (Some l) None]
    | rs => (fun r => mk_merged (Some l) (Some r)) <$> rs
    end ++ merge_left left right.
Proof. reflexivity. Qed.

(** A row of the left join made from the left row [l] carries the id
    of [l]. *)
Lemma merge_left_group_id (l : Series) (right : DataFrame) (m : merged) :
  In m (match matching (l "Employee ID") right with
        | [] => [mk_merged (Some l) None]
        | rs => (fun r => mk_merged (Some l) (Some r)) <$> rs
        end) ->
  mget m "Employee ID" = l "Employee ID".
Proof.
  destruct (matching (l "Employee ID") right) as [|r rs]; intros Hm.
  - destruct Hm as [<- | []]. reflexivity.
  - apply list_elem_of_In, list_elem_of_fmap in Hm as (x & -> & _). reflexivity.
Qed.

(** The rows of a left join that belong to [E] are the left join of the
    left rows that belong to [E]. *)
Lemma merge_left_for (E : cell) (left right : DataFrame) :
  List.filter (fun m => key_eqb (mget m "Employee ID") E) (merge_left left right)
  = merge_left (List.filter (for_employee E) left) right.
Proof.
  induction left as [|l left IH]; [reflexivity |].
  rewrite merge_left_cons, List.filter_app, IH. simpl List.filter.
  destruct (for_employee E l) eqn:Hl; [rewrite merge_left_cons; f_equal |].
  - apply filter_all. intros m Hm.
    rewrite (merge_left_group_id l right m Hm). exact Hl.
  - replace (List.filter _ (match matching (l "Employee ID") right with _ => _ end))
      with (@nil merged); [reflexivity |].
    symmetry. apply filter_none. intros m Hm.
    rewrite (merge_left_group_id l right m Hm). exact Hl.
Qed.

(** The outer join of two rosters in which the employee of [c] has the
    one record [c] and the one record [n]. *)
Lemma merge_outer_for (left right : DataFrame) (c n : Series) :
  List.filter (for_employee (c "Employee ID")) left = [c] ->
  List.filter (for_employee (c "Employee ID")) right = [n] ->
  List.filter (fun m => key_eqb (mget m "Employee ID") (c "Employee ID"))
              (merge_outer left right)
  = [mk_merged (Some c) (Some n)].
Proof.
  intros Hl Hr. unfold merge_outer. rewrite List.filter_app, merge_left_for, Hl.
  assert (Hc : In c left).
  { assert (H : In c (List.filter (for_employee (c "Employee ID")) left))
      by (rewrite Hl; left; reflexivity).
    apply filter_In in H. tauto. }
  replace (List.filter _ (_ <$> _)) with (@nil merged).
  - rewrite merge_left_cons.
    change (matching (c "Employee ID") right)
      with (List.filter (for_employee (c "Employee ID")) right).
    rewrite Hr. reflexivity.
  - symmetry. apply filter_none. intros m Hm.
    apply list_elem_of_In, list_elem_of_fmap in Hm as (r & -> & Hin).
    apply list_elem_of_In, filter_In in Hin as [_ Hin].
    change (mget (mk_merged None (Some r)) "Employee ID") with (r "Employee ID").
    destruct (key_eqb (r "Employee ID") (c "Employee ID")) eqn:Hk; [| reflexivity].
    exfalso. apply negb_true_iff in Hin.
    assert (Hin' : isin (r "Employee ID") (employee_ids left) = true).
    { unfold isin. apply existsb_exists. exists (c "Employee ID"). split; [| exact Hk].
      unfold employee_ids. apply list_elem_of_In, list_elem_of_fmap.
      exists c. split; [reflexivity | apply list_elem_of_In; exact Hc]. }
    congruence.
Qed.

Lemma security_fte_for (E : cell) (df : DataFrame) (c : Series) :
  List.filter (for_employee E) df = [c] ->
  c "Domain" = Str "Security" -> c "FTE Category" = Str "FTE" ->
  List.filter (for_employee E) (employee_security_fte df) = [c].
Proof.
  intros H Hd Hf. unfold employee_security_fte. rewrite filter_filter_comm, H.
  simpl. unfold employee_security_mask. rewrite Hd, Hf. reflexivity.
Qed.

Lemma isin_false_not_for (E : cell) (df : DataFrame) (r : Series) :
  isin E (employee_ids df) = false -> In r df -> for_employee E r = false.
Proof.
  intros H Hr. unfold for_employee.
  destruct (key_eqb (r "Employee ID") E) eqn:Hk; [| reflexivity]. exfalso.
  assert (Hin : isin E (employee_ids df) = true); [| congruence].
  unfold isin. apply existsb_exists. exists (r "Employee ID").
  split; [| rewrite key_eqb_sym; exact Hk].
  unfold employee_ids. apply list_elem_of_In, list_elem_of_fmap.
  exists r. split; [reflexivity | apply list_elem_of_In; exact Hr].
Qed.

Lemma filter_entries {A B : Type} (f : A -> A) (g : A -> B) (p : B -> bool)
    (q k : A -> bool) (l : list A) (x : A) :
  (forall a, p (g (f a)) = k a) -> List.filter k l = [x] -> q (f x) = true ->
  List.filter p (g <$> List.filter q (f <$> l)) = [g (f x)].
Proof.
  intros Hk Hl Hq.
  rewrite filter_fmap, filter_filter_comm, filter_fmap.
  rewrite (List.filter_ext (fun a => p (g (f a))) k Hk), Hl.
  rewrite fmap_cons, fmap_nil. simpl List.filter. rewrite Hq. reflexivity.
Qed.

Lemma missing_pass_seeds (py_repr : cell -> string) (current_df next_df op_fte_df : DataFrame)
    (c n : Series) (rt : string) :
  List.filter (for_employee (c "Employee ID")) current_df = [c] ->
  List.filter (for_employee (c "Employee ID")) next_df = [n] ->
  c "Domain" = Str "Security" -> c "FTE Category" = Str "FTE" ->
  n "Domain" = Str "Security" -> n "FTE Category" = Str "FTE" ->
  c "Resource Type" = Str rt -> n "Resource Type" = Str rt ->
  str_contains "CWR" rt = false ->
  isin (c "Employee ID") (employee_ids op_fte_df) = false ->
  exists entries entry,
    identify_missing_employees_fte py_repr current_df next_df op_fte_df = op_fte_df ++ entries
    /\ List.filter (for_employee (c "Employee ID")) entries = [entry]
    /\ entry "Employee ID" = c "Employee ID"
    /\ entry "Role Status" = Str "Missing from Op FTE".
Proof.
  intros Hc Hn Hcd Hcf Hnd Hnf Hcr Hnr Hrt Hop.
  pose proof (merge_outer_for _ _ c n (security_fte_for _ _ _ Hc Hcd Hcf)
                (security_fte_for _ _ _ Hn Hnd Hnf)) as Hm.
  unfold identify_missing_employees_fte. cbv zeta. rewrite add_new_entries_fte_app.
  eexists. eexists. split; [reflexivity |].
  split; [| split].
  - apply (filter_entries _ _ _ _ (fun m => key_eqb (mget m "Employee ID") (c "Employee ID"))
             _ (mk_merged (Some c) (Some n))).
    + intros [[l|] [r|]]; reflexivity.
    + exact Hm.
    + cbv beta. cbn [left_row right_row].
      apply orb_true_iff. left. rewrite !andb_true_iff.
      split; [split; [split |] |].
      * simpl. rewrite Hcr. simpl. rewrite Hrt. reflexivity.
      * simpl. rewrite Hnr. simpl. rewrite Hrt. reflexivity.
      * change (mget _ "Employee ID") with (c "Employee ID"). rewrite Hop. reflexivity.
      * reflexivity.
  - reflexivity.
  - reflexivity.
Qed.

Lemma kept_extends (G : Prop) (E : cell) (a b : DataFrame) :
  Forall2 kept_row a b -> extends G E a b.
Proof.
  intros H. exists b, []. rewrite app_nil_r. split; [reflexivity |].
  split; [exact H | constructor].
Qed.

Lemma Forall2_kept_In (a b : DataFrame) (r : Series) :
  Forall2 kept_row a b -> In r b -> exists r0, In r0 a /\ kept_row r0 r.
Proof.
  induction 1 as [|x y a b Hxy _ IH]; intros Hr; [destruct Hr |].
  destruct Hr as [<- | Hr].
  - exists x. split; [left; reflexivity | exact Hxy].
  - destruct (IH Hr) as (r0 & Hr0 & Hk). exists r0. split; [right; exact Hr0 | exact Hk].
Qed.

Lemma extends_only_missing (E : cell) (a b : DataFrame) :
  extends True E a b -> only_missing E a -> only_missing E b.
Proof.
  intros (kept & appended & -> & Hk & Ha) Hom r Hr HE.
  apply in_app_or in Hr as [Hr | Hr].
  - destruct (Forall2_kept_In a kept r Hk Hr) as (r0 & Hr0 & Hkr).
    destruct Hkr as [Hid Hrs]. apply Hrs. apply (Hom r0 Hr0).
    rewrite <- (kept_row_for_employee E r0 r (conj Hid Hrs)). exact HE.
  - specialize (Ha I). rewrite List.Forall_forall in Ha. rewrite (Ha r Hr) in HE. discriminate.
Qed.

(** One pass after another: the rows are kept, and the rows of [E] are
    still the rows tagged as missing. *)
Lemma extends_step (E : cell) (op0 a b : DataFrame) :
  extends True E op0 a /\ only_missing E a ->
  (only_missing E a -> extends True E a b) ->
  extends True E op0 b /\ only_missing E b.
Proof.
  intros [H1 H2] H. specialize (H H2). split.
  - eapply extends_trans; eauto.
  - eapply extends_only_missing; eauto.
Qed.

Lemma Forall2_kept_filter_nil (E : cell) (a b : DataFrame) :
  Forall2 kept_row a b -> List.filter (for_employee E) a = [] ->
  List.filter (for_employee E) b = [].
Proof.
  induction 1 as [|r0 r a b Hr _ IH]; intros Hf; [reflexivity |].
  simpl in Hf |- *. rewrite (kept_row_for_employee E r0 r Hr).
  destruct (for_employee E r0); [discriminate |]. apply IH. exact Hf.
Qed.

Lemma Forall2_kept_filter (E : cell) (a b : DataFrame) (x : Series) :
  Forall2 kept_row a b -> List.filter (for_employee E) a = [x] ->
  exists y, List.filter (for_employee E) b = [y] /\ kept_row x y.
Proof.
  induction 1 as [|r0 r a b Hr Hab IH]; intros Hf; [discriminate |].
  simpl in Hf |- *. rewrite (kept_row_for_employee E r0 r Hr).
  destruct (for_employee E r0) eqn:H0.
  - injection Hf as -> Hf. exists r. split; [| exact Hr]. f_equal.
    eapply Forall2_kept_filter_nil; eauto.
  - apply IH. exact Hf.
Qed.

Lemma identify_line_manager_changes_fte_steady (E : cell) (py_repr : cell -> string)
    (int_parses : string -> bool)
    (current_df next_df op_fte_df : DataFrame) (file_date : string * string) :
  only_missing E op_fte_df ->
  (forall r, In r current_df \/ In r next_df -> for_employee E r = false ->
             int_ok int_parses (r "Supervisor Employee ID") = true) ->
  exists out, identify_line_manager_changes_fte py_repr int_parses current_df next_df
                op_fte_df file_date = Ok out
              /\ Forall2 kept_row op_fte_df out.
Proof.
  intros Hom Hint. unfold identify_line_manager_changes_fte. cbv zeta.
  apply (fold_left_invariant
           (fun st => exists out, st = Ok out /\ Forall2 kept_row op_fte_df out)).
  { eexists. split; [reflexivity | apply Forall2_refl_on, kept_row_refl]. }
  intros st m Hm (op & -> & Hop).
  apply filter_In in Hm as [Hm _].
  apply merge_inner_In in Hm as (c & n & -> & Hc & Hn & Hkey).
  apply In_employee_security_fte in Hc, Hn.
  apply (fold_left_invariant
           (fun st => exists out, st = Ok out /\ Forall2 kept_row op_fte_df out)).
  { eexists. split; [reflexivity | exact Hop]. }
  intros st i Hi (op1 & -> & Hop1).
  pose proof (relaxed_original _ _ _ _ Hop Hi) as Hmi.
  pose proof (matched_not_for E _ _ _ Hom Hmi) as HcE.
  change (mget (mk_merged (Some c) (Some n)) "Employee ID") with (c "Employee ID") in HcE.
  assert (HnE : key_eqb (n "Employee ID") E = false).
  { rewrite key_eqb_sym in Hkey. eapply key_eqb_false_l; eauto. }
  change (mget (mk_merged (Some c) (Some n)) "Supervisor Employee ID_current")
    with (c "Supervisor Employee ID").
  change (mget (mk_merged (Some c) (Some n)) "Supervisor Employee ID_next")
    with (n "Supervisor Employee ID").
  rewrite (Hint c (or_introl Hc) HcE), (Hint n (or_intror Hn) HnE).
  eexists. split; [reflexivity |].
  apply kept_at_set; [| reflexivity | reflexivity].
  apply kept_at_set; [exact Hop1 | reflexivity | reflexivity].
Qed.

Lemma run_scenarios_fte_extends (today : date) (py_repr : cell -> string)
    (int_parses : string -> bool) (E : cell)
    (current_df next_df op_fte_df : DataFrame) (file_date : string * string) :
  only_missing E op_fte_df ->
  steady E current_df next_df ->
  (forall r, In r current_df \/ In r next_df -> for_employee E r = false ->
             int_ok int_parses (r "Supervisor Employee ID") = true) ->
  exists out,
    run_scenarios (scenario_functions_fte today py_repr int_parses)
      current_df next_df file_date op_fte_df = Ok out
    /\ extends True E op_fte_df out.
Proof.
  intros Hom Hs Hint.
  cbv beta iota zeta delta [run_scenarios scenario_functions_fte fold_left].
  assert (G0 : extends True E op_fte_df op_fte_df /\ only_missing E op_fte_df)
    by (split; [apply extends_refl | exact Hom]).
  pose proof (extends_step E _ _ _ G0
                (fun _ => identify_exits_fte_extends True E current_df next_df _ file_date))
    as G1.
  pose proof (extends_step E _ _ _ G1
                (fun _ => identify_new_joiners_fte_extends True E today py_repr
                            current_df next_df _ file_date (fun _ => Hs))) as G2.
  pose proof (extends_step E _ _ _ G2
                (fun _ => identify_transfers_in_fte_extends True E today py_repr
                            current_df next_df _ file_date (fun _ => Hs))) as G3.
  pose proof (extends_step E _ _ _ G3
                (fun _ => identify_transfers_out_fte_extends True E
                            current_df next_df _ file_date)) as G4.
  pose proof (extends_step E _ _ _ G4
                (fun H => identify_grade_changes_fte_extends True E today
                            current_df next_df _ file_date (fun _ => H))) as G5.
  pose proof (extends_step E _ _ _ G5
                (fun H => identify_internal_mobility_fte_extends True E today
                            current_df next_df _ file_date (fun _ => H))) as G6.
  pose proof (extends_step E _ _ _ G6
                (fun H => indetify_conversions_within_fte_extends True E today py_repr
                            current_df next_df _ file_date (fun _ => H) (fun _ => Hs))) as G7.
  pose proof (extends_step E _ _ _ G7
                (fun _ => identify_conversions_cwr_to_fte_extends True E today py_repr
                            current_df next_df _ file_date (fun _ => Hs))) as G8.
  pose proof (extends_step E _ _ _ G8
                (fun _ => identify_conversions_fte_to_cwr_extends True E
                            current_df next_df _ file_date)) as G9.
  destruct (identify_line_manager_changes_fte_steady E py_repr int_parses
              current_df next_df _ file_date (proj2 G9) Hint) as (op10 & H10 & K10).
  rewrite H10.
  pose proof (extends_step E _ _ _ G9 (fun _ => kept_extends True E _ op10 K10)) as G10.
  pose proof (extends_step E _ _ _ G10
                (fun H => identify_location_changes_fte_extends True E today
                            current_df next_df _ file_date (fun _ => H))) as G11.
  eexists. split; [reflexivity | exact (proj1 G11)].
Qed.

Lemma filter_singleton_In {A : Type} (p : A -> bool) (l : list A) (x y : A) :
  List.filter p l = [x] -> In y l -> p y = true -> y = x.
Proof.
  intros H Hy Hp. assert (Hin : In y (List.filter p l)) by (apply filter_In; auto).
  rewrite H in Hin. destruct Hin as [<- | []]. reflexivity.
Qed.

Lemma steady_single (current_df next_df : DataFrame) (c n : Series) :
  List.filter (for_employee (c "Employee ID")) current_df = [c] ->
  List.filter (for_employee (c "Employee ID")) next_df = [n] ->
  c "Domain" = Str "Security" -> c "FTE Category" = Str "FTE" ->
  cell_eqb (c "Resource Type") (n "Resource Type") = true ->
  steady (c "Employee ID") current_df next_df.
Proof.
  intros Hc Hn Hd Hf Hr.
  assert (Hin : In c current_df).
  { assert (H : In c (List.filter (for_employee (c "Employee ID")) current_df))
      by (rewrite Hc; left; reflexivity).
    apply filter_In in H. tauto. }
  split; [| split].
  - unfold isin. apply existsb_exists. exists (c "Employee ID").
    split; [| apply key_eqb_refl].
    unfold employee_ids. apply list_elem_of_In, list_elem_of_fmap.
    exists c. split; [reflexivity | apply list_elem_of_In; exact Hin].
  - intros c' Hc' HE. rewrite (filter_singleton_In _ _ _ _ Hc Hc' HE). auto.
  - intros c' n' Hc' Hn' HcE HnE.
    rewrite (filter_singleton_In _ _ _ _ Hc Hc' HcE), (filter_singleton_In _ _ _ _ Hn Hn' HnE).
    exact Hr.
Qed.

(** X1.  The whole reconciliation of the FTE sheet, for an employee with
    one record in each roster, both in Security/FTE and with the same
    resource type, a string without ['CWR'], and with no row in the plan
    (the grade, the tech area, the country or the supervisor may differ
    between the two records).  When the file name gives the period, and the
    supervisor ids of the other employees are numbers, [process_fte]
    returns a plan that keeps the rows it was given and holds exactly one
    row of the employee: an appended row with status ['Missing from Op
    FTE'].  The pass that seeds the missing employees adds it, and no
    detector matches it, copies it or adds another one. *)
Theorem missing_row_end_to_end (today : date) (py_repr : cell -> string)
    (int_parses : string -> bool) (to_datetime : cell -> option (date * Z))
    (static_file : string) (file_date : string * string) (op_columns : list string)
    (current_df next_df op_fte_df : DataFrame) (c n : Series) (rt : string) :
  extract_date_from_filename static_file = Ok (Some file_date) ->
  List.filter (for_employee (c "Employee ID")) current_df = [c] ->
  List.filter (for_employee (c "Employee ID")) next_df = [n] ->
  c "Domain" = Str "Security" -> c "FTE Category" = Str "FTE" ->
  n "Domain" = Str "Security" -> n "FTE Category" = Str "FTE" ->
  c "Resource Type" = Str rt -> n "Resource Type" = Str rt ->
  str_contains "CWR" rt = false ->
  isin (c "Employee ID") (employee_ids op_fte_df) = false ->
  (forall r, In r current_df \/ In r next_df ->
             for_employee (c "Employee ID") r = false ->
             int_ok int_parses (r "Supervisor Employee ID") = true) ->
  exists (out : DataFrame) (i : nat) (r : Series),
    process_fte today py_repr int_parses to_datetime static_file op_columns
      current_df next_df op_fte_df = Ok out
    /\ (length op_fte_df <= i)%nat
    /\ out !! i = Some r
    /\ key_eqb (r "Employee ID") (c "Employee ID") = true
    /\ r "Role Status" = Str "Missing from Op FTE"
    /\ List.filter (for_employee (c "Employee ID")) out = [r]
    /\ rows_kept op_fte_df out.
Proof.
  intros Hx Hc Hn Hcd Hcf Hnd Hnf Hcr Hnr Hrt Hop Hint.
  set (E := c "Employee ID") in *.
  assert (Hs : steady E current_df next_df).
  { apply steady_single with (n := n); try assumption.
    rewrite Hcr, Hnr. simpl. apply String.eqb_refl. }
  destruct (missing_pass_seeds py_repr current_df next_df op_fte_df c n rt
              Hc Hn Hcd Hcf Hnd Hnf Hcr Hnr Hrt Hop)
    as (entries & entry & H1 & Hf & Hid & Hrs).
  fold E in Hf, Hid.
  unfold process_fte. rewrite H1.
  assert (HopE : forall r, In r op_fte_df -> for_employee E r = false).
  { intros r Hr. apply (isin_false_not_for E op_fte_df r Hop Hr). }
  assert (Hom1 : only_missing E (op_fte_df ++ entries)).
  { intros r Hr HE. apply in_app_or in Hr as [Hr | Hr].
    - rewrite (HopE r Hr) in HE. discriminate.
    - rewrite (filter_singleton_In _ _ _ _ Hf Hr HE). exact Hrs. }
  assert (Hf1 : List.filter (for_employee E) (op_fte_df ++ entries) = [entry]).
  { rewrite List.filter_app, (filter_none _ _ HopE). exact Hf. }
  pose proof (check_and_mark_fulfilled_kept to_datetime skip_statuses_fte columns_to_check_fte
                current_df next_df (op_fte_df ++ entries)) as K2.
  change (check_and_mark_fulfilled to_datetime skip_statuses_fte columns_to_check_fte)
    with (check_and_mark_fulfilled_fte to_datetime) in K2.
  destruct (initiate_skip_column_kept static_file file_date
              (check_and_mark_fulfilled_fte to_datetime current_df next_df
                 (op_fte_df ++ entries)) Hx) as (op3 & H3 & K3).
  unfold initiate_skip_column_fte. rewrite H3, Hx.
  pose proof (sanity_checks_fte_kept op_columns current_df next_df op3) as K4.
  pose proof (merge_data_fte_kept (sanity_checks_fte op_columns current_df next_df op3)) as K5.
  pose proof (Forall2_kept_trans _ _ _ K2 (Forall2_kept_trans _ _ _ K3
                (Forall2_kept_trans _ _ _ K4 K5))) as K15.
  pose proof (extends_only_missing E _ _ (kept_extends True E _ _ K15) Hom1) as Hom5.
  destruct (run_scenarios_fte_extends today py_repr int_parses E current_df next_df _ file_date
              Hom5 Hs Hint) as (out & Hout & Hext).
  rewrite Hout. exists out.
  pose proof (extends_trans True E _ _ _ (kept_extends True E _ _ K15) Hext) as Hext1.
  destruct Hext1 as (kept & appended & -> & Hk & Ha). specialize (Ha I).
  destruct (Forall2_kept_filter E _ kept entry Hk Hf1) as (y & Hy & Hky).
  assert (Hentry : In entry entries).
  { assert (H : In entry (List.filter (for_employee E) entries))
      by (rewrite Hf; left; reflexivity).
    apply filter_In in H. tauto. }
  apply list_elem_of_In, list_elem_of_lookup in Hentry as (j & Hj).
  assert (Hi : (op_fte_df ++ entries) !! (length op_fte_df + j)%nat = Some entry).
  { rewrite lookup_app_r by lia. replace (_ + j - _)%nat with j by lia. exact Hj. }
  destruct (Forall2_lookup_l _ _ _ _ _ Hk Hi) as (r & Hr & Hkr).
  assert (HrE : for_employee E r = true).
  { rewrite (kept_row_for_employee E entry r Hkr). unfold for_employee.
    rewrite Hid. apply key_eqb_refl. }
  assert (r = y) as ->.
  { apply (filter_singleton_In _ _ _ _ Hy); [| exact HrE].
    apply list_elem_of_In. eapply list_elem_of_lookup_2. exact Hr. }
  exists (length op_fte_df + j)%nat, y.
  split; [reflexivity |]. split; [lia |].
  split; [apply lookup_app_l_Some; exact Hr |].
  split; [exact HrE |].
  split; [apply (proj2 Hkr); exact Hrs |].
  split.
  - rewrite List.filter_app, Hy, filter_none; [reflexivity |].
    intros x Hin. rewrite List.Forall_forall in Ha. apply Ha. exact Hin.
  - apply Forall2_app_inv_l in Hk as (k1 & k2 & Hk1 & _ & ->).
    rewrite <- app_assoc. apply Forall2_kept_rows_kept. exact Hk1.
Qed.

(** The scenario of employee 1001, grade P4 then P5, with an empty
    plan. *)
Lemma missing_row_end_to_end_witness :
  exists (out : DataFrame) (r : Series),
    process_fte Fixture.today Fixture.py_repr Fixture.int_parses Fixture.to_datetime
      Fixture.static_file OP_FTE_COLUMNS [Fixture.e1001_current] [Fixture.e1001_next] []
    = Ok out
    /\ List.filter (for_employee (Fixture.emp 1001)) out = [r]
    /\ r "Role Status" = Str "Missing from Op FTE".
Proof.
  destruct (missing_row_end_to_end Fixture.today Fixture.py_repr Fixture.int_parses
              Fixture.to_datetime Fixture.static_file Fixture.file_date OP_FTE_COLUMNS
              [Fixture.e1001_current] [Fixture.e1001_next] []
              Fixture.e1001_current Fixture.e1001_next "Permanent")
    as (out & i & r & H1 & _ & _ & _ & H5 & H6 & _).
  - vm_compute. reflexivity.
  - reflexivity.
  - reflexivity.
  - reflexivity.
  - reflexivity.
  - reflexivity.
  - reflexivity.
  - reflexivity.
  - reflexivity.
  - reflexivity.
  - reflexivity.
  - intros r [[<- | []] | [<- | []]] _; reflexivity.
  - exists out, r. repeat split; assumption.
Defined.

(** ** Rows outside the matching policy of a detector *)

Lemma strict_mask_fte_ext (id : cell) (r r0 : Series) :
  (forall col, r col = r0 col) ->
  employee_filtering_condition_fte_mask id r = employee_filtering_condition_fte_mask id r0.
Proof. intros H. unfold employee_filtering_condition_fte_mask. rewrite !H. reflexivity. Qed.

Lemma relaxed_mask_fte_ext (id : cell) (r r0 : Series) :
  (forall col, r col = r0 col) ->
  shorten_filtering_condition_fte_mask id r = shorten_filtering_condition_fte_mask id r0.
Proof. intros H. unfold shorten_filtering_condition_fte_mask. rewrite !H. reflexivity. Qed.

Lemma left_alone_refl (lock : Series -> Prop) (op : DataFrame) :
  Forall2 (left_alone lock) op op.
Proof. apply Forall2_refl_on. intros r _ col. reflexivity. Qed.

Lemma left_alone_at_set (lock : Series -> Prop) (op0 op : DataFrame) (i : nat)
    (col : string) (v : cell) :
  Forall2 (left_alone lock) op0 op ->
  (forall r0, op0 !! i = Some r0 -> ~ lock r0) ->
  Forall2 (left_alone lock) op0 (at_set i col v op).
Proof.
  intros H Hi. unfold at_set. apply Forall2_alter_r; [exact H |].
  intros x y Hx _ _ Hl. exfalso. exact (Hi x Hx Hl).
Qed.

(** A label that a policy returns is not the label of a locked row,
    when the policy returns no locked row. *)
Lemma matched_not_locked (lock : Series -> Prop) (mask : cell -> Series -> bool)
    (op0 op : DataFrame) (id : cell) (i : nat) :
  (forall id r r0, (forall col, r col = r0 col) -> mask id r = mask id r0) ->
  (forall r, lock r -> mask id r = false) ->
  Forall2 (left_alone lock) op0 op ->
  In i (index_where (mask id) op) ->
  forall r0, op0 !! i = Some r0 -> ~ lock r0.
Proof.
  intros Hext Hlock H Hi r0 Hr0 Hl.
  apply index_where_spec in Hi as (r & Hr & Hm).
  destruct (Forall2_lookup_l _ _ _ _ _ H Hr0) as (r' & Hr' & Ha).
  assert (r' = r) as -> by congruence.
  rewrite (Hext id r r0 (Ha Hl)), (Hlock r0 Hl) in Hm. discriminate.
Qed.

Lemma strict_not_locked (op0 op : DataFrame) (id : cell) (i : nat) :
  Forall2 (left_alone outside_strict_fte) op0 op ->
  In i (employee_filtering_condition_fte op id) ->
  forall r0, op0 !! i = Some r0 -> ~ outside_strict_fte r0.
Proof.
  apply (matched_not_locked outside_strict_fte employee_filtering_condition_fte_mask).
  - apply strict_mask_fte_ext.
  - intros r Hl. apply Hl.
Qed.

Lemma relaxed_not_locked (op0 op : DataFrame) (id : cell) (i : nat) :
  Forall2 (left_alone outside_relaxed_fte) op0 op ->
  In i (shorten_filtering_condition_fte op id) ->
  forall r0, op0 !! i = Some r0 -> ~ outside_relaxed_fte r0.
Proof.
  apply (matched_not_locked outside_relaxed_fte shorten_filtering_condition_fte_mask).
  - apply relaxed_mask_fte_ext.
  - intros r Hl. apply Hl.
Qed.

Lemma for_indices_alone (lock : Series -> Prop) (op0 : DataFrame)
    (idxs : list nat) (body : nat -> loop_state -> loop_state) (st : loop_state) :
  Forall2 (left_alone lock) op0 (fst st) ->
  (forall i, In i idxs -> forall r0, op0 !! i = Some r0 -> ~ lock r0) ->
  (forall i st, (forall r0, op0 !! i = Some r0 -> ~ lock r0) ->
                Forall2 (left_alone lock) op0 (fst st) ->
                Forall2 (left_alone lock) op0 (fst (body i st))) ->
  Forall2 (left_alone lock) op0 (fst (for_indices idxs body st)).
Proof.
  intros Hst Hidx Hbody. unfold for_indices.
  apply (fold_left_invariant (fun st => Forall2 (left_alone lock) op0 (fst st)));
    [exact Hst |].
  intros st' i Hi Hst'. apply Hbody; [apply Hidx; exact Hi | exact Hst'].
Qed.

Lemma alone_locked_rows (lock : Series -> Prop) (op0 op appended : DataFrame) :
  Forall2 (left_alone lock) op0 op -> locked_rows_left_alone lock op0 (op ++ appended).
Proof.
  intros H i r0 Hr0 Hl.
  destruct (Forall2_lookup_l _ _ _ _ _ H Hr0) as (r & Hr & Ha).
  exists r. split; [apply lookup_app_l_Some; exact Hr | exact (Ha Hl)].
Qed.

Lemma alone_add_new_entries (lock : Series -> Prop) (op0 : DataFrame) (st : loop_state) :
  Forall2 (left_alone lock) op0 (fst st) ->
  locked_rows_left_alone lock op0 (add_new_entries_fte (fst st) (snd st)).
Proof. intros H. rewrite add_new_entries_fte_app. apply alone_locked_rows. exact H. Qed.

Lemma alone_fst (lock : Series -> Prop) (op0 : DataFrame) (st : loop_state) :
  Forall2 (left_alone lock) op0 (fst st) -> locked_rows_left_alone lock op0 (fst st).
Proof.
  intros H. rewrite <- (app_nil_r (fst st)). apply alone_locked_rows. exact H.
Qed.

Lemma locked_rows_refl (lock : Series -> Prop) (op : DataFrame) :
  locked_rows_left_alone lock op op.
Proof. intros i r0 Hr0 _. exists r0. split; [exact Hr0 | reflexivity]. Qed.

(** The writes of a detector to a row its policy has returned. *)
Ltac alone_writes Hni :=
  repeat (apply left_alone_at_set; [| exact Hni]).

Lemma identify_exits_fte_alone (current_df next_df op_fte_df : DataFrame)
    (file_date : string * string) :
  locked_rows_left_alone outside_relaxed_fte op_fte_df
    (identify_exits_fte current_df next_df op_fte_df file_date).
Proof.
  unfold identify_exits_fte. destruct file_date as [e s].
  destruct (String.eqb e ""); [apply locked_rows_refl |].
  destruct (strptime_b_y e) as [d|]; [| apply locked_rows_refl].
  cbv zeta. apply alone_fst.
  unfold for_rows.
  apply (fold_left_invariant
           (fun st => Forall2 (left_alone outside_relaxed_fte) op_fte_df (fst st)));
    [apply left_alone_refl |].
  intros [op ne] row _ Hst. cbv beta iota.
  apply for_indices_alone; [exact Hst | |].
  - intros i Hi. exact (relaxed_not_locked _ _ _ _ Hst Hi).
  - intros i [op1 ne1] Hni H1. simpl in H1 |- *. alone_writes Hni. exact H1.
Qed.

(** The loop of a detector over the employees it selects. *)
Ltac alone_loop lock op0 :=
  cbv zeta;
  match goal with
  | |- locked_rows_left_alone _ _ (fst (for_rows ?l ?b ?st)) =>
      apply alone_fst
  | |- context [for_rows ?l ?b ?st] =>
      let Hinv := fresh "Hinv" in
      let op' := fresh "op'" in
      let ne' := fresh "ne'" in
      assert (Hinv : Forall2 (left_alone lock) op0 (fst (for_rows l b st)));
      [| destruct (for_rows l b st) as [op' ne'];
         exact (alone_add_new_entries lock op0 (op', ne') Hinv)]
  end;
  unfold for_rows;
  apply (fold_left_invariant (fun st => Forall2 (left_alone lock) op0 (fst st)));
  [apply left_alone_refl |].

Lemma identify_transfers_out_fte_alone (current_df next_df op_fte_df : DataFrame)
    (file_date : string * string) :
  locked_rows_left_alone outside_relaxed_fte op_fte_df
    (identify_transfers_out_fte current_df next_df op_fte_df file_date).
Proof.
  unfold identify_transfers_out_fte. destruct file_date as [e s].
  destruct (relabel e) as [last_day|]; [| apply locked_rows_refl].
  alone_loop outside_relaxed_fte op_fte_df.
  intros [op ne] m _ Hst. cbv beta iota.
  apply for_indices_alone; [exact Hst | |].
  - intros i Hi. exact (relaxed_not_locked _ _ _ _ Hst Hi).
  - intros i [op1 ne1] Hni H1. simpl in H1 |- *. alone_writes Hni. exact H1.
Qed.

Lemma identify_location_changes_fte_alone (today : date)
    (current_df next_df op_fte_df : DataFrame) (file_date : string * string) :
  locked_rows_left_alone outside_relaxed_fte op_fte_df
    (identify_location_changes_fte today current_df next_df op_fte_df file_date).
Proof.
  unfold identify_location_changes_fte. destruct file_date as [e s].
  destruct (relabel e) as [last_day|]; [| apply locked_rows_refl].
  destruct (relabel s) as [first_day|]; [| apply locked_rows_refl].
  alone_loop outside_relaxed_fte op_fte_df.
  intros [op ne] m _ Hst. cbv beta iota.
  apply for_indices_alone; [exact Hst | |].
  - intros i Hi. exact (relaxed_not_locked _ _ _ _ Hst Hi).
  - intros i [op1 ne1] Hni H1. simpl in H1 |- *. alone_writes Hni. exact H1.
Qed.

Lemma identify_line_manager_changes_fte_alone (py_repr : cell -> string)
    (int_parses : string -> bool)
    (current_df next_df op_fte_df : DataFrame) (file_date : string * string) :
  match identify_line_manager_changes_fte py_repr int_parses current_df next_df
          op_fte_df file_date with
  | Ok out => locked_rows_left_alone outside_relaxed_fte op_fte_df out
  | Raise => True
  end.
Proof.
  assert (H : match identify_line_manager_changes_fte py_repr int_parses current_df next_df
                      op_fte_df file_date with
              | Ok out => Forall2 (left_alone outside_relaxed_fte) op_fte_df out
              | Raise => True
              end).
  { unfold identify_line_manager_changes_fte. cbv zeta.
    apply (fold_left_invariant
             (fun st => match st with
                        | Ok out => Forall2 (left_alone outside_relaxed_fte) op_fte_df out
                        | Raise => True
                        end)); [apply left_alone_refl |].
    intros [op|] m _ Hop; [| exact I].
    apply (fold_left_invariant
             (fun st => match st with
                        | Ok out => Forall2 (left_alone outside_relaxed_fte) op_fte_df out
                        | Raise => True
                        end)); [exact Hop |].
    intros [op1|] i Hi Hop1; [| exact I].
    pose proof (relaxed_not_locked _ _ _ _ Hop Hi) as Hni.
    destruct (_ && _); [| exact I].
    alone_writes Hni. exact Hop1. }
  destruct (identify_line_manager_changes_fte py_repr int_parses current_df next_df
              op_fte_df file_date) as [out|]; [| exact I].
  rewrite <- (app_nil_r out). apply alone_locked_rows. exact H.
Qed.

Lemma identify_new_joiners_fte_alone (today : date) (py_repr : cell -> string)
    (current_df next_df op_fte_df : DataFrame) (file_date : string * string) :
  locked_rows_left_alone outside_strict_fte op_fte_df
    (identify_new_joiners_fte today py_repr current_df next_df op_fte_df file_date).
Proof.
  unfold identify_new_joiners_fte. destruct file_date as [e s].
  destruct (relabel s) as [first_day|]; [| apply locked_rows_refl].
  alone_loop outside_strict_fte op_fte_df.
  intros [op ne] row _ Hst. cbv beta iota.
  match goal with |- context [if ?c then _ else _] => destruct c end; [| exact Hst].
  apply for_indices_alone; [exact Hst | |].
  - intros i Hi. exact (strict_not_locked _ _ _ _ Hst Hi).
  - intros i [op1 ne1] Hni H1. simpl in H1 |- *. alone_writes Hni. exact H1.
Qed.

Lemma identify_transfers_in_fte_alone (today : date) (py_repr : cell -> string)
    (current_df next_df op_fte_df : DataFrame) (file_date : string * string) :
  locked_rows_left_alone outside_strict_fte op_fte_df
    (identify_transfers_in_fte today py_repr current_df next_df op_fte_df file_date).
Proof.
  unfold identify_transfers_in_fte. destruct file_date as [e s].
  destruct (relabel s) as [first_day|]; [| apply locked_rows_refl].
  alone_loop outside_strict_fte op_fte_df.
  intros [op ne] m _ Hst. cbv beta iota.
  match goal with |- context [if ?c then _ else _] => destruct c end; [| exact Hst].
  apply for_indices_alone; [exact Hst | |].
  - intros i Hi. exact (strict_not_locked _ _ _ _ Hst Hi).
  - intros i [op1 ne1] Hni H1. simpl in H1 |- *.
    match goal with |- context [if ?c then _ else _] => destruct c end; [exact H1 |].
    simpl. alone_writes Hni. exact H1.
Qed.

Lemma identify_grade_changes_fte_alone (today : date)
    (current_df next_df op_fte_df : DataFrame) (file_date : string * string) :
  locked_rows_left_alone outside_strict_fte op_fte_df
    (identify_grade_changes_fte today current_df next_df op_fte_df file_date).
Proof.
  unfold identify_grade_changes_fte. destruct file_date as [e s].
  destruct (relabel e) as [last_day|]; [| apply locked_rows_refl].
  destruct (relabel s) as [first_day|]; [| apply locked_rows_refl].
  alone_loop outside_strict_fte op_fte_df.
  intros [op ne] m _ Hst. cbv beta iota.
  apply for_indices_alone; [exact Hst | |].
  - intros i Hi. exact (strict_not_locked _ _ _ _ Hst Hi).
  - intros i [op1 ne1] Hni H1. simpl in H1 |- *.
    match goal with |- context [if ?c then _ else _] => destruct c end; [exact H1 |].
    simpl. alone_writes Hni. exact H1.
Qed.

Lemma indetify_conversions_within_fte_alone (today : date) (py_repr : cell -> string)
    (current_df next_df op_fte_df : DataFrame) (file_date : string * string) :
  locked_rows_left_alone outside_strict_fte op_fte_df
    (indetify_conversions_within_fte today py_repr current_df next_df op_fte_df file_date).
Proof.
  unfold indetify_conversions_within_fte. destruct file_date as [e s].
  destruct (relabel e) as [last_day|]; [| apply locked_rows_refl].
  destruct (relabel s) as [first_day|]; [| apply locked_rows_refl].
  alone_loop outside_strict_fte op_fte_df.
  intros [op ne] m _ Hst. cbv beta iota.
  match goal with |- context [if ?c then _ else _] => destruct c end; [| exact Hst].
  apply for_indices_alone; [exact Hst | |].
  - intros i Hi. exact (strict_not_locked _ _ _ _ Hst Hi).
  - intros i [op1 ne1] Hni H1. simpl in H1 |- *. alone_writes Hni. exact H1.
Qed.

Lemma identify_conversions_cwr_to_fte_alone (today : date) (py_repr : cell -> string)
    (current_df next_df op_fte_df : DataFrame) (file_date : string * string) :
  locked_rows_left_alone outside_strict_fte op_fte_df
    (identify_conversions_cwr_to_fte today py_repr current_df next_df op_fte_df file_date).
Proof.
  unfold identify_conversions_cwr_to_fte. destruct file_date as [e s].
  destruct (relabel s) as [first_day|]; [| apply locked_rows_refl].
  alone_loop outside_strict_fte op_fte_df.
  intros [op ne] m _ Hst. cbv beta iota.
  match goal with |- context [if ?c then _ else _] => destruct c end; [| exact Hst].
  apply for_indices_alone; [exact Hst | |].
  - intros i Hi. exact (strict_not_locked _ _ _ _ Hst Hi).
  - intros i [op1 ne1] Hni H1. simpl in H1 |- *.
    match goal with |- context [if ?c then _ else _] => destruct c end; exact H1.
Qed.

Lemma identify_conversions_fte_to_cwr_alone
    (current_df next_df op_fte_df : DataFrame) (file_date : string * string) :
  locked_rows_left_alone outside_strict_fte op_fte_df
    (identify_conversions_fte_to_cwr current_df next_df op_fte_df file_date).
Proof.
  unfold identify_conversions_fte_to_cwr. destruct file_date as [e s].
  destruct (relabel e) as [last_day|]; [| apply locked_rows_refl].
  alone_loop outside_strict_fte op_fte_df.
  intros [op ne] m _ Hst. cbv beta iota.
  apply for_indices_alone; [exact Hst | |].
  - intros i Hi. exact (strict_not_locked _ _ _ _ Hst Hi).
  - intros i [op1 ne1] Hni H1. simpl in H1 |- *. alone_writes Hni. exact H1.
Qed.

Lemma identify_internal_mobility_fte_alone (today : date)
    (current_df next_df op_fte_df : DataFrame) (file_date : string * string) :
  locked_rows_left_alone outside_strict_fte op_fte_df
    (identify_internal_mobility_fte today current_df next_df op_fte_df file_date).
Proof.
  unfold identify_internal_mobility_fte. destruct file_date as [e s].
  destruct (relabel e) as [last_day|]; [| apply locked_rows_refl].
  destruct (relabel s) as [first_day|]; [| apply locked_rows_refl].
  alone_loop outside_strict_fte op_fte_df.
  intros [op ne] m _ Hst. cbv beta iota.
  set (row := mget m).
  destruct (negb (is_empty (employee_filtering_condition_fte op (row "Employee ID")))) eqn:Hemp;
    [| exact Hst].
  assert (Hne : employee_filtering_condition_fte op (row "Employee ID") <> []).
  { intros Hnil. rewrite Hnil in Hemp. discriminate. }
  match goal with
  | |- context [fold_left ?f ?l (false, 0%nat)] =>
      pose proof (mobility_flag
                    (negb (is_empty (existing_entries op (row "Employee ID") "Tech Area"
                                       (row "Tech Area_next") (eofy_label today))))
                    l false 0%nat) as Hflag;
      cbv zeta in Hflag; destruct Hflag as [_ Hflag];
      specialize (Hflag eq_refl Hne);
      destruct (fold_left f l (false, 0%nat)) as [processed emp_index]
  end.
  cbn [fst snd] in Hflag. destruct Hflag as [_ Hi].
  destruct (negb processed); [| exact Hst].
  pose proof (strict_not_locked _ _ _ _ Hst Hi) as Hni.
  simpl in Hst |- *. alone_writes Hni. exact Hst.
Qed.

Lemma cell_eqb_refl (a : cell) : a <> NaN -> cell_eqb a a = true.
Proof.
  intros Ha. pose proof (key_eqb_refl a) as H. apply key_eqb_cell in H; assumption.
Qed.

Lemma cell_eq_Str_dec (c : cell) (s : string) : c = Str s \/ c <> Str s.
Proof.
  destruct (cell_eqb c (Str s)) eqn:H.
  - left. apply cell_eqb_Str. exact H.
  - right. intros Hc. apply cell_eqb_Str in Hc. congruence.
Qed.

Lemma cell_eq_NaN_dec (c : cell) : c = NaN \/ c <> NaN.
Proof. destruct c; [left; reflexivity | right; discriminate ..]. Qed.

(** The rows that the strict policy of the FTE sheet returns for no
    employee. *)
Lemma outside_strict_fte_iff (r : Series) :
  outside_strict_fte r <->
  r "Resource Type" = Str "Stretch"
  \/ cell_contains "Vacant" (r "FTE Name") = true
  \/ r "Employee ID" = NaN
  \/ r "LANID" = NaN
  \/ r "Role Status" = Str "Missing from Op FTE"
  \/ r "Fulfilled" = Str "Yes"
  \/ r "Skip" = Str "Past".
Proof.
  split.
  - intros H.
    destruct (cell_eq_Str_dec (r "Resource Type") "Stretch") as [H1 | H1]; [tauto |].
    destruct (cell_contains "Vacant" (r "FTE Name")) eqn:H2; [tauto |].
    destruct (cell_eq_NaN_dec (r "Employee ID")) as [H3 | H3]; [tauto |].
    destruct (cell_eq_NaN_dec (r "LANID")) as [H4 | H4]; [tauto |].
    destruct (cell_eq_Str_dec (r "Role Status") "Missing from Op FTE") as [H5 | H5]; [tauto |].
    destruct (cell_eq_Str_dec (r "Fulfilled") "Yes") as [H6 | H6]; [tauto |].
    destruct (cell_eq_Str_dec (r "Skip") "Past") as [H7 | H7]; [tauto |].
    exfalso. specialize (H (r "Employee ID")).
    apply not_true_iff_false in H. apply H.
    unfold employee_filtering_condition_fte_mask.
    rewrite !andb_true_iff, !cell_neb_Str, !notna_true, negb_true_iff.
    repeat split; try assumption. apply cell_eqb_refl. exact H3.
  - intros H id. apply not_true_iff_false. intros Hm.
    apply strict_mask_fte_row in Hm as [(H1 & H2 & H3 & H4 & H5 & H6 & H7) _].
    destruct H as [H | [H | [H | [H | [H | [H | H]]]]]]; try contradiction.
    congruence.
Qed.

Lemma outside_relaxed_fte_iff (r : Series) :
  outside_relaxed_fte r <->
  r "Resource Type" = Str "Stretch"
  \/ cell_contains "Vacant" (r "FTE Name") = true
  \/ r "Employee ID" = NaN
  \/ r "LANID" = NaN
  \/ r "Role Status" = Str "Missing from Op FTE".
Proof.
  split.
  - intros H.
    destruct (cell_eq_Str_dec (r "Resource Type") "Stretch") as [H1 | H1]; [tauto |].
    destruct (cell_contains "Vacant" (r "FTE Name")) eqn:H2; [tauto |].
    destruct (cell_eq_NaN_dec (r "Employee ID")) as [H3 | H3]; [tauto |].
    destruct (cell_eq_NaN_dec (r "LANID")) as [H4 | H4]; [tauto |].
    destruct (cell_eq_Str_dec (r "Role Status") "Missing from Op FTE") as [H5 | H5]; [tauto |].
    exfalso. specialize (H (r "Employee ID")).
    apply not_true_iff_false in H. apply H.
    unfold shorten_filtering_condition_fte_mask.
    rewrite !andb_true_iff, !cell_neb_Str, !notna_true, negb_true_iff.
    repeat split; try assumption. apply cell_eqb_refl. exact H3.
  - intros H id. apply not_true_iff_false. intros Hm.
    unfold shorten_filtering_condition_fte_mask in Hm.
    rewrite !andb_true_iff, !cell_neb_Str, !notna_true, negb_true_iff in Hm.
    destruct Hm as [[[[[H1 H2] _] H3] H4] H5].
    destruct H as [H | [H | [H | [H | H]]]]; try contradiction.
    congruence.
Qed.

(** X2.  The seven detectors that use the strict policy write only to
    rows the policy returns.  A row of the plan that is a stretch role, has
    ['Vacant'] in its name, lacks an employee id or a LANID, or is tagged
    ['Missing from Op FTE'], fulfilled (['Yes']) or past (['Past']) is, in
    the frame a detector returns, at the same label and holds what it held:
    no end date is written to it, no status, no [Modified] mark. *)
Theorem strict_detectors_leave_excluded_rows (today : date) (py_repr : cell -> string)
    (current_df next_df op_fte_df : DataFrame) (file_date : string * string)
    (i : nat) (r0 : Series) :
  op_fte_df !! i = Some r0 ->
  r0 "Resource Type" = Str "Stretch"
  \/ cell_contains "Vacant" (r0 "FTE Name") = true
  \/ r0 "Employee ID" = NaN
  \/ r0 "LANID" = NaN
  \/ r0 "Role Status" = Str "Missing from Op FTE"
  \/ r0 "Fulfilled" = Str "Yes"
  \/ r0 "Skip" = Str "Past" ->
  forall out,
    In out [ identify_new_joiners_fte today py_repr current_df next_df op_fte_df file_date;
             identify_transfers_in_fte today py_repr current_df next_df op_fte_df file_date;
             identify_grade_changes_fte today current_df next_df op_fte_df file_date;
             identify_internal_mobility_fte today current_df next_df op_fte_df file_date;
             indetify_conversions_within_fte today py_repr current_df next_df op_fte_df
               file_date;
             identify_conversions_cwr_to_fte today py_repr current_df next_df op_fte_df
               file_date;
             identify_conversions_fte_to_cwr current_df next_df op_fte_df file_date ] ->
    exists r : Series, out !! i = Some r /\ forall col, r col = r0 col.
Proof.
  intros Hr0 Hex out Hout. apply outside_strict_fte_iff in Hex.
  assert (H : locked_rows_left_alone outside_strict_fte op_fte_df out);
    [| exact (H i r0 Hr0 Hex)].
  simpl in Hout.
  destruct Hout as [<- | [<- | [<- | [<- | [<- | [<- | [<- | []]]]]]]].
  - apply identify_new_joiners_fte_alone.
  - apply identify_transfers_in_fte_alone.
  - apply identify_grade_changes_fte_alone.
  - apply identify_internal_mobility_fte_alone.
  - apply indetify_conversions_within_fte_alone.
  - apply identify_conversions_cwr_to_fte_alone.
  - apply identify_conversions_fte_to_cwr_alone.
Qed.

(** A fulfilled row of employee 1001, whose grade changes: the detector
    of grade changes returns it as it was. *)
Lemma strict_detectors_leave_excluded_rows_witness :
  exists r : Series,
    identify_grade_changes_fte Fixture.today [Fixture.e1001_current] [Fixture.e1001_next]
      Fixture.fulfilled_plan Fixture.file_date !! 0%nat = Some r
    /\ forall col,
         r col = Fixture.plan_row (Fixture.emp 1001) "Kim Lee" "Permanent" "P5" "Security_Cloud"
                   "Conversion to FTE" (Str "ukim") (Str "Sep-24") (Str "Yes") (Str "") col.
Proof.
  apply (strict_detectors_leave_excluded_rows Fixture.today Fixture.py_repr
           [Fixture.e1001_current] [Fixture.e1001_next] Fixture.fulfilled_plan
           Fixture.file_date 0%nat).
  - reflexivity.
  - right. right. right. right. right. left. reflexivity.
  - right. right. left. reflexivity.
Defined.

(** X3.  The four detectors that use the relaxed policy write only to
    rows the policy returns.  A row of the plan that is a stretch role, has
    ['Vacant'] in its name, lacks an employee id or a LANID, or is tagged
    ['Missing from Op FTE'] is, in the frame a detector returns, at the same
    label and holds what it held.  (A fulfilled or past row is not
    protected: the relaxed policy returns it.) *)
Theorem relaxed_detectors_leave_excluded_rows (today : date) (py_repr : cell -> string)
    (int_parses : string -> bool)
    (current_df next_df op_fte_df : DataFrame) (file_date : string * string)
    (i : nat) (r0 : Series) :
  op_fte_df !! i = Some r0 ->
  r0 "Resource Type" = Str "Stretch"
  \/ cell_contains "Vacant" (r0 "FTE Name") = true
  \/ r0 "Employee ID" = NaN
  \/ r0 "LANID" = NaN
  \/ r0 "Role Status" = Str "Missing from Op FTE" ->
  (forall out,
      In out [ identify_exits_fte current_df next_df op_fte_df file_date;
               identify_transfers_out_fte current_df next_df op_fte_df file_date;
               identify_location_changes_fte today current_df next_df op_fte_df file_date ] ->
      exists r : Series, out !! i = Some r /\ forall col, r col = r0 col)
  /\ (forall out,
        identify_line_manager_changes_fte py_repr int_parses current_df next_df
          op_fte_df file_date = Ok out ->
        exists r : Series, out !! i = Some r /\ forall col, r col = r0 col).
Proof.
  intros Hr0 Hex. apply outside_relaxed_fte_iff in Hex. split.
  - intros out Hout.
    assert (H : locked_rows_left_alone outside_relaxed_fte op_fte_df out);
      [| exact (H i r0 Hr0 Hex)].
    simpl in Hout. destruct Hout as [<- | [<- | [<- | []]]].
    + apply identify_exits_fte_alone.
    + apply identify_transfers_out_fte_alone.
    + apply identify_location_changes_fte_alone.
  - intros out Hout.
    pose proof (identify_line_manager_changes_fte_alone py_repr int_parses
                  current_df next_df op_fte_df file_date) as H.
    rewrite Hout in H. exact (H i r0 Hr0 Hex).
Qed.

(** The stretch row of the plan of employee 1001, who leaves: the
    detector of exits returns it as it was. *)
Lemma relaxed_detectors_leave_excluded_rows_witness :
  exists r : Series,
    identify_exits_fte [Fixture.e1001_current] [] Fixture.fte_plan Fixture.file_date !! 0%nat
    = Some r
    /\ forall col,
         r col = Fixture.plan_row (Fixture.emp 1001) "Kim Lee" "Stretch" "P4" "Security_Cloud"
                   "" (Str "ukim") (Str "Sep-24") (Str "") (Str "") col.
Proof.
  destruct (relaxed_detectors_leave_excluded_rows Fixture.today Fixture.py_repr
              Fixture.int_parses [Fixture.e1001_current] [] Fixture.fte_plan
              Fixture.file_date 0%nat
              (Fixture.plan_row (Fixture.emp 1001) "Kim Lee" "Stretch" "P4" "Security_Cloud"
                 "" (Str "ukim") (Str "Sep-24") (Str "") (Str "")))
    as [H _].
  - reflexivity.
  - left. reflexivity.
  - apply H. left. reflexivity.
Defined.

(** ** The pass that seeds the missing employees, again *)

Lemma isin_app (x : cell) (l1 l2 : list cell) : isin x (l1 ++ l2) = isin x l1 || isin x l2.
Proof. unfold isin. apply existsb_app. Qed.

Lemma employee_ids_app (a b : DataFrame) :
  employee_ids (a ++ b) = employee_ids a ++ employee_ids b.
Proof. unfold employee_ids. apply fmap_app. Qed.

Lemma isin_employee_ids (df : DataFrame) (r : Series) :
  In r df -> isin (r "Employee ID") (employee_ids df) = true.
Proof.
  intros Hr. unfold isin. apply existsb_exists. exists (r "Employee ID").
  split; [| apply key_eqb_refl].
  unfold employee_ids. apply list_elem_of_In, list_elem_of_fmap.
  exists r. split; [reflexivity | apply list_elem_of_In; exact Hr].
Qed.

(** X4.  The pass that seeds the missing employees changes no row of
    the plan: it returns the plan followed by new rows.  Each new row has
    status ['Missing from Op FTE'], ['-'] as start and end date and the
    [Modified] mark, and is the row of an employee who had no row in the
    plan. *)
Theorem missing_pass_appends (py_repr : cell -> string)
    (current_df next_df op_fte_df : DataFrame) :
  exists entries : DataFrame,
    identify_missing_employees_fte py_repr current_df next_df op_fte_df
    = op_fte_df ++ entries
    /\ forall e, In e entries ->
                 e "Role Status" = Str "Missing from Op FTE"
                 /\ e "Start Date" = Str "-"
                 /\ e "End Date" = Str "-"
                 /\ e "Modified" = Boolean true
                 /\ isin (e "Employee ID") (employee_ids op_fte_df) = false.
Proof.
  unfold identify_missing_employees_fte. cbv zeta. rewrite add_new_entries_fte_app.
  eexists. split; [reflexivity |].
  intros e He. apply list_elem_of_In, list_elem_of_fmap in He as (m & -> & Hm).
  apply list_elem_of_In, filter_In in Hm as [_ Hm].
  repeat (split; [reflexivity |]).
  rewrite build_entry_fte_id.
  destruct (isin (mget m "Employee ID") (employee_ids op_fte_df)); [| reflexivity].
  cbn [negb] in Hm. rewrite !andb_false_r in Hm. cbn [andb orb] in Hm. discriminate.
Qed.

(** The filter of the seeding pass, run against a larger list of ids
    that holds the ids of the rows it has selected: nothing is selected. *)
Lemma seed_filter_again {A : Type} (ids ids' : list cell) (key : A -> cell)
    (a b c d : A -> bool) (M : list A) :
  (forall x, isin x ids = true -> isin x ids' = true) ->
  (forall m, In m (List.filter
                     (fun m => a m && b m && negb (isin (key m) ids) && c m
                               || a m && negb (isin (key m) ids) && d m) M) ->
             isin (key m) ids' = true) ->
  List.filter (fun m => a m && b m && negb (isin (key m) ids') && c m
                        || a m && negb (isin (key m) ids') && d m) M = [].
Proof.
  intros Hmono Hsel. apply filter_none. intros m Hm.
  destruct (isin (key m) ids') eqn:Hin'.
  - cbn [negb]. rewrite !andb_false_r. reflexivity.
  - assert (Hin : isin (key m) ids = false).
    { destruct (isin (key m) ids) eqn:Hin; [| reflexivity].
      rewrite (Hmono _ Hin) in Hin'. discriminate. }
    cbn [negb]. rewrite !andb_true_r.
    destruct (a m && b m && c m || a m && d m) eqn:Hc; [| reflexivity].
    exfalso. rewrite Hsel in Hin'; [discriminate |].
    apply filter_In. split; [exact Hm |].
    rewrite Hin. cbn [negb]. rewrite !andb_true_r. exact Hc.
Qed.

(** X5.  Seeding is idempotent: run on its own result, the pass that
    seeds the missing employees adds nothing, because every employee it
    has added now has a row in the plan. *)
Theorem missing_pass_idempotent (py_repr : cell -> string)
    (current_df next_df op_fte_df : DataFrame) :
  identify_missing_employees_fte py_repr current_df next_df
    (identify_missing_employees_fte py_repr current_df next_df op_fte_df)
  = identify_missing_employees_fte py_repr current_df next_df op_fte_df.
Proof.
  unfold identify_missing_employees_fte. cbv zeta. rewrite !add_new_entries_fte_app.
  match goal with
  | |- (_ ++ (?b <$> List.filter ?c ?M)) ++ (_ <$> List.filter ?c' _) = _ =>
      replace (List.filter c' M) with (@nil merged);
      [rewrite fmap_nil, app_nil_r; reflexivity |];
      symmetry;
      apply (seed_filter_again (employee_ids op_fte_df)
               (employee_ids (op_fte_df ++ (b <$> List.filter c M)))
               (fun m => mget m "Employee ID"))
  end.
  - intros x Hx. rewrite employee_ids_app, isin_app, Hx. reflexivity.
  - intros m Hm. rewrite employee_ids_app, isin_app.
    apply orb_true_iff. right.
    match goal with
    | |- isin _ (employee_ids (?b <$> ?l)) = true =>
        apply (isin_employee_ids (b <$> l) (b m))
    end.
    apply list_elem_of_In, list_elem_of_fmap. exists m.
    split; [reflexivity | apply list_elem_of_In; exact Hm].
Qed.

(** ** modules/formatting.py: the result of the formatting functions *)

Lemma sub_runs_clean (cls : ascii -> bool) (in_run : bool) (s : string) :
  cls "_"%char = false ->
  string_forall (fun c => negb (cls c)) (sub_runs cls in_run s) = true.
Proof.
  intros Hu. revert in_run. induction s as [|c s IH]; intros in_run; simpl; [reflexivity |].
  destruct (cls c) eqn:Hc.
  - destruct in_run; [apply IH |]. simpl. rewrite Hu, IH. reflexivity.
  - simpl. rewrite Hc, IH. reflexivity.
Qed.

Lemma sub_runs_id (cls : ascii -> bool) (in_run : bool) (s : string) :
  string_forall (fun c => negb (cls c)) s = true -> sub_runs cls in_run s = s.
Proof.
  revert in_run. induction s as [|c s IH]; intros in_run H; simpl in *; [reflexivity |].
  apply andb_true_iff in H as [Hc Hs]. apply negb_true_iff in Hc. rewrite Hc.
  f_equal. apply IH. exact Hs.
Qed.

Lemma lstrip_forall (p : ascii -> bool) (s : string) :
  string_forall p s = true -> string_forall p (lstrip_underscore s) = true.
Proof.
  induction s as [|c s IH]; intros H; simpl in *; [reflexivity |].
  apply andb_true_iff in H as [Hc Hs].
  destruct (Ascii.eqb c "_"); [apply IH; exact Hs |]. simpl. rewrite Hc, Hs. reflexivity.
Qed.

Lemma rstrip_forall (p : ascii -> bool) (s : string) :
  string_forall p s = true -> string_forall p (rstrip_underscore s) = true.
Proof.
  induction s as [|c s IH]; intros H; simpl in *; [reflexivity |].
  apply andb_true_iff in H as [Hc Hs].
  destruct (Ascii.eqb c "_" && String.eqb (rstrip_underscore s) ""); [reflexivity |].
  simpl. rewrite Hc, (IH Hs). reflexivity.
Qed.

Lemma lstrip_idem (s : string) : lstrip_underscore (lstrip_underscore s) = lstrip_underscore s.
Proof.
  induction s as [|c s IH]; simpl; [reflexivity |].
  destruct (Ascii.eqb c "_") eqn:Hc; [exact IH |]. simpl. rewrite Hc. reflexivity.
Qed.

Lemma rstrip_idem (s : string) : rstrip_underscore (rstrip_underscore s) = rstrip_underscore s.
Proof.
  induction s as [|c s IH]; simpl; [reflexivity |].
  destruct (Ascii.eqb c "_" && String.eqb (rstrip_underscore s) "") eqn:H; [reflexivity |].
  simpl. rewrite IH, H. reflexivity.
Qed.

(** What is left of a string without a leading underscore has none. *)
Lemma lstrip_rstrip (s : string) :
  lstrip_underscore s = s -> lstrip_underscore (rstrip_underscore s) = rstrip_underscore s.
Proof.
  destruct s as [|c s]; [reflexivity |]. simpl.
  destruct (Ascii.eqb c "_") eqn:Hc.
  - intros H. exfalso.
    assert (Hl : forall t, (String.length (lstrip_underscore t) <= String.length t)%nat).
    { induction t as [|d t IHt]; simpl; [lia |]. destruct (Ascii.eqb d "_"); simpl; lia. }
    specialize (Hl s). rewrite H in Hl. simpl in Hl. lia.
  - intros _. simpl. simpl. rewrite Hc. reflexivity.
Qed.

Lemma strip_formatted (cls : ascii -> bool) (s : string) :
  cls "_"%char = false ->
  formatted cls (strip_underscore (sub_runs cls false s)).
Proof.
  intros Hu. unfold formatted, strip_underscore. split; [| split].
  - apply rstrip_forall, lstrip_forall, sub_runs_clean. exact Hu.
  - apply lstrip_rstrip, lstrip_idem.
  - apply rstrip_idem.
Qed.

Lemma formatted_fixed (cls : ascii -> bool) (s : string) :
  formatted cls s -> strip_underscore (sub_runs cls false s) = s.
Proof.
  intros (H1 & H2 & H3). rewrite (sub_runs_id cls false s H1).
  unfold strip_underscore. rewrite H2. exact H3.
Qed.

Lemma substring_full (s : string) : substring 0 (String.length s) s = s.
Proof. induction s as [|c s IH]; simpl; [reflexivity | rewrite IH; reflexivity]. Qed.

Lemma string_length_app (u w : string) :
  String.length (u ++ w)%string = (String.length u + String.length w)%nat.
Proof. induction u as [|c u IH]; simpl; [reflexivity | rewrite IH; reflexivity]. Qed.

Lemma string_app_assoc (u v w : string) : ((u ++ v) ++ w = u ++ (v ++ w))%string.
Proof. induction u as [|c u IH]; simpl; [reflexivity | rewrite IH; reflexivity]. Qed.

Lemma endswith_app (v w : string) : endswith w (v ++ w)%string = true.
Proof.
  unfold endswith. rewrite string_length_app.
  replace (String.length w <=? String.length v + String.length w)%nat with true
    by (symmetry; apply Nat.leb_le; lia).
  replace (String.length v + String.length w - String.length w)%nat
    with (String.length v) by lia.
  simpl. apply String.eqb_eq.
  induction v as [|c v IH]; simpl; [apply substring_full | exact IH].
Qed.

Lemma endswith_inv (w s : string) :
  endswith w s = true -> exists v, s = (v ++ w)%string.
Proof.
  unfold endswith. intros H. apply andb_true_iff in H as [Hk H].
  apply Nat.leb_le in Hk. apply String.eqb_eq in H. rewrite <- H. clear H.
  induction s as [|c s IH].
  - exists "". simpl in *. replace (String.length w) with 0%nat by lia. reflexivity.
  - destruct (Nat.eq_dec (String.length w) (String.length (String c s))) as [He | He].
    + exists "". rewrite He, Nat.sub_diag, substring_full. reflexivity.
    + simpl in Hk, He.
      destruct IH as [v Hv]; [lia |]. exists (String c v).
      replace (String.length (String c s) - String.length w)%nat
        with (S (String.length s - String.length w)) by (simpl; lia).
      simpl. f_equal. exact Hv.
Qed.

Lemma sub_runs_app (cls : ascii -> bool) (in_run : bool) (v w : string) :
  string_forall (fun c => negb (cls c)) w = true ->
  sub_runs cls in_run (v ++ w)%string = (sub_runs cls in_run v ++ w)%string.
Proof.
  intros Hw. revert in_run. induction v as [|c v IH]; intros in_run; simpl.
  - apply sub_runs_id. exact Hw.
  - destruct (cls c); [destruct in_run |]; simpl; rewrite IH; reflexivity.
Qed.

Lemma lstrip_app (u w : string) :
  lstrip_underscore w = w -> w <> ""%string ->
  exists u', lstrip_underscore (u ++ w)%string = (u' ++ w)%string.
Proof.
  intros Hw Hne. induction u as [|c u IH]; simpl.
  - exists "". exact Hw.
  - destruct (Ascii.eqb c "_"); [exact IH |]. exists (String c u). reflexivity.
Qed.

Lemma rstrip_app (u w : string) :
  rstrip_underscore w <> ""%string ->
  rstrip_underscore (u ++ w)%string = (u ++ rstrip_underscore w)%string.
Proof.
  intros Hw. induction u as [|c u IH]; simpl; [reflexivity |].
  rewrite IH.
  replace (String.eqb (u ++ rstrip_underscore w) "") with false.
  - rewrite andb_false_r. reflexivity.
  - symmetry. apply String.eqb_neq. intros H.
    destruct u; simpl in H; [contradiction | discriminate].
Qed.

Lemma string_forall_app (p : ascii -> bool) (u w : string) :
  string_forall p (u ++ w)%string = string_forall p u && string_forall p w.
Proof.
  induction u as [|c u IH]; simpl; [reflexivity |]. rewrite IH, andb_assoc. reflexivity.
Qed.

(** The name [format_domain] makes of a string. *)
Lemma format_domain_result (s : string) :
  exists y, format_domain (Str s) = Str y
            /\ formatted domain_class y
            /\ endswith "Domain" y = true.
Proof.
  unfold format_domain. eexists. split; [reflexivity |].
  split; [apply strip_formatted; reflexivity |].
  assert (Hz : exists v, (if endswith "Domain" s then s else (s ++ "_Domain")%string)
                         = (v ++ "Domain")%string).
  { destruct (endswith "Domain" s) eqn:He.
    - apply endswith_inv. exact He.
    - exists (s ++ "_")%string. rewrite string_app_assoc. reflexivity. }
  destruct Hz as [v ->].
  rewrite sub_runs_app by reflexivity. unfold strip_underscore.
  destruct (lstrip_app (sub_runs domain_class false v) "Domain") as [u' ->];
    [reflexivity | discriminate |].
  rewrite rstrip_app by (simpl; discriminate).
  apply endswith_app.
Qed.

Lemma format_domain_fixed (y : string) :
  formatted domain_class y -> endswith "Domain" y = true ->
  format_domain (Str y) = Str y.
Proof.
  intros Hf He. unfold format_domain. rewrite He, (formatted_fixed _ _ Hf). reflexivity.
Qed.

(** X6.  [format_domain] is idempotent: a domain name that has been
    formatted is left as it is by a second formatting, and a value that is
    not a string is never changed. *)
Theorem format_domain_idempotent (c : cell) :
  format_domain (format_domain c) = format_domain c.
Proof.
  destruct c as [|s|q|b|d|d t]; try reflexivity.
  destruct (format_domain_result s) as (y & -> & Hf & He).
  apply format_domain_fixed; assumption.
Qed.

(** The name [format_tech_area] makes of a string: ['Security'] when
    the string holds separators and underscores only, and a name that
    starts with ['Security_'] otherwise. *)
Lemma format_tech_area_result (s : string) :
  exists y, format_tech_area (Str s) = Str y
            /\ formatted tech_area_class y
            /\ (if String.eqb (strip_underscore (sub_runs tech_area_class false s)) ""
                then y = "Security"%string
                else String.prefix "Security_" y = true).
Proof.
  unfold format_tech_area. cbv zeta.
  pose proof (strip_formatted tech_area_class s eq_refl) as Hn.
  set (n := strip_underscore (sub_runs tech_area_class false s)) in *.
  destruct (String.prefix "Security_" n) eqn:Hp.
  - exists n. rewrite (formatted_fixed _ _ Hn).
    split; [reflexivity |]. split; [exact Hn |].
    destruct (String.eqb n "") eqn:He; [| exact Hp].
    apply String.eqb_eq in He. rewrite He in Hp. discriminate.
  - destruct (String.eqb n "") eqn:He.
    + apply String.eqb_eq in He. rewrite He. exists "Security"%string.
      split; [reflexivity |]. split; [| reflexivity].
      repeat split; reflexivity.
    + apply String.eqb_neq in He.
      assert (Hf : formatted tech_area_class ("Security_" ++ n)%string).
      { destruct Hn as (H1 & H2 & H3). split; [| split].
        - rewrite string_forall_app, H1. reflexivity.
        - reflexivity.
        - rewrite rstrip_app by (rewrite H3; exact He). rewrite H3. reflexivity. }
      exists ("Security_" ++ n)%string. rewrite (formatted_fixed _ _ Hf).
      split; [reflexivity |]. split; [exact Hf |].
      simpl. destruct n; reflexivity.
Qed.

Lemma format_tech_area_fixed (y : string) :
  formatted tech_area_class y -> String.prefix "Security_" y = true ->
  format_tech_area (Str y) = Str y.
Proof.
  intros Hf Hp. unfold format_tech_area. cbv zeta.
  rewrite (formatted_fixed _ _ Hf), Hp, (formatted_fixed _ _ Hf). reflexivity.
Qed.

(** X7.  Formatting a tech area twice.  A second [format_tech_area]
    leaves the result of the first as it is, with one exception: a name
    that the first formatting turned into ['Security'] (an empty name, or
    one made of separators and underscores) becomes ['Security_Security'].
    A value that is not a string is never changed. *)
Theorem format_tech_area_twice (c : cell) :
  format_tech_area (format_tech_area c)
  = if cell_eqb (format_tech_area c) (Str "Security")
    then Str "Security_Security"
    else format_tech_area c.
Proof.
  destruct c as [|s|q|b|d|d t]; try reflexivity.
  destruct (format_tech_area_result s) as (y & -> & Hf & Hy).
  destruct (String.eqb (strip_underscore (sub_runs tech_area_class false s)) "").
  - subst y. reflexivity.
  - rewrite (format_tech_area_fixed y Hf Hy).
    replace (cell_eqb (Str y) (Str "Security")) with false; [reflexivity |].
    symmetry. simpl. apply String.eqb_neq. intros ->. discriminate.
Qed.

(** X8.  The names the two formatting functions return for a string:
    no white space and no separator of the function's class (comma, plus,
    hyphen, parentheses for a tech area; comma and hyphen for a domain), no
    underscore at either end; a domain ends with ['Domain'], and a tech area
    is ['Security'] or starts with ['Security_']. *)
Theorem formatted_names (s : string) :
  (exists y, format_tech_area (Str s) = Str y
             /\ string_forall (fun c => negb (tech_area_class c)) y = true
             /\ lstrip_underscore y = y /\ rstrip_underscore y = y
             /\ (y = "Security"%string \/ String.prefix "Security_" y = true))
  /\ (exists y, format_domain (Str s) = Str y
                /\ string_forall (fun c => negb (domain_class c)) y = true
                /\ lstrip_underscore y = y /\ rstrip_underscore y = y
                /\ endswith "Domain" y = true).
Proof.
  split.
  - destruct (format_tech_area_result s) as (y & Hy & (H1 & H2 & H3) & H4).
    exists y. repeat (split; [assumption |]).
    destruct (String.eqb _ ""); [left | right]; exact H4.
  - destruct (format_domain_result s) as (y & Hy & (H1 & H2 & H3) & H4).
    exists y. repeat (split; [assumption |]). exact H4.
Qed.

(** ** modules/date_extraction.py and modules/eofy.py *)

(** X9.  What [extract_date_from_filename] makes of a file name.
    Without a run of six digits it returns [None]; when the first run of
    six digits is not a date [yymmdd] it raises; otherwise it returns two
    labels, of the month before the date and of the month of the date, in
    this order.  Read back with [strptime] and ['%b-%y'], as the detectors
    do, the labels give the first days of these two months, with one
    exception: the month before January 1969 is written ['Dec-68'] and read
    back as December 2068. *)
Theorem extract_date_outcomes (filename : string) :
  match extract_date_from_filename filename with
  | Ok None => search_six_digits filename = None
  | Raise =>
      exists date_str,
        search_six_digits filename = Some date_str /\ strptime_ymd date_str = None
  | Ok (Some (end_label, start_label)) =>
      exists date_str d,
        search_six_digits filename = Some date_str
        /\ strptime_ymd date_str = Some d
        /\ strptime_b_y start_label = Some (mk_date (year d) (month d) 1)
        /\ strptime_b_y end_label
           = Some (if month d =? 1
                   then mk_date (if year d =? 1969 then 2068 else year d - 1) 12 1
                   else mk_date (year d) (month d - 1) 1)
  end.
Proof.
  unfold extract_date_from_filename.
  destruct (search_six_digits filename) as [date_str|]; [| reflexivity].
  destruct (strptime_ymd date_str) as [d|] eqn:Hd; [| exists date_str; auto].
  exists date_str, d. split; [reflexivity |]. split; [exact Hd |].
  apply strptime_ymd_range in Hd as [Hy Hm].
  split; [apply strptime_strftime; assumption |].
  unfold last_day_of_previous_month. cbn [year month day].
  destruct (Z.eqb_spec (month d) 1) as [H1 | H1].
  - destruct (Z.eqb_spec (year d) 1969) as [H2 | H2].
    + rewrite H2. reflexivity.
    + apply strptime_strftime; lia.
  - apply strptime_strftime; lia.
Qed.

(** X10.  The financial-year end that [get_eofy] returns lies before
    the day of the run exactly from 2 to 30 September: in September the
    function still returns the first of September of the current year. *)
Theorem get_eofy_in_the_past (today : date) :
  date_ltb (get_eofy today) today = (month today =? 9) && (1 <? day today).
Proof.
  unfold get_eofy, date_ltb.
  destruct (Z.ltb_spec 9 (month today)); cbn [year month day];
    apply eq_true_iff_eq;
    rewrite ?orb_true_iff, ?andb_true_iff, ?orb_true_iff, ?andb_true_iff,
            ?Z.ltb_lt, ?Z.eqb_eq; lia.
Qed.

(** ** modules/get_column_index.py *)

Lemma get_column_index_from_spec (header : list cell) (column_name : string) (idx : nat) :
  match get_column_index_from idx header column_name with
  | Some k =>
      (idx + 1 <= k <= idx + length header)%nat
      /\ header !! (k - 1 - idx)%nat = Some (Str column_name)
      /\ forall j, (j < k - 1 - idx)%nat -> header !! j <> Some (Str column_name)
  | None => forall j, header !! j <> Some (Str column_name)
  end.
Proof.
  revert idx. induction header as [|value rest IH]; intros idx; simpl.
  - intros j. rewrite lookup_nil. discriminate.
  - destruct (cell_eqb value (Str column_name)) eqn:Hv.
    + apply cell_eqb_Str in Hv. subst value.
      split; [lia |]. replace (idx + 1 - 1 - idx)%nat with 0%nat by lia.
      split; [reflexivity | intros j Hj; lia].
    + assert (Hne : value <> Str column_name).
      { intros ->. rewrite (proj2 (cell_eqb_Str _ _) eq_refl) in Hv. discriminate. }
      specialize (IH (S idx)).
      destruct (get_column_index_from (S idx) rest column_name) as [k|].
      * destruct IH as (Hk & Hl & Hfirst). split; [lia |].
        replace (k - 1 - idx)%nat with (S (k - 1 - S idx)) by lia.
        split; [exact Hl |].
        intros [|j] Hj; simpl; [congruence | apply Hfirst; lia].
      * intros [|j]; simpl; [congruence | apply IH].
Qed.

(** X11.  [get_column_index] returns the position, counted from 1, of
    the first header cell that holds the column name, and [None] exactly
    when no header cell holds it. *)
Theorem get_column_index_first (header : list cell) (column_name : string) :
  match get_column_index header column_name with
  | Some k =>
      (1 <= k <= length header)%nat
      /\ header !! (k - 1)%nat = Some (Str column_name)
      /\ forall j, (j < k - 1)%nat -> header !! j <> Some (Str column_name)
  | None => forall j, header !! j <> Some (Str column_name)
  end.
Proof.
  unfold get_column_index.
  pose proof (get_column_index_from_spec header column_name 0) as H.
  destruct (get_column_index_from 0 header column_name) as [k|]; [| exact H].
  rewrite Nat.sub_0_r in H. simpl in H. exact H.
Qed.

(** ** The columns a detector writes *)

Lemma same_outside_refl (cols : list string) (op : DataFrame) :
  Forall2 (same_outside cols) op op.
Proof. apply Forall2_refl_on. intros r col _. reflexivity. Qed.

Lemma same_outside_at_set (cols : list string) (op0 op : DataFrame) (i : nat)
    (col : string) (v : cell) :
  mem_string col cols = true ->
  Forall2 (same_outside cols) op0 op ->
  Forall2 (same_outside cols) op0 (at_set i col v op).
Proof.
  intros Hc H. unfold at_set. apply Forall2_alter_r; [exact H |].
  intros x y _ _ Hxy c Hm. unfold set.
  destruct (String.eqb col c) eqn:He; [| apply Hxy; exact Hm].
  apply String.eqb_eq in He. subst c. congruence.
Qed.

Lemma same_outside_changes (cols : list string) (op0 op appended : DataFrame) :
  Forall2 (same_outside cols) op0 op -> changes_only cols op0 (op ++ appended).
Proof.
  intros H i r0 Hr0.
  destruct (Forall2_lookup_l _ _ _ _ _ H Hr0) as (r & Hr & Ha).
  exists r. split; [apply lookup_app_l_Some; exact Hr | exact Ha].
Qed.

Lemma same_outside_add_new_entries (cols : list string) (op0 : DataFrame) (st : loop_state) :
  Forall2 (same_outside cols) op0 (fst st) ->
  changes_only cols op0 (add_new_entries_fte (fst st) (snd st)).
Proof. intros H. rewrite add_new_entries_fte_app. apply same_outside_changes. exact H. Qed.

Lemma same_outside_fst (cols : list string) (op0 : DataFrame) (st : loop_state) :
  Forall2 (same_outside cols) op0 (fst st) -> changes_only cols op0 (fst st).
Proof.
  intros H. rewrite <- (app_nil_r (fst st)). apply same_outside_changes. exact H.
Qed.

Lemma changes_only_refl (cols : list string) (op : DataFrame) : changes_only cols op op.
Proof. intros i r0 Hr0. exists r0. split; [exact Hr0 | intros col _; reflexivity]. Qed.

Lemma for_indices_same_outside (cols : list string) (op0 : DataFrame)
    (idxs : list nat) (body : nat -> loop_state -> loop_state) (st : loop_state) :
  Forall2 (same_outside cols) op0 (fst st) ->
  (forall i st, Forall2 (same_outside cols) op0 (fst st) ->
                Forall2 (same_outside cols) op0 (fst (body i st))) ->
  Forall2 (same_outside cols) op0 (fst (for_indices idxs body st)).
Proof.
  intros Hst Hbody. unfold for_indices.
  apply (fold_left_invariant (fun st => Forall2 (same_outside cols) op0 (fst st)));
    [exact Hst |].
  intros st' i _ Hst'. apply Hbody. exact Hst'.
Qed.

Ltac frame_writes :=
  repeat (apply same_outside_at_set; [reflexivity |]).

(** A detector: the dates it reads, the loop over the employees it
    selects, the loop over the rows of an employee, the writes. *)
Ltac frame_detector cols op0 :=
  repeat match goal with
         | |- context [let '(_, _) := ?fd in _] => is_var fd; destruct fd
         | |- context [match relabel ?s with _ => _ end] =>
             destruct (relabel s); [| apply changes_only_refl]
         end;
  cbv zeta;
  match goal with
  | |- changes_only _ _ (fst (for_rows ?l ?b ?st)) => apply same_outside_fst
  | |- context [for_rows ?l ?b ?st] =>
      let Hinv := fresh "Hinv" in
      let op' := fresh "op'" in
      let ne' := fresh "ne'" in
      assert (Hinv : Forall2 (same_outside cols) op0 (fst (for_rows l b st)));
      [| destruct (for_rows l b st) as [op' ne'];
         exact (same_outside_add_new_entries cols op0 (op', ne') Hinv)]
  end;
  unfold for_rows;
  apply (fold_left_invariant (fun st => Forall2 (same_outside cols) op0 (fst st)));
  [apply same_outside_refl |];
  let op := fresh "op" in
  let ne := fresh "ne" in
  let Hst := fresh "Hst" in
  intros [op ne] ? _ Hst; cbv beta iota;
  try (match goal with |- context [if negb (is_empty ?l) then _ else _] =>
         destruct (negb (is_empty l)); [| exact Hst] end);
  apply for_indices_same_outside; [exact Hst |];
  let op1 := fresh "op" in
  let ne1 := fresh "ne" in
  let H1 := fresh "H" in
  intros ? [op1 ne1] H1; simpl in H1 |- *;
  try (match goal with |- context [if ?c then _ else _] => destruct c; [exact H1 |] end);
  simpl; frame_writes; exact H1.

Lemma identify_exits_fte_frame (current_df next_df op_fte_df : DataFrame)
    (file_date : string * string) :
  changes_only ["End Date"; "Role Status"; "Modified"] op_fte_df
    (identify_exits_fte current_df next_df op_fte_df file_date).
Proof.
  unfold identify_exits_fte. destruct file_date as [e s].
  destruct (String.eqb e ""); [apply changes_only_refl |].
  destruct (strptime_b_y e) as [d|]; [| apply changes_only_refl].
  frame_detector ["End Date"; "Role Status"; "Modified"] op_fte_df.
Qed.

Lemma identify_new_joiners_fte_frame (today : date) (py_repr : cell -> string)
    (current_df next_df op_fte_df : DataFrame) (file_date : string * string) :
  changes_only ["Role Status"; "Modified"] op_fte_df
    (identify_new_joiners_fte today py_repr current_df next_df op_fte_df file_date).
Proof.
  unfold identify_new_joiners_fte.
  frame_detector ["Role Status"; "Modified"] op_fte_df.
Qed.

Lemma identify_transfers_in_fte_frame (today : date) (py_repr : cell -> string)
    (current_df next_df op_fte_df : DataFrame) (file_date : string * string) :
  changes_only ["Role Status"; "Modified"] op_fte_df
    (identify_transfers_in_fte today py_repr current_df next_df op_fte_df file_date).
Proof.
  unfold identify_transfers_in_fte.
  frame_detector ["Role Status"; "Modified"] op_fte_df.
Qed.

Lemma identify_transfers_out_fte_frame (current_df next_df op_fte_df : DataFrame)
    (file_date : string * string) :
  changes_only ["End Date"; "Role Status"; "Modified"] op_fte_df
    (identify_transfers_out_fte current_df next_df op_fte_df file_date).
Proof.
  unfold identify_transfers_out_fte.
  frame_detector ["End Date"; "Role Status"; "Modified"] op_fte_df.
Qed.

Lemma identify_grade_changes_fte_frame (today : date)
    (current_df next_df op_fte_df : DataFrame) (file_date : string * string) :
  changes_only ["Job Grade"; "End Date"; "Role Status"; "Modified"] op_fte_df
    (identify_grade_changes_fte today current_df next_df op_fte_df file_date).
Proof.
  unfold identify_grade_changes_fte.
  frame_detector ["Job Grade"; "End Date"; "Role Status"; "Modified"] op_fte_df.
Qed.

Lemma indetify_conversions_within_fte_frame (today : date) (py_repr : cell -> string)
    (current_df next_df op_fte_df : DataFrame) (file_date : string * string) :
  changes_only ["Resource Type"; "End Date"; "Role Status"; "Modified"] op_fte_df
    (indetify_conversions_within_fte today py_repr current_df next_df op_fte_df file_date).
Proof.
  unfold indetify_conversions_within_fte.
  frame_detector ["Resource Type"; "End Date"; "Role Status"; "Modified"] op_fte_df.
Qed.

Lemma identify_conversions_cwr_to_fte_frame (today : date) (py_repr : cell -> string)
    (current_df next_df op_fte_df : DataFrame) (file_date : string * string) :
  changes_only [] op_fte_df
    (identify_conversions_cwr_to_fte today py_repr current_df next_df op_fte_df file_date).
Proof.
  unfold identify_conversions_cwr_to_fte.
  frame_detector (@nil string) op_fte_df.
Qed.

Lemma identify_conversions_fte_to_cwr_frame
    (current_df next_df op_fte_df : DataFrame) (file_date : string * string) :
  changes_only ["Resource Type"; "Employee ID"; "Job Grade"; "End Date"; "Role Status";
                "Modified"] op_fte_df
    (identify_conversions_fte_to_cwr current_df next_df op_fte_df file_date).
Proof.
  unfold identify_conversions_fte_to_cwr.
  frame_detector ["Resource Type"; "Employee ID"; "Job Grade"; "End Date"; "Role Status";
                  "Modified"] op_fte_df.
Qed.

Lemma identify_location_changes_fte_frame (today : date)
    (current_df next_df op_fte_df : DataFrame) (file_date : string * string) :
  changes_only [FTE_based_Country; "Planning Unit Country"; "End Date"; "Role Status";
                "Modified"] op_fte_df
    (identify_location_changes_fte today current_df next_df op_fte_df file_date).
Proof.
  unfold identify_location_changes_fte.
  frame_detector [FTE_based_Country; "Planning Unit Country"; "End Date"; "Role Status";
                  "Modified"] op_fte_df.
Qed.

Lemma identify_internal_mobility_fte_frame (today : date)
    (current_df next_df op_fte_df : DataFrame) (file_date : string * string) :
  changes_only ["Tech Area"; "End Date"; "Role Status"; "Modified"] op_fte_df
    (identify_internal_mobility_fte today current_df next_df op_fte_df file_date).
Proof.
  unfold identify_internal_mobility_fte. destruct file_date as [e s].
  destruct (relabel e) as [last_day|]; [| apply changes_only_refl].
  destruct (relabel s) as [first_day|]; [| apply changes_only_refl].
  cbv zeta.
  match goal with
  | |- context [for_rows ?l ?b ?st] =>
      assert (Hinv : Forall2 (same_outside ["Tech Area"; "End Date"; "Role Status"; "Modified"])
                       op_fte_df (fst (for_rows l b st)));
      [| destruct (for_rows l b st) as [op' ne'];
         exact (same_outside_add_new_entries _ op_fte_df (op', ne') Hinv)]
  end.
  unfold for_rows.
  apply (fold_left_invariant
           (fun st => Forall2 (same_outside ["Tech Area"; "End Date"; "Role Status"; "Modified"])
                        op_fte_df (fst st)));
    [apply same_outside_refl |].
  intros [op ne] m _ Hst. cbv beta iota.
  destruct (negb (is_empty _)); [| exact Hst].
  destruct (fold_left _ _ (false, 0%nat)) as [processed emp_index].
  destruct (negb processed); [| exact Hst].
  simpl in Hst |- *. frame_writes. exact Hst.
Qed.

Lemma identify_line_manager_changes_fte_frame (py_repr : cell -> string)
    (int_parses : string -> bool)
    (current_df next_df op_fte_df : DataFrame) (file_date : string * string) :
  match identify_line_manager_changes_fte py_repr int_parses current_df next_df
          op_fte_df file_date with
  | Ok out => changes_only ["Modified"; "Line Manager"] op_fte_df out
  | Raise => True
  end.
Proof.
  assert (H : match identify_line_manager_changes_fte py_repr int_parses current_df next_df
                      op_fte_df file_date with
              | Ok out => Forall2 (same_outside ["Modified"; "Line Manager"]) op_fte_df out
              | Raise => True
              end).
  { unfold identify_line_manager_changes_fte. cbv zeta.
    apply (fold_left_invariant
             (fun st => match st with
                        | Ok out => Forall2 (same_outside ["Modified"; "Line Manager"])
                                      op_fte_df out
                        | Raise => True
                        end)); [apply same_outside_refl |].
    intros [op|] m _ Hop; [| exact I].
    apply (fold_left_invariant
             (fun st => match st with
                        | Ok out => Forall2 (same_outside ["Modified"; "Line Manager"])
                                      op_fte_df out
                        | Raise => True
                        end)); [exact Hop |].
    intros [op1|] i _ Hop1; [| exact I].
    destruct (_ && _); [| exact I].
    frame_writes. exact Hop1. }
  destruct (identify_line_manager_changes_fte py_repr int_parses current_df next_df
              op_fte_df file_date) as [out|]; [| exact I].
  rewrite <- (app_nil_r out). apply same_outside_changes. exact H.
Qed.

(** X12.  The columns of an existing plan row that each detector may
    change; every other column of every row of the plan is returned as it
    was (the name, the LANID, the start date, the comments, the split in
    per cent, the tags [Fulfilled] and [Skip], ...).  The detector of
    conversions to FTE changes no existing row at all. *)
Theorem detectors_write_columns (today : date) (py_repr : cell -> string)
    (int_parses : string -> bool)
    (current_df next_df op_fte_df : DataFrame) (file_date : string * string) :
  changes_only ["End Date"; "Role Status"; "Modified"] op_fte_df
    (identify_exits_fte current_df next_df op_fte_df file_date)
  /\ changes_only ["Role Status"; "Modified"] op_fte_df
       (identify_new_joiners_fte today py_repr current_df next_df op_fte_df file_date)
  /\ changes_only ["Role Status"; "Modified"] op_fte_df
       (identify_transfers_in_fte today py_repr current_df next_df op_fte_df file_date)
  /\ changes_only ["End Date"; "Role Status"; "Modified"] op_fte_df
       (identify_transfers_out_fte current_df next_df op_fte_df file_date)
  /\ changes_only ["Job Grade"; "End Date"; "Role Status"; "Modified"] op_fte_df
       (identify_grade_changes_fte today current_df next_df op_fte_df file_date)
  /\ changes_only ["Tech Area"; "End Date"; "Role Status"; "Modified"] op_fte_df
       (identify_internal_mobility_fte today current_df next_df op_fte_df file_date)
  /\ changes_only ["Resource Type"; "End Date"; "Role Status"; "Modified"] op_fte_df
       (indetify_conversions_within_fte today py_repr current_df next_df op_fte_df file_date)
  /\ changes_only [] op_fte_df
       (identify_conversions_cwr_to_fte today py_repr current_df next_df op_fte_df file_date)
  /\ changes_only ["Resource Type"; "Employee ID"; "Job Grade"; "End Date"; "Role Status";
                   "Modified"] op_fte_df
       (identify_conversions_fte_to_cwr current_df next_df op_fte_df file_date)
  /\ match identify_line_manager_changes_fte py_repr int_parses current_df next_df
             op_fte_df file_date with
     | Ok out => changes_only ["Modified"; "Line Manager"] op_fte_df out
     | Raise => True
     end
  /\ changes_only [FTE_based_Country; "Planning Unit Country"; "End Date"; "Role Status";
                   "Modified"] op_fte_df
       (identify_location_changes_fte today current_df next_df op_fte_df file_date).
Proof.
  split; [apply identify_exits_fte_frame |].
  split; [apply identify_new_joiners_fte_frame |].
  split; [apply identify_transfers_in_fte_frame |].
  split; [apply identify_transfers_out_fte_frame |].
  split; [apply identify_grade_changes_fte_frame |].
  split; [apply identify_internal_mobility_fte_frame |].
  split; [apply indetify_conversions_within_fte_frame |].
  split; [apply identify_conversions_cwr_to_fte_frame |].
  split; [apply identify_conversions_fte_to_cwr_frame |].
  split; [apply identify_line_manager_changes_fte_frame |].
  apply identify_location_changes_fte_frame.
Qed.

(** ** The columns the fulfilled pass writes *)

(** One round of the loop over the employees of the plan keeps what the
    tagging of a group keeps. *)
Lemma fulfilled_step_inv (P : DataFrame -> Prop) (op : DataFrame) (skip several : bool)
    (sorted : list Series) (index : list nat) (columns_to_check : list string)
    (current_info next_info : DataFrame) :
  (forall df, P df -> P (loc_set index "Fulfilled" (Str "Yes") df)) ->
  P op ->
  P (if skip then op
     else
       let op_df :=
         if several
         then if non_overlapping sorted
              then loc_set index "Fulfilled" (Str "Yes") op
              else op
         else op in
       match current_info, next_info with
       | current_values :: _, next_values :: _ =>
           if values_equal columns_to_check current_values next_values
           then loc_set index "Fulfilled" (Str "Yes") op_df
           else op_df
       | _, _ => op_df
       end).
Proof.
  intros Hset Hop. destruct skip; [exact Hop |]. cbv zeta.
  assert (Hop' : P (if several
                    then if non_overlapping sorted
                         then loc_set index "Fulfilled" (Str "Yes") op
                         else op
                    else op)).
  { destruct several; [| exact Hop]. destruct (non_overlapping sorted); [| exact Hop].
    apply Hset. exact Hop. }
  destruct current_info as [|current_values ?]; [exact Hop' |].
  destruct next_info as [|next_values ?]; [exact Hop' |].
  destruct (values_equal columns_to_check current_values next_values); [| exact Hop'].
  apply Hset. exact Hop'.
Qed.

(** X13.  The fulfilled pass, for the FTE and for the MS sheet: it keeps
    the number of rows; in each row it replaces the start and the end date
    by what [pd.to_datetime] makes of them, sets [Fulfilled] to the empty
    string or to ['Yes'], whatever the column held before, and changes no
    other column. *)
Theorem fulfilled_pass_columns (to_datetime : cell -> option (date * Z))
    (skip_statuses : list cell) (columns_to_check : list string)
    (current_df next_df op_df : DataFrame) :
  let out := check_and_mark_fulfilled to_datetime skip_statuses columns_to_check
               current_df next_df op_df in
  length out = length op_df
  /\ forall (i : nat) (r0 : Series),
       op_df !! i = Some r0 ->
       exists r : Series,
         out !! i = Some r
         /\ r "Start Date" = coerce_datetime to_datetime (r0 "Start Date")
         /\ r "End Date" = coerce_datetime to_datetime (r0 "End Date")
         /\ (r "Fulfilled" = Str "" \/ r "Fulfilled" = Str "Yes")
         /\ forall col, col <> "Start Date" -> col <> "End Date" -> col <> "Fulfilled" ->
                        r col = r0 col.
Proof.
  set (R := fun r0 r : Series =>
              r "Start Date" = coerce_datetime to_datetime (r0 "Start Date")
              /\ r "End Date" = coerce_datetime to_datetime (r0 "End Date")
              /\ (r "Fulfilled" = Str "" \/ r "Fulfilled" = Str "Yes")
              /\ forall col, col <> "Start Date" -> col <> "End Date" -> col <> "Fulfilled" ->
                             r col = r0 col).
  assert (H : Forall2 R op_df
                (check_and_mark_fulfilled to_datetime skip_statuses columns_to_check
                   current_df next_df op_df)).
  { unfold check_and_mark_fulfilled. cbv zeta. apply fold_left_invariant.
    - unfold set_column. rewrite <- !list_fmap_compose.
      apply Forall2_fmap_r, Forall2_refl_on. intros r. unfold R, compose. simpl.
      repeat split; auto.
      intros col H1 H2 H3. rewrite !set_other by congruence. reflexivity.
    - intros op employee_id _ Hop.
      apply (fulfilled_step_inv (Forall2 R op_df)); [| exact Hop].
      intros df Hdf. unfold loc_set. apply fold_left_invariant; [exact Hdf |].
      intros a i _ Ha. unfold at_set. apply Forall2_alter_r; [exact Ha |].
      intros x y _ _ (H1 & H2 & H3 & H4). unfold R.
      rewrite !set_other by discriminate. rewrite set_same.
      repeat split; auto.
      intros col Hc1 Hc2 Hc3. rewrite set_other by congruence. apply H4; assumption. }
  cbv zeta. split.
  - symmetry. eapply Forall2_length. exact H.
  - intros i r0 Hr0. destruct (Forall2_lookup_l _ _ _ _ _ H Hr0) as (r & Hr & HR).
    exists r. split; [exact Hr | exact HR].
Qed.

(** ** The sanity pass, row by row *)

Lemma at_set_at_set (i : nat) (c1 c2 : string) (v1 v2 : cell) (df : DataFrame) :
  at_set i c2 v2 (at_set i c1 v1 df) = alter (fun r => set c2 v2 (set c1 v1 r)) i df.
Proof. unfold at_set. rewrite list_alter_alter_eq. reflexivity. Qed.

(** The loop over the roster columns writes to one row. *)
Lemma sanity_columns_alter (op_columns : list string) (index : nat)
    (row current_row : Series) (columns : list string) (df : DataFrame) :
  fold_left
    (fun op_fte_df column =>
       if mem_string column op_columns && negb (String.eqb column "Planning Unit Country")
       then
         let original_value := row column in
         let new_value := current_row column in
         if notna new_value && cell_neb original_value new_value
         then at_set index column new_value op_fte_df
         else op_fte_df
       else op_fte_df)
    columns df
  = alter (fun r =>
             fold_left
               (fun r column =>
                  if mem_string column op_columns
                     && negb (String.eqb column "Planning Unit Country")
                  then
                    if notna (current_row column) && cell_neb (row column) (current_row column)
                    then set column (current_row column) r
                    else r
                  else r)
               columns r) index df.
Proof.
  revert df. induction columns as [|column columns IH]; intros df; simpl.
  - symmetry. apply list_alter_id. reflexivity.
  - rewrite IH. cbv zeta.
    destruct (_ && _); [destruct (_ && _) |].
    + unfold at_set. rewrite list_alter_alter_eq. reflexivity.
    + reflexivity.
    + reflexivity.
Qed.

Lemma sanity_body_alter (roster_columns op_columns : list string)
    (current_df next_df : DataFrame) (df : DataFrame) (index : nat) (row : Series) :
  (let employee_id := row "Employee ID" in
   let skip_status := row "Skip" in
   if cell_eqb skip_status (Str "Past")
   then
     let op_fte_df := at_set index "Tech Area" (format_tech_area (row "Tech Area")) df in
     at_set index "Domain" (format_domain (row "Domain")) op_fte_df
   else if isna employee_id
           || negb (existsb (fun v => cell_eqb v employee_id) (employee_ids next_df))
   then df
   else
     match List.filter (fun r => cell_eqb (r "Employee ID") employee_id) next_df with
     | [] => df
     | next_row :: _ =>
         let source :=
           if cell_neb (next_row "Domain") (Str "Security")
           then match List.filter (fun r => cell_eqb (r "Employee ID") employee_id) current_df with
                | [] => None
                | current_row :: _ =>
                    if cell_neb (current_row "Domain") (Str "Security")
                    then None else Some current_row
                end
           else Some next_row in
         match source with
         | None => df
         | Some current_row =>
             let op_fte_df :=
               fold_left
                 (fun op_fte_df column =>
                    if mem_string column op_columns
                       && negb (String.eqb column "Planning Unit Country")
                    then
                      let original_value := row column in
                      let new_value := current_row column in
                      if notna new_value && cell_neb original_value new_value
                      then at_set index column new_value op_fte_df
                      else op_fte_df
                    else op_fte_df)
                 roster_columns df in
             let op_fte_df := at_set index "Tech Area"
                                (format_tech_area (next_row "Tech Area")) op_fte_df in
             at_set index "Domain" (format_domain (next_row "Domain")) op_fte_df
         end
     end)
  = alter (sanity_row roster_columns op_columns current_df next_df row) index df.
Proof.
  assert (Hid : forall (f : Series -> Series), (forall r, f r = r) -> df = alter f index df).
  { intros f Hf. symmetry. apply list_alter_id. exact Hf. }
  unfold sanity_row. cbv zeta.
  destruct (cell_eqb (row "Skip") (Str "Past")); [apply at_set_at_set |].
  destruct (_ || _); [apply Hid; reflexivity |].
  destruct (List.filter _ next_df) as [|next_row ?]; [apply Hid; reflexivity |].
  destruct (cell_neb (next_row "Domain") (Str "Security")).
  - destruct (List.filter _ current_df) as [|current_row ?]; [apply Hid; reflexivity |].
    destruct (cell_neb (current_row "Domain") (Str "Security")); [apply Hid; reflexivity |].
    rewrite sanity_columns_alter. unfold at_set. rewrite !list_alter_alter_eq. reflexivity.
  - rewrite sanity_columns_alter. unfold at_set. rewrite !list_alter_alter_eq. reflexivity.
Qed.

Lemma sanity_checks_fte_alter (op_columns : list string)
    (current_df next_df op_fte_df : DataFrame) :
  sanity_checks_fte op_columns current_df next_df op_fte_df
  = fold_left
      (fun d '(i, row) =>
         alter (sanity_row static_columns op_columns current_df next_df row) i d)
      (iterrows op_fte_df) op_fte_df.
Proof.
  unfold sanity_checks_fte. apply fold_left_ext.
  intros df [index row]. apply sanity_body_alter.
Qed.

Lemma sanity_checks_ms_alter (op_columns : list string)
    (current_df next_df op_ms_df : DataFrame) :
  sanity_checks_ms op_columns current_df next_df op_ms_df
  = fold_left
      (fun d '(i, row) =>
         alter (sanity_row static_columns_ms op_columns current_df next_df row) i d)
      (iterrows op_ms_df) op_ms_df.
Proof.
  unfold sanity_checks_ms. apply fold_left_ext.
  intros df [index row]. apply sanity_body_alter.
Qed.

Lemma mem_string_In (c : string) (l : list string) : In c l -> mem_string c l = true.
Proof.
  intros H. unfold mem_string. apply existsb_exists. exists c.
  split; [exact H | apply String.eqb_refl].
Qed.

(** The loop over the roster columns, on one row: a column it does not
    select is left as it is. *)
Lemma sanity_columns_frame (select change : string -> bool) (value : string -> cell)
    (columns : list string) (r : Series) (col : string) :
  (forall c, In c columns -> select c = true -> c <> col) ->
  fold_left (fun r column =>
               if select column
               then if change column then set column (value column) r else r
               else r) columns r col
  = r col.
Proof.
  revert r. induction columns as [|c columns IH]; intros r H; simpl; [reflexivity |].
  rewrite IH by (intros c' Hc'; apply H; right; exact Hc').
  destruct (select c) eqn:Hs; [| reflexivity].
  destruct (change c); [| reflexivity].
  apply set_other. apply H; [left; reflexivity | exact Hs].
Qed.

(** One round of the sanity pass on the row it was given. *)
Lemma sanity_row_facts (roster_columns op_columns : list string)
    (current_df next_df : DataFrame) (r0 : Series) :
  let r := sanity_row roster_columns op_columns current_df next_df r0 r0 in
  (forall col,
      col <> "Tech Area" -> col <> "Domain" ->
      mem_string col roster_columns && mem_string col op_columns
      && negb (String.eqb col "Planning Unit Country") = false ->
      r col = r0 col)
  /\ (r0 "Skip" = Str "Past" ->
      r "Tech Area" = format_tech_area (r0 "Tech Area")
      /\ r "Domain" = format_domain (r0 "Domain")
      /\ forall col, col <> "Tech Area" -> col <> "Domain" -> r col = r0 col)
  /\ (r0 "Skip" <> Str "Past" ->
      r0 "Employee ID" = NaN
      \/ (forall x, In x next_df ->
                    cell_eqb (x "Employee ID") (r0 "Employee ID") = false) ->
      forall col, r col = r0 col).
Proof.
  cbv zeta. split; [| split].
  - intros col H1 H2 Hc.
    assert (Hc' : In col roster_columns ->
                  mem_string col op_columns
                  && negb (String.eqb col "Planning Unit Country") = false).
    { intros Hin. rewrite (mem_string_In _ _ Hin) in Hc. exact Hc. }
    clear Hc. unfold sanity_row. cbv zeta.
    destruct (cell_eqb (r0 "Skip") (Str "Past")).
    { rewrite !set_other by congruence. reflexivity. }
    destruct (isna _ || _); [reflexivity |].
    destruct (List.filter _ next_df) as [|next_row ?]; [reflexivity |].
    assert (Hframe : forall current_row : Series,
               fold_left
                 (fun r column =>
                    if mem_string column op_columns
                       && negb (String.eqb column "Planning Unit Country")
                    then
                      if notna (current_row column)
                         && cell_neb (r0 column) (current_row column)
                      then set column (current_row column) r
                      else r
                    else r) roster_columns r0 col = r0 col).
    { intros current_row.
      apply (sanity_columns_frame
               (fun column => mem_string column op_columns
                              && negb (String.eqb column "Planning Unit Country"))
               (fun column => notna (current_row column)
                              && cell_neb (r0 column) (current_row column))
               current_row).
      intros c Hin Hsel ->. rewrite (Hc' Hin) in Hsel. discriminate. }
    destruct (cell_neb (next_row "Domain") (Str "Security")).
    + destruct (List.filter _ current_df) as [|current_row ?]; [reflexivity |].
      destruct (cell_neb (current_row "Domain") (Str "Security")); [reflexivity |].
      rewrite !set_other by congruence. apply Hframe.
    + rewrite !set_other by congruence. apply Hframe.
  - intros Hpast. unfold sanity_row. cbv zeta.
    replace (cell_eqb (r0 "Skip") (Str "Past")) with true
      by (symmetry; apply cell_eqb_Str; exact Hpast).
    split; [rewrite set_other by discriminate; apply set_same |].
    split; [apply set_same |].
    intros col H1 H2. rewrite !set_other by congruence. reflexivity.
  - intros Hpast Hno col. unfold sanity_row. cbv zeta.
    replace (cell_eqb (r0 "Skip") (Str "Past")) with false
      by (symmetry; apply not_true_iff_false; intros H; apply cell_eqb_Str in H; contradiction).
    destruct Hno as [Hna | Hno].
    + rewrite Hna. reflexivity.
    + replace (existsb (fun v => cell_eqb v (r0 "Employee ID")) (employee_ids next_df))
        with false; [rewrite orb_true_r; reflexivity |].
      symmetry. apply not_true_iff_false. intros H.
      apply existsb_exists in H as (v & Hv & He).
      unfold employee_ids in Hv.
      apply list_elem_of_In, list_elem_of_fmap in Hv as (x & -> & Hx).
      apply list_elem_of_In in Hx. rewrite (Hno x Hx) in He. discriminate.
Qed.

(** X14.  The sanity pass, row by row, for the FTE and for the MS
    sheet.  It keeps the number of rows, and the row it returns at a label
    depends on the row it was given there and on the rosters alone.  It
    changes the tech area, the domain and the roster columns that the plan
    has (the roster columns are those of the sheet: the MS rosters keep the
    report's names for the pay grade and the FTE figure), never
    [Planning Unit Country] nor a column that is not a roster column
    (status, dates, tags).  In a row tagged ['Past'] it only formats the
    tech area and the domain of the row itself; a row that is not past and
    has no employee id, or an id that the next roster does not hold, is
    returned untouched. *)
Theorem sanity_pass_rows (ms_sheet : bool) (op_columns : list string)
    (current_df next_df op_df : DataFrame) :
  let out := (if ms_sheet then sanity_checks_ms else sanity_checks_fte)
               op_columns current_df next_df op_df in
  let roster_columns := if ms_sheet then static_columns_ms else static_columns in
  length out = length op_df
  /\ forall (i : nat) (r0 : Series),
       op_df !! i = Some r0 ->
       exists r : Series,
         out !! i = Some r
         /\ (forall col,
                col <> "Tech Area" -> col <> "Domain" ->
                mem_string col roster_columns && mem_string col op_columns
                && negb (String.eqb col "Planning Unit Country") = false ->
                r col = r0 col)
         /\ (r0 "Skip" = Str "Past" ->
             r "Tech Area" = format_tech_area (r0 "Tech Area")
             /\ r "Domain" = format_domain (r0 "Domain")
             /\ forall col, col <> "Tech Area" -> col <> "Domain" -> r col = r0 col)
         /\ (r0 "Skip" <> Str "Past" ->
             r0 "Employee ID" = NaN
             \/ (forall x, In x next_df ->
                           cell_eqb (x "Employee ID") (r0 "Employee ID") = false) ->
             forall col, r col = r0 col).
Proof.
  cbv zeta.
  assert (Hp : (if ms_sheet then sanity_checks_ms else sanity_checks_fte) op_columns
                 current_df next_df op_df
               = fold_left
                   (fun d '(i, row) =>
                      alter (sanity_row (if ms_sheet then static_columns_ms else static_columns)
                               op_columns current_df next_df row) i d)
                   (iterrows op_df) op_df).
  { destruct ms_sheet; [apply sanity_checks_ms_alter | apply sanity_checks_fte_alter]. }
  rewrite Hp. clear Hp. split.
  - apply fold_rows_length.
  - intros i r0 Hr0. rewrite fold_iterrows_lookup, Hr0.
    exists (sanity_row (if ms_sheet then static_columns_ms else static_columns)
              op_columns current_df next_df r0 r0).
    split; [reflexivity |].
    apply (sanity_row_facts (if ms_sheet then static_columns_ms else static_columns)).
Qed.

(** ** The skip pass, run again *)

(** The loop of the skip pass, from the frame once the column has been
    reset. *)
Lemma skip_loop_lookup (static_report_date : date) (op_df : DataFrame) (i : nat) :
  fold_left
    (fun op_df '(index, row) =>
       match parse_end_date (row "End Date") with
       | None => op_df
       | Some end_date =>
           if date_ltb end_date static_report_date
           then at_set index "Skip" (Str "Past") op_df
           else op_df
       end)
    (iterrows (set_column "Skip" (Str "") op_df)) (set_column "Skip" (Str "") op_df) !! i
  = (fun r0 => skip_tag static_report_date r0 (set "Skip" (Str "") r0)) <$> op_df !! i.
Proof.
  rewrite (fold_left_ext _ (fun d '(i, row) => alter (skip_tag static_report_date row) i d)).
  - rewrite fold_iterrows_lookup. unfold set_column. rewrite list_lookup_fmap.
    destruct (op_df !! i) as [r0|]; [| reflexivity]. simpl. f_equal.
  - intros d b. rewrite (skip_body_alter static_report_date d b). destruct b. reflexivity.
Qed.

Lemma skip_loop_length (static_report_date : date) (op_df : DataFrame) :
  length (fold_left
            (fun op_df '(index, row) =>
               match parse_end_date (row "End Date") with
               | None => op_df
               | Some end_date =>
                   if date_ltb end_date static_report_date
                   then at_set index "Skip" (Str "Past") op_df
                   else op_df
               end)
            (iterrows (set_column "Skip" (Str "") op_df)) (set_column "Skip" (Str "") op_df))
  = length op_df.
Proof.
  rewrite (fold_left_ext _ (fun d '(i, row) => alter (skip_tag static_report_date row) i d)).
  - rewrite fold_rows_length. unfold set_column. apply length_fmap.
  - intros d b. rewrite (skip_body_alter static_report_date d b). destruct b. reflexivity.
Qed.

(** X15.  The skip pass is idempotent: run on the frame it has
    returned, for the same file name, it returns the same rows.  The tag of
    a row is computed from its end date alone, and the pass resets the
    column before it tags. *)
Theorem skip_pass_idempotent (static_file : string) (op_df out : DataFrame) :
  initiate_skip_column static_file op_df = Ok out ->
  exists out',
    initiate_skip_column static_file out = Ok out'
    /\ length out' = length out
    /\ forall (i : nat) (r : Series),
         out !! i = Some r ->
         exists r', out' !! i = Some r' /\ forall col, r' col = r col.
Proof.
  unfold initiate_skip_column.
  destruct (extract_date_from_filename static_file) as [[[e s]|]|]; try discriminate.
  destruct (strptime_b_y s) as [d|]; [| discriminate].
  intros [= <-]. eexists. split; [reflexivity |]. split.
  - rewrite !skip_loop_length. reflexivity.
  - intros i r Hr. rewrite skip_loop_lookup in Hr |- *. rewrite skip_loop_lookup.
    destruct (op_df !! i) as [r0|]; [| discriminate]. simpl in Hr |- *.
    injection Hr as <-. eexists. split; [reflexivity |].
    intros col. unfold skip_tag.
    replace (set "Skip" (Str "")
               (if end_date_is_past d (r0 "End Date")
                then set "Skip" (Str "Past") (set "Skip" (Str "") r0)
                else set "Skip" (Str "") r0) "End Date")
      with (r0 "End Date")
      by (destruct (end_date_is_past d (r0 "End Date")); reflexivity).
    replace ((if end_date_is_past d (r0 "End Date")
              then set "Skip" (Str "Past") (set "Skip" (Str "") r0)
              else set "Skip" (Str "") r0) "End Date")
      with (r0 "End Date")
      by (destruct (end_date_is_past d (r0 "End Date")); reflexivity).
    destruct (end_date_is_past d (r0 "End Date")); unfold set;
      destruct (String.eqb "Skip" col); reflexivity.
Qed.

(** The plan of the fixture, tagged once and then again. *)
Lemma skip_pass_idempotent_witness :
  exists out out',
    initiate_skip_column Fixture.static_file Fixture.fte_plan = Ok out
    /\ initiate_skip_column Fixture.static_file out = Ok out'
    /\ length out' = length out.
Proof.
  destruct (initiate_skip_column Fixture.static_file Fixture.fte_plan) as [out|] eqn:H;
    [| vm_compute in H; discriminate].
  destruct (skip_pass_idempotent Fixture.static_file Fixture.fte_plan out H)
    as (out' & H1 & H2 & _).
  exists out, out'. repeat split; assumption.
Defined.

(** ** The whole run keeps the rows of the plan *)

Lemma run_scenarios_fte_kept (today : date) (py_repr : cell -> string)
    (int_parses : string -> bool)
    (current_df next_df op_fte_df out : DataFrame) (file_date : string * string) :
  run_scenarios (scenario_functions_fte today py_repr int_parses)
    current_df next_df file_date op_fte_df = Ok out ->
  extends False NaN op_fte_df out.
Proof.
  cbv beta iota zeta delta [run_scenarios scenario_functions_fte fold_left].
  assert (Hom : forall df, False -> only_missing NaN df) by (intros df []).
  assert (Hs : False -> steady NaN current_df next_df) by (intros []).
  pose proof (extends_refl False NaN op_fte_df) as G0.
  pose proof (extends_trans _ _ _ _ _ G0
                (identify_exits_fte_extends False NaN current_df next_df _ file_date)) as G1.
  pose proof (extends_trans _ _ _ _ _ G1
                (identify_new_joiners_fte_extends False NaN today py_repr
                   current_df next_df _ file_date Hs)) as G2.
  pose proof (extends_trans _ _ _ _ _ G2
                (identify_transfers_in_fte_extends False NaN today py_repr
                   current_df next_df _ file_date Hs)) as G3.
  pose proof (extends_trans _ _ _ _ _ G3
                (identify_transfers_out_fte_extends False NaN
                   current_df next_df _ file_date)) as G4.
  pose proof (extends_trans _ _ _ _ _ G4
                (identify_grade_changes_fte_extends False NaN today
                   current_df next_df _ file_date (Hom _))) as G5.
  pose proof (extends_trans _ _ _ _ _ G5
                (identify_internal_mobility_fte_extends False NaN today
                   current_df next_df _ file_date (Hom _))) as G6.
  pose proof (extends_trans _ _ _ _ _ G6
                (indetify_conversions_within_fte_extends False NaN today py_repr
                   current_df next_df _ file_date (Hom _) Hs)) as G7.
  pose proof (extends_trans _ _ _ _ _ G7
                (identify_conversions_cwr_to_fte_extends False NaN today py_repr
                   current_df next_df _ file_date Hs)) as G8.
  pose proof (extends_trans _ _ _ _ _ G8
                (identify_conversions_fte_to_cwr_extends False NaN
                   current_df next_df _ file_date)) as G9.
  match type of G9 with
  | extends _ _ _ ?op9 =>
      pose proof (identify_line_manager_changes_fte_kept py_repr int_parses
                    current_df next_df op9 file_date) as K10;
      destruct (identify_line_manager_changes_fte py_repr int_parses
                  current_df next_df op9 file_date) as [op10|]; [| discriminate]
  end.
  intros [= <-].
  pose proof (extends_trans _ _ _ _ _ G9 (kept_extends False NaN _ op10 K10)) as G10.
  exact (extends_trans _ _ _ _ _ G10
           (identify_location_changes_fte_extends False NaN today
              current_df next_df _ file_date (Hom _))).
Qed.

(** X16.  The whole reconciliation of the FTE sheet deletes no row:
    whenever [process_fte] returns a plan, the plan starts with as many rows
    as the plan it was given, the row at each label still a row of the same
    employee, followed by the rows the passes have appended. *)
Theorem process_fte_keeps_rows (today : date) (py_repr : cell -> string)
    (int_parses : string -> bool) (to_datetime : cell -> option (date * Z))
    (static_file : string) (op_columns : list string)
    (current_df next_df op_fte_df out : DataFrame) :
  process_fte today py_repr int_parses to_datetime static_file op_columns
    current_df next_df op_fte_df = Ok out ->
  rows_kept op_fte_df out /\ (length op_fte_df <= length out)%nat.
Proof.
  intros H.
  assert (Hext : extends False NaN op_fte_df out).
  { unfold process_fte in H.
    assert (G1 : extends False NaN op_fte_df
                   (identify_missing_employees_fte py_repr current_df next_df op_fte_df)).
    { unfold identify_missing_employees_fte. cbv zeta. rewrite add_new_entries_fte_app.
      eexists _, _. split; [reflexivity |].
      split; [apply Forall2_refl_on, kept_row_refl | intros []]. }
    pose proof (check_and_mark_fulfilled_kept to_datetime skip_statuses_fte
                  columns_to_check_fte current_df next_df
                  (identify_missing_employees_fte py_repr current_df next_df op_fte_df))
      as K2.
    change (check_and_mark_fulfilled to_datetime skip_statuses_fte columns_to_check_fte)
      with (check_and_mark_fulfilled_fte to_datetime) in K2.
    destruct (initiate_skip_column_fte static_file _) as [op3|] eqn:H3; [| discriminate].
    apply initiate_skip_column_Ok in H3.
    destruct (extract_date_from_filename static_file) as [[file_date|]|]; try discriminate.
    pose proof (sanity_checks_fte_kept op_columns current_df next_df op3) as K4.
    pose proof (merge_data_fte_kept (sanity_checks_fte op_columns current_df next_df op3))
      as K5.
    apply run_scenarios_fte_kept in H.
    eapply extends_trans; [exact G1 |].
    eapply extends_trans; [| exact H].
    apply kept_extends.
    exact (Forall2_kept_trans _ _ _ K2 (Forall2_kept_trans _ _ _ H3
             (Forall2_kept_trans _ _ _ K4 K5))). }
  split; [exact (extends_rows_kept _ _ _ _ Hext) |].
  destruct Hext as (kept & appended & -> & Hk & _).
  rewrite length_app, <- (Forall2_length _ _ _ Hk). lia.
Qed.

(** The plan of the fixture, through the whole run. *)
Lemma process_fte_keeps_rows_witness :
  exists out,
    process_fte Fixture.today Fixture.py_repr Fixture.int_parses Fixture.to_datetime
      Fixture.static_file OP_FTE_COLUMNS [Fixture.e1001_current] [Fixture.e1001_next]
      Fixture.fte_plan = Ok out
    /\ rows_kept Fixture.fte_plan out.
Proof.
  destruct (process_fte Fixture.today Fixture.py_repr Fixture.int_parses Fixture.to_datetime
              Fixture.static_file OP_FTE_COLUMNS [Fixture.e1001_current] [Fixture.e1001_next]
              Fixture.fte_plan) as [out|] eqn:H; [| vm_compute in H; discriminate].
  exists out. split; [reflexivity |].
  exact (proj1 (process_fte_keeps_rows _ _ _ _ _ _ _ _ _ _ H)).
Defined.

(** ** The MS run *)

Lemma identify_location_changes_ms_outcome (today : date)
    (current_df next_df op_ms_df : DataFrame) (file_date : string * string) :
  identify_location_changes_ms today current_df next_df op_ms_df file_date
  = match relabel (fst file_date), relabel (snd file_date) with
    | Some _, Some _ => Raise
    | _, _ => Ok op_ms_df
    end.
Proof.
  destruct file_date as [e s]. unfold identify_location_changes_ms. simpl fst. simpl snd.
  destruct (relabel e); [| reflexivity].
  destruct (relabel s); reflexivity.
Qed.

Lemma run_scenarios_app
    (fs gs : list (DataFrame -> DataFrame -> DataFrame -> string * string -> result DataFrame))
    (current_df next_df : DataFrame) (file_date : string * string) (op_df : DataFrame) :
  run_scenarios (fs ++ gs) current_df next_df file_date op_df
  = match run_scenarios fs current_df next_df file_date op_df with
    | Ok op_df => run_scenarios gs current_df next_df file_date op_df
    | Raise => Raise
    end.
Proof.
  unfold run_scenarios. rewrite fold_left_app.
  destruct (fold_left _ fs (Ok op_df)) as [op'|]; [reflexivity |].
  induction gs as [|g gs IH]; [reflexivity | exact IH].
Qed.

(** X17.  The MS detector of location changes never reports one.  The
    rosters of the MS sheet hold the country in [Planning Unit Country],
    and the detector selects the columns [P Unit Country_current] and
    [P Unit Country_next] of the merged frame: with two period labels that
    parse it raises before it reads a row, whatever the rosters and the
    plan hold, and with a label that does not parse it returns the plan it
    was given.  The detector is the last of the scenario functions and the
    labels taken from a file name always parse, so no run of [process_ms]
    reaches [save_data]. *)
Theorem ms_location_detector_ends_the_run (today : date) (py_repr : cell -> string)
    (int_parses : string -> bool) (to_datetime : cell -> option (date * Z))
    (global_staff_df current_df next_df op_ms_df : DataFrame) :
  (forall file_date : string * string,
      identify_location_changes_ms today current_df next_df op_ms_df file_date
      = match relabel (fst file_date), relabel (snd file_date) with
        | Some _, Some _ => Raise
        | _, _ => Ok op_ms_df
        end)
  /\ (forall (static_file : string) (op_columns : list string),
         process_ms today py_repr int_parses to_datetime global_staff_df
           static_file op_columns current_df next_df op_ms_df = Raise).
Proof.
  split; [apply identify_location_changes_ms_outcome |].
  intros static_file op_columns. unfold process_ms.
  destruct (initiate_skip_column_ms static_file op_ms_df) as [op1|]; [| reflexivity].
  cbv zeta.
  destruct (extract_date_from_filename static_file) as [[file_date|]|] eqn:Hx;
    [| reflexivity | reflexivity].
  apply relabel_extract in Hx as [He Hs].
  change (scenario_functions_ms today py_repr int_parses global_staff_df)
    with ([ (fun c n op fd => Ok (identify_exits_ms c n op fd));
            identify_new_joiners_ms today py_repr global_staff_df;
            identify_transfers_in_ms today py_repr global_staff_df;
            (fun c n op fd => Ok (identify_transfers_out_ms c n op fd));
            identify_conversions_fte_to_cwr_ms today py_repr global_staff_df;
            (fun c n op fd => Ok (identify_conversions_cwr_to_fte_ms py_repr c n op fd));
            (fun c n op fd => Ok (identify_internal_mobility_ms today global_staff_df c n op fd));
            identify_line_manager_changes_ms py_repr int_parses ]
          ++ [identify_location_changes_ms today]).
  rewrite run_scenarios_app.
  destruct (run_scenarios _ current_df next_df file_date _) as [op8|]; [| reflexivity].
  unfold run_scenarios. simpl fold_left.
  rewrite identify_location_changes_ms_outcome, He, Hs. reflexivity.
Qed.
(** ** The MS detectors that build new rows *)

Lemma build_entry_ms_no_name (py_repr : cell -> string) (labels : string -> bool)
    (row new_entry : Series) (suffix : string) (with_id : bool)
    (start_date end_date role_status : cell) :
  labels "Legal First Name" = false ->
  build_entry_ms py_repr labels row new_entry suffix with_id start_date end_date role_status
  = Raise.
Proof.
  intros H. unfold build_entry_ms, getitem. cbv zeta. rewrite H. reflexivity.
Qed.

Lemma build_entry_ms_no_country (py_repr : cell -> string) (labels : string -> bool)
    (row new_entry : Series) (suffix : string) (with_id : bool)
    (start_date end_date role_status : cell) :
  labels ("P Unit Country" ++ suffix)%string = false ->
  build_entry_ms py_repr labels row new_entry suffix with_id start_date end_date role_status
  = Raise.
Proof.
  intros H. unfold build_entry_ms, getitem. cbv zeta. rewrite H.
  repeat match goal with
         | |- bind (if ?c then _ else _) _ = _ => destruct c; [cbn [bind] | reflexivity]
         end.
  destruct with_id.
  - repeat match goal with
           | |- bind (if ?c then _ else _) _ = _ => destruct c; [cbn [bind] | reflexivity]
           | |- bind (bind (if ?c then _ else _) _) _ = _ =>
               destruct c; [cbn [bind] | reflexivity]
           end.
    reflexivity.
  - cbn [bind].
    repeat match goal with
           | |- bind (if ?c then _ else _) _ = _ => destruct c; [cbn [bind] | reflexivity]
           end.
    reflexivity.
Qed.

Lemma for_rows_result_raise {R : Type} (selected : list R)
    (body : R -> loop_state -> result loop_state) :
  fold_left (fun st row => bind st (body row)) selected Raise = Raise.
Proof. induction selected as [|row selected IH]; [reflexivity | exact IH]. Qed.

(** A loop over selected employees that writes to the rows the strict
    policy returns and raises for an employee without such a row. *)
Lemma guarded_rows_loop (P : DataFrame -> Prop) (op0 : DataFrame) (selected : list Series)
    (body : Series -> loop_state -> result loop_state)
    (inner : Series -> nat -> loop_state -> loop_state) :
  P op0 ->
  (forall op id, P op ->
     employee_filtering_condition_ms op id = employee_filtering_condition_ms op0 id) ->
  (forall row i op ne,
     P op -> In i (employee_filtering_condition_ms op0 (row "Employee ID")) ->
     P (fst (inner row i (op, ne))) /\ snd (inner row i (op, ne)) = ne) ->
  (forall row op ne,
     body row (op, ne)
     = if negb (is_empty (employee_filtering_condition_ms op (row "Employee ID")))
       then Ok (for_indices (employee_filtering_condition_ms op (row "Employee ID"))
                  (inner row) (op, ne))
       else Raise) ->
  match for_rows_result selected body (op0, []) with
  | Ok st =>
      P (fst st) /\ snd st = []
      /\ forall row, In row selected ->
                     employee_filtering_condition_ms op0 (row "Employee ID") <> []
  | Raise =>
      exists row, In row selected
                  /\ employee_filtering_condition_ms op0 (row "Employee ID") = []
  end.
Proof.
  intros HP0 Hidx Hinner Hbody. unfold for_rows_result.
  assert (G : forall st : loop_state,
             P (fst st) -> snd st = [] ->
             match fold_left (fun st row => bind st (body row)) selected (Ok st) with
             | Ok st' =>
                 P (fst st') /\ snd st' = []
                 /\ forall row, In row selected ->
                                employee_filtering_condition_ms op0 (row "Employee ID") <> []
             | Raise =>
                 exists row, In row selected
                             /\ employee_filtering_condition_ms op0 (row "Employee ID") = []
             end).
  { induction selected as [|row selected IH]; intros [op ne] HP Hne; simpl in HP, Hne.
    - simpl. split; [exact HP | split; [exact Hne | intros row []]].
    - simpl fold_left. cbn [bind]. rewrite Hbody, (Hidx op _ HP).
      destruct (employee_filtering_condition_ms op0 (row "Employee ID")) as [|i idxs] eqn:He.
      + simpl negb. cbv iota. rewrite for_rows_result_raise.
        exists row. split; [left; reflexivity | exact He].
      + simpl negb. cbv iota.
        assert (Hin : P (fst (for_indices (i :: idxs) (inner row) (op, ne)))
                      /\ snd (for_indices (i :: idxs) (inner row) (op, ne)) = ne).
        { unfold for_indices.
          apply (fold_left_invariant (fun st => P (fst st) /\ snd st = ne)).
          - split; [exact HP | reflexivity].
          - intros [op' ne'] j Hj [HP' Hne']. simpl in HP', Hne'. subst ne'.
            apply Hinner; [exact HP' | rewrite He; exact Hj]. }
        destruct Hin as [HP1 Hne1].
        specialize (IH (for_indices (i :: idxs) (inner row) (op, ne)) HP1
                      (eq_trans Hne1 Hne)).
        destruct (fold_left _ selected _) as [st'|].
        * destruct IH as (H1 & H2 & H3). split; [exact H1 | split; [exact H2 |]].
          intros row' [<- | Hr]; [rewrite He; discriminate | apply H3; exact Hr].
        * destruct IH as (row' & Hr & He'). exists row'. split; [right; exact Hr | exact He']. }
  apply G; [exact HP0 | reflexivity].
Qed.

Lemma same_for_strict_ms_refl (cols : list string) (op : DataFrame) :
  Forall2 (same_for_strict_ms cols) op op.
Proof. apply Forall2_refl_on. intros r. split; [intros col _; reflexivity | reflexivity]. Qed.

Lemma same_for_strict_ms_index (cols : list string) (op0 op : DataFrame) (id : cell) :
  Forall2 (same_for_strict_ms cols) op0 op ->
  employee_filtering_condition_ms op id = employee_filtering_condition_ms op0 id.
Proof.
  intros H. unfold employee_filtering_condition_ms, index_where.
  apply index_from_Forall2. eapply Forall2_impl; [exact H |].
  intros r0 r [_ Hr]. apply Hr.
Qed.

(** The writes of a detector that tags the rows it matched. *)
Lemma same_for_strict_ms_tag (op0 op : DataFrame) (id : cell) (i : nat) (status : string) :
  status <> "Missing from Op MS" ->
  Forall2 (same_for_strict_ms ["Role Status"; "Modified"]) op0 op ->
  In i (employee_filtering_condition_ms op0 id) ->
  Forall2 (same_for_strict_ms ["Role Status"; "Modified"]) op0
    (at_set i "Modified" (Boolean true) (at_set i "Role Status" (Str status) op)).
Proof.
  intros Hs H Hi.
  apply index_where_spec in Hi as (r0 & Hr0 & Hm).
  unfold at_set. rewrite list_alter_alter_eq.
  apply Forall2_alter_r; [exact H |].
  intros x y Hx _ [Hxy Hmask]. rewrite Hr0 in Hx. injection Hx as <-.
  split.
  - intros col Hc. unfold compose. rewrite !set_other; [apply Hxy; exact Hc | |].
    + intros <-. discriminate.
    + intros <-. discriminate.
  - intros id'. rewrite <- Hmask.
    specialize (Hmask id). rewrite Hm in Hmask.
    unfold employee_filtering_condition_ms_mask in *. unfold compose.
    rewrite !(set_other "Modified") by discriminate.
    rewrite !(set_other "Role Status" "Employee ID"), !(set_other "Role Status" "LANID"),
      !(set_other "Role Status" "Fulfilled"), !(set_other "Role Status" "Skip") by discriminate.
    rewrite set_same.
    rewrite !andb_true_iff in Hmask. destruct Hmask as [[_ Hrs] _].
    rewrite Hrs.
    assert (Hn : cell_neb (Str status) (Str "Missing from Op MS") = true).
    { apply cell_neb_Str. congruence. }
    rewrite Hn. reflexivity.
Qed.

Lemma same_for_strict_ms_changes (cols : list string) (op0 op : DataFrame) :
  Forall2 (same_for_strict_ms cols) op0 op ->
  length op = length op0 /\ changes_only cols op0 op.
Proof.
  intros H. split; [symmetry; exact (Forall2_length _ _ _ H) |].
  rewrite <- (app_nil_r op). apply same_outside_changes.
  eapply Forall2_impl; [exact H |]. intros r0 r [Hr _]. exact Hr.
Qed.

(** The loop of a detector that tags matched rows with [status] and
    builds a row that cannot be built for the others. *)
Ltac tagging_loop op0 status build_raises :=
  match goal with
  | |- context [for_rows_result ?l ?b ?st] =>
      let G := fresh "G" in
      unshelve
        (epose proof (guarded_rows_loop
                        (fun op => Forall2 (same_for_strict_ms ["Role Status"; "Modified"]) op0 op)
                        op0 l b
                        (fun row i '(op, ne) =>
                           (at_set i "Modified" (Boolean true)
                              (at_set i "Role Status" (Str status) op), ne))
                        (same_for_strict_ms_refl _ _) _ _ _) as G);
      [ intros op' id' H; apply (same_for_strict_ms_index _ _ _ _ H)
      | intros row i op' ne' H Hi; split; [| reflexivity];
        apply (same_for_strict_ms_tag _ _ (row "Employee ID"));
        [discriminate | exact H | exact Hi]
      | intros row op' ne'; cbv beta iota zeta;
        destruct (negb (is_empty _)); [reflexivity |];
        rewrite build_raises by reflexivity; reflexivity
      | destruct (for_rows_result l b st) as [[op ne]|]; cbn [bind];
        [ destruct G as (HP & Hne & Hall); simpl in HP, Hne; subst ne;
          split; [exact Hall | apply same_for_strict_ms_changes; exact HP]
        | exact G ] ]
  end.

Lemma identify_new_joiners_ms_outcome (today : date) (py_repr : cell -> string)
    (global_staff_df current_df next_df op_ms_df : DataFrame)
    (end_date_str start_date_str label : string) :
  relabel start_date_str = Some label ->
  match identify_new_joiners_ms today py_repr global_staff_df current_df next_df op_ms_df
          (end_date_str, start_date_str) with
  | Ok out =>
      (forall row, In row (new_joiners_ms global_staff_df current_df next_df) ->
                   employee_filtering_condition_ms op_ms_df (row "Employee ID") <> [])
      /\ length out = length op_ms_df
      /\ changes_only ["Role Status"; "Modified"] op_ms_df out
  | Raise =>
      exists row, In row (new_joiners_ms global_staff_df current_df next_df)
                  /\ employee_filtering_condition_ms op_ms_df (row "Employee ID") = []
  end.
Proof.
  intros Hl. unfold identify_new_joiners_ms. rewrite Hl. cbv zeta.
  tagging_loop op_ms_df "New Hired" build_entry_ms_no_country.
Qed.

Lemma identify_transfers_in_ms_outcome (today : date) (py_repr : cell -> string)
    (global_staff_df current_df next_df op_ms_df : DataFrame)
    (end_date_str start_date_str label : string) :
  relabel start_date_str = Some label ->
  match identify_transfers_in_ms today py_repr global_staff_df current_df next_df op_ms_df
          (end_date_str, start_date_str) with
  | Ok out =>
      (forall row, In row (transfers_in_ms global_staff_df current_df next_df) ->
                   employee_filtering_condition_ms op_ms_df (row "Employee ID") <> [])
      /\ length out = length op_ms_df
      /\ changes_only ["Role Status"; "Modified"] op_ms_df out
  | Raise =>
      exists row, In row (transfers_in_ms global_staff_df current_df next_df)
                  /\ employee_filtering_condition_ms op_ms_df (row "Employee ID") = []
  end.
Proof.
  intros Hl. unfold identify_transfers_in_ms. rewrite Hl. cbv zeta.
  tagging_loop op_ms_df "Transfer In" build_entry_ms_no_name.
Qed.

Lemma identify_conversions_fte_to_cwr_ms_outcome (today : date) (py_repr : cell -> string)
    (global_staff_df current_df next_df op_ms_df : DataFrame)
    (end_date_str start_date_str label : string) :
  relabel start_date_str = Some label ->
  match identify_conversions_fte_to_cwr_ms today py_repr global_staff_df
          current_df next_df op_ms_df (end_date_str, start_date_str) with
  | Ok out =>
      (forall row, In row (conversions_to_cwr_ms global_staff_df current_df next_df) ->
                   employee_filtering_condition_ms op_ms_df (row "Employee ID") <> [])
      /\ out = op_ms_df
  | Raise =>
      exists row, In row (conversions_to_cwr_ms global_staff_df current_df next_df)
                  /\ employee_filtering_condition_ms op_ms_df (row "Employee ID") = []
  end.
Proof.
  intros Hl. unfold identify_conversions_fte_to_cwr_ms. rewrite Hl. cbv zeta.
  match goal with
  | |- context [for_rows_result ?l ?b ?st] =>
      unshelve
        (epose proof (guarded_rows_loop (fun op => op = op_ms_df) op_ms_df l b
                        (fun row i '(op, ne) =>
                           if negb (is_empty (existing_entries op (row "Employee ID")
                                                "Resource Type" (row "Resource Type_next")
                                                (eofy_label today)))
                           then (op, ne) else (op, ne))
                        eq_refl _ _ _) as G);
      [ intros op' id' ->; reflexivity
      | intros row i op' ne' -> _; cbv beta iota; destruct (negb _); split; reflexivity
      | intros row op' ne'; cbv beta iota zeta;
        destruct (negb (is_empty _)); [reflexivity |];
        rewrite build_entry_ms_no_name by reflexivity; reflexivity
      | destruct (for_rows_result l b st) as [[op ne]|]; cbn [bind];
        [ destruct G as (HP & Hne & Hall); simpl in HP, Hne; subst op ne;
          split; [exact Hall | reflexivity]
        | exact G ] ]
  end.
Qed.

(** X18.  The three MS detectors that are written to add a row for an
    employee without one (new joiners, transfers in, conversions from FTE
    to MS) never add a row.  A row they build reads a label that the row
    they iterate over does not have ([P Unit Country] on a roster row,
    [Legal First Name] on a merged row), so with a start label that parses
    each of them raises as soon as the strict policy returns no row for an
    employee it selected, and returns exactly when every selected employee
    has such a row in the plan it was given.  What it returns then has the
    rows of the plan: the first two detectors change [Role Status] and
    [Modified] at most, the third returns the plan as it was.  With a
    start label that does not parse all three return the plan. *)
Theorem ms_detectors_never_add_a_row (today : date) (py_repr : cell -> string)
    (global_staff_df current_df next_df op_ms_df : DataFrame) (file_date : string * string) :
  let unmatched (row : Series) :=
    employee_filtering_condition_ms op_ms_df (row "Employee ID") = [] in
  let new_joiners := identify_new_joiners_ms today py_repr global_staff_df
                       current_df next_df op_ms_df file_date in
  let transfers_in := identify_transfers_in_ms today py_repr global_staff_df
                        current_df next_df op_ms_df file_date in
  let conversions := identify_conversions_fte_to_cwr_ms today py_repr global_staff_df
                       current_df next_df op_ms_df file_date in
  match relabel (snd file_date) with
  | None =>
      new_joiners = Ok op_ms_df /\ transfers_in = Ok op_ms_df /\ conversions = Ok op_ms_df
  | Some _ =>
      match new_joiners with
      | Ok out =>
          (forall row, In row (new_joiners_ms global_staff_df current_df next_df) ->
                       ~ unmatched row)
          /\ length out = length op_ms_df
          /\ changes_only ["Role Status"; "Modified"] op_ms_df out
      | Raise =>
          exists row, In row (new_joiners_ms global_staff_df current_df next_df)
                      /\ unmatched row
      end
      /\ match transfers_in with
         | Ok out =>
             (forall row, In row (transfers_in_ms global_staff_df current_df next_df) ->
                          ~ unmatched row)
             /\ length out = length op_ms_df
             /\ changes_only ["Role Status"; "Modified"] op_ms_df out
         | Raise =>
             exists row, In row (transfers_in_ms global_staff_df current_df next_df)
                         /\ unmatched row
         end
      /\ match conversions with
         | Ok out =>
             (forall row, In row (conversions_to_cwr_ms global_staff_df current_df next_df) ->
                          ~ unmatched row)
             /\ out = op_ms_df
         | Raise =>
             exists row, In row (conversions_to_cwr_ms global_staff_df current_df next_df)
                         /\ unmatched row
         end
  end.
Proof.
  cbv zeta. destruct file_date as [e s]. simpl snd.
  destruct (relabel s) as [label|] eqn:Hl.
  - split; [| split].
    + exact (identify_new_joiners_ms_outcome today py_repr global_staff_df
               current_df next_df op_ms_df e s label Hl).
    + exact (identify_transfers_in_ms_outcome today py_repr global_staff_df
               current_df next_df op_ms_df e s label Hl).
    + exact (identify_conversions_fte_to_cwr_ms_outcome today py_repr global_staff_df
               current_df next_df op_ms_df e s label Hl).
  - unfold identify_new_joiners_ms, identify_transfers_in_ms,
      identify_conversions_fte_to_cwr_ms. rewrite Hl. repeat split.
Qed.

(** ** The columns the MS detectors write *)

Lemma identify_exits_ms_frame (current_df next_df op_ms_df : DataFrame)
    (file_date : string * string) :
  changes_only ["End Date"; "Role Status"; "Modified"] op_ms_df
    (identify_exits_ms current_df next_df op_ms_df file_date).
Proof.
  unfold identify_exits_ms. destruct file_date as [e s].
  destruct (String.eqb e ""); [apply changes_only_refl |].
  frame_detector ["End Date"; "Role Status"; "Modified"] op_ms_df.
Qed.

Lemma identify_transfers_out_ms_frame (current_df next_df op_ms_df : DataFrame)
    (file_date : string * string) :
  changes_only ["End Date"; "Role Status"; "Modified"] op_ms_df
    (identify_transfers_out_ms current_df next_df op_ms_df file_date).
Proof.
  unfold identify_transfers_out_ms.
  frame_detector ["End Date"; "Role Status"; "Modified"] op_ms_df.
Qed.

Lemma identify_conversions_cwr_to_fte_ms_frame (py_repr : cell -> string)
    (current_df next_df op_ms_df : DataFrame) (file_date : string * string) :
  changes_only ["Resource Type"; "Employee ID"; "End Date"; "Role Status"; "Modified"] op_ms_df
    (identify_conversions_cwr_to_fte_ms py_repr current_df next_df op_ms_df file_date).
Proof.
  unfold identify_conversions_cwr_to_fte_ms.
  frame_detector ["Resource Type"; "Employee ID"; "End Date"; "Role Status"; "Modified"]
    op_ms_df.
Qed.

Lemma identify_internal_mobility_ms_frame (today : date)
    (global_staff_df current_df next_df op_ms_df : DataFrame) (file_date : string * string) :
  changes_only ["Tech Area"; "End Date"; "Role Status"; "Modified"] op_ms_df
    (identify_internal_mobility_ms today global_staff_df current_df next_df op_ms_df file_date).
Proof.
  unfold identify_internal_mobility_ms. destruct file_date as [e s].
  destruct (relabel e) as [last_day|]; [| apply changes_only_refl].
  destruct (relabel s) as [first_day|]; [| apply changes_only_refl].
  cbv zeta.
  match goal with
  | |- context [for_rows ?l ?b ?st] =>
      assert (Hinv : Forall2 (same_outside ["Tech Area"; "End Date"; "Role Status"; "Modified"])
                       op_ms_df (fst (for_rows l b st)));
      [| destruct (for_rows l b st) as [op' ne'];
         rewrite add_new_entries_ms_app; apply same_outside_changes; exact Hinv]
  end.
  unfold for_rows.
  apply (fold_left_invariant
           (fun st => Forall2 (same_outside ["Tech Area"; "End Date"; "Role Status"; "Modified"])
                        op_ms_df (fst st)));
    [apply same_outside_refl |].
  intros [op ne] m _ Hst. cbv beta iota.
  destruct (negb (is_empty _)); [| exact Hst].
  destruct (fold_left _ _ (false, 0%nat)) as [processed emp_index].
  destruct (negb processed); [| exact Hst].
  simpl in Hst |- *. frame_writes. exact Hst.
Qed.

Lemma identify_line_manager_changes_ms_frame (py_repr : cell -> string)
    (int_parses : string -> bool)
    (current_df next_df op_ms_df : DataFrame) (file_date : string * string) :
  match identify_line_manager_changes_ms py_repr int_parses current_df next_df
          op_ms_df file_date with
  | Ok out => length out = length op_ms_df
              /\ changes_only ["Modified"; "Line Manager"] op_ms_df out
  | Raise => True
  end.
Proof.
  assert (H : match identify_line_manager_changes_ms py_repr int_parses current_df next_df
                      op_ms_df file_date with
              | Ok out => Forall2 (same_outside ["Modified"; "Line Manager"]) op_ms_df out
              | Raise => True
              end).
  { unfold identify_line_manager_changes_ms. cbv zeta.
    apply (fold_left_invariant
             (fun st => match st with
                        | Ok out => Forall2 (same_outside ["Modified"; "Line Manager"])
                                      op_ms_df out
                        | Raise => True
                        end)); [apply same_outside_refl |].
    intros [op|] m _ Hop; [| exact I].
    apply (fold_left_invariant
             (fun st => match st with
                        | Ok out => Forall2 (same_outside ["Modified"; "Line Manager"])
                                      op_ms_df out
                        | Raise => True
                        end)); [exact Hop |].
    intros [op1|] i _ Hop1; [| exact I].
    destruct (_ && _); [| exact I].
    frame_writes. exact Hop1. }
  destruct (identify_line_manager_changes_ms py_repr int_parses current_df next_df
              op_ms_df file_date) as [out|]; [| exact I].
  split; [symmetry; exact (Forall2_length _ _ _ H) |].
  rewrite <- (app_nil_r out). apply same_outside_changes. exact H.
Qed.

(** A loop that appends to [new_entries] only keeps the length of the
    plan. *)
Lemma for_rows_length (op0 : DataFrame) (R : Type) (selected : list R)
    (body : R -> loop_state -> loop_state) (st : loop_state) :
  length (fst st) = length op0 ->
  (forall row st, length (fst st) = length op0 -> length (fst (body row st)) = length op0) ->
  length (fst (for_rows selected body st)) = length op0.
Proof.
  intros Hst Hbody. unfold for_rows.
  apply (fold_left_invariant (fun st => length (fst st) = length op0)); [exact Hst |].
  intros st' row _ H. apply Hbody. exact H.
Qed.

Lemma for_indices_length (op0 : DataFrame) (idxs : list nat)
    (body : nat -> loop_state -> loop_state) (st : loop_state) :
  length (fst st) = length op0 ->
  (forall i st, length (fst st) = length op0 -> length (fst (body i st)) = length op0) ->
  length (fst (for_indices idxs body st)) = length op0.
Proof.
  intros Hst Hbody. unfold for_indices.
  apply (fold_left_invariant (fun st => length (fst st) = length op0)); [exact Hst |].
  intros st' i _ H. apply Hbody. exact H.
Qed.

Ltac length_detector :=
  repeat match goal with
         | |- context [let '(_, _) := ?fd in _] => is_var fd; destruct fd
         | |- context [match relabel ?s with _ => _ end] =>
             destruct (relabel s); [| reflexivity]
         end;
  cbv zeta;
  apply for_rows_length; [reflexivity |];
  intros ? [? ?] ?; cbv beta iota;
  apply for_indices_length; [assumption |];
  intros ? [? ?] ?; simpl in *; rewrite !length_at_set; assumption.

Lemma identify_exits_ms_length (current_df next_df op_ms_df : DataFrame)
    (file_date : string * string) :
  length (identify_exits_ms current_df next_df op_ms_df file_date) = length op_ms_df.
Proof.
  unfold identify_exits_ms. destruct file_date as [e s].
  destruct (String.eqb e ""); [reflexivity |].
  length_detector.
Qed.

Lemma identify_transfers_out_ms_length (current_df next_df op_ms_df : DataFrame)
    (file_date : string * string) :
  length (identify_transfers_out_ms current_df next_df op_ms_df file_date) = length op_ms_df.
Proof. unfold identify_transfers_out_ms. length_detector. Qed.

Lemma identify_conversions_cwr_to_fte_ms_length (py_repr : cell -> string)
    (current_df next_df op_ms_df : DataFrame) (file_date : string * string) :
  length (identify_conversions_cwr_to_fte_ms py_repr current_df next_df op_ms_df file_date)
  = length op_ms_df.
Proof. unfold identify_conversions_cwr_to_fte_ms. length_detector. Qed.

(** X19.  The columns of an existing plan row that the MS detectors
    which write to matched rows may change; every other column of every
    row of the plan is returned as it was, at its label.  The detectors of
    exits, of transfers out and of conversions to FTE return a frame of
    the length of the plan; so does the detector of line-manager changes
    when it returns.  The detector of internal mobility may append rows
    after the rows of the plan. *)
Theorem ms_detectors_write_columns (today : date) (py_repr : cell -> string)
    (int_parses : string -> bool)
    (global_staff_df current_df next_df op_ms_df : DataFrame) (file_date : string * string) :
  (let out := identify_exits_ms current_df next_df op_ms_df file_date in
   length out = length op_ms_df
   /\ changes_only ["End Date"; "Role Status"; "Modified"] op_ms_df out)
  /\ (let out := identify_transfers_out_ms current_df next_df op_ms_df file_date in
      length out = length op_ms_df
      /\ changes_only ["End Date"; "Role Status"; "Modified"] op_ms_df out)
  /\ (let out := identify_conversions_cwr_to_fte_ms py_repr current_df next_df op_ms_df
                   file_date in
      length out = length op_ms_df
      /\ changes_only ["Resource Type"; "Employee ID"; "End Date"; "Role Status"; "Modified"]
           op_ms_df out)
  /\ changes_only ["Tech Area"; "End Date"; "Role Status"; "Modified"] op_ms_df
       (identify_internal_mobility_ms today global_staff_df current_df next_df op_ms_df
          file_date)
  /\ match identify_line_manager_changes_ms py_repr int_parses current_df next_df
             op_ms_df file_date with
     | Ok out => length out = length op_ms_df
                 /\ changes_only ["Modified"; "Line Manager"] op_ms_df out
     | Raise => True
     end.
Proof.
  cbv zeta.
  split; [split; [apply identify_exits_ms_length | apply identify_exits_ms_frame] |].
  split; [split; [apply identify_transfers_out_ms_length
                 | apply identify_transfers_out_ms_frame] |].
  split; [split; [apply identify_conversions_cwr_to_fte_ms_length
                 | apply identify_conversions_cwr_to_fte_ms_frame] |].
  split; [apply identify_internal_mobility_ms_frame |].
  apply identify_line_manager_changes_ms_frame.
Qed.

(** ** The rows the MS detectors leave alone *)

Lemma strict_mask_ms_ext (id : cell) (r r0 : Series) :
  (forall col, r col = r0 col) ->
  employee_filtering_condition_ms_mask id r = employee_filtering_condition_ms_mask id r0.
Proof. intros H. unfold employee_filtering_condition_ms_mask. rewrite !H. reflexivity. Qed.

Lemma relaxed_mask_ms_ext (id : cell) (r r0 : Series) :
  (forall col, r col = r0 col) ->
  shorten_filtering_condition_ms_mask id r = shorten_filtering_condition_ms_mask id r0.
Proof. intros H. unfold shorten_filtering_condition_ms_mask. rewrite !H. reflexivity. Qed.

Lemma strict_ms_not_locked (op0 op : DataFrame) (id : cell) (i : nat) :
  Forall2 (left_alone outside_strict_ms) op0 op ->
  In i (employee_filtering_condition_ms op id) ->
  forall r0, op0 !! i = Some r0 -> ~ outside_strict_ms r0.
Proof.
  apply (matched_not_locked outside_strict_ms employee_filtering_condition_ms_mask).
  - apply strict_mask_ms_ext.
  - intros r Hl. apply Hl.
Qed.

Lemma relaxed_ms_not_locked (op0 op : DataFrame) (id : cell) (i : nat) :
  Forall2 (left_alone outside_relaxed_ms) op0 op ->
  In i (shorten_filtering_condition_ms op id) ->
  forall r0, op0 !! i = Some r0 -> ~ outside_relaxed_ms r0.
Proof.
  apply (matched_not_locked outside_relaxed_ms shorten_filtering_condition_ms_mask).
  - apply relaxed_mask_ms_ext.
  - intros r Hl. apply Hl.
Qed.

(** The rows that the strict policy of the MS sheet returns for no
    employee. *)
Lemma outside_strict_ms_iff (r : Series) :
  outside_strict_ms r <->
  r "Employee ID" = NaN
  \/ r "LANID" = NaN
  \/ r "Fulfilled" = Str "Yes"
  \/ r "Role Status" = Str "Missing from Op MS"
  \/ r "Skip" = Str "Past".
Proof.
  split.
  - intros H.
    destruct (cell_eq_NaN_dec (r "Employee ID")) as [H3 | H3]; [tauto |].
    destruct (cell_eq_NaN_dec (r "LANID")) as [H4 | H4]; [tauto |].
    destruct (cell_eq_Str_dec (r "Fulfilled") "Yes") as [H6 | H6]; [tauto |].
    destruct (cell_eq_Str_dec (r "Role Status") "Missing from Op MS") as [H5 | H5]; [tauto |].
    destruct (cell_eq_Str_dec (r "Skip") "Past") as [H7 | H7]; [tauto |].
    exfalso. specialize (H (r "Employee ID")).
    apply not_true_iff_false in H. apply H.
    unfold employee_filtering_condition_ms_mask.
    rewrite !andb_true_iff, !cell_neb_Str, !notna_true.
    repeat split; try assumption. apply cell_eqb_refl. exact H3.
  - intros H id. apply not_true_iff_false. intros Hm.
    apply strict_mask_ms_row in Hm as [(H1 & H2 & H3 & H4 & H5) _].
    destruct H as [H | [H | [H | [H | H]]]]; contradiction.
Qed.

(** The same for the relaxed policy. *)
Lemma outside_relaxed_ms_iff (r : Series) :
  outside_relaxed_ms r <->
  r "Resource Type" = Str "Stretch"
  \/ cell_contains "Vacant" (r "Resource Name") = true
  \/ r "Employee ID" = NaN
  \/ r "LANID" = NaN
  \/ r "Role Status" = Str "Missing from Op MS".
Proof.
  split.
  - intros H.
    destruct (cell_eq_Str_dec (r "Resource Type") "Stretch") as [H1 | H1]; [tauto |].
    destruct (cell_contains "Vacant" (r "Resource Name")) eqn:H2; [tauto |].
    destruct (cell_eq_NaN_dec (r "Employee ID")) as [H3 | H3]; [tauto |].
    destruct (cell_eq_NaN_dec (r "LANID")) as [H4 | H4]; [tauto |].
    destruct (cell_eq_Str_dec (r "Role Status") "Missing from Op MS") as [H5 | H5]; [tauto |].
    exfalso. specialize (H (r "Employee ID")).
    apply not_true_iff_false in H. apply H.
    unfold shorten_filtering_condition_ms_mask.
    rewrite !andb_true_iff, !cell_neb_Str, !notna_true, negb_true_iff.
    repeat split; try assumption. apply cell_eqb_refl. exact H3.
  - intros H id. apply not_true_iff_false. intros Hm.
    unfold shorten_filtering_condition_ms_mask in Hm.
    rewrite !andb_true_iff, !cell_neb_Str, !notna_true, negb_true_iff in Hm.
    destruct Hm as [[[[[H1 H2] _] H3] H4] H5].
    destruct H as [H | [H | [H | [H | H]]]]; congruence.
Qed.

Lemma alone_add_new_entries_ms (lock : Series -> Prop) (op0 : DataFrame) (st : loop_state) :
  Forall2 (left_alone lock) op0 (fst st) ->
  locked_rows_left_alone lock op0 (add_new_entries_ms (fst st) (snd st)).
Proof. intros H. rewrite add_new_entries_ms_app. apply alone_locked_rows. exact H. Qed.

Lemma identify_exits_ms_alone (current_df next_df op_ms_df : DataFrame)
    (file_date : string * string) :
  locked_rows_left_alone outside_relaxed_ms op_ms_df
    (identify_exits_ms current_df next_df op_ms_df file_date).
Proof.
  unfold identify_exits_ms. destruct file_date as [e s].
  destruct (String.eqb e ""); [apply locked_rows_refl |].
  destruct (relabel e) as [d|]; [| apply locked_rows_refl].
  alone_loop outside_relaxed_ms op_ms_df.
  intros [op ne] m _ Hst. cbv beta iota.
  apply for_indices_alone; [exact Hst | |].
  - intros i Hi. exact (relaxed_ms_not_locked _ _ _ _ Hst Hi).
  - intros i [op1 ne1] Hni H1. simpl in H1 |- *. alone_writes Hni. exact H1.
Qed.

Lemma identify_transfers_out_ms_alone (current_df next_df op_ms_df : DataFrame)
    (file_date : string * string) :
  locked_rows_left_alone outside_strict_ms op_ms_df
    (identify_transfers_out_ms current_df next_df op_ms_df file_date).
Proof.
  unfold identify_transfers_out_ms. destruct file_date as [e s].
  destruct (relabel e) as [last_day|]; [| apply locked_rows_refl].
  alone_loop outside_strict_ms op_ms_df.
  intros [op ne] m _ Hst. cbv beta iota.
  apply for_indices_alone; [exact Hst | |].
  - intros i Hi. exact (strict_ms_not_locked _ _ _ _ Hst Hi).
  - intros i [op1 ne1] Hni H1. simpl in H1 |- *. alone_writes Hni. exact H1.
Qed.

Lemma identify_conversions_cwr_to_fte_ms_alone (py_repr : cell -> string)
    (current_df next_df op_ms_df : DataFrame) (file_date : string * string) :
  locked_rows_left_alone outside_strict_ms op_ms_df
    (identify_conversions_cwr_to_fte_ms py_repr current_df next_df op_ms_df file_date).
Proof.
  unfold identify_conversions_cwr_to_fte_ms. destruct file_date as [e s].
  destruct (relabel e) as [last_day|]; [| apply locked_rows_refl].
  alone_loop outside_strict_ms op_ms_df.
  intros [op ne] m _ Hst. cbv beta iota.
  apply for_indices_alone; [exact Hst | |].
  - intros i Hi. exact (strict_ms_not_locked _ _ _ _ Hst Hi).
  - intros i [op1 ne1] Hni H1. simpl in H1 |- *. alone_writes Hni. exact H1.
Qed.

Lemma identify_internal_mobility_ms_alone (today : date)
    (global_staff_df current_df next_df op_ms_df : DataFrame) (file_date : string * string) :
  locked_rows_left_alone outside_strict_ms op_ms_df
    (identify_internal_mobility_ms today global_staff_df current_df next_df op_ms_df file_date).
Proof.
  unfold identify_internal_mobility_ms. destruct file_date as [e s].
  destruct (relabel e) as [last_day|]; [| apply locked_rows_refl].
  destruct (relabel s) as [first_day|]; [| apply locked_rows_refl].
  cbv zeta.
  match goal with
  | |- context [for_rows ?l ?b ?st] =>
      assert (Hinv : Forall2 (left_alone outside_strict_ms) op_ms_df (fst (for_rows l b st)));
      [| destruct (for_rows l b st) as [op' ne'];
         exact (alone_add_new_entries_ms outside_strict_ms op_ms_df (op', ne') Hinv)]
  end.
  unfold for_rows.
  apply (fold_left_invariant (fun st => Forall2 (left_alone outside_strict_ms) op_ms_df (fst st)));
    [apply left_alone_refl |].
  intros [op ne] row _ Hst. cbv beta iota.
  destruct (negb (is_empty (employee_filtering_condition_ms op (row "Employee ID")))) eqn:Hemp;
    [| exact Hst].
  assert (Hne : employee_filtering_condition_ms op (row "Employee ID") <> []).
  { intros Hnil. rewrite Hnil in Hemp. discriminate. }
  match goal with
  | |- context [fold_left ?f ?l (false, 0%nat)] =>
      pose proof (mobility_flag
                    (negb (is_empty (existing_entries op (row "Employee ID") "Tech Area"
                                       (row "Tech Area_next") (eofy_label today))))
                    l false 0%nat) as Hflag;
      cbv zeta in Hflag; destruct Hflag as [_ Hflag];
      specialize (Hflag eq_refl Hne);
      destruct (fold_left f l (false, 0%nat)) as [processed emp_index]
  end.
  cbn [fst snd] in Hflag. destruct Hflag as [_ Hi].
  destruct (negb processed); [| exact Hst].
  pose proof (strict_ms_not_locked _ _ _ _ Hst Hi) as Hni.
  simpl in Hst |- *. alone_writes Hni. exact Hst.
Qed.

Lemma identify_line_manager_changes_ms_alone (py_repr : cell -> string)
    (int_parses : string -> bool)
    (current_df next_df op_ms_df : DataFrame) (file_date : string * string) :
  match identify_line_manager_changes_ms py_repr int_parses current_df next_df
          op_ms_df file_date with
  | Ok out => locked_rows_left_alone outside_relaxed_ms op_ms_df out
  | Raise => True
  end.
Proof.
  assert (H : match identify_line_manager_changes_ms py_repr int_parses current_df next_df
                      op_ms_df file_date with
              | Ok out => Forall2 (left_alone outside_relaxed_ms) op_ms_df out
              | Raise => True
              end).
  { unfold identify_line_manager_changes_ms. cbv zeta.
    apply (fold_left_invariant
             (fun st => match st with
                        | Ok out => Forall2 (left_alone outside_relaxed_ms) op_ms_df out
                        | Raise => True
                        end)); [apply left_alone_refl |].
    intros [op|] m _ Hop; [| exact I].
    apply (fold_left_invariant
             (fun st => match st with
                        | Ok out => Forall2 (left_alone outside_relaxed_ms) op_ms_df out
                        | Raise => True
                        end)); [exact Hop |].
    intros [op1|] i Hi Hop1; [| exact I].
    pose proof (relaxed_ms_not_locked _ _ _ _ Hop Hi) as Hni.
    destruct (_ && _); [| exact I].
    alone_writes Hni. exact Hop1. }
  destruct (identify_line_manager_changes_ms py_repr int_parses current_df next_df
              op_ms_df file_date) as [out|]; [| exact I].
  rewrite <- (app_nil_r out). apply alone_locked_rows. exact H.
Qed.

(** X20.  The MS detectors write only to rows their policy returns.
    The detectors of transfers out, of conversions to FTE and of internal
    mobility use the strict policy: a row of the plan that lacks an
    employee id or a LANID, or is tagged fulfilled (['Yes']),
    ['Missing from Op MS'] or past (['Past']) is, in the frame they return,
    at the same label and holds what it held.  The detectors of exits and
    of line-manager changes use the relaxed policy: they leave alone a row
    that is a stretch role, has ['Vacant'] in its name, lacks an employee id
    or a LANID, or is tagged ['Missing from Op MS'].  (The strict policy of
    the MS sheet does not exclude stretch or vacant rows, and the relaxed
    one does not exclude fulfilled or past rows.) *)
Theorem ms_detectors_leave_excluded_rows (today : date) (py_repr : cell -> string)
    (int_parses : string -> bool)
    (global_staff_df current_df next_df op_ms_df : DataFrame) (file_date : string * string)
    (i : nat) (r0 : Series) :
  op_ms_df !! i = Some r0 ->
  (r0 "Employee ID" = NaN
   \/ r0 "LANID" = NaN
   \/ r0 "Fulfilled" = Str "Yes"
   \/ r0 "Role Status" = Str "Missing from Op MS"
   \/ r0 "Skip" = Str "Past" ->
   forall out,
     In out [ identify_transfers_out_ms current_df next_df op_ms_df file_date;
              identify_conversions_cwr_to_fte_ms py_repr current_df next_df op_ms_df file_date;
              identify_internal_mobility_ms today global_staff_df current_df next_df op_ms_df
                file_date ] ->
     exists r : Series, out !! i = Some r /\ forall col, r col = r0 col)
  /\ (r0 "Resource Type" = Str "Stretch"
      \/ cell_contains "Vacant" (r0 "Resource Name") = true
      \/ r0 "Employee ID" = NaN
      \/ r0 "LANID" = NaN
      \/ r0 "Role Status" = Str "Missing from Op MS" ->
      (exists r : Series,
          identify_exits_ms current_df next_df op_ms_df file_date !! i = Some r
          /\ forall col, r col = r0 col)
      /\ (forall out,
            identify_line_manager_changes_ms py_repr int_parses current_df next_df
              op_ms_df file_date = Ok out ->
            exists r : Series, out !! i = Some r /\ forall col, r col = r0 col)).
Proof.
  intros Hr0. split.
  - intros Hex out Hout. apply outside_strict_ms_iff in Hex.
    assert (H : locked_rows_left_alone outside_strict_ms op_ms_df out);
      [| exact (H i r0 Hr0 Hex)].
    simpl in Hout. destruct Hout as [<- | [<- | [<- | []]]].
    + apply identify_transfers_out_ms_alone.
    + apply identify_conversions_cwr_to_fte_ms_alone.
    + apply identify_internal_mobility_ms_alone.
  - intros Hex. apply outside_relaxed_ms_iff in Hex. split.
    + exact (identify_exits_ms_alone current_df next_df op_ms_df file_date i r0 Hr0 Hex).
    + intros out Hout.
      pose proof (identify_line_manager_changes_ms_alone py_repr int_parses
                    current_df next_df op_ms_df file_date) as H.
      rewrite Hout in H. exact (H i r0 Hr0 Hex).
Qed.

(** The stretch row of the MS plan of employee 1001, a contractor who
    leaves: the detector of exits returns it as it was. *)
Lemma ms_detectors_leave_excluded_rows_witness :
  exists r : Series,
    identify_exits_ms [Fixture.e1001_contractor] [] Fixture.ms_stretch_plan Fixture.file_date
      !! 0%nat = Some r
    /\ forall col,
         r col = Fixture.plan_row (Fixture.emp 1001) "Kim Lee" "Stretch" "" "Security_Cloud"
                   "" (Str "ukim") (Str "Sep-24") (Str "") (Str "") col.
Proof.
  destruct (ms_detectors_leave_excluded_rows Fixture.today Fixture.py_repr
              Fixture.int_parses [] [Fixture.e1001_contractor] [] Fixture.ms_stretch_plan
              Fixture.file_date 0%nat
              (Fixture.plan_row (Fixture.emp 1001) "Kim Lee" "Stretch" "" "Security_Cloud"
                 "" (Str "ukim") (Str "Sep-24") (Str "") (Str "")))
    as [_ H].
  - reflexivity.
  - destruct H as [H _]; [left; reflexivity | exact H].
Defined.

(** ** The seeding pass of the MS sheet *)

Lemma In_fmap {A B : Type} (f : A -> B) (l : list A) (y : B) :
  In y (f <$> l) <-> exists x, y = f x /\ In x l.
Proof.
  rewrite <- list_elem_of_In, list_elem_of_fmap.
  split; intros (x & Hy & Hx); exists x; (split; [exact Hy |]); apply list_elem_of_In; exact Hx.
Qed.

Lemma merge_left_In (left right : DataFrame) (m : merged) :
  In m (merge_left left right) -> exists l, In l left /\ left_row m = Some l.
Proof.
  unfold merge_left. rewrite in_flat_map. intros (l & Hl & Hm). exists l. split; [exact Hl |].
  destruct (matching (l "Employee ID") right) as [|r rs].
  - destruct Hm as [<- | []]. reflexivity.
  - apply In_fmap in Hm as (x & -> & _). reflexivity.
Qed.

Lemma merge_left_covers (left right : DataFrame) (l : Series) :
  In l left -> exists m, In m (merge_left left right) /\ left_row m = Some l.
Proof.
  intros Hl. unfold merge_left.
  destruct (matching (l "Employee ID") right) as [|r rs] eqn:Hr.
  - exists (mk_merged (Some l) None). split; [| reflexivity].
    apply in_flat_map. exists l. split; [exact Hl |]. rewrite Hr. left. reflexivity.
  - exists (mk_merged (Some l) (Some r)). split; [| reflexivity].
    apply in_flat_map. exists l. split; [exact Hl |]. rewrite Hr. left. reflexivity.
Qed.

Lemma merge_outer_In (left right : DataFrame) (m : merged) :
  In m (merge_outer left right) ->
  (exists l, In l left /\ left_row m = Some l) \/ left_row m = None.
Proof.
  unfold merge_outer. rewrite in_app_iff. intros [Hm | Hm].
  - left. apply (merge_left_In _ _ _ Hm).
  - right. apply In_fmap in Hm as (r & -> & _). reflexivity.
Qed.

Lemma merge_vendor_In (indicator : bool) (rows : list Series) (global_staff_df : DataFrame)
    (row' : Series) :
  In row' (merge_vendor indicator rows global_staff_df) ->
  exists row, In row rows /\ row' "Employee ID" = row "Employee ID".
Proof.
  unfold merge_vendor. rewrite in_flat_map. intros (row & Hrow & Hin).
  exists row. split; [exact Hrow |].
  destruct (matching (row "Employee ID") global_staff_df) as [|g gs].
  - destruct Hin as [<- | []]. destruct indicator; reflexivity.
  - apply In_fmap in Hin as (x & -> & _). destruct indicator; reflexivity.
Qed.

Lemma merge_vendor_covers (indicator : bool) (rows : list Series)
    (global_staff_df : DataFrame) (row : Series) :
  In row rows ->
  exists row', In row' (merge_vendor indicator rows global_staff_df)
               /\ row' "Employee ID" = row "Employee ID".
Proof.
  intros Hrow. unfold merge_vendor.
  destruct (matching (row "Employee ID") global_staff_df) as [|g gs] eqn:Hg.
  - eexists. split.
    + apply in_flat_map. exists row. split; [exact Hrow |]. rewrite Hg. left. reflexivity.
    + destruct indicator; reflexivity.
  - eexists. split.
    + apply in_flat_map. exists row. split; [exact Hrow |]. rewrite Hg. left. reflexivity.
    + destruct indicator; reflexivity.
Qed.

(** The rows the seeding pass of the MS sheet selects: a row for every
    record of the Security contractors of the current roster whose id the
    plan does not hold, and for nobody else. *)
Lemma missing_entries_ms_sound (py_repr : cell -> string)
    (global_staff_df current_df next_df op_ms_df : DataFrame) (row : Series) :
  In row (missing_entries_ms py_repr global_staff_df current_df next_df op_ms_df) ->
  isin (row "Employee ID") (employee_ids op_ms_df) = false
  /\ exists c, In c (employee_security_ms current_df)
               /\ row "Employee ID" = c "Employee ID".
Proof.
  unfold missing_entries_ms. cbv zeta. intros H.
  apply merge_vendor_In in H as (row0 & H & ->).
  apply In_fmap in H as (m' & -> & H).
  apply filter_In in H as [H Hc].
  apply In_fmap in H as (m & -> & H).
  apply merge_outer_In in H as [(l & Hl & Hm) | Hm].
  - destruct m as [lr rr]. simpl in Hm. subst lr.
    split.
    + destruct (isin _ (employee_ids op_ms_df)); [| reflexivity].
      cbn [negb] in Hc. rewrite !andb_false_r in Hc. discriminate.
    + exists l. split; [exact Hl | reflexivity].
  - destruct m as [lr rr]. simpl in Hm. subst lr. exfalso.
    destruct rr; simpl in Hc; discriminate.
Qed.

Lemma missing_entries_ms_complete (py_repr : cell -> string)
    (global_staff_df current_df next_df op_ms_df : DataFrame) (c : Series) :
  In c (employee_security_ms current_df) ->
  isin (c "Employee ID") (employee_ids op_ms_df) = false ->
  exists row, In row (missing_entries_ms py_repr global_staff_df current_df next_df op_ms_df)
              /\ row "Employee ID" = c "Employee ID".
Proof.
  intros Hc Hop.
  destruct (merge_left_covers _ (employee_security_ms next_df) c Hc) as (m & Hm & Hl).
  unfold missing_entries_ms. cbv zeta.
  match goal with
  | |- context [merge_vendor false (mget_ms <$> List.filter ?p (?f <$> _)) _] =>
      destruct (merge_vendor_covers false (mget_ms <$> List.filter p (f <$> merge_outer
                  (employee_security_ms current_df) (employee_security_ms next_df)))
                  global_staff_df (mget_ms (f m))) as (row' & Hrow' & Hid)
  end.
  - apply In_fmap. eexists. split; [reflexivity |].
    apply filter_In. split.
    + apply In_fmap. exists m. split; [reflexivity |].
      unfold merge_outer. apply in_app_iff. left. exact Hm.
    + destruct m as [lr rr]. simpl in Hl. subst lr.
      change (mget_ms _ "Employee ID") with (c "Employee ID"). rewrite Hop.
      destruct rr; reflexivity.
  - exists row'. split; [exact Hrow' |]. rewrite Hid.
    destruct m as [lr rr]. simpl in Hl. subst lr. reflexivity.
Qed.

(** X21.  The pass that seeds the missing employees of the MS sheet
    changes no row of the plan: it returns the plan followed by new rows.
    Each new row has status ['Missing from Op MS'], ['-'] as start and end
    date and the [Modified] mark.  The employees it adds are the Security
    contractors of the current roster whose id the plan does not hold, all
    of them, whatever their resource type and whether or not the next
    roster has them (an employee gets one row for each of their records in
    the staff list).  Run on its own result the pass adds nothing. *)
Theorem ms_missing_pass (py_repr : cell -> string)
    (global_staff_df current_df next_df op_ms_df : DataFrame) :
  exists entries : DataFrame,
    identify_missing_employees_ms py_repr global_staff_df current_df next_df op_ms_df
    = op_ms_df ++ entries
    /\ (forall e, In e entries ->
                  e "Role Status" = Str "Missing from Op MS"
                  /\ e "Start Date" = Str "-"
                  /\ e "End Date" = Str "-"
                  /\ e "Modified" = Boolean true
                  /\ isin (e "Employee ID") (employee_ids op_ms_df) = false
                  /\ exists c, In c (employee_security_ms current_df)
                               /\ e "Employee ID" = c "Employee ID")
    /\ (forall c, In c (employee_security_ms current_df) ->
                  isin (c "Employee ID") (employee_ids op_ms_df) = false ->
                  exists e, In e entries /\ e "Employee ID" = c "Employee ID")
    /\ identify_missing_employees_ms py_repr global_staff_df current_df next_df
         (op_ms_df ++ entries)
       = op_ms_df ++ entries.
Proof.
  unfold identify_missing_employees_ms. cbv zeta. rewrite add_new_entries_ms_app.
  eexists. split; [reflexivity |]. split; [| split].
  - intros e He. apply In_fmap in He as (row & -> & Hrow).
    repeat (split; [reflexivity |]).
    change (missing_entry_ms py_repr row "Employee ID") with (row "Employee ID").
    apply (missing_entries_ms_sound _ _ _ _ _ _ Hrow).
  - intros c Hc Hop.
    destruct (missing_entries_ms_complete py_repr global_staff_df current_df next_df
                op_ms_df c Hc Hop) as (row & Hrow & Hid).
    exists (missing_entry_ms py_repr row). split; [| exact Hid].
    apply In_fmap. exists row. split; [reflexivity | exact Hrow].
  - rewrite add_new_entries_ms_app.
    match goal with
    | |- _ ++ (_ <$> ?l) = _ => replace l with (@nil Series); [apply app_nil_r |]
    end.
    symmetry.
    destruct (missing_entries_ms py_repr global_staff_df current_df next_df
                (op_ms_df ++ _)) as [|row rows] eqn:Hrows; [reflexivity |].
    exfalso.
    assert (Hin : In row (row :: rows)) by (left; reflexivity).
    rewrite <- Hrows in Hin.
    apply missing_entries_ms_sound in Hin as [Hnot (c & Hc & Hid)].
    rewrite employee_ids_app, isin_app in Hnot.
    apply orb_false_iff in Hnot as [Hop Hent].
    rewrite Hid in Hop.
    destruct (missing_entries_ms_complete py_repr global_staff_df current_df next_df
                op_ms_df c Hc Hop) as (row' & Hrow' & Hid').
    assert (Ht : isin (row "Employee ID")
                   (employee_ids (missing_entry_ms py_repr <$>
                      missing_entries_ms py_repr global_staff_df current_df next_df op_ms_df))
                 = true).
    { rewrite Hid, <- Hid'.
      apply (isin_employee_ids _ (missing_entry_ms py_repr row')).
      apply In_fmap. exists row'. split; [reflexivity | exact Hrow']. }
    rewrite Ht in Hent. discriminate.
Qed.

(** ** Rows kept by the passes of the MS sheet *)

Lemma rows_kept_lookup (op0 out : DataFrame) :
  (forall (i : nat) (r0 : Series),
      op0 !! i = Some r0 ->
      exists r : Series, out !! i = Some r /\ same_employee r0 r) ->
  rows_kept op0 out.
Proof.
  intros H.
  assert (Hlen : (length op0 <= length out)%nat).
  { destruct (Nat.eq_dec (length op0) 0%nat) as [H0 | H0]; [lia |].
    destruct (lookup_lt_is_Some_2 op0 (length op0 - 1)%nat) as [r0 Hr0]; [lia |].
    destruct (H _ _ Hr0) as (r & Hr & _). apply lookup_lt_Some in Hr. lia. }
  exists (take (length op0) out), (drop (length op0) out).
  split; [symmetry; apply take_drop |].
  split; [rewrite length_take; lia |].
  intros i r0 Hr0. destruct (H i r0 Hr0) as (r & Hr & Hk). exists r. split; assumption.
Qed.

Lemma changes_only_rows_kept (cols : list string) (op0 out : DataFrame) :
  mem_string "Employee ID" cols = false -> changes_only cols op0 out -> rows_kept op0 out.
Proof.
  intros Hc H. apply rows_kept_lookup. intros i r0 Hr0.
  destruct (H i r0 Hr0) as (r & Hr & Hs). exists r. split; [exact Hr |].
  unfold same_employee. rewrite (Hs _ Hc). apply key_eqb_refl.
Qed.

Lemma rows_kept_refl (op : DataFrame) : rows_kept op op.
Proof.
  apply rows_kept_lookup. intros i r0 Hr0. exists r0. split; [exact Hr0 | apply key_eqb_refl].
Qed.

Lemma Forall2_same_employee_rows_kept (op0 kept : DataFrame) :
  Forall2 same_employee op0 kept -> rows_kept op0 kept.
Proof.
  intros H. apply rows_kept_lookup. intros i r0 Hr0.
  destruct (Forall2_lookup_l _ _ _ _ _ H Hr0) as (r & Hr & Hk). exists r. auto.
Qed.

(** The conversions to FTE of the MS sheet write the id of the roster
    row to the rows the strict policy returned for it. *)
Lemma identify_conversions_cwr_to_fte_ms_rows (py_repr : cell -> string)
    (current_df next_df op_ms_df : DataFrame) (file_date : string * string) :
  rows_kept op_ms_df
    (identify_conversions_cwr_to_fte_ms py_repr current_df next_df op_ms_df file_date).
Proof.
  unfold identify_conversions_cwr_to_fte_ms. destruct file_date as [e s].
  destruct (relabel e) as [last_day|]; [| apply rows_kept_refl].
  cbv zeta. apply Forall2_same_employee_rows_kept.
  unfold for_rows.
  apply (fold_left_invariant (fun st => Forall2 same_employee op_ms_df (fst st))).
  { apply Forall2_refl_on. intros r. apply key_eqb_refl. }
  intros [op ne] m _ Hst. cbv beta iota. simpl in Hst.
  set (id := mget_ms m "Employee ID").
  assert (Hid : forall i, In i (employee_filtering_condition_ms op id) ->
                          forall r0, op_ms_df !! i = Some r0 ->
                                     key_eqb id (r0 "Employee ID") = true).
  { intros i Hi r0 Hr0. apply index_where_spec in Hi as (r & Hr & Hm).
    destruct (Forall2_lookup_l _ _ _ _ _ Hst Hr0) as (r' & Hr' & Hk).
    assert (r' = r) as -> by congruence.
    apply strict_mask_ms_row in Hm as [_ Hm]. apply cell_eqb_key in Hm.
    rewrite key_eqb_sym in Hm. exact (key_eqb_trans _ _ _ Hm Hk). }
  unfold for_indices.
  apply (fold_left_invariant (fun st => Forall2 same_employee op_ms_df (fst st)));
    [exact Hst |].
  intros [op1 ne1] i Hi H1. simpl in H1 |- *. specialize (Hid i Hi).
  unfold at_set. rewrite !list_alter_alter_eq.
  apply Forall2_alter_r; [exact H1 |].
  intros r0 r Hr0 _ _. unfold same_employee, compose.
  rewrite !(set_other _ "Employee ID") by discriminate. rewrite set_same.
  apply Hid. exact Hr0.
Qed.

Lemma In_employee_security_ms (df : DataFrame) (r : Series) :
  In r (employee_security_ms df) -> In r df.
Proof. unfold employee_security_ms. intros H. apply filter_In in H. tauto. Qed.

Lemma identify_line_manager_changes_ms_returns (py_repr : cell -> string)
    (int_parses : string -> bool)
    (current_df next_df op_ms_df : DataFrame) (file_date : string * string) :
  (forall r, In r current_df \/ In r next_df ->
             int_ok int_parses (r "Supervisor Employee ID") = true) ->
  exists out, identify_line_manager_changes_ms py_repr int_parses current_df next_df
                op_ms_df file_date = Ok out.
Proof.
  intros Hint. unfold identify_line_manager_changes_ms. cbv zeta.
  apply (fold_left_invariant (fun st => exists out, st = Ok out)).
  { eexists. reflexivity. }
  intros st m Hm [op ->].
  apply filter_In in Hm as [Hm _].
  apply merge_inner_In in Hm as (c & n & -> & Hc & Hn & _).
  apply In_employee_security_ms in Hc, Hn.
  apply (fold_left_invariant (fun st => exists out, st = Ok out)).
  { eexists. reflexivity. }
  intros st i _ [op1 ->].
  change (mget_ms (mk_merged (Some c) (Some n)) "Supervisor Employee ID_current")
    with (c "Supervisor Employee ID").
  change (mget_ms (mk_merged (Some c) (Some n)) "Supervisor Employee ID_next")
    with (n "Supervisor Employee ID").
  rewrite (Hint c (or_introl Hc)), (Hint n (or_intror Hn)). eexists. reflexivity.
Qed.

(** The loop of the sanity pass over the roster columns of a row of the
    same employee never changes the employee id. *)
Lemma sanity_columns_id (roster_columns op_columns : list string)
    (row current_row r : Series) :
  cell_eqb (current_row "Employee ID") (row "Employee ID") = true ->
  fold_left
    (fun r column =>
       if mem_string column op_columns && negb (String.eqb column "Planning Unit Country")
       then
         if notna (current_row column) && cell_neb (row column) (current_row column)
         then set column (current_row column) r
         else r
       else r)
    roster_columns r "Employee ID"
  = r "Employee ID".
Proof.
  intros Hid. revert r.
  induction roster_columns as [|c columns IH]; intros r; simpl; [reflexivity |].
  rewrite IH.
  destruct (_ && _); [| reflexivity].
  destruct (notna (current_row c) && cell_neb (row c) (current_row c)) eqn:Hc; [| reflexivity].
  apply set_other. intros ->.
  apply andb_true_iff in Hc as [_ Hc]. unfold cell_neb in Hc.
  rewrite cell_eqb_sym, Hid in Hc. discriminate.
Qed.

Lemma sanity_row_id (roster_columns op_columns : list string)
    (current_df next_df : DataFrame) (r0 : Series) :
  sanity_row roster_columns op_columns current_df next_df r0 r0 "Employee ID"
  = r0 "Employee ID".
Proof.
  unfold sanity_row. cbv zeta.
  destruct (cell_eqb (r0 "Skip") (Str "Past")).
  { rewrite !set_other by discriminate. reflexivity. }
  destruct (isna _ || _); [reflexivity |].
  destruct (List.filter _ next_df) as [|next_row rest] eqn:Hnext; [reflexivity |].
  apply filter_head_holds in Hnext.
  destruct (cell_neb (next_row "Domain") (Str "Security")).
  - destruct (List.filter _ current_df) as [|current_row rest'] eqn:Hcur; [reflexivity |].
    apply filter_head_holds in Hcur.
    destruct (cell_neb (current_row "Domain") (Str "Security")); [reflexivity |].
    rewrite !set_other by discriminate. apply sanity_columns_id. exact Hcur.
  - rewrite !set_other by discriminate. apply sanity_columns_id. exact Hnext.
Qed.

Lemma sanity_checks_ms_rows (op_columns : list string)
    (current_df next_df op_ms_df : DataFrame) :
  rows_kept op_ms_df (sanity_checks_ms op_columns current_df next_df op_ms_df).
Proof.
  apply rows_kept_lookup. intros i r0 Hr0.
  rewrite sanity_checks_ms_alter, fold_iterrows_lookup, Hr0.
  eexists. split; [reflexivity |].
  unfold same_employee. rewrite sanity_row_id. apply key_eqb_refl.
Qed.

Lemma merge_data_ms_rows (op_ms_df : DataFrame) : rows_kept op_ms_df (merge_data_ms op_ms_df).
Proof.
  apply rows_kept_lookup. intros i r0 Hr0. unfold merge_data_ms, set_column.
  rewrite !list_lookup_fmap, Hr0. eexists. split; [reflexivity |].
  unfold same_employee. rewrite !set_other by discriminate. apply key_eqb_refl.
Qed.

Lemma identify_missing_employees_ms_rows (py_repr : cell -> string)
    (global_staff_df current_df next_df op_ms_df : DataFrame) :
  rows_kept op_ms_df
    (identify_missing_employees_ms py_repr global_staff_df current_df next_df op_ms_df).
Proof.
  unfold identify_missing_employees_ms. cbv zeta. rewrite add_new_entries_ms_app.
  apply rows_kept_lookup. intros i r0 Hr0. exists r0.
  split; [apply lookup_app_l_Some; exact Hr0 | apply key_eqb_refl].
Qed.

(** ** No pass deletes a row *)

(** C9.  No pass deletes a row of the plan.  For the FTE and for the MS
    sheet, each scenario detector, the pass that seeds the missing
    employees, the two lifecycle passes (fulfilled and skip), the sanity
    pass, the initialisation of the two columns and the function that
    appends the new entries return a frame that starts with as many rows as
    the plan they were given, the row at each label still a row of the same
    employee, followed by the appended rows.  A pass that stops returns no
    frame at all, and the cases are these: the skip pass when the file name
    gives no reporting period; a line-manager detector when a supervisor id
    of a roster is not a number; the MS detectors of new joiners, of
    transfers in and of conversions to MS when the strict policy returns no
    row for an employee they selected; the MS detector of location changes
    when both period labels parse. *)
Theorem no_pass_deletes_a_row (today : date) (py_repr : cell -> string)
    (int_parses : string -> bool) (to_datetime : cell -> option (date * Z))
    (static_file : string) (op_columns : list string)
    (global_staff_df current_df next_df op_df : DataFrame) (new_entries : list Series)
    (file_date : string * string) :
  (rows_kept op_df (identify_exits_fte current_df next_df op_df file_date)
   /\ rows_kept op_df (identify_new_joiners_fte today py_repr current_df next_df op_df file_date)
   /\ rows_kept op_df (identify_transfers_in_fte today py_repr current_df next_df op_df file_date)
   /\ rows_kept op_df (identify_transfers_out_fte current_df next_df op_df file_date)
   /\ rows_kept op_df (identify_grade_changes_fte today current_df next_df op_df file_date)
   /\ rows_kept op_df (identify_internal_mobility_fte today current_df next_df op_df file_date)
   /\ rows_kept op_df
        (indetify_conversions_within_fte today py_repr current_df next_df op_df file_date)
   /\ rows_kept op_df
        (identify_conversions_cwr_to_fte today py_repr current_df next_df op_df file_date)
   /\ rows_kept op_df (identify_conversions_fte_to_cwr current_df next_df op_df file_date)
   /\ match identify_line_manager_changes_fte py_repr int_parses current_df next_df
              op_df file_date with
      | Ok out => rows_kept op_df out
      | Raise => ~ (forall r, In r current_df \/ In r next_df ->
                              int_ok int_parses (r "Supervisor Employee ID") = true)
      end
   /\ rows_kept op_df (identify_location_changes_fte today current_df next_df op_df file_date)
   /\ rows_kept op_df (identify_missing_employees_fte py_repr current_df next_df op_df)
   /\ rows_kept op_df (check_and_mark_fulfilled_fte to_datetime current_df next_df op_df)
   /\ rows_kept op_df (check_and_mark_fulfilled_ms to_datetime current_df next_df op_df)
   /\ match initiate_skip_column_fte static_file op_df with
      | Ok out => rows_kept op_df out
      | Raise => forall fd, extract_date_from_filename static_file <> Ok (Some fd)
      end
   /\ match initiate_skip_column_ms static_file op_df with
      | Ok out => rows_kept op_df out
      | Raise => forall fd, extract_date_from_filename static_file <> Ok (Some fd)
      end
   /\ rows_kept op_df (sanity_checks_fte op_columns current_df next_df op_df)
   /\ rows_kept op_df (merge_data_fte op_df)
   /\ rows_kept op_df (add_new_entries_fte op_df new_entries)
   /\ rows_kept op_df (add_new_entries_ms op_df new_entries))
  /\ rows_kept op_df (identify_exits_ms current_df next_df op_df file_date)
  /\ match identify_new_joiners_ms today py_repr global_staff_df current_df next_df
             op_df file_date with
     | Ok out => rows_kept op_df out
     | Raise =>
         exists row, In row (new_joiners_ms global_staff_df current_df next_df)
                     /\ employee_filtering_condition_ms op_df (row "Employee ID") = []
     end
  /\ match identify_transfers_in_ms today py_repr global_staff_df current_df next_df
             op_df file_date with
     | Ok out => rows_kept op_df out
     | Raise =>
         exists row, In row (transfers_in_ms global_staff_df current_df next_df)
                     /\ employee_filtering_condition_ms op_df (row "Employee ID") = []
     end
  /\ rows_kept op_df (identify_transfers_out_ms current_df next_df op_df file_date)
  /\ match identify_conversions_fte_to_cwr_ms today py_repr global_staff_df
             current_df next_df op_df file_date with
     | Ok out => rows_kept op_df out
     | Raise =>
         exists row, In row (conversions_to_cwr_ms global_staff_df current_df next_df)
                     /\ employee_filtering_condition_ms op_df (row "Employee ID") = []
     end
  /\ rows_kept op_df
       (identify_conversions_cwr_to_fte_ms py_repr current_df next_df op_df file_date)
  /\ rows_kept op_df
       (identify_internal_mobility_ms today global_staff_df current_df next_df op_df file_date)
  /\ match identify_line_manager_changes_ms py_repr int_parses current_df next_df
             op_df file_date with
     | Ok out => rows_kept op_df out
     | Raise => ~ (forall r, In r current_df \/ In r next_df ->
                             int_ok int_parses (r "Supervisor Employee ID") = true)
     end
  /\ match identify_location_changes_ms today current_df next_df op_df file_date with
     | Ok out => rows_kept op_df out
     | Raise => relabel (fst file_date) <> None /\ relabel (snd file_date) <> None
     end
  /\ rows_kept op_df
       (identify_missing_employees_ms py_repr global_staff_df current_df next_df op_df)
  /\ rows_kept op_df (sanity_checks_ms op_columns current_df next_df op_df)
  /\ rows_kept op_df (merge_data_ms op_df).
Proof.
  assert (Hskip : match initiate_skip_column static_file op_df with
                  | Ok out => rows_kept op_df out
                  | Raise => forall fd, extract_date_from_filename static_file <> Ok (Some fd)
                  end).
  { destruct (initiate_skip_column static_file op_df) as [out|] eqn:Hout.
    - apply kept_rows_kept. eapply initiate_skip_column_Ok. exact Hout.
    - intros fd Hx.
      destruct (initiate_skip_column_kept static_file fd op_df Hx) as (out & H & _).
      congruence. }
  assert (Hnone : False -> only_missing NaN op_df) by (intros []).
  assert (Hnone' : False -> steady NaN current_df next_df) by (intros []).
  split.
  { repeat split.
    - eapply extends_rows_kept. apply (identify_exits_fte_extends False NaN).
    - eapply extends_rows_kept. apply (identify_new_joiners_fte_extends False NaN). exact Hnone'.
    - eapply extends_rows_kept. apply (identify_transfers_in_fte_extends False NaN). exact Hnone'.
    - eapply extends_rows_kept. apply (identify_transfers_out_fte_extends False NaN).
    - eapply extends_rows_kept. apply (identify_grade_changes_fte_extends False NaN). exact Hnone.
    - eapply extends_rows_kept. apply (identify_internal_mobility_fte_extends False NaN).
      exact Hnone.
    - eapply extends_rows_kept.
      apply (indetify_conversions_within_fte_extends False NaN); assumption.
    - eapply extends_rows_kept.
      apply (identify_conversions_cwr_to_fte_extends False NaN). exact Hnone'.
    - eapply extends_rows_kept. apply (identify_conversions_fte_to_cwr_extends False NaN).
    - pose proof (identify_line_manager_changes_fte_kept py_repr int_parses
                    current_df next_df op_df file_date) as Hk.
      destruct (identify_line_manager_changes_fte py_repr int_parses current_df next_df
                  op_df file_date) as [out|] eqn:Hout.
      + apply kept_rows_kept. exact Hk.
      + intros Hint.
        destruct (identify_line_manager_changes_fte_returns py_repr int_parses
                    current_df next_df op_df file_date Hint) as [out H].
        congruence.
    - eapply extends_rows_kept. apply (identify_location_changes_fte_extends False NaN).
      exact Hnone.
    - apply identify_missing_employees_fte_rows.
    - apply kept_rows_kept, check_and_mark_fulfilled_kept.
    - apply kept_rows_kept, check_and_mark_fulfilled_kept.
    - exact Hskip.
    - exact Hskip.
    - apply kept_rows_kept, sanity_checks_fte_kept.
    - apply kept_rows_kept, merge_data_fte_kept.
    - rewrite add_new_entries_fte_app.
      apply Forall2_kept_rows_kept, Forall2_refl_on, kept_row_refl.
    - rewrite add_new_entries_ms_app.
      apply Forall2_kept_rows_kept, Forall2_refl_on, kept_row_refl. }
  destruct file_date as [e s].
  split.
  { apply (changes_only_rows_kept ["End Date"; "Role Status"; "Modified"]);
      [reflexivity | apply identify_exits_ms_frame]. }
  split.
  { destruct (relabel s) as [label|] eqn:Hl.
    - pose proof (identify_new_joiners_ms_outcome today py_repr global_staff_df
                    current_df next_df op_df e s label Hl) as H.
      destruct (identify_new_joiners_ms today py_repr global_staff_df current_df next_df
                  op_df (e, s)) as [out|]; [| exact H].
      destruct H as (_ & _ & H).
      apply (changes_only_rows_kept ["Role Status"; "Modified"]); [reflexivity | exact H].
    - unfold identify_new_joiners_ms. rewrite Hl. apply rows_kept_refl. }
  split.
  { destruct (relabel s) as [label|] eqn:Hl.
    - pose proof (identify_transfers_in_ms_outcome today py_repr global_staff_df
                    current_df next_df op_df e s label Hl) as H.
      destruct (identify_transfers_in_ms today py_repr global_staff_df current_df next_df
                  op_df (e, s)) as [out|]; [| exact H].
      destruct H as (_ & _ & H).
      apply (changes_only_rows_kept ["Role Status"; "Modified"]); [reflexivity | exact H].
    - unfold identify_transfers_in_ms. rewrite Hl. apply rows_kept_refl. }
  split.
  { apply (changes_only_rows_kept ["End Date"; "Role Status"; "Modified"]);
      [reflexivity | apply identify_transfers_out_ms_frame]. }
  split.
  { destruct (relabel s) as [label|] eqn:Hl.
    - pose proof (identify_conversions_fte_to_cwr_ms_outcome today py_repr global_staff_df
                    current_df next_df op_df e s label Hl) as H.
      destruct (identify_conversions_fte_to_cwr_ms today py_repr global_staff_df
                  current_df next_df op_df (e, s)) as [out|]; [| exact H].
      destruct H as (_ & ->). apply rows_kept_refl.
    - unfold identify_conversions_fte_to_cwr_ms. rewrite Hl. apply rows_kept_refl. }
  split; [apply identify_conversions_cwr_to_fte_ms_rows |].
  split.
  { apply (changes_only_rows_kept ["Tech Area"; "End Date"; "Role Status"; "Modified"]);
      [reflexivity | apply identify_internal_mobility_ms_frame]. }
  split.
  { pose proof (identify_line_manager_changes_ms_frame py_repr int_parses
                  current_df next_df op_df (e, s)) as Hk.
    destruct (identify_line_manager_changes_ms py_repr int_parses current_df next_df
                op_df (e, s)) as [out|] eqn:Hout.
    - destruct Hk as [_ Hk].
      apply (changes_only_rows_kept ["Modified"; "Line Manager"]); [reflexivity | exact Hk].
    - intros Hint.
      destruct (identify_line_manager_changes_ms_returns py_repr int_parses
                  current_df next_df op_df (e, s) Hint) as [out H].
      congruence. }
  split.
  { rewrite identify_location_changes_ms_outcome. simpl fst. simpl snd.
    destruct (relabel e); [| apply rows_kept_refl].
    destruct (relabel s); [| apply rows_kept_refl].
    split; discriminate. }
  split; [apply identify_missing_employees_ms_rows |].
  split; [apply sanity_checks_ms_rows | apply merge_data_ms_rows].
Qed.

(** ** The End Date of the rows a detector appends *)

Lemma new_rows_end_refl (v : cell) (op : DataFrame) : new_rows_end v op op.
Proof. intros i r Hi Hr. apply lookup_lt_Some in Hr. lia. Qed.

Lemma new_rows_end_app (v : cell) (op0 op : DataFrame) (new_entries : list Series) :
  length op = length op0 ->
  Forall (fun e => e "End Date" = v) new_entries ->
  new_rows_end v op0 (op ++ new_entries).
Proof.
  intros Hl HF i r Hi Hr.
  rewrite lookup_app_r in Hr by lia.
  rewrite Forall_lookup in HF. exact (HF _ _ Hr).
Qed.

(** The state of a detector's loop: the plan has kept its length and
    every new entry ends on [v]. *)
Lemma for_rows_entries (v : cell) (op0 : DataFrame) (R : Type) (selected : list R)
    (body : R -> loop_state -> loop_state) (st : loop_state) :
  (length (fst st) = length op0 /\ Forall (fun e => e "End Date" = v) (snd st)) ->
  (forall row st,
      length (fst st) = length op0 /\ Forall (fun e => e "End Date" = v) (snd st) ->
      length (fst (body row st)) = length op0
      /\ Forall (fun e => e "End Date" = v) (snd (body row st))) ->
  length (fst (for_rows selected body st)) = length op0
  /\ Forall (fun e => e "End Date" = v) (snd (for_rows selected body st)).
Proof.
  intros Hst Hbody. unfold for_rows.
  apply (fold_left_invariant
           (fun st => length (fst st) = length op0
                      /\ Forall (fun e => e "End Date" = v) (snd st))); [exact Hst |].
  intros st' row _ H. apply Hbody. exact H.
Qed.

Lemma for_indices_entries (v : cell) (op0 : DataFrame) (idxs : list nat)
    (body : nat -> loop_state -> loop_state) (st : loop_state) :
  (length (fst st) = length op0 /\ Forall (fun e => e "End Date" = v) (snd st)) ->
  (forall i st,
      length (fst st) = length op0 /\ Forall (fun e => e "End Date" = v) (snd st) ->
      length (fst (body i st)) = length op0
      /\ Forall (fun e => e "End Date" = v) (snd (body i st))) ->
  length (fst (for_indices idxs body st)) = length op0
  /\ Forall (fun e => e "End Date" = v) (snd (for_indices idxs body st)).
Proof.
  intros Hst Hbody. unfold for_indices.
  apply (fold_left_invariant
           (fun st => length (fst st) = length op0
                      /\ Forall (fun e => e "End Date" = v) (snd st))); [exact Hst |].
  intros st' i _ H. apply Hbody. exact H.
Qed.

(** The end of a round of a loop: writes to rows of the plan and, at
    most, one new entry that ends on [v]. *)
Ltac entries_leaf Hl HF :=
  split;
  [ simpl; rewrite ?length_at_set; exact Hl
  | simpl; first [ exact HF
                 | apply Forall_app; split;
                   [exact HF | constructor; [reflexivity | constructor]] ] ].

(** A detector: the labels it reads, the loop over the employees it
    selects, the loop over the rows of an employee. *)
Ltac entries_detector v op0 :=
  repeat match goal with
         | |- context [let '(_, _) := ?fd in _] => is_var fd; destruct fd
         | |- context [match relabel ?s with _ => _ end] =>
             destruct (relabel s); [| apply new_rows_end_refl]
         end;
  cbv zeta;
  match goal with
  | |- context [for_rows ?l ?b ?st] =>
      let Hinv := fresh "Hinv" in
      let op' := fresh "op'" in
      let ne' := fresh "ne'" in
      assert (Hinv : length (fst (for_rows l b st)) = length op0
                     /\ Forall (fun e => e "End Date" = v)
                          (snd (for_rows l b st)));
      [| destruct (for_rows l b st) as [op' ne']; destruct Hinv;
         first [rewrite add_new_entries_fte_app | rewrite add_new_entries_ms_app];
         apply new_rows_end_app; assumption]
  end;
  apply for_rows_entries; [split; [reflexivity | constructor] |];
  let Hl := fresh "Hl" in
  let HF := fresh "HF" in
  intros ? [? ?] [Hl HF]; cbv beta iota zeta; simpl in Hl, HF;
  repeat match goal with
         | |- context [if negb (is_empty ?l) then _ else _] =>
             destruct (negb (is_empty l))
         end;
  try (entries_leaf Hl HF);
  try (apply for_indices_entries; [split; assumption |];
       let Hl1 := fresh "Hl" in
       let HF1 := fresh "HF" in
       intros ? [? ?] [Hl1 HF1]; cbv beta iota zeta; simpl in Hl1, HF1;
       repeat match goal with
              | |- context [if ?c then _ else _] => destruct c
              end;
       entries_leaf Hl1 HF1).

Lemma identify_new_joiners_fte_entries (today : date) (py_repr : cell -> string)
    (current_df next_df op_fte_df : DataFrame) (file_date : string * string) :
  new_rows_end (Str (eofy_label today)) op_fte_df
    (identify_new_joiners_fte today py_repr current_df next_df op_fte_df file_date).
Proof. unfold identify_new_joiners_fte. entries_detector (Str (eofy_label today)) op_fte_df. Qed.

Lemma identify_transfers_in_fte_entries (today : date) (py_repr : cell -> string)
    (current_df next_df op_fte_df : DataFrame) (file_date : string * string) :
  new_rows_end (Str (eofy_label today)) op_fte_df
    (identify_transfers_in_fte today py_repr current_df next_df op_fte_df file_date).
Proof. unfold identify_transfers_in_fte. entries_detector (Str (eofy_label today)) op_fte_df. Qed.

Lemma identify_grade_changes_fte_entries (today : date)
    (current_df next_df op_fte_df : DataFrame) (file_date : string * string) :
  new_rows_end (Str (eofy_label today)) op_fte_df
    (identify_grade_changes_fte today current_df next_df op_fte_df file_date).
Proof. unfold identify_grade_changes_fte. entries_detector (Str (eofy_label today)) op_fte_df. Qed.

Lemma indetify_conversions_within_fte_entries (today : date) (py_repr : cell -> string)
    (current_df next_df op_fte_df : DataFrame) (file_date : string * string) :
  new_rows_end (Str (eofy_label today)) op_fte_df
    (indetify_conversions_within_fte today py_repr current_df next_df op_fte_df file_date).
Proof. unfold indetify_conversions_within_fte. entries_detector (Str (eofy_label today)) op_fte_df. Qed.

Lemma identify_conversions_cwr_to_fte_entries (today : date) (py_repr : cell -> string)
    (current_df next_df op_fte_df : DataFrame) (file_date : string * string) :
  new_rows_end (Str (eofy_label today)) op_fte_df
    (identify_conversions_cwr_to_fte today py_repr current_df next_df op_fte_df file_date).
Proof. unfold identify_conversions_cwr_to_fte. entries_detector (Str (eofy_label today)) op_fte_df. Qed.

Lemma identify_location_changes_fte_entries (today : date)
    (current_df next_df op_fte_df : DataFrame) (file_date : string * string) :
  new_rows_end (Str (eofy_label today)) op_fte_df
    (identify_location_changes_fte today current_df next_df op_fte_df file_date).
Proof. unfold identify_location_changes_fte. entries_detector (Str (eofy_label today)) op_fte_df. Qed.

(** The same for the detectors whose inner loop can be left early. *)
Ltac entries_mobility v op0 :=
  repeat match goal with
         | |- context [let '(_, _) := ?fd in _] => is_var fd; destruct fd
         | |- context [match relabel ?s with _ => _ end] =>
             destruct (relabel s); [| apply new_rows_end_refl]
         end;
  cbv zeta;
  match goal with
  | |- context [for_rows ?l ?b ?st] =>
      let Hinv := fresh "Hinv" in
      let op' := fresh "op'" in
      let ne' := fresh "ne'" in
      assert (Hinv : length (fst (for_rows l b st)) = length op0
                     /\ Forall (fun e => e "End Date" = v) (snd (for_rows l b st)));
      [| destruct (for_rows l b st) as [op' ne']; destruct Hinv;
         first [rewrite add_new_entries_fte_app | rewrite add_new_entries_ms_app];
         apply new_rows_end_app; assumption]
  end;
  apply for_rows_entries; [split; [reflexivity | constructor] |];
  let Hl := fresh "Hl" in
  let HF := fresh "HF" in
  intros ? [? ?] [Hl HF]; cbv beta iota zeta; simpl in Hl, HF;
  match goal with
  | |- context [if negb (is_empty ?l) then _ else _] => destruct (negb (is_empty l))
  end;
  [| entries_leaf Hl HF];
  match goal with
  | |- context [fold_left ?f ?l ?a] => destruct (fold_left f l a) as [[] ?]
  end;
  entries_leaf Hl HF.

Lemma identify_internal_mobility_fte_entries (today : date)
    (current_df next_df op_fte_df : DataFrame) (file_date : string * string) :
  new_rows_end (Str (eofy_label today)) op_fte_df
    (identify_internal_mobility_fte today current_df next_df op_fte_df file_date).
Proof.
  unfold identify_internal_mobility_fte.
  entries_mobility (Str (eofy_label today)) op_fte_df.
Qed.

Lemma identify_internal_mobility_ms_entries (today : date) (global_staff_df : DataFrame)
    (current_df next_df op_ms_df : DataFrame) (file_date : string * string) :
  new_rows_end (Str (eofy_label today)) op_ms_df
    (identify_internal_mobility_ms today global_staff_df current_df next_df op_ms_df file_date).
Proof.
  unfold identify_internal_mobility_ms.
  entries_mobility (Str (eofy_label today)) op_ms_df.
Qed.

(** C10.  The financial-year end is the first of September: [get_eofy]
    returns 1 September of the year of the run when the run is in a month
    up to and including September, and 1 September of the next year
    otherwise.  Every row that a detector appends to the plan of the FTE
    sheet (new joiners, transfers in, grade changes, internal mobility,
    conversions within FTE, conversions to FTE, location changes), and
    every row that the mobility detector of the MS sheet appends, has the
    '%b-%y' label of that date as End Date, whatever the rosters, the plan
    and the reporting period [file_date] are.  A new joiner gets "Sep-24"
    on a run of 15 July 2024, for the period from May to June 2024 and for
    the period from October to November 2024 alike, and "Sep-25" on a run
    of 2 October 2024. *)
Theorem eofy_anchor_of_new_rows (today : date) (py_repr : cell -> string)
    (global_staff_df : DataFrame) :
  let anchor := mk_date (if month today <=? 9 then year today else year today + 1) 9 1 in
  get_eofy today = anchor
  /\ (forall (current_df next_df op_fte_df : DataFrame) (file_date : string * string),
        new_rows_end (Str (strftime_b_y anchor)) op_fte_df
          (identify_new_joiners_fte today py_repr current_df next_df op_fte_df file_date)
        /\ new_rows_end (Str (strftime_b_y anchor)) op_fte_df
             (identify_transfers_in_fte today py_repr current_df next_df op_fte_df file_date)
        /\ new_rows_end (Str (strftime_b_y anchor)) op_fte_df
             (identify_grade_changes_fte today current_df next_df op_fte_df file_date)
        /\ new_rows_end (Str (strftime_b_y anchor)) op_fte_df
             (identify_internal_mobility_fte today current_df next_df op_fte_df file_date)
        /\ new_rows_end (Str (strftime_b_y anchor)) op_fte_df
             (indetify_conversions_within_fte today py_repr current_df next_df op_fte_df file_date)
        /\ new_rows_end (Str (strftime_b_y anchor)) op_fte_df
             (identify_conversions_cwr_to_fte today py_repr current_df next_df op_fte_df file_date)
        /\ new_rows_end (Str (strftime_b_y anchor)) op_fte_df
             (identify_location_changes_fte today current_df next_df op_fte_df file_date))
  /\ (forall (current_df next_df op_ms_df : DataFrame) (file_date : string * string),
        new_rows_end (Str (strftime_b_y anchor)) op_ms_df
          (identify_internal_mobility_ms today global_staff_df current_df next_df op_ms_df
             file_date))
  /\ (fun r => r "End Date")
       <$> identify_new_joiners_fte (mk_date 2024 7 15) Fixture.py_repr
             [] [Fixture.e1001_next] [] ("May-24", "Jun-24")
     = [Str "Sep-24"]
  /\ (fun r => r "End Date")
       <$> identify_new_joiners_fte (mk_date 2024 7 15) Fixture.py_repr
             [] [Fixture.e1001_next] [] ("Oct-24", "Nov-24")
     = [Str "Sep-24"]
  /\ (fun r => r "End Date")
       <$> identify_new_joiners_fte (mk_date 2024 10 2) Fixture.py_repr
             [] [Fixture.e1001_next] [] ("May-24", "Jun-24")
     = [Str "Sep-25"].
Proof.
  cbv zeta.
  rewrite <- get_eofy_september. fold (eofy_label today).
  split; [reflexivity |].
  split.
  { intros current_df next_df op_fte_df file_date.
    split; [apply identify_new_joiners_fte_entries |].
    split; [apply identify_transfers_in_fte_entries |].
    split; [apply identify_grade_changes_fte_entries |].
    split; [apply identify_internal_mobility_fte_entries |].
    split; [apply indetify_conversions_within_fte_entries |].
    split; [apply identify_conversions_cwr_to_fte_entries |].
    apply identify_location_changes_fte_entries. }
  split; [intros; apply identify_internal_mobility_ms_entries |].
  repeat split; vm_compute; reflexivity.
Qed.

(** ** The End Date that the exit detectors write *)

(** C1, at the failing input.  The exit detector of the FTE sheet closes
    a matched row with a date, not with the period-end label.  Employee
    1001 is a Security/FTE row of the current roster and is nowhere in the
    next roster; the relaxed policy matches row 1 of the plan; the
    period-end label is "May-24".  After the detector the row has "Exit" as Role Status, and
    its End Date is the date 2024-05-01 that [strptime] read from the
    label, which no label equals.  The two siblings format the date back
    with [strftime('%b-%y')]: on the same plan the detector of transfers
    out of the FTE sheet and the exit detector of the MS sheet write the
    label "May-24". *)
Theorem exits_fte_store_a_date :
  In (Fixture.emp 1001) (employee_ids (employee_security_fte [Fixture.e1001_current]))
  /\ isin (Fixture.emp 1001) (employee_ids []) = false
  /\ shorten_filtering_condition_fte Fixture.fte_plan (Fixture.emp 1001) = [1%nat]
  /\ (fun r => (r "Role Status", r "End Date"))
       <$> identify_exits_fte [Fixture.e1001_current] [] Fixture.fte_plan Fixture.file_date !! 1%nat
     = Some (Str "Exit", Date (mk_date 2024 5 1))
  /\ Date (mk_date 2024 5 1) <> Str (fst Fixture.file_date)
  /\ (fun r => (r "Role Status", r "End Date"))
       <$> identify_transfers_out_fte [Fixture.e1001_current] [Fixture.e1001_moved]
             Fixture.fte_plan Fixture.file_date !! 1%nat
     = Some (Str "Transfer Out", Str "May-24")
  /\ (fun r => (r "Role Status", r "End Date"))
       <$> identify_exits_ms [Fixture.e1001_contractor] [] Fixture.fte_plan Fixture.file_date
             !! 1%nat
     = Some (Str "Exit", Str "May-24").
Proof.
  split; [vm_compute; left; reflexivity |].
  repeat split; try (vm_compute; reflexivity).
  discriminate.
Qed.

(** ** A second run of the guarded detectors *)

(** C3, at the failing input.  A second run of the mobility detector
    adds a second row for the new tech area.  Employee 1001 moves from
    "Cloud Platform" to "Network Defence"; the plan has one row for the
    employee.  The first run closes
    that row and appends a row whose Tech Area is the formatted name
    "Security_Network_Defence" and whose End Date is the financial-year
    end: the plan now holds the row a second run would add.  The check of
    the detector looks for the tech area as the roster writes it, "Network
    Defence", finds nothing, and the second run appends the row again: the
    plan has three rows for the employee.  The grade-change detector stores
    the grade it checks for, and its second run returns the plan of the
    first.  The detector of conversions to FTE consults its check only for
    rows that the strict policy returns, and both branches of the check do
    the same: with the row of the employee in the plan (new resource type,
    financial-year end) tagged fulfilled, it appends a second row. *)
Theorem mobility_second_run_duplicates :
  let mobility := identify_internal_mobility_fte Fixture.today
                    [Fixture.e1001_platform] [Fixture.e1001_network] in
  let first_run := mobility Fixture.mobility_plan Fixture.file_date in
  let second_run := mobility first_run Fixture.file_date in
  let grade := identify_grade_changes_fte Fixture.today
                 [Fixture.e1001_current] [Fixture.e1001_next] in
  let first_grade := grade Fixture.grade_plan Fixture.file_date in
  let conversion := identify_conversions_cwr_to_fte Fixture.today Fixture.py_repr
                      [Fixture.e1001_contractor] [Fixture.e1001_next] in
  (count_for (Fixture.emp 1001) Fixture.mobility_plan = 1%nat
   /\ count_for (Fixture.emp 1001) first_run = 2%nat
   /\ (fun r => (r "Employee ID", r "Tech Area", r "End Date", r "Role Status"))
        <$> first_run !! 1%nat
      = Some (Fixture.emp 1001, format_tech_area (Fixture.e1001_network "Tech Area"),
              Str (eofy_label Fixture.today), Str "Internal Mobility")
   /\ existing_entries first_run (Fixture.emp 1001) "Tech Area"
        (format_tech_area (Fixture.e1001_network "Tech Area")) (eofy_label Fixture.today) <> []
   /\ existing_entries first_run (Fixture.emp 1001) "Tech Area"
        (Fixture.e1001_network "Tech Area") (eofy_label Fixture.today) = []
   /\ count_for (Fixture.emp 1001) second_run = 3%nat
   /\ (fun r => (r "Employee ID", r "Tech Area", r "End Date", r "Role Status"))
        <$> second_run !! 2%nat
      = Some (Fixture.emp 1001, format_tech_area (Fixture.e1001_network "Tech Area"),
              Str (eofy_label Fixture.today), Str "Internal Mobility"))
  /\ (count_for (Fixture.emp 1001) Fixture.grade_plan = 1%nat
      /\ count_for (Fixture.emp 1001) first_grade = 2%nat
      /\ existing_entries first_grade (Fixture.emp 1001) "Job Grade"
           (Fixture.e1001_next "Job Grade") (eofy_label Fixture.today) <> []
      /\ count_for (Fixture.emp 1001) (grade first_grade Fixture.file_date) = 2%nat)
  /\ (count_for (Fixture.emp 1001) Fixture.fulfilled_plan = 1%nat
      /\ existing_entries Fixture.fulfilled_plan (Fixture.emp 1001) "Resource Type"
           (Fixture.e1001_next "Resource Type") (eofy_label Fixture.today) <> []
      /\ count_for (Fixture.emp 1001) (conversion Fixture.fulfilled_plan Fixture.file_date)
         = 2%nat).
Proof.
  cbv zeta.
  repeat split; try (vm_compute; reflexivity); vm_compute; discriminate.
Qed.

(** ** The two policies of a sheet *)

(** C7, at the failing input.  On the MS sheet the relaxed policy is not
    wider than the strict one.  The plan has one row for employee 1001, a
    stretch role: the strict policy of the MS sheet returns it, the
    relaxed policy returns nothing.  On the FTE sheet the pair is nested: every row the strict
    policy returns is returned by the relaxed policy. *)
Theorem relaxed_ms_not_wider :
  employee_filtering_condition_ms Fixture.ms_stretch_plan (Fixture.emp 1001) = [0%nat]
  /\ shorten_filtering_condition_ms Fixture.ms_stretch_plan (Fixture.emp 1001) = []
  /\ (forall (df : DataFrame) (employee_id : cell) (i : nat),
        In i (employee_filtering_condition_fte df employee_id) ->
        In i (shorten_filtering_condition_fte df employee_id)).
Proof.
  split; [vm_compute; reflexivity |].
  split; [vm_compute; reflexivity |].
  intros df employee_id i Hin.
  apply index_where_spec in Hin as (r & Hr & Hp).
  apply index_where_spec. exists r. split; [exact Hr |].
  apply strict_mask_fte_relaxed. exact Hp.
Qed.
